(** * CPCC_UI: the nine-step comic page pipeline of [new_module.py]

    A shallow embedding of the natural sort key, the numbering of
    steps 2/3/7, the confirmation protocol, the operation journal with
    its rollback, and the nine pipeline steps over a directory tree,
    followed by the properties stated about them. *)

From Stdlib Require Import ZArith Lia Bool Ascii String List.
From stdpp Require Import base tactics option list strings gmap sorting.

Set Warnings "-register-all".

Local Open Scope string_scope.
Local Open Scope list_scope.
Local Open Scope Z_scope.

(** ** Characters and names

    Python names are Unicode strings.  A name is modelled as a [string]
    whose characters are the code points 0..255 (Latin-1), which is
    enough to tell apart the three character classes the code relies on:
    - [\d] of the [re] module (decimal digits: only '0'..'9' below 256);
    - [str.isdigit], which also accepts the superscripts U+00B2, U+00B3
      and U+00B9, on which [int()] raises [ValueError];
    - the letters changed by [str.lower]. *)

Module Chars.

Definition code (c : ascii) : N := N_of_ascii c.

(** [\d] *)
Definition is_decimal (c : ascii) : bool :=
  ((48 <=? code c) && (code c <=? 57))%N.

(** the characters for which [str.isdigit] holds *)
Definition is_digit_char (c : ascii) : bool :=
  is_decimal c || (code c =? 178)%N || (code c =? 179)%N || (code c =? 185)%N.

(** [str.lower] on one character *)
Definition lower_char (c : ascii) : ascii :=
  if (((65 <=? code c) && (code c <=? 90))
      || ((192 <=? code c) && (code c <=? 222) && negb (code c =? 215)))%N
  then ascii_of_N (code c + 32)
  else c.

Fixpoint lower (s : string) : string :=
  match s with
  | EmptyString => EmptyString
  | String c r => String (lower_char c) (lower r)
  end.

Fixpoint all_chars (p : ascii -> bool) (s : string) : bool :=
  match s with
  | EmptyString => true
  | String c r => p c && all_chars p r
  end.

(** [text.isdigit()]: non-empty and made of digit characters *)
Definition isdigit (s : string) : bool :=
  match s with
  | EmptyString => false
  | _ => all_chars is_digit_char s
  end.

Definition digit_value (c : ascii) : Z := Z.of_N (code c) - 48.

(** [int(text)] for a text on which [isdigit] holds: the value read in
    base ten, or [None] where Python raises [ValueError]. *)
Fixpoint int_acc (acc : Z) (s : string) : option Z :=
  match s with
  | EmptyString => Some acc
  | String c r =>
      if is_decimal c then int_acc (10 * acc + digit_value c) r else None
  end.

Definition int_of (s : string) : option Z :=
  match s with
  | EmptyString => None
  | _ => int_acc 0 s
  end.

End Chars.

(** ** [natural_sort_key] *)

Module NaturalSort.
Import Chars.

(** An element of a key: Python's [str] or [int]. *)
Inductive kelem : Type :=
| KStr (s : string)
| KInt (z : Z).

Definition key : Type := list kelem.

Definition cons_head (c : ascii) (l : list string) : list string :=
  match l with
  | [] => [String c EmptyString]
  | h :: t => String c h :: t
  end.

(** [re.split(r'(\d+)', s)]: the head of the result is the run being
    read; [in_digits] tells whether that run is a digit run. *)
Fixpoint re_split_from (in_digits : bool) (s : string) : list string :=
  match s with
  | EmptyString => if in_digits then [EmptyString; EmptyString] else [EmptyString]
  | String c r =>
      if is_decimal c then
        if in_digits then cons_head c (re_split_from true r)
        else EmptyString :: cons_head c (re_split_from true r)
      else
        if in_digits then EmptyString :: cons_head c (re_split_from false r)
        else cons_head c (re_split_from false r)
  end.

Definition re_split (s : string) : list string := re_split_from false s.

(** [int(text) if text.isdigit() else text.lower()]; [None] stands for
    the exception raised by [int]. *)
Definition convert_piece (text : string) : option kelem :=
  if isdigit text then KInt <$> int_of text else Some (KStr (lower text)).

(** The body of the [try]. *)
Definition natural_sort_key_try (name : string) : option key :=
  mapM convert_piece (re_split name).

(** [natural_sort_key]: the [except Exception] branch returns the
    one-element key. *)
Definition natural_sort_key (name : string) : key :=
  match natural_sort_key_try name with
  | Some k => k
  | None => [KStr (lower name)]
  end.

(** Python's [<] on two elements; [None] is the [TypeError] of comparing
    an [int] with a [str]. *)
Definition kelem_lt (a b : kelem) : option bool :=
  match a, b with
  | KStr s, KStr t => Some (String.ltb s t)
  | KInt x, KInt y => Some (x <? y)
  | _, _ => None
  end.

(** Python's [==] on two elements (never raises). *)
Definition kelem_eqb (a b : kelem) : bool :=
  match a, b with
  | KStr s, KStr t => String.eqb s t
  | KInt x, KInt y => x =? y
  | _, _ => false
  end.

(** Python's [<] on lists: the first position where the elements differ
    decides; otherwise the shorter list is the smaller. *)
Fixpoint key_lt (k1 k2 : key) : option bool :=
  match k1, k2 with
  | [], [] => Some false
  | [], _ :: _ => Some true
  | _ :: _, [] => Some false
  | a :: r1, b :: r2 =>
      if kelem_eqb a b then key_lt r1 r2 else kelem_lt a b
  end.

(** [sorted(l, key=f)]: a stable sort that only uses [<] on the keys.
    [x] is put before the first element that is not smaller than it. *)
Section Sorted.
Context {A : Type} (f : A -> key).

Fixpoint insert_by (x : A) (l : list A) : option (list A) :=
  match l with
  | [] => Some [x]
  | y :: r =>
      b ← key_lt (f y) (f x);
      if (b : bool) then (y ::.) <$> insert_by x r else Some (x :: y :: r)
  end.

Fixpoint sorted_by (l : list A) : option (list A) :=
  match l with
  | [] => Some []
  | x :: r => sorted_by r ≫= insert_by x
  end.
End Sorted.

(** [sorted(names, key=natural_sort_key)] *)
Definition natural_sorted (names : list string) : option (list string) :=
  sorted_by natural_sort_key names.

End NaturalSort.

Import Chars NaturalSort.

(** ** Number formatting: [f"{n:04d}"] *)

Module Fmt.

Definition digit_char (d : Z) : ascii := ascii_of_N (Z.to_N (48 + d)).

(** The decimal digits of a non-negative number, most significant first;
    [fuel] bounds the number of digits. *)
Fixpoint dec_digits (fuel : nat) (n : Z) (acc : string) : string :=
  match fuel with
  | O => acc
  | S f =>
      let acc' := String (digit_char (n mod 10)) acc in
      if n / 10 =? 0 then acc' else dec_digits f (n / 10) acc'
  end.

Definition dec (n : Z) : string :=
  dec_digits (S (Z.to_nat (Z.log2 n))) n EmptyString.

Fixpoint zeros (k : nat) : string :=
  match k with
  | O => EmptyString
  | S k' => String "0" (zeros k')
  end.

(** [s.zfill(w)] for a string of digits *)
Definition zfill (w : nat) (s : string) : string :=
  zeros (w - String.length s) +:+ s.

(** [f"{n:04d}"]: zero padding to width four, the sign counted in the
    width. *)
Definition fmt04 (n : Z) : string :=
  if n <? 0 then String "-" (zfill 3 (dec (- n))) else zfill 4 (dec n).

(** Reading a formatted number back (used only to show that [fmt04] is
    injective). *)
Definition unfmt (s : string) : option Z :=
  match s with
  | String "-" r => Z.opp <$> int_acc 0 r
  | _ => int_acc 0 s
  end.

End Fmt.

Import Fmt.

(** ** The numbering of steps 2 and 3 *)

Module Numbering.

(** [while f"{new_num:04d}" in used_numbers: new_num += 1].  The loop
    stops after at most [size used_numbers] increments; [fuel] is that
    bound plus one. *)
Fixpoint next_free_fuel (fuel : nat) (used_numbers : gset string) (new_num : Z) : Z :=
  match fuel with
  | O => new_num
  | S f =>
      if decide (fmt04 new_num ∈ used_numbers)
      then next_free_fuel f used_numbers (new_num + 1)
      else new_num
  end.

Definition next_free (used_numbers : gset string) (new_num : Z) : Z :=
  next_free_fuel (S (size used_numbers)) used_numbers new_num.

End Numbering.

Import Numbering.

(** ** Configuration ([DEFAULT_CONFIG], [ConfigManager.config]) *)

Module Config.

Record config : Type := {
  image_exts : list string;
  skip_dirs : list string;
  start_num : Z;
  compress_level : Z;
  backup_enabled : bool;
  interactive_mode : bool;
  skip_step_confirmations : bool;
  dry_run : bool;
  max_files_per_dir : Z
}.

Definition DEFAULT_CONFIG : config := {|
  image_exts := [".jpg"; ".jpeg"; ".png"; ".webp"; ".gif"; ".bmp"; ".tiff"];
  skip_dirs := ["$RECYCLE.BIN"; "System Volume Information"; ".DS_Store"];
  start_num := 0;
  compress_level := 8;
  backup_enabled := false;
  interactive_mode := true;
  skip_step_confirmations := false;
  dry_run := false;
  max_files_per_dir := 1000
|}.

(** [config["skip_step_confirmations"] = v] *)
Definition set_skip_step_confirmations (v : bool) (c : config) : config := {|
  image_exts := image_exts c;
  skip_dirs := skip_dirs c;
  start_num := start_num c;
  compress_level := compress_level c;
  backup_enabled := backup_enabled c;
  interactive_mode := interactive_mode c;
  skip_step_confirmations := v;
  dry_run := dry_run c;
  max_files_per_dir := max_files_per_dir c
|}.

End Config.

Import Config.

(** ** Paths and the directory tree

    A path is the list of its components below the working directory
    (the root is the empty list).  A directory keeps its entries in the
    order in which [iterdir] yields them.  Names are case-sensitive, and
    [rename] onto an existing file replaces it (POSIX). *)

Module FS.

Definition path : Type := list string.

Inductive content : Type :=
| Raw (data : string)
| Picture (animated : bool) (mode : string) (pixels : string)
| Archive (members : list (string * content))
| Json (c : config).

Inductive node : Type :=
| File (c : content)
| Dir (entries : list (string * node)).

Inductive exn : Type :=
| FileNotFoundError
| FileExistsError
| IsADirectoryError
| NotADirectoryError
| DirectoryNotEmptyError
| InvalidArgumentError
| ShutilError
| UnidentifiedImageError
| BadZipFile
| EOFError
| TypeError
| PermissionError
| InjectedOSError
| ZipCheckFailed.

Inductive res (A : Type) : Type :=
| Ok (a : A)
| Raise (e : exn).
Arguments Ok {A} a.
Arguments Raise {A} e.

Fixpoint assoc {A : Type} (x : string) (es : list (string * A)) : option A :=
  match es with
  | [] => None
  | (y, a) :: r => if bool_decide (x = y) then Some a else assoc x r
  end.

Definition remove_entry {A : Type} (x : string) (es : list (string * A)) : list (string * A) :=
  List.filter (fun e => negb (bool_decide (e.1 = x))) es.

(** Replace the entry [x] where it stands, or add it at the end. *)
Fixpoint set_entry {A : Type} (x : string) (a : A) (es : list (string * A)) : list (string * A) :=
  match es with
  | [] => [(x, a)]
  | (y, b) :: r => if bool_decide (x = y) then (y, a) :: r else (y, b) :: set_entry x a r
  end.

Fixpoint lookup (p : path) (n : node) : option node :=
  match p with
  | [] => Some n
  | x :: q =>
      match n with
      | Dir es => assoc x es ≫= lookup q
      | File _ => None
      end
  end.

(** Apply [f] to the entries of the directory at [p]. *)
Fixpoint update_dir (p : path) (f : list (string * node) -> list (string * node))
    (n : node) : option node :=
  match n with
  | File _ => None
  | Dir es =>
      match p with
      | [] => Some (Dir (f es))
      | x :: q =>
          c ← assoc x es;
          c' ← update_dir q f c;
          Some (Dir (set_entry x c' es))
      end
  end.

Fixpoint split_last (p : path) : option (path * string) :=
  match p with
  | [] => None
  | [x] => Some ([], x)
  | x :: q => (fun '(d, y) => (x :: d, y)) <$> split_last q
  end.

Definition parent (p : path) : path :=
  match split_last p with Some (d, _) => d | None => [] end.

(** [Path.name] *)
Definition name (p : path) : string :=
  match split_last p with Some (_, x) => x | None => "" end.

Definition exists_ (p : path) (fs : node) : bool := bool_decide (is_Some (lookup p fs)).

Definition is_file (p : path) (fs : node) : bool :=
  match lookup p fs with Some (File _) => true | _ => false end.

Definition is_dir (p : path) (fs : node) : bool :=
  match lookup p fs with Some (Dir _) => true | _ => false end.

(** [Path.iterdir]: the entries of a directory, as paths. *)
Definition iterdir (p : path) (fs : node) : res (list path) :=
  match lookup p fs with
  | Some (Dir es) => Ok ((fun e => p ++ [e.1]) <$> es)
  | Some (File _) => Raise NotADirectoryError
  | None => Raise FileNotFoundError
  end.

(** [Path.rglob('*')]: the entries of the directory, then the same for
    each of its subdirectories in turn.  [pre] is the path of [n]. *)
Fixpoint rglob_node (pre : path) (n : node) : list path :=
  match n with
  | File _ => []
  | Dir es =>
      ((fun e => pre ++ [e.1]) <$> es)
        ++ (fix below (l : list (string * node)) : list path :=
              match l with
              | [] => []
              | (x, c) :: r => rglob_node (pre ++ [x]) c ++ below r
              end) es
  end.

Definition rglob (fs : node) : list path := rglob_node [] fs.

Definition remove (p : path) (fs : node) : option node :=
  '(d, x) ← split_last p; update_dir d (remove_entry x) fs.

Definition put (p : path) (n : node) (fs : node) : option node :=
  '(d, x) ← split_last p; update_dir d (set_entry x n) fs.

Definition or_raise {A : Type} (e : exn) (o : option A) : res A :=
  match o with Some a => Ok a | None => Raise e end.

(** [os.rename] *)
Definition rename (src dst : path) (fs : node) : res node :=
  match lookup src fs, src with
  | None, _ | _, [] => Raise FileNotFoundError
  | Some n, _ =>
      if bool_decide (src = dst) then Ok fs
      else if negb (is_dir (parent dst) fs) || bool_decide (dst = [])
      then Raise FileNotFoundError
      else if bool_decide (src `prefix_of` dst) then Raise InvalidArgumentError
      else
        let go := or_raise FileNotFoundError (remove src fs ≫= put dst n) in
        match lookup dst fs, n with
        | None, _ => go
        | Some (File _), File _ => go
        | Some (File _), Dir _ => Raise NotADirectoryError
        | Some (Dir []), Dir _ => go
        | Some (Dir _), Dir _ => Raise DirectoryNotEmptyError
        | Some (Dir _), File _ => Raise IsADirectoryError
        end
  end.

(** [shutil.move]: into [dst] when [dst] is a directory. *)
Definition move (src dst : path) (fs : node) : res node :=
  if is_dir dst fs && negb (bool_decide (src = dst)) then
    if exists_ (dst ++ [name src]) fs then Raise ShutilError
    else rename src (dst ++ [name src]) fs
  else rename src dst fs.

(** [Path.unlink] *)
Definition unlink (p : path) (fs : node) : res node :=
  match lookup p fs with
  | Some (File _) => or_raise FileNotFoundError (remove p fs)
  | Some (Dir _) => Raise IsADirectoryError
  | None => Raise FileNotFoundError
  end.

(** [Path.rmdir] *)
Definition rmdir (p : path) (fs : node) : res node :=
  match lookup p fs with
  | Some (Dir []) => or_raise InvalidArgumentError (remove p fs)
  | Some (Dir _) => Raise DirectoryNotEmptyError
  | Some (File _) => Raise NotADirectoryError
  | None => Raise FileNotFoundError
  end.

(** [shutil.rmtree] when every removal succeeds *)
Definition rmtree (p : path) (fs : node) : res node :=
  match lookup p fs with
  | Some (Dir _) => or_raise InvalidArgumentError (remove p fs)
  | Some (File _) => Raise NotADirectoryError
  | None => Raise FileNotFoundError
  end.

(** [shutil.rmtree] removes the entries of a directory one by one, in
    the order in which they are listed ([os.unlink] for a file, the same
    removal for a subdirectory), and then the directory itself
    ([os.rmdir]).  The first removal that fails ends it, and what has
    been removed by then stays removed.  [bad_unlink] and [bad_rmdir]
    tell which removals fail; the result is what is left of the node [n]
    at [p], or [None] when it has been removed entirely. *)
Fixpoint rmtree_rest (bad_unlink bad_rmdir : path -> bool) (p : path) (n : node)
  : option node :=
  match n with
  | File c => if bad_unlink p then Some (File c) else None
  | Dir es =>
      let rest :=
        (fix entries (l : list (string * node)) : list (string * node) :=
           match l with
           | [] => []
           | (x, c) :: r =>
               match rmtree_rest bad_unlink bad_rmdir (p ++ [x]) c with
               | None => entries r
               | Some c' => (x, c') :: r
               end
           end) es in
      match rest with
      | [] => if bad_rmdir p then Some (Dir []) else None
      | _ :: _ => Some (Dir rest)
      end
  end.

(** [Path.mkdir()] of one level *)
Definition mkdir (p : path) (fs : node) : res node :=
  if exists_ p fs then Raise FileExistsError
  else or_raise FileNotFoundError (put p (Dir []) fs).

(** [Path.mkdir(parents=True, exist_ok=True)]: [todo] are the components
    still to be created below [made]. *)
Fixpoint mkdir_from (made todo : path) (fs : node) : res node :=
  match todo with
  | [] => Ok fs
  | x :: r =>
      match lookup (made ++ [x]) fs with
      | Some (Dir _) => mkdir_from (made ++ [x]) r fs
      | Some (File _) =>
          Raise (if bool_decide (r = []) then FileExistsError else NotADirectoryError)
      | None =>
          match put (made ++ [x]) (Dir []) fs with
          | Some fs' => mkdir_from (made ++ [x]) r fs'
          | None => Raise NotADirectoryError
          end
      end
  end.

Definition mkdir_parents (p : path) (fs : node) : res node := mkdir_from [] p fs.

(** Writing a whole file ([open(p, 'w')], [Image.save], [ZipFile(p, 'w')]). *)
Definition write_file (p : path) (c : content) (fs : node) : res node :=
  if negb (is_dir (parent p) fs) || bool_decide (p = []) then Raise FileNotFoundError
  else if is_dir p fs then Raise IsADirectoryError
  else or_raise FileNotFoundError (put p (File c) fs).

Definition read_file (p : path) (fs : node) : res content :=
  match lookup p fs with
  | Some (File c) => Ok c
  | Some (Dir _) => Raise IsADirectoryError
  | None => Raise FileNotFoundError
  end.

(** [shutil.copy2] *)
Definition copy2 (src dst : path) (fs : node) : res node :=
  match read_file src fs with
  | Raise e => Raise e
  | Ok c =>
      if is_dir dst fs then write_file (dst ++ [name src]) c fs
      else write_file dst c fs
  end.

(** *** Names: suffix, stem, patterns *)

Fixpoint rindex_dot (s : string) (i : nat) : option nat :=
  match s with
  | EmptyString => None
  | String c r =>
      match rindex_dot r (S i) with
      | Some j => Some j
      | None => if bool_decide (c = "."%char) then Some i else None
      end
  end.

(** [PurePath.suffix]: from the last dot, unless that dot is the first
    or the last character of the name. *)
Definition suffix (nm : string) : string :=
  match rindex_dot nm 0 with
  | Some i =>
      if bool_decide (0 < i < String.length nm - 1)%nat
      then String.substring i (String.length nm - i) nm
      else ""
  | None => ""
  end.

(** [PurePath.stem] *)
Definition stem (nm : string) : string :=
  String.substring 0 (String.length nm - String.length (suffix nm)) nm.

(** [PurePath.with_suffix] on the last component *)
Definition with_suffix (p : path) (sfx : string) : path :=
  parent p ++ [stem (name p) +:+ sfx].

Definition ends_with (sfx s : string) : bool :=
  bool_decide (String.length sfx <= String.length s)%nat
  && bool_decide (String.substring (String.length s - String.length sfx)
                    (String.length sfx) s = sfx).

Fixpoint contains (sub s : string) : bool :=
  String.prefix sub s
  || match s with
     | EmptyString => false
     | String _ r => contains sub r
     end.

Fixpoint join (sep : string) (l : list string) : string :=
  match l with
  | [] => ""
  | [x] => x
  | x :: r => x +:+ sep +:+ join sep r
  end.

(** [str(path)], relative to the working directory *)
Definition str (p : path) : string := join "/" p.

(** [Path.glob('*' + sfx)]: the entries of the directory whose name ends
    with [sfx]. *)
Definition glob_suffix (p : path) (sfx : string) (fs : node) : list path :=
  match lookup p fs with
  | Some (Dir es) =>
      (fun e => p ++ [e.1]) <$> List.filter (fun e => ends_with sfx e.1) es
  | _ => []
  end.

End FS.

Import FS.

(** ** The state of a run

    The tree, the configuration held by [ConfigManager], the journal of
    [BackupManager], the lines written by [logger], the answers still to
    be read by [input()], and the names drawn by [uuid4]/[mkdtemp].  The
    program writes the lines of its log to a file of the directory
    [logs] of the working directory; here they are the list [log], and
    the writes to that file are not operations on the tree.  [faults]
    tells which file operations the environment makes fail; [trace] is
    the order in which journal entries were appended and file operations
    were completed.  The [ProgressManager] only draws the progress bars
    and is left out, as are the calls to [print]. *)

Module World.

Inductive opkind : Type := OpRename | OpMove | OpDelete | OpCreate.

Record oprecord : Type := {
  op_timestamp : nat;
  op_operation : opkind;
  op_source : path;
  op_target : option path
}.

Inductive fsop : Type :=
| FRename (src dst : path)
| FMove (src dst : path)
| FUnlink (p : path)
| FRmdir (p : path)
| FRmtree (p : path)
| FMkdir (p : path)
| FCopy (src dst : path)
| FWrite (p : path)
| FZipCreate (p : path)
| FZipAdd (zip file : path)
| FZipRead (p : path)
| FOpenImage (p : path).

Inductive event : Type :=
| EvJournal (r : oprecord)
| EvFs (op : fsop).

Inductive level : Type := DEBUG | INFO | WARNING | ERROR.

(** A log line: level, the message (by an English tag), and the values
    of the fields of its f-string. *)
Record logline : Type := {
  l_level : level;
  l_tag : string;
  l_args : list string
}.

Record world : Type := {
  fs : node;
  cfg : config;
  operation_log : list oprecord;
  log : list logline;
  trace : list event;
  clock : nat;
  stdin : list string;
  rand : list string;
  faults : fsop -> bool
}.

Definition with_fs (f : node) (w : world) : world :=
  {| fs := f; cfg := cfg w; operation_log := operation_log w; log := log w;
     trace := trace w; clock := clock w; stdin := stdin w; rand := rand w;
     faults := faults w |}.

Definition with_cfg (c : config) (w : world) : world :=
  {| fs := fs w; cfg := c; operation_log := operation_log w; log := log w;
     trace := trace w; clock := clock w; stdin := stdin w; rand := rand w;
     faults := faults w |}.

Definition with_operation_log (j : list oprecord) (w : world) : world :=
  {| fs := fs w; cfg := cfg w; operation_log := j; log := log w;
     trace := trace w; clock := clock w; stdin := stdin w; rand := rand w;
     faults := faults w |}.

Definition with_log (l : list logline) (w : world) : world :=
  {| fs := fs w; cfg := cfg w; operation_log := operation_log w; log := l;
     trace := trace w; clock := clock w; stdin := stdin w; rand := rand w;
     faults := faults w |}.

Definition with_trace (t : list event) (w : world) : world :=
  {| fs := fs w; cfg := cfg w; operation_log := operation_log w; log := log w;
     trace := t; clock := clock w; stdin := stdin w; rand := rand w;
     faults := faults w |}.

Definition with_clock (c : nat) (w : world) : world :=
  {| fs := fs w; cfg := cfg w; operation_log := operation_log w; log := log w;
     trace := trace w; clock := c; stdin := stdin w; rand := rand w;
     faults := faults w |}.

Definition with_stdin (i : list string) (w : world) : world :=
  {| fs := fs w; cfg := cfg w; operation_log := operation_log w; log := log w;
     trace := trace w; clock := clock w; stdin := i; rand := rand w;
     faults := faults w |}.

Definition with_rand (r : list string) (w : world) : world :=
  {| fs := fs w; cfg := cfg w; operation_log := operation_log w; log := log w;
     trace := trace w; clock := clock w; stdin := stdin w; rand := r;
     faults := faults w |}.

(** A computation that reads and changes the state and may raise. *)
Definition M (A : Type) : Type := world -> res A * world.

Definition ret {A : Type} (a : A) : M A := fun w => (Ok a, w).

Definition bind {A B : Type} (m : M A) (k : A -> M B) : M B :=
  fun w =>
    match m w with
    | (Ok a, w') => k a w'
    | (Raise e, w') => (Raise e, w')
    end.

Definition raise {A : Type} (e : exn) : M A := fun w => (Raise e, w).

(** [try: m except Exception as e: handler e] *)
Definition try_catch {A : Type} (m : M A) (handler : exn -> M A) : M A :=
  fun w =>
    match m w with
    | (Ok a, w') => (Ok a, w')
    | (Raise e, w') => handler e w'
    end.

Definition gets {A : Type} (f : world -> A) : M A := fun w => (Ok (f w), w).

Definition modify (f : world -> world) : M unit := fun w => (Ok tt, f w).

Definition lift_res {A : Type} (r : res A) : M A := fun w => (r, w).

Declare Scope M_scope.
Delimit Scope M_scope with M.
Notation "x <- m ;; k" := (bind m (fun x => k))
  (at level 100, m at next level, right associativity) : M_scope.
Notation "m ;; k" := (bind m (fun _ => k))
  (at level 100, right associativity) : M_scope.
Local Open Scope M_scope.

(** [for x in l: body x] *)
Fixpoint for_each {A : Type} (l : list A) (body : A -> M unit) : M unit :=
  match l with
  | [] => ret tt
  | x :: r => body x ;; for_each r body
  end.

(** [for x in l: ...] with [break]: the body tells whether to go on. *)
Fixpoint for_until {A : Type} (l : list A) (body : A -> M bool) : M unit :=
  match l with
  | [] => ret tt
  | x :: r => go_on <- body x ;; if (go_on : bool) then for_until r body else ret tt
  end.

Definition when (b : bool) (m : M unit) : M unit := if b then m else ret tt.

(** [logger.<level>(...)] *)
Definition logw (lv : level) (tag : string) (args : list string) : M unit :=
  modify (fun w => with_log (log w ++ [{| l_level := lv; l_tag := tag; l_args := args |}]) w).

(** A read of the tree that cannot raise. *)
Definition ask_fs {A : Type} (f : node -> A) : M A := gets (fun w => f (fs w)).

(** A read of the tree that may raise. *)
Definition read_fs {A : Type} (f : node -> res A) : M A :=
  fun w => (f (fs w), w).

(** A file operation: it fails when the environment says so, and
    otherwise is carried out on the tree and appended to the trace. *)
Definition fs_op (op : fsop) (f : node -> res node) : M unit :=
  fun w =>
    if faults w op then (Raise InjectedOSError, w)
    else
      match f (fs w) with
      | Ok fs' => (Ok tt, with_trace (trace w ++ [EvFs op]) (with_fs fs' w))
      | Raise e => (Raise e, w)
      end.

(** [shutil.rmtree(p)] as a file operation.  It fails at once when the
    environment says so for the directory as a whole; otherwise the
    entries are removed one by one, and when one of these removals fails
    the exception leaves the tree with what is left of the directory.
    The trace gets the operation when the whole directory is removed. *)
Definition rmtree_op (p : path) : M unit :=
  fun w =>
    if faults w (FRmtree p) then (Raise InjectedOSError, w)
    else
      match lookup p (fs w) with
      | Some (Dir es) =>
          match rmtree_rest (fun q => faults w (FUnlink q)) (fun q => faults w (FRmdir q))
                  p (Dir es) with
          | None =>
              match rmtree p (fs w) with
              | Ok fs' => (Ok tt, with_trace (trace w ++ [EvFs (FRmtree p)]) (with_fs fs' w))
              | Raise e => (Raise e, w)
              end
          | Some rest =>
              match put p rest (fs w) with
              | Some fs' => (Raise InjectedOSError, with_fs fs' w)
              | None => (Raise InjectedOSError, w)
              end
          end
      | Some (File _) => (Raise NotADirectoryError, w)
      | None => (Raise FileNotFoundError, w)
      end.

(** A point where the environment can make a read fail. *)
Definition fault_point (op : fsop) : M unit :=
  fun w => if faults w op then (Raise InjectedOSError, w) else (Ok tt, w).

(** [input(...)] *)
Definition input : M string :=
  fun w =>
    match stdin w with
    | [] => (Raise EOFError, w)
    | x :: r => (Ok x, with_stdin r w)
    end.

(** The next value drawn from the random source. *)
Definition draw : M string :=
  fun w =>
    match rand w with
    | [] => (Ok "", w)
    | x :: r => (Ok x, with_rand r w)
    end.

Definition run {A : Type} (m : M A) (w : world) : world := (m w).2.

Definition exn_name (e : exn) : string :=
  match e with
  | FileNotFoundError => "FileNotFoundError"
  | FileExistsError => "FileExistsError"
  | IsADirectoryError => "IsADirectoryError"
  | NotADirectoryError => "NotADirectoryError"
  | DirectoryNotEmptyError => "DirectoryNotEmptyError"
  | InvalidArgumentError => "InvalidArgumentError"
  | ShutilError => "shutil.Error"
  | UnidentifiedImageError => "UnidentifiedImageError"
  | BadZipFile => "BadZipFile"
  | EOFError => "EOFError"
  | TypeError => "TypeError"
  | PermissionError => "PermissionError"
  | InjectedOSError => "OSError"
  | ZipCheckFailed => "Exception"
  end.

End World.

Import World.
Local Open Scope M_scope.

(** ** [ConfigManager], [BackupManager], [confirm_operation], [safe_rename] *)

Module Core.

Definition config_file : path := ["config.json"].

(** [ConfigManager.save_config] *)
Definition save_config : M unit :=
  try_catch
    (fs_op (FMkdir (parent config_file)) (mkdir_parents (parent config_file)) ;;
     c <- gets cfg ;;
     fs_op (FWrite config_file) (write_file config_file (Json c)) ;;
     logw INFO "config saved" [str config_file])
    (fun e => logw ERROR "config save failed" [exn_name e]).

(** [BackupManager.record_operation] *)
Definition record_operation (operation : opkind) (source : path) (target : option path) : M unit :=
  modify (fun w =>
    let r := {| op_timestamp := clock w; op_operation := operation;
                op_source := source; op_target := target |} in
    with_clock (S (clock w))
      (with_trace (trace w ++ [EvJournal r])
         (with_operation_log (operation_log w ++ [r]) w))).

(** [Path(op["target"])]: [Path(None)] raises [TypeError]. *)
Definition target_path (op : oprecord) : M path :=
  match op_target op with
  | Some t => ret t
  | None => raise TypeError
  end.

(** The body of the loop of [BackupManager.rollback] for one record. *)
Definition rollback_record (op : oprecord) : M unit :=
  try_catch
    (match op_operation op with
     | OpRename =>
         src <- target_path op ;;
         let dst := op_source op in
         src_exists <- ask_fs (exists_ src) ;;
         dst_exists <- ask_fs (exists_ dst) ;;
         when (src_exists && negb dst_exists)
           (fs_op (FRename src dst) (rename src dst) ;;
            logw INFO "rollback rename" [str src; str dst])
     | OpDelete =>
         logw WARNING "cannot roll back delete" [str (op_source op)]
     | OpMove =>
         src <- target_path op ;;
         let dst := op_source op in
         src_exists <- ask_fs (exists_ src) ;;
         when src_exists
           (fs_op (FMkdir (parent dst)) (mkdir_parents (parent dst)) ;;
            fs_op (FCopy src dst) (copy2 src dst) ;;
            logw INFO "rollback move" [str src; str dst])
     | OpCreate => ret tt
     end)
    (fun e => logw ERROR "rollback failed" [exn_name e]).

(** [BackupManager.rollback] *)
Definition rollback : M unit :=
  logw INFO "rollback start" [] ;;
  j <- gets operation_log ;;
  for_each (rev j) rollback_record ;;
  logw INFO "rollback done" [].

(** [str.strip]: the white space below code point 256 *)
Definition is_space (c : ascii) : bool :=
  (((9 <=? code c) && (code c <=? 13)) || ((28 <=? code c) && (code c <=? 32))
   || (code c =? 133) || (code c =? 160))%N.

Fixpoint lstrip (s : string) : string :=
  match s with
  | EmptyString => EmptyString
  | String c r => if is_space c then lstrip r else s
  end.

Fixpoint rstrip (s : string) : string :=
  match s with
  | EmptyString => EmptyString
  | String c r =>
      match rstrip r with
      | EmptyString => if is_space c then EmptyString else String c EmptyString
      | r' => String c r'
      end
  end.

Definition strip (s : string) : string := rstrip (lstrip s).

(** [confirm_operation] *)
Definition confirm_operation (message : string) : M bool :=
  c <- gets cfg ;;
  if dry_run c then
    logw INFO "[DRY RUN] skip confirmation" [message] ;;
    ret true
  else if skip_step_confirmations c || negb (interactive_mode c) then
    logw INFO "skip confirmation" [message] ;;
    ret true
  else
    answer <- input ;;
    let response := lower (strip answer) in
    if bool_decide (response = "a") then
      modify (fun w => with_cfg (set_skip_step_confirmations true (cfg w)) w) ;;
      save_config ;;
      ret true
    else
      ret (bool_decide (response = "") || bool_decide (response = "y")).

(** The loop of [safe_rename] that looks for a name not yet taken:
    [final_dst] is tried, then [dst] with the suffixes [_1] to [_99]. *)
Fixpoint unique_name (fuel : nat) (counter : Z) (final_dst dst : path) (fs : node) : option path :=
  if negb (exists_ final_dst fs) then Some final_dst
  else
    match fuel with
    | O => None
    | S f =>
        let new_name := stem (name dst) +:+ "_" +:+ dec counter +:+ suffix (name dst) in
        if counter + 1 >? 100 then None
        else unique_name f (counter + 1) (parent dst ++ [new_name]) dst fs
    end.

(** [safe_rename] *)
Definition safe_rename (src dst : path) : M bool :=
  src_exists <- ask_fs (exists_ src) ;;
  if negb src_exists then
    logw ERROR "source does not exist" [str src] ;;
    ret false
  else
    c <- gets cfg ;;
    if dry_run c then
      logw INFO "[DRY RUN] would rename" [str src; str dst] ;;
      record_operation OpRename src (Some dst) ;;
      ret true
    else
      try_catch
        (if bool_decide (src = dst) then ret true
         else
           found <- ask_fs (unique_name 100 1 dst dst) ;;
           match found with
           | None =>
               logw ERROR "no unique name" [str dst] ;;
               ret false
           | Some final_dst =>
               record_operation OpRename src (Some final_dst) ;;
               fs_op (FRename src final_dst) (rename src final_dst) ;;
               logw INFO "renamed" [str src; str final_dst] ;;
               ret true
           end)
        (fun e =>
           logw ERROR "rename failed" [str src; str dst; exn_name e] ;;
           ret false).

(** [sorted(paths, key=natural_sort_key)] *)
Definition sorted_paths (l : list path) : M (list path) :=
  match sorted_by (fun p => natural_sort_key (name p)) l with
  | Some r => ret r
  | None => raise TypeError
  end.

(** [d.is_dir() and d.name not in config["skip_dirs"]] *)
Definition is_work_dir (c : config) (fs : node) (d : path) : bool :=
  is_dir d fs && negb (bool_decide (name d ∈ skip_dirs c)).

(** [[d for d in p.iterdir() if d.is_dir() and d.name not in skip_dirs]] *)
Definition work_dirs (p : path) : M (list path) :=
  c <- gets cfg ;;
  ds <- read_fs (iterdir p) ;;
  f <- gets fs ;;
  ret (List.filter (is_work_dir c f) ds).

(** The child directories of all parent directories, with their parent. *)
Fixpoint child_dirs (parents : list path) : M (list (path * path)) :=
  match parents with
  | [] => ret []
  | par :: r =>
      subs <- work_dirs par ;;
      rest <- child_dirs r ;;
      ret (((fun d => (d, par)) <$> subs) ++ rest)
  end.

(** A stable sort in decreasing order of a numeric key
    ([sorted(..., reverse=True)]). *)
Section SortDesc.
Context {A : Type} (k : A -> nat).

Fixpoint insert_desc (x : A) (l : list A) : list A :=
  match l with
  | [] => [x]
  | y :: r => if (k x <? k y)%nat then y :: insert_desc x r else x :: y :: r
  end.

Fixpoint sort_desc (l : list A) : list A :=
  match l with
  | [] => []
  | x :: r => insert_desc x (sort_desc r)
  end.
End SortDesc.

End Core.

Import Core.

(** ** The nine steps *)

Module Steps.

Definition lsuffix (p : path) : string := lower (suffix (name p)).

(** [any(skip in str(path) for skip in config["skip_dirs"])].  The path
    is taken below the working directory; the string the code tests
    also has the path of the working directory in front, which matters
    only when that path itself contains one of the names to skip. *)
Definition in_skip_dir (c : config) (p : path) : bool :=
  existsb (fun skip => contains skip (str p)) (skip_dirs c).

Definition is_jpeg_suffix (sfx : string) : bool :=
  bool_decide (sfx = ".jpg") || bool_decide (sfx = ".jpeg").

(** [Image.open], the flattening onto white and the conversion to RGB:
    the result is the picture to be saved as JPEG, or [None] for an
    animated GIF, which is skipped.  The pixel values are left as they
    are. *)
Definition open_and_convert (file : path) : M (option content) :=
  c <- read_fs (read_file file) ;;
  match c with
  | Picture animated mode pixels =>
      if bool_decide (lsuffix file = ".gif") && animated then ret None
      else ret (Some (Picture false "RGB" pixels))
  | _ => raise UnidentifiedImageError
  end.

Definition step1_convert : M unit :=
  c <- gets cfg ;;
  f <- gets fs ;;
  let convert_list :=
    List.filter (fun p =>
      negb (in_skip_dir c p)
      && (is_file p f && bool_decide (lsuffix p ∈ image_exts c))
      && negb (is_jpeg_suffix (lsuffix p))) (rglob f) in
  let total := length convert_list in
  if bool_decide (total = 0%nat) then
    logw INFO "step1: nothing to convert" []
  else
    logw INFO "step1: found files" [dec (Z.of_nat total)] ;;
    ok <- confirm_operation "step1" ;;
    if negb ok then logw INFO "step1: cancelled" []
    else
      for_each convert_list (fun file =>
        try_catch
          (c <- gets cfg ;;
           if negb (dry_run c) then
             (fault_point (FOpenImage file) ;;
              img <- open_and_convert file ;;
              match img with
              | None => logw INFO "skip animated GIF" [str file]
              | Some rgb_img =>
                  let new_path := with_suffix file ".jpg" in
                  fs_op (FWrite new_path) (write_file new_path rgb_img) ;;
                  record_operation OpDelete file None ;;
                  fs_op (FUnlink file) (unlink file) ;;
                  logw INFO "converted" [str file; str new_path]
              end)
           else logw INFO "[DRY RUN] would convert" [str file])
          (fun e => logw ERROR "convert failed" [str file; exn_name e])).

(** The loop shared by [process_subdir] of step 2 and [process_parent]
    of step 3: [ext] is [".jpg"] for files and empty for directories. *)
Fixpoint number_loop (where_ : path) (ext : string) (start_num : Z) (idx : Z)
    (used_numbers : gset string) (items : list path) : M unit :=
  match items with
  | [] => ret tt
  | item :: r =>
      let new_num := next_free used_numbers (start_num + idx) in
      if start_num + 10000 <=? new_num then
        logw ERROR "too many entries for the number range" [str where_]
      else
        let new_name := fmt04 new_num +:+ ext in
        let new_path := where_ ++ [new_name] in
        safe_rename item new_path ;;
        number_loop where_ ext start_num (idx + 1)
          ({[ fmt04 new_num ]} ∪ used_numbers) r
  end.

(** [process_subdir] of step 2 *)
Definition process_subdir (subdir : path) : M unit :=
  entries <- read_fs (iterdir subdir) ;;
  f <- gets fs ;;
  files <- sorted_paths
    (List.filter (fun p => is_file p f && bool_decide (lsuffix p = ".jpg")) entries) ;;
  c <- gets cfg ;;
  number_loop subdir ".jpg" (start_num c) 0 ∅ files.

Definition step2_rename : M unit :=
  parents <- work_dirs [] ;;
  subdirs <- child_dirs parents ;;
  let total := length subdirs in
  logw INFO "step2: subdirectories" [dec (Z.of_nat total)] ;;
  if bool_decide (total = 0%nat) then
    logw WARNING "step2: no subdirectory" []
  else
    ok <- confirm_operation "step2" ;;
    if negb ok then logw INFO "step2: cancelled" []
    else for_each subdirs (fun sp => process_subdir sp.1).

(** [process_parent] of step 3 *)
Definition process_parent (par : path) : M unit :=
  ds <- work_dirs par ;;
  subdirs <- sorted_paths ds ;;
  c <- gets cfg ;;
  number_loop par "" (start_num c) 0 ∅ subdirs.

Definition step3_rename_subdirs : M unit :=
  parent_dirs <- work_dirs [] ;;
  let total := length parent_dirs in
  logw INFO "step3: parent directories" [dec (Z.of_nat total)] ;;
  if bool_decide (total = 0%nat) then
    logw WARNING "step3: no parent directory" []
  else
    ok <- confirm_operation "step3" ;;
    if negb ok then logw INFO "step3: cancelled" []
    else for_each parent_dirs process_parent.

(** [sorted([f for f in d.glob('*.jpg') if f.is_file()], key=natural_sort_key)] *)
Definition sorted_jpg_files (d : path) : M (list path) :=
  f <- gets fs ;;
  sorted_paths (List.filter (fun p => is_file p f) (glob_suffix d ".jpg" f)).

Definition step4_add_prefix : M unit :=
  parents <- work_dirs [] ;;
  subdirs <- child_dirs parents ;;
  let total := length subdirs in
  logw INFO "step4: subdirectories" [dec (Z.of_nat total)] ;;
  if bool_decide (total = 0%nat) then
    logw WARNING "step4: no subdirectory" []
  else
    ok <- confirm_operation "step4" ;;
    if negb ok then logw INFO "step4: cancelled" []
    else
      for_each subdirs (fun sp =>
        let subdir := sp.1 in
        let dir_num := name subdir in
        files <- sorted_jpg_files subdir ;;
        for_each files (fun file =>
          if contains "_" (name file) then ret tt
          else
            let new_name := dir_num +:+ "_" +:+ name file in
            safe_rename file (parent file ++ [new_name]) ;;
            ret tt)).

(** The loop of step 5 that looks for a free name in the parent
    directory: [while new_path.exists() and counter <= 100]. *)
Fixpoint free_in_parent (fuel : nat) (counter : Z) (new_path file parent_dir : path)
    (fs : node) : path * Z :=
  match fuel with
  | O => (new_path, counter)
  | S f =>
      if exists_ new_path fs && (counter <=? 100) then
        let new_name := stem (name file) +:+ "_" +:+ dec counter +:+ suffix (name file) in
        free_in_parent f (counter + 1) (parent_dir ++ [new_name]) file parent_dir fs
      else (new_path, counter)
  end.

Definition step5_move_files : M unit :=
  parents <- work_dirs [] ;;
  subdirs <- child_dirs parents ;;
  let total := length subdirs in
  logw INFO "step5: subdirectories" [dec (Z.of_nat total)] ;;
  if bool_decide (total = 0%nat) then
    logw WARNING "step5: no subdirectory" []
  else
    ok <- confirm_operation "step5" ;;
    if negb ok then logw INFO "step5: cancelled" []
    else
      for_each subdirs (fun '(subdir, parent_dir) =>
        files <- sorted_jpg_files subdir ;;
        for_each files (fun file =>
          try_catch
            (let base_name := name file in
             found <- ask_fs (free_in_parent 101 1 (parent_dir ++ [base_name]) file parent_dir) ;;
             let '(new_path, counter) := found in
             if counter >? 100 then
               logw ERROR "cannot resolve name conflict" [str file]
             else
               c <- gets cfg ;;
               when (negb (dry_run c))
                 (fs_op (FMove file new_path) (move file new_path) ;;
                  record_operation OpMove file (Some new_path) ;;
                  logw INFO "moved" [str file; str new_path]))
            (fun e => logw ERROR "move failed" [str file; exn_name e]))).

(** [not any(path.iterdir())] *)
Definition dir_is_empty (p : path) : M bool :=
  es <- read_fs (iterdir p) ;;
  ret (bool_decide (es = [])).

Definition step6_clean_dirs : M unit :=
  c <- gets cfg ;;
  f <- gets fs ;;
  let dirs := sort_desc (fun p => String.length (str p))
                (List.filter (is_work_dir c f) (rglob f)) in
  let total := length dirs in
  logw INFO "step6: directories to check" [dec (Z.of_nat total)] ;;
  if bool_decide (total = 0%nat) then
    logw WARNING "step6: no directory" []
  else
    ok <- confirm_operation "step6" ;;
    if negb ok then logw INFO "step6: cancelled" []
    else
      for_each dirs (fun p =>
        try_catch
          (empty <- dir_is_empty p ;;
           c <- gets cfg ;;
           when (empty && negb (dry_run c))
             (fs_op (FRmdir p) (rmdir p) ;;
              record_operation OpDelete p None ;;
              logw INFO "removed empty directory" [str p]))
          (fun e => logw ERROR "remove directory failed" [str p; exn_name e])) ;;
      logw INFO "step6: done" [].

(** [tempfile.mkdtemp(dir=d)]: random names are drawn until one is not
    taken, at most [tries] times. *)
Fixpoint mkdtemp (tries : nat) (d : path) : M path :=
  match tries with
  | O => raise FileExistsError
  | S t =>
      nm <- draw ;;
      let p := d ++ ["tmp" +:+ nm] in
      taken <- ask_fs (exists_ p) ;;
      if (taken : bool) then mkdtemp t d
      else (fs_op (FMkdir p) (mkdir p) ;; ret p)
  end.

Definition TMP_MAX : nat := Z.to_nat 10000.

(** [TemporaryDirectory.cleanup]: a directory that is gone already is
    not an error. *)
Definition cleanup (tmp : path) : M unit :=
  still <- ask_fs (exists_ tmp) ;;
  when still (rmtree_op tmp).

(** [with tempfile.TemporaryDirectory(dir=d) as temp_dir: body] *)
Definition with_temporary_directory (d : path) (body : path -> M unit) : M unit :=
  tmp <- mkdtemp TMP_MAX d ;;
  try_catch (body tmp) (fun e => cleanup tmp ;; raise e) ;;
  cleanup tmp.

(** Phase 1 of step 7: the files are moved into the temporary directory;
    [temp_files] collects the original name and the new place of each. *)
Fixpoint step7_phase1 (temp_path : path) (files : list path)
    (temp_files : list (string * path)) : M (list (string * path)) :=
  match files with
  | [] => ret temp_files
  | file :: r =>
      c <- gets cfg ;;
      if dry_run c then
        step7_phase1 temp_path r (temp_files ++ [(name file, file)])
      else
        let temp_file := temp_path ++ [name file] in
        temp_files' <- try_catch
          (fs_op (FMove file temp_file) (move file temp_file) ;;
           record_operation OpMove file (Some temp_file) ;;
           ret (temp_files ++ [(name file, temp_file)]))
          (fun e =>
             logw ERROR "move to temporary directory failed" [str file; exn_name e] ;;
             ret temp_files) ;;
        step7_phase1 temp_path r temp_files'
  end.

(** Phase 2 of step 7: the files come back under their final numbers,
    counted from [new_idx]. *)
Fixpoint step7_phase2 (directory : path) (new_idx : Z)
    (temp_files : list (string * path)) : M unit :=
  match temp_files with
  | [] => ret tt
  | (orig_name, temp_file) :: r =>
      let new_name := fmt04 new_idx +:+ ".jpg" in
      let new_path := directory ++ [new_name] in
      c <- gets cfg ;;
      (if dry_run c then
         logw INFO "[DRY RUN] would rename" [orig_name; new_name]
       else
         try_catch
           (fs_op (FMove temp_file new_path) (move temp_file new_path) ;;
            record_operation OpMove temp_file (Some new_path) ;;
            logw INFO "renamed" [orig_name; new_name])
           (fun e => logw ERROR "rename failed" [orig_name; exn_name e])) ;;
      step7_phase2 directory (new_idx + 1) r
  end.

(** The body of the loop of step 7 for one parent directory. *)
Definition step7_directory (directory : path) : M unit :=
  with_temporary_directory (parent directory) (fun temp_path =>
    files <- sorted_jpg_files directory ;;
    temp_files <- step7_phase1 temp_path files [] ;;
    step7_phase2 directory 1 temp_files).

Definition step7_final_rename : M unit :=
  parent_dirs <- work_dirs [] ;;
  let total := length parent_dirs in
  logw INFO "step7: parent directories" [dec (Z.of_nat total)] ;;
  if bool_decide (total = 0%nat) then
    logw WARNING "step7: no parent directory" []
  else
    ok <- confirm_operation "step7" ;;
    if negb ok then logw INFO "step7: cancelled" []
    else for_each parent_dirs step7_directory.

(** The second loop of the leaf test of step 8: [Some jpg_files] when
    the directory is valid so far. *)
Fixpoint only_jpg (c : config) (fs : node) (items : list path) (jpg_files : list path)
  : option (list path) :=
  match items with
  | [] => Some jpg_files
  | item :: r =>
      if bool_decide (name item ∈ skip_dirs c) then only_jpg c fs r jpg_files
      else if is_file item fs then
        if is_jpeg_suffix (lsuffix item) then only_jpg c fs r (jpg_files ++ [item])
        else None
      else None
  end.

(** The leaf test of step 8 for one entry of [root.rglob('*')]. *)
Definition is_leaf_dir (c : config) (fs : node) (directory : path) : bool :=
  if negb (is_dir directory fs) || bool_decide (name directory ∈ skip_dirs c) then false
  else
    match iterdir directory fs with
    | Raise _ => false
    | Ok items =>
        if existsb (is_work_dir c fs) items then false
        else
          match only_jpg c fs items [] with
          | Some (_ :: _) => true
          | _ => false
          end
    end.

(** [with zipfile.ZipFile(temp_zip, 'w', ...) as zf: for file in jpg_files:
    zf.write(file, arcname=file.name)] *)
Definition zip_add (temp_zip file : path) (fs : node) : res node :=
  match read_file file fs, read_file temp_zip fs with
  | Ok c, Ok (Archive ms) => write_file temp_zip (Archive (ms ++ [(name file, c)])) fs
  | Raise e, _ => Raise e
  | _, Raise e => Raise e
  | _, _ => Raise BadZipFile
  end.

Definition write_zip (temp_zip : path) (jpg_files : list path) : M unit :=
  fs_op (FZipCreate temp_zip) (write_file temp_zip (Archive [])) ;;
  for_each jpg_files (fun file =>
    fs_op (FZipAdd temp_zip file) (zip_add temp_zip file) ;;
    logw DEBUG "added to ZIP" [name file]).

(** [zf.namelist()] of the archive at [p] *)
Definition namelist (p : path) : M (list string) :=
  fault_point (FZipRead p) ;;
  c <- read_fs (read_file p) ;;
  match c with
  | Archive ms => ret (ms.*1)
  | _ => raise BadZipFile
  end.

(** The [try] block of step 8 for one leaf directory. *)
Definition compress_try (directory zip_file temp_zip : path) (jpg_files : list path) : M unit :=
  write_zip temp_zip jpg_files ;;
  valid <- try_catch
    (zip_contents <- namelist temp_zip ;;
     ret (bool_decide (length zip_contents = length jpg_files)))
    (fun e =>
       logw ERROR "ZIP check failed" [str temp_zip; exn_name e] ;;
       ret false) ;;
  if negb valid then raise ZipCheckFailed
  else
    temp_exists <- ask_fs (exists_ temp_zip) ;;
    when temp_exists
      (zip_exists <- ask_fs (exists_ zip_file) ;;
       when zip_exists (fs_op (FUnlink zip_file) (unlink zip_file)) ;;
       fs_op (FRename temp_zip zip_file) (rename temp_zip zip_file) ;;
       record_operation OpCreate zip_file None ;;
       rmtree_op directory ;;
       record_operation OpDelete directory None ;;
       logw INFO "compressed" [str directory; str zip_file]).

(** The [except] block of step 8. *)
Definition compress_except (directory temp_zip : path) (e : exn) : M unit :=
  logw ERROR "compress failed" [str directory; exn_name e] ;;
  temp_exists <- ask_fs (exists_ temp_zip) ;;
  when temp_exists
    (try_catch
       (fs_op (FUnlink temp_zip) (unlink temp_zip) ;;
        logw INFO "removed invalid temporary ZIP" [str temp_zip])
       (fun cleanup_e =>
          logw ERROR "removing temporary ZIP failed" [str temp_zip; exn_name cleanup_e])).

(** The body of the loop of step 8 for one leaf directory. *)
Definition compress_directory (directory : path) : M unit :=
  let zip_file := with_suffix directory ".zip" in
  f <- gets fs ;;
  jpg_files <- sorted_paths (glob_suffix directory ".jpg" f) ;;
  c <- gets cfg ;;
  if negb (dry_run c) then
    unique_id <- draw ;;
    let temp_zip := with_suffix directory (".tmp_" +:+ unique_id +:+ ".zip") in
    try_catch (compress_try directory zip_file temp_zip jpg_files)
      (compress_except directory temp_zip)
  else
    logw INFO "[DRY RUN] would compress" [str directory; str zip_file].

Definition step8_compress : M unit :=
  c <- gets cfg ;;
  f <- gets fs ;;
  let leaf_dirs := sort_desc (fun p : path => length p)
                     (List.filter (is_leaf_dir c f) (rglob f)) in
  let total := length leaf_dirs in
  logw INFO "step8: leaf directories" [dec (Z.of_nat total)] ;;
  if bool_decide (total = 0%nat) then
    logw WARNING "step8: no leaf directory" []
  else
    ok <- confirm_operation "step8" ;;
    if negb ok then logw INFO "step8: cancelled" []
    else for_each leaf_dirs compress_directory.

Definition step9_rename_cbz : M unit :=
  f <- gets fs ;;
  let zip_files := List.filter (fun p => is_file p f) (glob_suffix [] ".zip" f) in
  let total := length zip_files in
  logw INFO "step9: ZIP files" [dec (Z.of_nat total)] ;;
  if bool_decide (total = 0%nat) then
    logw WARNING "step9: no ZIP file" []
  else
    ok <- confirm_operation "step9" ;;
    if negb ok then logw INFO "step9: cancelled" []
    else
      for_each zip_files (fun zip_file =>
        let cbz_file := with_suffix zip_file ".cbz" in
        c <- gets cfg ;;
        if negb (dry_run c) then
          try_catch
            (fs_op (FRename zip_file cbz_file) (rename zip_file cbz_file) ;;
             record_operation OpRename zip_file (Some cbz_file) ;;
             logw INFO "renamed" [str zip_file; str cbz_file])
            (fun e => logw ERROR "rename failed" [str zip_file; exn_name e])
        else
          logw INFO "[DRY RUN] would rename" [str zip_file; str cbz_file]).

(** The loop of [main] over [step_functions]. *)
Definition step_functions : list (M unit) :=
  [step1_convert; step2_rename; step3_rename_subdirs; step4_add_prefix;
   step5_move_files; step6_clean_dirs; step7_final_rename; step8_compress;
   step9_rename_cbz].

Definition pipeline : M unit := for_each step_functions (fun step_func => step_func).

End Steps.

Import Steps.

(** ** Vocabulary of the properties *)

Module Props.

Definition is_str (e : kelem) : bool :=
  match e with KStr _ => true | KInt _ => false end.

Definition is_int (e : kelem) : bool :=
  match e with KInt _ => true | KStr _ => false end.

(** A key whose elements are alternately strings and integers;
    [digit] tells whether the first one has to be an integer. *)
Fixpoint alternating (digit : bool) (k : key) : bool :=
  match k with
  | [] => true
  | e :: r => (if digit then is_int e else is_str e) && alternating (negb digit) r
  end.

Definition nondecimal (c : ascii) : bool := negb (is_decimal c).

Definition nondigit (c : ascii) : bool := negb (is_digit_char c).

(** Pieces that are alternately runs without a decimal digit and
    non-empty runs of decimal digits. *)
Fixpoint alt_pieces (digit : bool) (l : list string) : bool :=
  match l with
  | [] => true
  | p :: r =>
      (if digit then all_chars is_decimal p && negb (bool_decide (p = ""))
       else all_chars nondecimal p)
      && alt_pieces (negb digit) r
  end.

Fixpoint flatten (l : list string) : string :=
  match l with
  | [] => ""
  | p :: r => p +:+ flatten r
  end.

(** The renames the numbering loop asks for, as the specification words
    them: the items, in order, get the numbers [start_num + idx],
    [start_num + idx + 1], ... *)
Fixpoint numbered_targets (where_ : path) (ext : string) (start_num idx : Z)
    (items : list path) : list (path * path) :=
  match items with
  | [] => []
  | item :: r =>
      (item, where_ ++ [fmt04 (start_num + idx) +:+ ext])
        :: numbered_targets where_ ext start_num (idx + 1) r
  end.

(** Carrying out the planned renames of at most [limit] items with
    [safe_rename], and logging the error when items are left over. *)
Definition run_numbering (where_ : path) (ext : string) (start_num idx : Z)
    (limit : nat) (items : list path) : M unit :=
  for_each (numbered_targets where_ ext start_num idx (take limit items))
    (fun sd => safe_rename sd.1 sd.2 ;; ret tt) ;;
  when (bool_decide (limit < length items)%nat)
    (logw ERROR "too many entries for the number range" [str where_]).

(** A state to start from: nothing journaled or logged yet, and an
    environment in which no file operation fails. *)
Definition initial_world (f : node) (c : config) (answers rand_names : list string) : world :=
  {| fs := f; cfg := c; operation_log := []; log := []; trace := []; clock := 0;
     stdin := answers; rand := rand_names; faults := fun _ => false |}.

(** The same with an environment that makes the operations [bad] fail. *)
Definition faulty_world (bad : fsop -> bool) (f : node) (c : config)
    (answers rand_names : list string) : world :=
  {| fs := f; cfg := c; operation_log := []; log := []; trace := []; clock := 0;
     stdin := answers; rand := rand_names; faults := bad |}.

(** The default configuration with the three mode flags and the start
    number set. *)
Definition config_with (interactive skip dry : bool) (start : Z) : config :=
  {| image_exts := image_exts DEFAULT_CONFIG;
     skip_dirs := skip_dirs DEFAULT_CONFIG;
     start_num := start;
     compress_level := compress_level DEFAULT_CONFIG;
     backup_enabled := backup_enabled DEFAULT_CONFIG;
     interactive_mode := interactive;
     skip_step_confirmations := skip;
     dry_run := dry;
     max_files_per_dir := max_files_per_dir DEFAULT_CONFIG |}.

(** The interactive configuration: every step asks, changes carried
    out. *)
Definition ask_config : config := config_with true false false 0.

(** The batch configuration: no prompt, changes carried out. *)
Definition batch_config : config := config_with false true false 0.

(** The dry-run configuration. *)
Definition dry_config : config := config_with false true true 0.

Definition is_error (l : logline) : bool :=
  match l_level l with ERROR => true | _ => false end.

(** What undoing one journal record does to the tree, as the
    specification words it: a rename is undone by renaming the target
    back when the target exists and the source does not; a move by
    copying the target back to the source (its directory made first)
    when the target exists; a delete or a create by nothing.  An
    operation that fails leaves the tree as it is at that point.  [bad]
    are the operations the environment makes fail. *)
Definition rollback_effect (bad : fsop -> bool) (op : oprecord) (fs : node) : node :=
  let src := op_source op in
  match op_operation op, op_target op with
  | OpRename, Some tgt =>
      if exists_ tgt fs && negb (exists_ src fs) && negb (bad (FRename tgt src))
      then match rename tgt src fs with Ok fs' => fs' | Raise _ => fs end
      else fs
  | OpMove, Some tgt =>
      if exists_ tgt fs && negb (bad (FMkdir (parent src)))
      then
        match mkdir_parents (parent src) fs with
        | Ok fs1 =>
            if bad (FCopy tgt src) then fs1
            else match copy2 tgt src fs1 with Ok fs2 => fs2 | Raise _ => fs1 end
        | Raise _ => fs
        end
      else fs
  | _, _ => fs
  end.

(** A computation that, in dry-run mode and in an environment without
    failures, ends with the tree it started with (and leaves the
    configuration and the environment alone). *)
Definition quiet {A : Type} (m : M A) : Prop :=
  forall w, dry_run (cfg w) = true -> (forall op, faults w op = false) ->
    fs (m w).2 = fs w /\ cfg (m w).2 = cfg w /\ faults (m w).2 = faults w.





(** The name step 7 gives to the page number [i]. *)
Definition page_name (i : Z) : string := fmt04 i +:+ ".jpg".

(** The names [0001.jpg], ..., of [n] pages. *)
Definition page_names (n : nat) : list string := page_name <$> seqZ 1 (Z.of_nat n).

(** The entries that phase 2 of step 7 adds to the directory: the nodes
    [nd n] of the names [n], numbered from [idx]. *)
Fixpoint renumbered (nd : string -> node) (idx : Z) (names : list string)
  : list (string * node) :=
  match names with
  | [] => []
  | n :: r => (page_name idx, nd n) :: renumbered nd (idx + 1) r
  end.

(** The names of the files among the entries of a directory that
    [glob('*.jpg')] and [is_file] select. *)
Definition jpg_file_names (es : list (string * node)) : list string :=
  (List.filter (fun e => ends_with ".jpg" e.1
                         && match e.2 with File _ => true | Dir _ => false end) es).*1.

(** The number in the sort key of a name that starts with digits. *)
Definition key_number (k : key) : Z :=
  match k with
  | _ :: KInt n :: _ => n
  | _ => 0
  end.

(** A path that lies neither above nor below [p]. *)
Definition apart (p q : path) : Prop := ~ p `prefix_of` q /\ ~ q `prefix_of` p.

(** A computation that leaves the environment alone and, whatever its
    outcome, does not change what is found at the paths in [S]. *)
Definition confined (S : path -> Prop) {A : Type} (m : M A) : Prop :=
  forall w, faults (m w).2 = faults w
            /\ forall q, S q -> lookup q (fs (m w).2) = lookup q (fs w).

(** The parent directory [dn] of the state [w'] is as in [w]: it has
    the entries [es] of before (in some order of listing), every name
    in it leads to what it led to, and its [.jpg] files, in natural
    order, are [0001.jpg], ..., the [N]-th. *)
Definition renumbering_kept (dn : string) (es : list (string * node)) (N : nat)
    (w w' : world) : Prop :=
  (exists es', lookup [dn] (fs w') = Some (Dir es') /\ es' ≡ₚ es)
  /\ (forall n r, lookup (dn :: n :: r) (fs w') = lookup (dn :: n :: r) (fs w))
  /\ sorted_jpg_files [dn] w' = (Ok ((fun n => [dn; n]) <$> page_names N), w').

Definition is_Some_res {A : Type} (r : res A) : Prop :=
  match r with Ok _ => True | Raise _ => False end.

(** Whether a journal record is the one of a file operation. *)
Definition journal_matches (r : oprecord) (op : fsop) : bool :=
  match op, op_operation r with
  | FRename src _, OpRename => bool_decide (op_source r = src)
  | FMove src _, OpMove => bool_decide (op_source r = src)
  | FUnlink p, OpDelete | FRmdir p, OpDelete | FRmtree p, OpDelete =>
      bool_decide (op_source r = p)
  | _, _ => false
  end.

(** The operations that rename, move or delete an entry of the tree. *)
Definition destructive (op : fsop) : bool :=
  match op with
  | FRename _ _ | FMove _ _ | FUnlink _ | FRmdir _ | FRmtree _ => true
  | _ => false
  end.

(** Every destructive operation of the trace comes after the journal
    record made for it; [seen] are the records met so far. *)
Fixpoint journal_first (seen : list oprecord) (t : list event) : bool :=
  match t with
  | [] => true
  | EvJournal r :: rest => journal_first (r :: seen) rest
  | EvFs op :: rest =>
      (negb (destructive op) || existsb (fun r => journal_matches r op) seen)
      && journal_first seen rest
  end.

(** An environment in which removing a directory tree fails. *)
Definition fail_rmtree (op : fsop) : bool :=
  match op with FRmtree _ => true | _ => false end.

(** What a declined step may have done to the state [w]: it has written
    to the log and read at most the one answer. *)
Definition only_asked (w : world) (answer : string) (rest : list string) (w' : world) : Prop :=
  fs w' = fs w /\ cfg w' = cfg w /\ operation_log w' = operation_log w
  /\ trace w' = trace w /\ faults w' = faults w
  /\ (stdin w' = rest \/ stdin w' = answer :: rest).

(** An environment in which no directory can be made (a working
    directory without write permission). *)
Definition fail_mkdir (op : fsop) : bool :=
  match op with FMkdir _ => true | _ => false end.

(** The file operations of a trace, in order. *)
Definition file_operations (t : list event) : list fsop :=
  omap (fun ev => match ev with EvFs op => Some op | EvJournal _ => None end) t.


(** An environment in which adding a file to an archive fails. *)
Definition fail_zip_add (op : fsop) : bool :=
  match op with FZipAdd _ _ => true | _ => false end.

(** One page in a child directory. *)
Definition one_page : node :=
  Dir [("A", Dir [("B", Dir [("0001.jpg", File (Raw "page"))])])].

(** A tree one level deeper than the expected one. *)
Definition deep_tree : node :=
  Dir [("A", Dir [("B", Dir [("C", Dir [("1.jpg", File (Raw "page"))])])])].

(** The tree of the end-to-end scenario. *)
Definition comic : node :=
  Dir [("A", Dir [("B", Dir [("x.png", File (Picture false "RGBA" "x"));
                             ("y.jpg", File (Raw "y"))]);
                  ("C", Dir [("z.jpg", File (Raw "z"))])])].

(** A child directory [A/B] with two pages, listed out of order. *)
Definition two_pages : node :=
  Dir [("A", Dir [("B", Dir [("b.jpg", File (Raw "b")); ("a.jpg", File (Raw "a"))])])].

(** A parent directory [A] whose pages are numbered already (and listed
    out of order, beside a file that is no page), and another parent
    directory whose page is not. *)
Definition numbered_entries : list (string * node) :=
  [("0002.jpg", File (Raw "two")); ("0001.jpg", File (Raw "one"));
   ("notes.txt", File (Raw "notes"))].

Definition numbered_tree : node :=
  Dir [("A", Dir numbered_entries); ("B", Dir [("x.jpg", File (Raw "x"))])].

End Props.

Import Props.

(** ** Vocabulary of the further properties *)

Module Further.

(** The names [safe_rename] tries for the target [dst]: [dst] itself,
    then [<stem>_1<suffix>] to [<stem>_99<suffix>] beside it. *)
Definition numbered_sibling (dst : path) (k : Z) : path :=
  parent dst ++ [stem (name dst) +:+ "_" +:+ dec k +:+ suffix (name dst)].

Definition rename_candidates (dst : path) : list path :=
  dst :: (numbered_sibling dst <$> seqZ 1 99).

Definition is_free (fs : node) (p : path) : bool := negb (exists_ p fs).

(** The paths [d/<start><ext>], [d/<start+1><ext>], ..., [n] of them,
    with the numbers printed as [f"{i:04d}"]. *)
Definition numbered_paths (d : path) (ext : string) (start : Z) (n : nat) : list path :=
  (fun i => d ++ [fmt04 i +:+ ext]) <$> seqZ start (Z.of_nat n).

(** A computation that, whatever its outcome and whatever the
    environment does, leaves every file in place with its content; the
    configuration file, which an answer "a" at a confirmation rewrites,
    is set apart. *)
Definition keeps_files {A : Type} (m : M A) : Prop :=
  forall w q c, q <> config_file ->
    lookup q (fs w) = Some (File c) -> lookup q (fs (m w).2) = Some (File c).

(** A leaf directory [A/B] with a page and a cover whose name ends in
    [.JPEG]. *)
Definition mixed_leaf : node :=
  Dir [("A", Dir [("B", Dir [("0001.jpg", File (Raw "one"));
                             ("Cover.JPEG", File (Raw "cover"))])])].

(** The files of the tree [f0] are found in the tree [f1], each at the
    path [rho] gives for it and with its content, and no two of them
    at the same path: nothing is lost, overwritten or merged. *)
Definition relocates (f0 f1 : node) (rho : path -> path) : Prop :=
  (forall q c, lookup q f0 = Some (File c) -> lookup (rho q) f1 = Some (File c))
  /\ (forall q1 q2 c1 c2,
        lookup q1 f0 = Some (File c1) -> lookup q2 f0 = Some (File c2) ->
        rho q1 = rho q2 -> q1 = q2).

(** A computation that, whatever its outcome and the environment,
    only relocates files. *)
Definition lossless {A : Type} (m : M A) : Prop :=
  forall w, exists rho, relocates (fs w) (fs (m w).2) rho.

(** The same for the files other than the configuration file. *)
Definition relocates_but_config (f0 f1 : node) (rho : path -> path) : Prop :=
  (forall q c, q <> config_file ->
     lookup q f0 = Some (File c) -> lookup (rho q) f1 = Some (File c))
  /\ (forall q1 q2 c1 c2, q1 <> config_file -> q2 <> config_file ->
        lookup q1 f0 = Some (File c1) -> lookup q2 f0 = Some (File c2) ->
        rho q1 = rho q2 -> q1 = q2).

Definition lossless_but_config {A : Type} (m : M A) : Prop :=
  forall w, exists rho, relocates_but_config (fs w) (fs (m w).2) rho.

(** Replacing the prefix [src] of a path by [dst]. *)
Definition rebase (src dst q : path) : path :=
  if bool_decide (src `prefix_of` q) then dst ++ drop (length src) q else q.

(** The files step 1 converts: [convert_list]. *)
Definition convert_list (c : config) (f : node) : list path :=
  List.filter (fun p =>
    negb (in_skip_dir c p)
    && (is_file p f && bool_decide (lsuffix p ∈ image_exts c))
    && negb (is_jpeg_suffix (lsuffix p))) (rglob f).

(** The body of the loop of step 1 over [convert_list]. *)
Definition convert_file (file : path) : M unit :=
  try_catch
    (c <- gets cfg ;;
     if negb (dry_run c) then
       (fault_point (FOpenImage file) ;;
        img <- open_and_convert file ;;
        match img with
        | None => logw INFO "skip animated GIF" [str file]
        | Some rgb_img =>
            let new_path := with_suffix file ".jpg" in
            fs_op (FWrite new_path) (write_file new_path rgb_img) ;;
            record_operation OpDelete file None ;;
            fs_op (FUnlink file) (unlink file) ;;
            logw INFO "converted" [str file; str new_path]
        end)
     else logw INFO "[DRY RUN] would convert" [str file])
    (fun e => logw ERROR "convert failed" [str file; exn_name e]).

(** The picture that [rgb_img.save] writes for the pixels [px]. *)
Definition rgb_picture (px : string) : node := File (Picture false "RGB" px).

(** The body of the loop of step 9 over [zip_files]. *)
Definition rename_to_cbz (zip_file : path) : M unit :=
  let cbz_file := with_suffix zip_file ".cbz" in
  c <- gets cfg ;;
  if negb (dry_run c) then
    try_catch
      (fs_op (FRename zip_file cbz_file) (rename zip_file cbz_file) ;;
       record_operation OpRename zip_file (Some cbz_file) ;;
       logw INFO "renamed" [str zip_file; str cbz_file])
      (fun e => logw ERROR "rename failed" [str zip_file; exn_name e])
  else
    logw INFO "[DRY RUN] would rename" [str zip_file; str cbz_file].

(** What is found at a path, the entries of a directory set apart. *)
Inductive shape : Type :=
| SNone
| SFile (c : content)
| SDir.

Definition shape_at (q : path) (f : node) : shape :=
  match lookup q f with
  | None => SNone
  | Some (File c) => SFile c
  | Some (Dir _) => SDir
  end.

(** Two trees with the same files and the same directories; the order
    in which a directory lists its entries may differ. *)
Definition same_tree (f g : node) : Prop := forall q, shape_at q f = shape_at q g.

(** What [rollback] makes of a tree with the journal [j]. *)
Definition undo (bad : fsop -> bool) (j : list oprecord) (f : node) : node :=
  foldl (fun f op => rollback_effect bad op f) f (rev j).

Definition renames_only (j : list oprecord) : Prop :=
  Forall (fun op => op_operation op = OpRename) j.

(** A state outside dry-run mode, without failing operations and
    without questions at the confirmations, whose journal holds renames
    only and leads [rollback] back to the tree [f0]. *)
Definition undoable (f0 : node) (w : world) : Prop :=
  dry_run (cfg w) = false
  /\ (forall op, faults w op = false)
  /\ skip_step_confirmations (cfg w) || negb (interactive_mode (cfg w)) = true
  /\ renames_only (operation_log w)
  /\ same_tree (undo (faults w) (operation_log w) (fs w)) f0.

(** A computation that keeps a property of the state, whatever its
    outcome. *)
Definition invariant (P : world -> Prop) {A : Type} (m : M A) : Prop :=
  forall w, P w -> P (m w).2.

(** A computation that changes neither the tree, nor the configuration,
    nor the environment, nor the journal. *)
Definition silent {A : Type} (m : M A) : Prop :=
  forall w, fs (m w).2 = fs w /\ cfg (m w).2 = cfg w
            /\ faults (m w).2 = faults w /\ operation_log (m w).2 = operation_log w.



(** A computation that keeps a property of the tree, whatever its
    outcome. *)
Definition preserves (I : node -> Prop) {A : Type} (m : M A) : Prop :=
  forall w, I (fs w) -> I (fs (m w).2).

(** A child directory with a page that has an underscore in its name. *)
Definition underscore_tree : node :=
  Dir [("A", Dir [("B", Dir [("a_1.jpg", File (Raw "a")); ("b.jpg", File (Raw "b"))])])].

(** The body of the inner loop of step 4, for a file of the directory
    named [dir_num]. *)
Definition add_prefix (dir_num : string) (file : path) : M unit :=
  if contains "_" (name file) then ret tt
  else
    let new_name := dir_num +:+ "_" +:+ name file in
    safe_rename file (parent file ++ [new_name]) ;;
    ret tt.

(** The body of the loop of step 4 over [subdirs]. *)
Definition prefix_subdir (sp : path * path) : M unit :=
  let subdir := sp.1 in
  let dir_num := name subdir in
  files <- sorted_jpg_files subdir ;;
  for_each files (add_prefix dir_num).

(** The body of the inner loop of step 5, for a file of a child
    directory of [parent_dir]. *)
Definition move_up (parent_dir file : path) : M unit :=
  try_catch
    (let base_name := name file in
     found <- ask_fs (free_in_parent 101 1 (parent_dir ++ [base_name]) file parent_dir) ;;
     let '(new_path, counter) := found in
     if counter >? 100 then
       logw ERROR "cannot resolve name conflict" [str file]
     else
       c <- gets cfg ;;
       when (negb (dry_run c))
         (fs_op (FMove file new_path) (move file new_path) ;;
          record_operation OpMove file (Some new_path) ;;
          logw INFO "moved" [str file; str new_path]))
    (fun e => logw ERROR "move failed" [str file; exn_name e]).

(** The body of the loop of step 5 over [subdirs]. *)
Definition move_subdir (sp : path * path) : M unit :=
  let '(subdir, parent_dir) := sp in
  files <- sorted_jpg_files subdir ;;
  for_each files (move_up parent_dir).

(** The body of the loop of step 6 over [dirs]. *)
Definition clean_dir (p : path) : M unit :=
  try_catch
    (empty <- dir_is_empty p ;;
     c <- gets cfg ;;
     when (empty && negb (dry_run c))
       (fs_op (FRmdir p) (rmdir p) ;;
        record_operation OpDelete p None ;;
        logw INFO "removed empty directory" [str p]))
    (fun e => logw ERROR "remove directory failed" [str p; exn_name e]).

(** A directory [A/B] that holds nothing but an empty directory, beside
    a directory [A/C] with a file. *)
Definition hollow_tree : node :=
  Dir [("A", Dir [("B", Dir [("E", Dir [])]); ("C", Dir [("z.jpg", File (Raw "z"))])])].

(** A directory with two pages whose natural order is not the order of
    their names as strings. *)
Definition flat_tree : node :=
  Dir [("A", Dir [("p10.jpg", File (Raw "ten")); ("p2.jpg", File (Raw "two"))])].

(** A root directory with two archives and another file. *)
Definition two_archives : node :=
  Dir [("notes.txt", File (Raw "notes"));
       ("a.zip", File (Archive [("0001.jpg", Raw "one")]));
       ("b.zip", File (Archive [("0001.jpg", Raw "two")]))].

End Further.

Import Further.

(** * Properties *)

#[local] Arguments String.append (s1 s2)%_string_scope : simpl nomatch.
Lemma re_split_from_cons b s : exists h t, re_split_from b s = h :: t.
Proof.
  revert b. induction s as [|c r IH]; intros b; simpl.
  - destruct b; eauto.
  - destruct (IH true) as (h1 & t1 & E1), (IH false) as (h2 & t2 & E2).
    rewrite E1, E2. destruct (is_decimal c), b; simpl; eauto.
Qed.

Lemma re_split_alt s :
  alt_pieces false (re_split_from false s) = true
  /\ forall c, is_decimal c = true -> alt_pieces true (cons_head c (re_split_from true s)) = true.
Proof.
  induction s as [|a r [IH1 IH2]]; simpl.
  - split; [done|]. intros c Hc. simpl. by rewrite Hc.
  - destruct (is_decimal a) eqn:Ha.
    + split.
      * simpl. by apply IH2.
      * intros c Hc. specialize (IH2 a Ha).
        destruct (re_split_from_cons true r) as (h & t & E). rewrite E in *.
        simpl in *. rewrite Hc. simpl.
        apply andb_true_iff in IH2 as [IH2 ->].
        apply andb_true_iff in IH2 as [-> _]. done.
    + destruct (re_split_from_cons false r) as (h & t & E). rewrite E in *.
      simpl in *. unfold nondecimal at 1. rewrite Ha. simpl.
      split; [done|]. intros c Hc. rewrite Hc. simpl.
      unfold nondecimal at 1. rewrite Ha. done.
Qed.

Lemma int_acc_decimal s : all_chars is_decimal s = true -> forall a, is_Some (int_acc a s).
Proof.
  induction s as [|c r IH]; simpl; intros H a; [eauto|].
  apply andb_true_iff in H as [-> H]. by apply IH.
Qed.

Lemma all_decimal_digit s : all_chars is_decimal s = true -> all_chars is_digit_char s = true.
Proof.
  induction s as [|c r IH]; simpl; [done|]. intros [H1 H2]%andb_true_iff.
  rewrite (IH H2). unfold is_digit_char. by rewrite H1.
Qed.

Lemma convert_digit_piece p :
  all_chars is_decimal p = true -> p <> "" -> exists z, convert_piece p = Some (KInt z).
Proof.
  intros H Hne. unfold convert_piece, isdigit, int_of.
  destruct p as [|c r]; [done|]. rewrite (all_decimal_digit _ H).
  destruct (int_acc_decimal _ H 0) as [z Hz]. rewrite Hz. eauto.
Qed.

Lemma convert_text_piece p e :
  all_chars nondecimal p = true -> convert_piece p = Some e -> e = KStr (lower p).
Proof.
  intros H. unfold convert_piece, isdigit, int_of.
  destruct p as [|c r]; [by intros [= <-]|].
  simpl in H. apply andb_true_iff in H as [Hc _]. unfold nondecimal in Hc.
  destruct (all_chars _ _); [|by intros [= <-]].
  simpl. destruct (is_decimal c); done.
Qed.

Lemma convert_alt l : forall d k,
  alt_pieces d l = true -> mapM convert_piece l = Some k -> alternating d k = true.
Proof.
  induction l as [|p r IH]; intros d k Ha Hm.
  - by injection Hm as <-.
  - simpl in Ha. apply andb_true_iff in Ha as [Hp Hr].
    rewrite mapM_Some in Hm. destruct k as [|e k']; [by inversion Hm|].
    apply Forall2_cons in Hm as [He Hk]. rewrite <- mapM_Some in Hk.
    simpl. rewrite (IH _ _ Hr Hk), andb_true_r.
    destruct d.
    + apply andb_true_iff in Hp as [Hp Hne].
      destruct (convert_digit_piece p Hp) as [z Hz].
      { intros ->. done. }
      rewrite Hz in He. by injection He as <-.
    + by rewrite (convert_text_piece _ _ Hp He).
Qed.

Lemma natural_sort_key_alternating name : alternating false (natural_sort_key name) = true.
Proof.
  unfold natural_sort_key. destruct (natural_sort_key_try name) as [k|] eqn:E; [|done].
  eapply convert_alt; [|exact E]. apply re_split_alt.
Qed.

Lemma key_lt_alternating k1 : forall k2 d,
  alternating d k1 = true -> alternating d k2 = true -> is_Some (key_lt k1 k2).
Proof.
  induction k1 as [|a r1 IH]; intros [|b r2] d H1 H2; simpl; eauto.
  simpl in *. apply andb_true_iff in H1 as [Ha H1], H2 as [Hb H2].
  destruct (kelem_eqb a b); [by eapply IH|].
  destruct d, a, b; simpl in *; try done; eauto.
Qed.

Lemma insert_by_total {A} (f : A -> key) :
  (forall a b, is_Some (key_lt (f a) (f b))) -> forall x l, is_Some (insert_by f x l).
Proof.
  intros H x l. induction l as [|y r IH]; simpl; [eauto|].
  destruct (H y x) as [b ->]. simpl. destruct b; [|eauto].
  destruct IH as [l' ->]. simpl. eauto.
Qed.

Lemma sorted_by_total {A} (f : A -> key) :
  (forall a b, is_Some (key_lt (f a) (f b))) -> forall l, is_Some (sorted_by f l).
Proof.
  intros H l. induction l as [|x r IH]; simpl; [eauto|].
  destruct IH as [l' ->]. simpl. by apply insert_by_total.
Qed.


(** *** The sort is a permutation *)

Lemma insert_by_Permutation {A} (f : A -> key) x l l' :
  insert_by f x l = Some l' -> l' ≡ₚ x :: l.
Proof.
  revert l'. induction l as [|y r IH]; intros l'; simpl.
  - by intros [= <-].
  - destruct (key_lt (f y) (f x)) as [[]|]; simpl; [|by intros [= <-]|done].
    destruct (insert_by f x r) as [r'|]; simpl; [|done]. intros [= <-].
    rewrite (IH r' eq_refl). apply Permutation_swap.
Qed.

Lemma sorted_by_Permutation {A} (f : A -> key) l l' :
  sorted_by f l = Some l' -> l' ≡ₚ l.
Proof.
  revert l'. induction l as [|x r IH]; intros l'; simpl.
  - by intros [= <-].
  - destruct (sorted_by f r) as [r'|]; simpl; [|done]. intros H.
    rewrite (insert_by_Permutation _ _ _ _ H). by rewrite (IH r' eq_refl).
Qed.

(** *** Characters *)

Ltac by_cases_on_char c :=
  destruct c as [[] [] [] [] [] [] [] []]; vm_compute; try reflexivity; try discriminate.

Lemma is_decimal_lower c : is_decimal (lower_char c) = is_decimal c.
Proof. by_cases_on_char c. Qed.

Lemma is_digit_char_lower c : is_digit_char (lower_char c) = is_digit_char c.
Proof. by_cases_on_char c. Qed.

Lemma lower_char_idem c : lower_char (lower_char c) = lower_char c.
Proof. by_cases_on_char c. Qed.

Lemma lower_char_decimal c : is_decimal c = true -> lower_char c = c.
Proof. by_cases_on_char c. Qed.

Lemma lower_idem s : lower (lower s) = lower s.
Proof. induction s as [|c r IH]; simpl; [done|]. by rewrite lower_char_idem, IH. Qed.

Lemma lower_app s t : lower (s +:+ t) = lower s +:+ lower t.
Proof. induction s as [|c r IH]; simpl; [done|]. by rewrite IH. Qed.

Lemma all_chars_lower_digit s : all_chars is_digit_char (lower s) = all_chars is_digit_char s.
Proof. induction s as [|c r IH]; simpl; [done|]. by rewrite is_digit_char_lower, IH. Qed.

Lemma isdigit_lower s : isdigit (lower s) = isdigit s.
Proof.
  destruct s as [|c r]; [done|]. unfold isdigit. simpl.
  by rewrite is_digit_char_lower, all_chars_lower_digit.
Qed.

Lemma int_acc_lower s : forall a, int_acc a (lower s) = int_acc a s.
Proof.
  induction s as [|c r IH]; intros a; simpl; [done|].
  rewrite is_decimal_lower. destruct (is_decimal c) eqn:E; [|done].
  by rewrite (lower_char_decimal _ E), IH.
Qed.

Lemma int_of_lower s : int_of (lower s) = int_of s.
Proof. destruct s as [|c r]; [done|]. apply (int_acc_lower (String c r)). Qed.

Lemma convert_piece_lower p : convert_piece (lower p) = convert_piece p.
Proof.
  unfold convert_piece. by rewrite isdigit_lower, int_of_lower, lower_idem.
Qed.

Lemma cons_head_lower c l :
  cons_head (lower_char c) (lower <$> l) = lower <$> cons_head c l.
Proof. by destruct l. Qed.

Lemma re_split_from_lower s : forall b,
  re_split_from b (lower s) = lower <$> re_split_from b s.
Proof.
  induction s as [|c r IH]; intros b; simpl.
  - by destruct b.
  - rewrite is_decimal_lower, !IH, !cons_head_lower.
    by destruct (is_decimal c), b.
Qed.

Lemma mapM_convert_lower l :
  mapM convert_piece (lower <$> l) = mapM convert_piece l.
Proof.
  induction l as [|p r IH]; [done|].
  cbn [fmap list_fmap mapM]. by rewrite convert_piece_lower, IH.
Qed.

Lemma natural_sort_key_lower s : natural_sort_key (lower s) = natural_sort_key s.
Proof.
  unfold natural_sort_key, natural_sort_key_try, re_split.
  rewrite re_split_from_lower, mapM_convert_lower, lower_idem. done.
Qed.

(** Two names that differ only by case have the same key. *)
Lemma natural_sort_key_case a b : lower a = lower b -> natural_sort_key a = natural_sort_key b.
Proof.
  intros H. by rewrite <- (natural_sort_key_lower a), <- (natural_sort_key_lower b), H.
Qed.

(** The pieces of [re.split] put together give the name back. *)
Lemma flatten_cons_head c l : l <> [] -> flatten (cons_head c l) = String c (flatten l).
Proof. by destruct l. Qed.

Lemma flatten_re_split_from s : forall b, flatten (re_split_from b s) = s.
Proof.
  induction s as [|c r IH]; intros b; simpl.
  - by destruct b.
  - assert (forall b', flatten (cons_head c (re_split_from b' r)) = String c r) as H.
    { intros b'. rewrite flatten_cons_head, IH; [done|].
      destruct (re_split_from_cons b' r) as (h & t & ->). done. }
    destruct (is_decimal c), b; simpl; by rewrite ?H.
Qed.

(** *** Strings *)

Lemma str_app_assoc s t u : (s +:+ t) +:+ u = s +:+ (t +:+ u).
Proof. induction s as [|c r IH]; simpl; congruence. Qed.

Lemma str_app_nil_r s : s +:+ "" = s.
Proof. induction s as [|c r IH]; simpl; congruence. Qed.

Lemma str_length_app s t : String.length (s +:+ t) = (String.length s + String.length t)%nat.
Proof. induction s as [|c r IH]; simpl; congruence. Qed.

(** *** Decimal printing and reading *)

Lemma digit_char_spec d :
  0 <= d <= 9 -> is_decimal (digit_char d) = true /\ digit_value (digit_char d) = d.
Proof.
  intros H.
  assert (d = 0 \/ d = 1 \/ d = 2 \/ d = 3 \/ d = 4 \/ d = 5 \/ d = 6 \/ d = 7 \/ d = 8 \/ d = 9)
    as Hd by lia.
  repeat (destruct Hd as [-> | Hd]); try subst d; by vm_compute.
Qed.

Lemma int_acc_app s t : forall a, int_acc a (s +:+ t) = int_acc a s ≫= fun v => int_acc v t.
Proof. induction s as [|c r IH]; intros a; simpl; [done|]. destruct (is_decimal c); [apply IH|done]. Qed.

Lemma all_chars_app p s t : all_chars p (s +:+ t) = all_chars p s && all_chars p t.
Proof. induction s as [|c r IH]; simpl; [done|]. by rewrite IH, andb_assoc. Qed.

Lemma dec_digits_spec f : forall n acc,
  0 <= n < 2 ^ Z.of_nat f ->
  exists d, dec_digits f n acc = d +:+ acc
            /\ all_chars is_decimal d = true
            /\ (forall a, int_acc a d = Some (a * 10 ^ Z.of_nat (String.length d) + n))
            /\ (f <> O -> d <> "").
Proof.
  induction f as [|f IH]; intros n acc Hn.
  - exists "". simpl in *. repeat split; try done. intros a. f_equal. lia.
  - cbn [dec_digits].
    assert (0 <= n mod 10 <= 9) as Hm by (pose proof (Z.mod_pos_bound n 10); lia).
    destruct (digit_char_spec _ Hm) as [Hd Hv].
    destruct (n / 10 =? 0) eqn:Hq.
    + apply Z.eqb_eq in Hq. exists (String (digit_char (n mod 10)) "").
      repeat split; try done.
      * simpl. by rewrite Hd.
      * intros a. simpl. rewrite Hd, Hv. f_equal.
        pose proof (Z.div_mod n 10). lia.
    + apply Z.eqb_neq in Hq.
      destruct (IH (n / 10) (String (digit_char (n mod 10)) acc)) as (d & E & Hall & Hval & _).
      { split; [apply Z.div_pos; lia|].
        rewrite Nat2Z.inj_succ, Z.pow_succ_r in Hn by lia.
        apply Z.div_lt_upper_bound; lia. }
      exists (d +:+ String (digit_char (n mod 10)) "").
      rewrite E. repeat split.
      * by rewrite str_app_assoc.
      * rewrite all_chars_app, Hall. simpl. by rewrite Hd.
      * intros a. rewrite int_acc_app, Hval. simpl. rewrite Hd, Hv. f_equal.
        rewrite str_length_app. simpl.
        rewrite Nat2Z.inj_add, Z.pow_add_r by lia. simpl Z.of_nat.
        pose proof (Z.div_mod n 10). lia.
      * intros _. destruct d; done.
Qed.

Lemma dec_spec n :
  0 <= n ->
  all_chars is_decimal (dec n) = true /\ int_acc 0 (dec n) = Some n /\ dec n <> "".
Proof.
  intros Hn. unfold dec.
  destruct (dec_digits_spec (S (Z.to_nat (Z.log2 n))) n "") as (d & E & Hall & Hval & Hne).
  { split; [done|]. rewrite Nat2Z.inj_succ, Z2Nat.id by apply Z.log2_nonneg.
    destruct (decide (n = 0)) as [->|]; [done|]. apply Z.log2_spec. lia. }
  rewrite E, str_app_nil_r.
  split; [done|]. split; [|by apply Hne]. rewrite Hval. f_equal; lia.
Qed.

Lemma zeros_decimal k : all_chars is_decimal (zeros k) = true.
Proof. induction k; simpl; [done|]. by rewrite IHk. Qed.

Lemma int_acc_zeros k s : int_acc 0 (zeros k +:+ s) = int_acc 0 s.
Proof. induction k; simpl; [done|]. exact IHk. Qed.

Lemma zfill_spec w n :
  0 <= n ->
  all_chars is_decimal (zfill w (dec n)) = true
  /\ int_acc 0 (zfill w (dec n)) = Some n
  /\ zfill w (dec n) <> "".
Proof.
  intros Hn. destruct (dec_spec n Hn) as (Hall & Hval & Hne). unfold zfill.
  split; [|split].
  - by rewrite all_chars_app, zeros_decimal, Hall.
  - by rewrite int_acc_zeros.
  - destruct (zeros _); [done|]. done.
Qed.

Lemma unfmt_fmt04 n : unfmt (fmt04 n) = Some n.
Proof.
  unfold fmt04. destruct (n <? 0) eqn:E.
  - apply Z.ltb_lt in E. destruct (zfill_spec 3 (- n)) as (_ & Hval & _); [lia|].
    simpl. rewrite Hval. simpl. f_equal. lia.
  - apply Z.ltb_ge in E. destruct (zfill_spec 4 n E) as (Hall & Hval & Hne).
    unfold unfmt. destruct (zfill 4 (dec n)) as [|c r] eqn:Ez; [done|].
    simpl in Hall. apply andb_true_iff in Hall as [Hc _].
    assert (c <> "-"%char) by (intros ->; done).
    destruct c as [[] [] [] [] [] [] [] []]; try done.
Qed.

Lemma fmt04_inj n m : fmt04 n = fmt04 m -> n = m.
Proof.
  intros H. pose proof (unfmt_fmt04 n) as Hn. rewrite H, unfmt_fmt04 in Hn. congruence.
Qed.

(** The formatted number is a non-empty run of decimal digits whose
    value is the number. *)
Lemma fmt04_spec n :
  0 <= n ->
  all_chars is_decimal (fmt04 n) = true /\ int_acc 0 (fmt04 n) = Some n /\ fmt04 n <> "".
Proof.
  intros Hn. unfold fmt04. destruct (n <? 0) eqn:E; [apply Z.ltb_lt in E; lia|].
  by apply zfill_spec.
Qed.

Lemma length_zeros k : String.length (zeros k) = k.
Proof. induction k; simpl; congruence. Qed.

Lemma length_dec_digits f : forall n acc k,
  (1 <= k)%nat -> 0 <= n < 10 ^ Z.of_nat k ->
  (String.length (dec_digits f n acc) <= k + String.length acc)%nat.
Proof.
  induction f as [|f IH]; intros n acc k Hk Hn; simpl; [lia|].
  destruct (n / 10 =? 0) eqn:Hq; [simpl; lia|].
  apply Z.eqb_neq in Hq.
  destruct k as [|[|k]]; [lia| |].
  - exfalso. apply Hq. apply Z.div_small. simpl in Hn. lia.
  - etrans; [apply (IH _ _ (S k))|simpl; lia]; [lia|].
    split; [apply Z.div_pos; lia|].
    apply Z.div_lt_upper_bound; [lia|].
    rewrite (Nat2Z.inj_succ (S k)), Z.pow_succ_r in Hn by lia. lia.
Qed.

Lemma length_dec_lower f : forall n acc,
  (String.length acc <= String.length (dec_digits f n acc))%nat.
Proof.
  induction f as [|f IH]; intros n acc; simpl; [lia|].
  destruct (n / 10 =? 0); [simpl; lia|].
  etrans; [|apply IH]. simpl. lia.
Qed.

(** Numbers from 0 to 9999 are printed with exactly four characters. *)
Lemma length_fmt04 n : 0 <= n <= 9999 -> String.length (fmt04 n) = 4%nat.
Proof.
  intros Hn. unfold fmt04. destruct (n <? 0) eqn:E; [apply Z.ltb_lt in E; lia|].
  unfold zfill. rewrite str_length_app, length_zeros.
  pose proof (length_dec_digits (S (Z.to_nat (Z.log2 n))) n "" 4 ltac:(lia) ltac:(simpl; lia)) as H.
  fold (dec n) in H. simpl in H. lia.
Qed.

(** *** The key of a name made of a text, a number and a text *)

Lemma re_split_text s : all_chars nondecimal s = true -> re_split_from false s = [s].
Proof.
  induction s as [|c r IH]; simpl; [done|]. unfold nondecimal at 1.
  intros [Hc Hr]%andb_true_iff. apply negb_true_iff in Hc. by rewrite Hc, IH.
Qed.

Lemma re_split_from_true_text s :
  all_chars nondecimal s = true -> re_split_from true s = [""; s].
Proof.
  destruct s as [|c r]; simpl; [done|]. unfold nondecimal at 1.
  intros [Hc Hr]%andb_true_iff. apply negb_true_iff in Hc.
  by rewrite Hc, re_split_text.
Qed.

Lemma re_split_from_true_digits d s :
  all_chars is_decimal d = true -> all_chars nondecimal s = true ->
  re_split_from true (d +:+ s) = [d; s].
Proof.
  intros Hd Hs. induction d as [|c r IH]; simpl.
  - by rewrite re_split_from_true_text.
  - simpl in Hd. apply andb_true_iff in Hd as [Hc Hr]. by rewrite Hc, IH.
Qed.

Lemma re_split_text_digits_text p d s :
  all_chars nondecimal p = true -> all_chars is_decimal d = true -> d <> "" ->
  all_chars nondecimal s = true ->
  re_split (p +:+ d +:+ s) = [p; d; s].
Proof.
  intros Hp Hd Hne Hs. unfold re_split. induction p as [|c r IH]; simpl.
  - destruct d as [|c r]; [done|]. simpl in *.
    apply andb_true_iff in Hd as [Hc Hr]. by rewrite Hc, re_split_from_true_digits.
  - simpl in Hp. unfold nondecimal at 1 in Hp.
    apply andb_true_iff in Hp as [Hc Hr]. apply negb_true_iff in Hc.
    by rewrite Hc, IH.
Qed.

Lemma nondigit_nondecimal s : all_chars nondigit s = true -> all_chars nondecimal s = true.
Proof.
  induction s as [|c r IH]; simpl; [done|]. intros [Hc Hr]%andb_true_iff.
  rewrite (IH Hr), andb_true_r. unfold nondigit, is_digit_char in Hc. unfold nondecimal.
  by destruct (is_decimal c).
Qed.

Lemma nondigit_isdigit s : all_chars nondigit s = true -> isdigit s = false.
Proof.
  destruct s as [|c r]; [done|]. simpl. intros [Hc _]%andb_true_iff.
  unfold nondigit in Hc. apply negb_true_iff in Hc. by rewrite Hc.
Qed.

Lemma convert_piece_text s :
  all_chars nondigit s = true -> convert_piece s = Some (KStr (lower s)).
Proof. intros H. unfold convert_piece. by rewrite nondigit_isdigit. Qed.

Lemma convert_piece_digits d v :
  all_chars is_decimal d = true -> d <> "" -> int_acc 0 d = Some v ->
  convert_piece d = Some (KInt v).
Proof.
  intros Hd Hne Hv. unfold convert_piece, isdigit, int_of.
  destruct d as [|c r]; [done|]. by rewrite (all_decimal_digit _ Hd), Hv.
Qed.

Lemma natural_sort_key_text_digits_text p d s v :
  all_chars nondigit p = true -> all_chars is_decimal d = true -> d <> "" ->
  int_acc 0 d = Some v -> all_chars nondigit s = true ->
  natural_sort_key (p +:+ d +:+ s) = [KStr (lower p); KInt v; KStr (lower s)].
Proof.
  intros Hp Hd Hne Hv Hs. unfold natural_sort_key, natural_sort_key_try.
  rewrite re_split_text_digits_text by auto using nondigit_nondecimal.
  cbn [mapM]. rewrite (convert_piece_text p), (convert_piece_digits d v), (convert_piece_text s) by done.
  done.
Qed.

(** The key of [f"{n:04d}"] followed by an extension. *)
Lemma natural_sort_key_numbered n ext :
  0 <= n -> all_chars nondigit ext = true ->
  natural_sort_key (fmt04 n +:+ ext) = [KStr ""; KInt n; KStr (lower ext)].
Proof.
  intros Hn Hext. destruct (fmt04_spec n Hn) as (Hd & Hv & Hne).
  by apply (natural_sort_key_text_digits_text "" (fmt04 n) ext n).
Qed.

Lemma kelem_eqb_refl e : kelem_eqb e e = true.
Proof. destruct e; simpl; [apply String.eqb_refl|apply Z.eqb_refl]. Qed.

(** Two names that differ in one number are ordered as the numbers are. *)
Lemma key_lt_by_number p s n m :
  all_chars nondigit p = true -> all_chars nondigit s = true ->
  0 <= n -> 0 <= m -> n <> m ->
  key_lt (natural_sort_key (p +:+ dec n +:+ s)) (natural_sort_key (p +:+ dec m +:+ s))
  = Some (n <? m).
Proof.
  intros Hp Hs Hn Hm Hne.
  destruct (dec_spec n Hn) as (Hd1 & Hv1 & Hne1), (dec_spec m Hm) as (Hd2 & Hv2 & Hne2).
  rewrite (natural_sort_key_text_digits_text p (dec n) s n),
          (natural_sort_key_text_digits_text p (dec m) s m) by done.
  simpl. rewrite String.eqb_refl. by apply Z.eqb_neq in Hne as ->.
Qed.

(** *** The numbering loop *)

Lemma next_free_fuel_spec f used n :
  let r := next_free_fuel f used n in
  n <= r <= n + Z.of_nat f
  /\ (forall m, n <= m < r -> fmt04 m ∈ used)
  /\ (r < n + Z.of_nat f -> fmt04 r ∉ used).
Proof.
  revert n. induction f as [|f IH]; intros n; cbn [next_free_fuel]; cbv zeta.
  - split; [lia|]. split; intros; lia.
  - destruct (decide (fmt04 n ∈ used)) as [Hin|Hout].
    + specialize (IH (n + 1)). cbv zeta in IH. destruct IH as (Hr & Hbelow & Hfree).
      split; [lia|]. split.
      * intros m Hm. destruct (decide (m = n)) as [->|]; [done|]. apply Hbelow. lia.
      * intros Hlt. apply Hfree. lia.
    + split; [lia|]. split; [intros; lia|done].
Qed.

Lemma fmt04_range_size (used : gset string) n k :
  (forall m, n <= m < n + Z.of_nat k -> fmt04 m ∈ used) -> (k <= size used)%nat.
Proof.
  intros H.
  assert (NoDup (fmt04 <$> seqZ n (Z.of_nat k))) as Hnd.
  { apply NoDup_fmap_2; [intros x y; apply fmt04_inj|]. apply NoDup_seqZ. }
  assert (list_to_set (fmt04 <$> seqZ n (Z.of_nat k)) ⊆ used) as Hsub.
  { intros s Hs. apply elem_of_list_to_set, list_elem_of_fmap in Hs as (m & -> & Hm).
    apply elem_of_seqZ in Hm. apply H. lia. }
  apply subseteq_size in Hsub. rewrite size_list_to_set in Hsub by done.
  rewrite length_fmap, length_seqZ in Hsub. lia.
Qed.

(** The [while] loop stops at the first number from [new_num] on whose
    formatted form is not in [used_numbers]. *)
Lemma next_free_spec used n :
  n <= next_free used n
  /\ (fmt04 (next_free used n) ∉ used)
  /\ (forall m, n <= m < next_free used n -> fmt04 m ∈ used).
Proof.
  unfold next_free.
  pose proof (next_free_fuel_spec (S (size used)) used n) as H. cbv zeta in H.
  destruct H as (Hr & Hbelow & Hfree).
  split; [lia|]. split; [|done].
  apply Hfree.
  destruct (decide (next_free_fuel (S (size used)) used n < n + Z.of_nat (S (size used))))
    as [|Hge]; [done|].
  pose proof (fmt04_range_size used n (S (size used))) as Hsz.
  assert (S (size used) <= size used)%nat; [|lia].
  apply Hsz. intros m Hm. apply Hbelow. lia.
Qed.

Lemma next_free_unused used n : fmt04 n ∉ used -> next_free used n = n.
Proof.
  intros H. unfold next_free. cbn [next_free_fuel]. by destruct (decide _).
Qed.

Lemma bind_ret_l {A B} (a : A) (k : A -> M B) w : bind (ret a) k w = k a w.
Proof. done. Qed.

Lemma bind_assoc {A B C} (m : M A) (k : A -> M B) (h : B -> M C) w :
  bind (bind m k) h w = bind m (fun a => bind (k a) h) w.
Proof. unfold bind. by destruct (m w) as [[a|e] w']. Qed.

Lemma bind_cong {A B} (m : M A) (k k' : A -> M B) w :
  (forall a w', k a w' = k' a w') -> bind m k w = bind m k' w.
Proof. intros H. unfold bind. destruct (m w) as [[a|e] w']; [apply H|done]. Qed.

Lemma number_loop_plan where_ ext start items : forall idx used w,
  0 <= idx ->
  (forall s, s ∈ used -> exists j, 0 <= j < idx /\ s = fmt04 (start + j)) ->
  number_loop where_ ext start idx used items w
  = run_numbering where_ ext start idx (Z.to_nat (10000 - idx)) items w.
Proof.
  induction items as [|item r IH]; intros idx used w Hidx Hused.
  - unfold run_numbering. rewrite take_nil. done.
  - cbn [number_loop]. cbv zeta.
    rewrite next_free_unused.
    2:{ intros (j & Hj & E)%Hused. apply fmt04_inj in E. lia. }
    destruct (start + 10000 <=? start + idx) eqn:Hlim.
    + apply Z.leb_le in Hlim. unfold run_numbering.
      replace (Z.to_nat (10000 - idx)) with O by lia.
      rewrite take_0. cbn [numbered_targets for_each].
      rewrite bind_ret_l. unfold when. rewrite bool_decide_true; [done|cbn [length]; lia].
    + apply Z.leb_gt in Hlim. unfold run_numbering.
      replace (Z.to_nat (10000 - idx)) with (S (Z.to_nat (10000 - (idx + 1)))) by lia.
      cbn [take numbered_targets for_each]. cbn [fst snd].
      rewrite !bind_assoc. apply bind_cong. intros _ w'.
      rewrite bind_ret_l, IH.
      * unfold run_numbering. apply bind_cong. intros _ w''.
        unfold when. cbn [length].
        destruct (bool_decide (Z.to_nat (10000 - (idx + 1)) < length r)%nat) eqn:E.
        -- apply bool_decide_eq_true in E. rewrite bool_decide_true by lia. done.
        -- apply bool_decide_eq_false in E. rewrite bool_decide_false by lia. done.
      * lia.
      * intros s [->%elem_of_singleton|Hs]%elem_of_union.
        -- exists idx. split; [lia|done].
        -- destruct (Hused s Hs) as (j & Hj & ->). exists j. split; [lia|done].
Qed.

Lemma numbered_targets_fst where_ ext start items : forall idx,
  (numbered_targets where_ ext start idx items).*1 = items.
Proof. induction items as [|x r IH]; intros idx; simpl; [done|]. by rewrite IH. Qed.

Lemma numbered_targets_elem where_ ext start items : forall idx sd,
  sd ∈ numbered_targets where_ ext start idx items ->
  exists j, idx <= j /\ sd.2 = where_ ++ [fmt04 (start + j) +:+ ext].
Proof.
  induction items as [|x r IH]; intros idx sd; simpl.
  - by intros ?%elem_of_nil.
  - intros [->|H]%elem_of_cons.
    + exists idx. split; [lia|done].
    + destruct (IH _ _ H) as (j & Hj & E). exists j. split; [lia|done].
Qed.

Lemma str_app_inv_r s t ext : s +:+ ext = t +:+ ext -> s = t.
Proof.
  revert t. induction s as [|c r IH]; intros [|d u] H; [done| | |].
  - apply (f_equal String.length) in H. rewrite !str_length_app in H. simpl in H. lia.
  - apply (f_equal String.length) in H. rewrite !str_length_app in H. simpl in H. lia.
  - simpl in H. injection H as -> H. f_equal. by apply IH.
Qed.

(** The planned names are pairwise distinct. *)
Lemma numbered_targets_NoDup where_ ext start items : forall idx,
  NoDup (numbered_targets where_ ext start idx items).*2.
Proof.
  induction items as [|x r IH]; intros idx; simpl; [constructor|].
  constructor; [|apply IH].
  intros (sd & E & Hsd)%list_elem_of_fmap.
  destruct (numbered_targets_elem _ _ _ _ _ _ Hsd) as (j & Hj & E2).
  pose proof (eq_trans E E2) as E3. apply app_inv_head in E3. injection E3 as E3.
  apply str_app_inv_r, fmt04_inj in E3. lia.
Qed.

Lemma bind_ret_l_gets {A B} (f : world -> A) (k : A -> M B) w :
  bind (gets f) k w = k (f w) w.
Proof. done. Qed.

Lemma bind_ret_l_gets_pair {A B} (f : world -> A) (k : A -> M B) w :
  (bind (gets f) k w).2 = (k (f w) w).2.
Proof. done. Qed.

Lemma bind_Ok {A B} (m : M A) (k : A -> M B) w a w1 :
  m w = (Ok a, w1) -> bind m k w = k a w1.
Proof. intros H. unfold bind. by rewrite H. Qed.

Lemma bind_Raise {A B} (m : M A) (k : A -> M B) w e w1 :
  m w = (Raise e, w1) -> bind m k w = (Raise e, w1).
Proof. intros H. unfold bind. by rewrite H. Qed.

Lemma try_catch_Ok {A} (m : M A) h w a w1 :
  m w = (Ok a, w1) -> try_catch m h w = (Ok a, w1).
Proof. intros H. unfold try_catch. by rewrite H. Qed.

Lemma try_catch_Raise {A} (m : M A) h w e w1 :
  m w = (Raise e, w1) -> try_catch m h w = h e w1.
Proof. intros H. unfold try_catch. by rewrite H. Qed.

Lemma bind_ret_l_modify {B} (f : world -> world) (k : unit -> M B) w :
  bind (modify f) k w = k tt (f w).
Proof. done. Qed.

(** *** Tactics for the state monad *)

Ltac unfold_M :=
  cbv [run bind ret when try_catch gets ask_fs read_fs modify logw
       record_operation fs_op fault_point raise lift_res].

Ltac simpl_w :=
  cbn [fs cfg operation_log log trace clock stdin rand faults
       with_fs with_cfg with_operation_log with_log with_trace with_clock
       with_stdin with_rand fst snd negb andb orb] in *.

(** *** Entries of a directory *)

Lemma assoc_set_entry_eq {A} x (a : A) es : assoc x (set_entry x a es) = Some a.
Proof.
  induction es as [|[y b] r IH]; simpl.
  - by rewrite bool_decide_true.
  - destruct (bool_decide (x = y)) eqn:E; simpl; rewrite E; [done|apply IH].
Qed.

Lemma assoc_set_entry_ne {A} x y (a : A) es :
  x <> y -> assoc y (set_entry x a es) = assoc y es.
Proof.
  intros Hne. induction es as [|[z b] r IH]; simpl.
  - by rewrite bool_decide_false.
  - destruct (bool_decide (x = z)) eqn:E; simpl.
    + apply bool_decide_eq_true in E as <-. by rewrite !bool_decide_false.
    + by rewrite IH.
Qed.


Lemma assoc_remove_entry_eq {A} x (es : list (string * A)) : assoc x (remove_entry x es) = None.
Proof.
  induction es as [|[y b] r IH]; simpl; [done|].
  destruct (bool_decide (y = x)) eqn:E; simpl; [done|].
  apply bool_decide_eq_false in E. rewrite bool_decide_false by congruence. done.
Qed.

Lemma assoc_remove_entry_ne {A} x y (es : list (string * A)) :
  x <> y -> assoc y (remove_entry x es) = assoc y es.
Proof.
  intros Hne. induction es as [|[z b] r IH]; simpl; [done|].
  destruct (bool_decide (z = x)) eqn:E; simpl.
  - apply bool_decide_eq_true in E as ->. by rewrite bool_decide_false by congruence.
  - by rewrite IH.
Qed.

(** *** Lookup in the tree *)

Lemma lookup_app p q fs : lookup (p ++ q) fs = lookup p fs ≫= lookup q.
Proof.
  revert fs. induction p as [|x p IH]; intros fs; simpl; [done|].
  destruct fs as [c|es]; [done|]. destruct (assoc x es) as [n|]; simpl; [apply IH|done].
Qed.

Lemma lookup_prefix_is_Some p q fs :
  p `prefix_of` q -> is_Some (lookup q fs) -> is_Some (lookup p fs).
Proof.
  intros [k ->]. rewrite lookup_app. destruct (lookup p fs); [eauto|]. by intros [? ?].
Qed.

Lemma lookup_under_file p x r c fs :
  lookup p fs = Some (File c) -> lookup (p ++ x :: r) fs = None.
Proof. intros H. by rewrite lookup_app, H. Qed.

Lemma split_last_snoc d x : split_last (d ++ [x]) = Some (d, x).
Proof.
  induction d as [|y d IH]; [done|]. cbn [app split_last].
  destruct (d ++ [x]) as [|z k] eqn:E; [by destruct d|].
  by rewrite IH.
Qed.

Lemma split_last_Some p d x : split_last p = Some (d, x) -> p = d ++ [x].
Proof.
  revert d. induction p as [|y p IH]; intros d; simpl; [done|].
  destruct p as [|z p']; [by intros [= <- <-]|].
  destruct (split_last (z :: p')) as [[d' x']|] eqn:E; simpl; [|done].
  intros [= <- <-]. by rewrite (IH d').
Qed.

Lemma parent_snoc d x : parent (d ++ [x]) = d.
Proof. unfold parent. by rewrite split_last_snoc. Qed.

Lemma name_snoc d x : name (d ++ [x]) = x.
Proof. unfold name. by rewrite split_last_snoc. Qed.

(** *** Updating the entries of a directory *)

Lemma update_dir_is_Some p f fs es :
  lookup p fs = Some (Dir es) -> is_Some (update_dir p f fs).
Proof.
  revert fs. induction p as [|x p IH]; intros fs; simpl.
  - intros [= ->]. eauto.
  - destruct fs as [c|es0]; [done|]. destruct (assoc x es0) as [n|]; simpl; [|done].
    intros H. destruct (IH _ H) as [n' ->]. simpl. eauto.
Qed.

Lemma update_dir_Some p f fs fs' :
  update_dir p f fs = Some fs' ->
  exists es, lookup p fs = Some (Dir es) /\ lookup p fs' = Some (Dir (f es)).
Proof.
  revert fs fs'. induction p as [|x p IH]; intros fs fs'; simpl.
  - destruct fs as [c|es]; [done|]. intros [= <-]. eauto.
  - destruct fs as [c|es0]; [done|]. destruct (assoc x es0) as [n|] eqn:E; simpl; [|done].
    destruct (update_dir p f n) as [n'|] eqn:U; simpl; [|done]. intros [= <-].
    simpl. rewrite assoc_set_entry_eq. simpl. by apply IH.
Qed.

Lemma update_dir_below p f fs fs' es x r :
  update_dir p f fs = Some fs' -> lookup p fs = Some (Dir es) ->
  lookup (p ++ x :: r) fs' = assoc x (f es) ≫= lookup r.
Proof.
  intros U L. destruct (update_dir_Some _ _ _ _ U) as (es' & L1 & L2).
  rewrite L in L1. injection L1 as <-. by rewrite lookup_app, L2.
Qed.

Lemma update_dir_frame p f : forall fs fs' q,
  update_dir p f fs = Some fs' ->
  ~ p `prefix_of` q -> ~ q `prefix_of` p ->
  lookup q fs' = lookup q fs.
Proof.
  induction p as [|x p IH]; intros fs fs' q U Hpq Hqp.
  - exfalso. apply Hpq. apply prefix_nil.
  - simpl in U. destruct fs as [c|es0]; [done|].
    destruct (assoc x es0) as [n|] eqn:E; simpl in U; [|done].
    destruct (update_dir p f n) as [n'|] eqn:Un; simpl in U; [|done].
    injection U as <-.
    destruct q as [|y q]; [exfalso; apply Hqp, prefix_nil|].
    simpl. destruct (decide (x = y)) as [<-|Hne].
    + rewrite assoc_set_entry_eq, E. simpl. eapply IH; [done| |].
      * intros Hp. apply Hpq. by apply prefix_cons.
      * intros Hq. apply Hqp. by apply prefix_cons.
    + by rewrite assoc_set_entry_ne.
Qed.

(** *** [put] and [remove] *)

Lemma put_is_Some d x n fs es :
  lookup d fs = Some (Dir es) -> is_Some (put (d ++ [x]) n fs).
Proof.
  intros H. unfold put. rewrite split_last_snoc. simpl. by eapply update_dir_is_Some.
Qed.

Lemma remove_is_Some d x fs es :
  lookup d fs = Some (Dir es) -> is_Some (remove (d ++ [x]) fs).
Proof.
  intros H. unfold remove. rewrite split_last_snoc. simpl. by eapply update_dir_is_Some.
Qed.

Lemma incomparable_parent (d : path) (x : string) (q : path) :
  ~ (d ++ [x]) `prefix_of` q -> ~ q `prefix_of` (d ++ [x]) ->
  (exists y r, q = d ++ y :: r /\ y <> x) \/ (~ d `prefix_of` q /\ ~ q `prefix_of` d).
Proof.
  intros H1 H2. destruct (decide (d `prefix_of` q)) as [[k ->]|Hd].
  - left. destruct k as [|y r].
    + exfalso. apply H2. rewrite app_nil_r. by apply prefix_app_r.
    + exists y, r. split; [done|]. intros ->. apply H1.
      apply prefix_app, (prefix_cons _ [] r), prefix_nil.
  - right. split; [done|]. intros Hq. apply H2. by apply prefix_app_r.
Qed.

Lemma put_lookup p n fs fs' :
  put p n fs = Some fs' ->
  lookup p fs' = Some n
  /\ (forall q, ~ p `prefix_of` q -> ~ q `prefix_of` p -> lookup q fs' = lookup q fs).
Proof.
  unfold put. destruct (split_last p) as [[d x]|] eqn:E; simpl; [|done].
  apply split_last_Some in E as ->. intros U.
  destruct (update_dir_Some _ _ _ _ U) as (es & L1 & L2). split.
  - rewrite lookup_app, L2. simpl. by rewrite assoc_set_entry_eq.
  - intros q H1 H2. destruct (incomparable_parent _ _ _ H1 H2) as [(y & r & -> & Hne)|[H3 H4]].
    + rewrite (update_dir_below _ _ _ _ _ _ _ U L1), assoc_set_entry_ne by done.
      by rewrite lookup_app, L1.
    + by eapply update_dir_frame.
Qed.

Lemma remove_lookup p fs fs' :
  remove p fs = Some fs' ->
  (forall r, lookup (p ++ r) fs' = None)
  /\ (forall q, ~ p `prefix_of` q -> ~ q `prefix_of` p -> lookup q fs' = lookup q fs).
Proof.
  unfold remove. destruct (split_last p) as [[d x]|] eqn:E; simpl; [|done].
  apply split_last_Some in E as ->. intros U.
  destruct (update_dir_Some _ _ _ _ U) as (es & L1 & L2). split.
  - intros r. rewrite <- app_assoc. simpl.
    rewrite (update_dir_below _ _ _ _ _ _ _ U L1), assoc_remove_entry_eq. done.
  - intros q H1 H2. destruct (incomparable_parent _ _ _ H1 H2) as [(y & r & -> & Hne)|[H3 H4]].
    + rewrite (update_dir_below _ _ _ _ _ _ _ U L1), assoc_remove_entry_ne by done.
      by rewrite lookup_app, L1.
    + by eapply update_dir_frame.
Qed.

(** *** [rename], [write_file], [copy2] *)

Lemma lookup_snoc_Some d x fs n :
  lookup (d ++ [x]) fs = Some n ->
  exists es, lookup d fs = Some (Dir es) /\ assoc x es = Some n.
Proof.
  rewrite lookup_app. destruct (lookup d fs) as [[c|es]|]; simpl; try done.
  destruct (assoc x es) as [m|] eqn:E; simpl; [|done]. intros [= ->]. eauto.
Qed.

Lemma is_dir_lookup p fs : is_dir p fs = true <-> exists es, lookup p fs = Some (Dir es).
Proof.
  unfold is_dir. destruct (lookup p fs) as [[c|es]|]; split; try done; eauto;
    by intros [? ?].
Qed.

Lemma exists_lookup p fs : exists_ p fs = true <-> is_Some (lookup p fs).
Proof. unfold exists_. apply bool_decide_eq_true. Qed.

Lemma not_exists_lookup p fs : exists_ p fs = false <-> lookup p fs = None.
Proof.
  unfold exists_. rewrite bool_decide_eq_false. destruct (lookup p fs); split; try done.
  intros H. exfalso. apply H. eauto.
Qed.

Lemma update_dir_is_dir p f : forall fs fs' q,
  update_dir p f fs = Some fs' -> is_dir q fs = true ->
  (p `prefix_of` q -> p = q) -> is_dir q fs' = true.
Proof.
  induction p as [|x p IH]; intros fs fs' q U Hq Hpq.
  - rewrite <- (Hpq (prefix_nil q)). simpl in U. destruct fs; [done|]. by injection U as <-.
  - simpl in U. destruct fs as [c|es0]; [done|].
    destruct (assoc x es0) as [n|] eqn:E; simpl in U; [|done].
    destruct (update_dir p f n) as [n'|] eqn:Un; simpl in U; [|done].
    injection U as <-. destruct q as [|y q]; [done|].
    unfold is_dir in *. simpl in *. destruct (decide (x = y)) as [<-|Hne].
    + rewrite assoc_set_entry_eq. rewrite E in Hq. simpl in *.
      eapply (IH n n' q); [done|done|].
      intros Hp. assert (x :: p = x :: q) as [= ->]; [|done].
      apply Hpq. by apply prefix_cons.
    + by rewrite assoc_set_entry_ne.
Qed.

Lemma remove_is_dir p fs fs' q :
  remove p fs = Some fs' -> is_dir q fs = true -> ~ p `prefix_of` q -> is_dir q fs' = true.
Proof.
  unfold remove. destruct (split_last p) as [[d x]|] eqn:E; simpl; [|done].
  apply split_last_Some in E as ->. intros U Hq Hpq.
  destruct (decide (d `prefix_of` q)) as [[k ->]|Hd].
  - destruct k as [|y r].
    + rewrite app_nil_r in *. eapply update_dir_is_dir; [done|done|done].
    + assert (y <> x) as Hne.
      { intros ->. apply Hpq. apply prefix_app, (prefix_cons _ [] r), prefix_nil. }
      destruct (update_dir_Some _ _ _ _ U) as (es & L1 & L2).
      unfold is_dir in *.
      rewrite (update_dir_below _ _ _ _ _ _ _ U L1), assoc_remove_entry_ne by done.
      by rewrite lookup_app, L1 in Hq.
  - eapply update_dir_is_dir; [done|done|]. intros Hp. by destruct Hd.
Qed.

(** Renaming to a path that does not exist: the node is found at the
    new path, nothing is left at or below the old one, and the paths
    that are neither above nor below the two are as before. *)
Lemma rename_fresh src dst fs n :
  lookup src fs = Some n -> lookup dst fs = None -> is_dir (parent dst) fs = true ->
  ~ src `prefix_of` dst ->
  exists fs', rename src dst fs = Ok fs'
    /\ lookup dst fs' = Some n
    /\ (forall r, lookup (src ++ r) fs' = None)
    /\ (forall q, ~ src `prefix_of` q -> ~ q `prefix_of` src ->
                  ~ dst `prefix_of` q -> ~ q `prefix_of` dst ->
                  lookup q fs' = lookup q fs).
Proof.
  intros Hsrc Hdst Hpar Hpre.
  assert (src <> dst) as Hne by (intros ->; by apply Hpre).
  assert (dst <> []) as Hdne by (intros ->; simpl in Hdst; done).
  assert (src <> []) as Hsne by (intros ->; apply Hpre, prefix_nil).
  assert (exists d x, src = d ++ [x]) as (d & x & Ed).
  { destruct src as [|y src0 _] using rev_ind; [done|]. eauto. }
  assert (exists dd dx, dst = dd ++ [dx]) as (dd & dx & Edd).
  { destruct dst as [|y dst0 _] using rev_ind; [done|]. eauto. }
  destruct (lookup_snoc_Some d x fs n) as (es & Ld & Lx); [by rewrite <- Ed|].
  destruct (remove_is_Some d x fs es Ld) as [fs1 R1]. rewrite <- Ed in R1.
  destruct (remove_lookup _ _ _ R1) as [Rnone Rframe].
  assert (parent dst = dd) as Epar by (by rewrite Edd, parent_snoc).
  rewrite Epar in Hpar.
  assert (is_dir dd fs1 = true) as Hdd1.
  { eapply remove_is_dir; [done|done|]. intros Hp. apply Hpre.
    rewrite Edd. by apply prefix_app_r. }
  apply is_dir_lookup in Hdd1 as [es1 Ldd1].
  destruct (put_is_Some dd dx n fs1 es1 Ldd1) as [fs2 P2]. rewrite <- Edd in P2.
  destruct (put_lookup _ _ _ _ P2) as [Pn Pframe].
  assert (~ dst `prefix_of` src) as Hpre2.
  { intros Hp. apply (lookup_prefix_is_Some dst src fs) in Hp; [|by rewrite Hsrc].
    rewrite Hdst in Hp. by destruct Hp. }
  exists fs2. split; [|split; [|split]].
  - unfold rename. rewrite Hsrc.
    destruct src as [|x0 src0] eqn:Esrc; [done|]. rewrite <- Esrc in *.
    rewrite bool_decide_false by done. rewrite Epar, Hpar.
    rewrite (bool_decide_false (dst = [])) by done. cbn [negb orb].
    rewrite bool_decide_false by done. rewrite Hdst, R1. simpl. by rewrite P2.
  - done.
  - intros r. rewrite Pframe; [apply Rnone| |].
    + intros Hp.
      destruct (prefix_weak_total dst src (src ++ r)) as [?|?];
        [done|by apply prefix_app_r|done|done].
    + intros Hp. apply Hpre. etrans; [|exact Hp]. by apply prefix_app_r.
  - intros q H1 H2 H3 H4. rewrite Pframe, Rframe; done.
Qed.

Lemma is_dir_prefix p q fs : is_dir (p ++ q) fs = true -> is_dir p fs = true.
Proof.
  unfold is_dir. rewrite lookup_app. destruct (lookup p fs) as [[c|es]|]; simpl; try done.
  by destruct q.
Qed.

Lemma mkdir_from_existing todo : forall made fs,
  is_dir (made ++ todo) fs = true -> mkdir_from made todo fs = Ok fs.
Proof.
  induction todo as [|x r IH]; intros made fs H; simpl; [done|].
  assert (is_dir (made ++ [x]) fs = true) as Hx.
  { apply (is_dir_prefix _ r). by rewrite <- app_assoc. }
  apply is_dir_lookup in Hx as [es ->]. apply IH. by rewrite <- app_assoc.
Qed.

(** Making a directory that is there already changes nothing. *)
Lemma mkdir_parents_existing p fs : is_dir p fs = true -> mkdir_parents p fs = Ok fs.
Proof. intros H. by apply mkdir_from_existing. Qed.

Lemma write_file_ok p c fs :
  is_dir (parent p) fs = true -> p <> [] -> is_dir p fs = false ->
  exists fs', write_file p c fs = Ok fs'
    /\ lookup p fs' = Some (File c)
    /\ (forall q, ~ p `prefix_of` q -> ~ q `prefix_of` p -> lookup q fs' = lookup q fs).
Proof.
  intros Hpar Hne Hnd.
  assert (exists d x, p = d ++ [x]) as (d & x & ->).
  { destruct p as [|y p0 _] using rev_ind; [done|]. eauto. }
  rewrite parent_snoc in Hpar. apply is_dir_lookup in Hpar as Hd. destruct Hd as [es Ld].
  destruct (put_is_Some d x (File c) fs es Ld) as [fs' P].
  destruct (put_lookup _ _ _ _ P) as [Pn Pframe].
  exists fs'. split; [|done].
  unfold write_file. rewrite parent_snoc, Hpar, Hnd, P.
  by rewrite bool_decide_false.
Qed.

(** Copying a file to a path that is not a directory. *)
Lemma copy2_file src dst c fs :
  lookup src fs = Some (File c) ->
  is_dir (parent dst) fs = true -> dst <> [] -> is_dir dst fs = false ->
  exists fs', copy2 src dst fs = Ok fs'
    /\ lookup dst fs' = Some (File c)
    /\ (forall q, ~ dst `prefix_of` q -> ~ q `prefix_of` dst -> lookup q fs' = lookup q fs).
Proof.
  intros Hsrc Hpar Hne Hnd. unfold copy2, read_file. rewrite Hsrc, Hnd.
  by apply write_file_ok.
Qed.

(** *** Making an entry and removing it again *)

Lemma set_entry_fresh {A} x (a : A) es : assoc x es = None -> set_entry x a es = es ++ [(x, a)].
Proof.
  induction es as [|[y b] r IH]; simpl; [done|].
  destruct (bool_decide (x = y)); [done|]. intros H. by rewrite IH.
Qed.

Lemma remove_entry_fresh {A} x (es : list (string * A)) :
  assoc x es = None -> remove_entry x es = es.
Proof.
  induction es as [|[y b] r IH]; simpl; [done|].
  destruct (bool_decide (x = y)) eqn:E; [done|]. intros H.
  apply bool_decide_eq_false in E. rewrite bool_decide_false by congruence.
  simpl. by rewrite IH.
Qed.

Lemma remove_entry_set_entry {A} x (a : A) es :
  assoc x es = None -> remove_entry x (set_entry x a es) = es.
Proof.
  intros H. rewrite set_entry_fresh by done. unfold remove_entry.
  rewrite List.filter_app. simpl. rewrite bool_decide_true by done. simpl.
  rewrite app_nil_r. by apply remove_entry_fresh.
Qed.

Lemma set_entry_set_entry {A} x (a b : A) es :
  set_entry x a (set_entry x b es) = set_entry x a es.
Proof.
  induction es as [|[y c] r IH]; simpl.
  - by rewrite bool_decide_true.
  - destruct (bool_decide (x = y)) eqn:E; simpl; rewrite E; [done|]. by rewrite IH.
Qed.

Lemma set_entry_same {A} x (a : A) es : assoc x es = Some a -> set_entry x a es = es.
Proof.
  induction es as [|[y c] r IH]; simpl; [done|].
  destruct (bool_decide (x = y)) eqn:E.
  - apply bool_decide_eq_true in E as ->. by intros [= ->].
  - intros H. by rewrite IH.
Qed.

Lemma update_dir_compose p f g : forall fs fs1,
  update_dir p f fs = Some fs1 ->
  update_dir p g fs1 = update_dir p (fun es => g (f es)) fs.
Proof.
  induction p as [|x p IH]; intros fs fs1; simpl.
  - destruct fs; [done|]. by intros [= <-].
  - destruct fs as [c|es]; [done|]. destruct (assoc x es) as [n|] eqn:E; simpl; [|done].
    destruct (update_dir p f n) as [n'|] eqn:U; simpl; [|done]. intros [= <-].
    cbn [update_dir]. rewrite assoc_set_entry_eq. simpl. rewrite (IH _ _ U).
    destruct (update_dir p (fun es0 => g (f es0)) n); simpl; [|done].
    by rewrite set_entry_set_entry.
Qed.

Lemma update_dir_id p f : forall fs es,
  lookup p fs = Some (Dir es) -> f es = es -> update_dir p f fs = Some fs.
Proof.
  induction p as [|x p IH]; intros fs es; simpl.
  - intros [= ->] ->. done.
  - destruct fs as [c|es0]; [done|]. destruct (assoc x es0) as [n|] eqn:E; simpl; [|done].
    intros L Hf. rewrite (IH _ _ L Hf). simpl. by rewrite set_entry_same.
Qed.

Lemma put_then_remove p n fs fs1 :
  lookup p fs = None -> put p n fs = Some fs1 -> remove p fs1 = Some fs.
Proof.
  unfold put, remove. destruct (split_last p) as [[d x]|] eqn:E; simpl; [|done].
  apply split_last_Some in E as ->. intros Hnone U.
  destruct (update_dir_Some _ _ _ _ U) as (es & L1 & _).
  rewrite (update_dir_compose _ _ _ _ _ U).
  apply (update_dir_id _ _ _ es L1). apply remove_entry_set_entry.
  rewrite lookup_app, L1 in Hnone. simpl in Hnone. by destruct (assoc x es).
Qed.

(** A directory that was just made is removed without a trace. *)
Lemma mkdir_then_rmtree p fs fs1 :
  exists_ p fs = false -> mkdir p fs = Ok fs1 -> rmtree p fs1 = Ok fs.
Proof.
  intros Hn. unfold mkdir. rewrite Hn.
  destruct (put p (Dir []) fs) as [fs'|] eqn:P; simpl; [|done]. intros [= <-].
  unfold rmtree. destruct (put_lookup _ _ _ _ P) as [-> _].
  apply not_exists_lookup in Hn. by rewrite (put_then_remove _ _ _ _ Hn P).
Qed.

Lemma mkdir_exists p fs fs1 : mkdir p fs = Ok fs1 -> exists_ p fs1 = true.
Proof.
  unfold mkdir. destruct (exists_ p fs); [done|].
  destruct (put p (Dir []) fs) as [fs'|] eqn:P; simpl; [|done]. intros [= <-].
  apply exists_lookup. destruct (put_lookup _ _ _ _ P) as [-> _]. eauto.
Qed.

(** *** What a successful operation has done *)

Lemma write_file_inv p c fs fs' :
  write_file p c fs = Ok fs' ->
  lookup p fs' = Some (File c)
  /\ (forall q, ~ p `prefix_of` q -> ~ q `prefix_of` p -> lookup q fs' = lookup q fs).
Proof.
  unfold write_file. destruct (negb _ || _); [done|]. destruct (is_dir p fs); [done|].
  destruct (put p (File c) fs) as [f|] eqn:P; simpl; [|done]. intros [= <-].
  by apply put_lookup.
Qed.

Lemma unlink_inv p fs fs' :
  unlink p fs = Ok fs' ->
  (exists c, lookup p fs = Some (File c))
  /\ lookup p fs' = None
  /\ (forall q, ~ p `prefix_of` q -> ~ q `prefix_of` p -> lookup q fs' = lookup q fs).
Proof.
  unfold unlink. destruct (lookup p fs) as [[c|es]|] eqn:L; try done.
  destruct (remove p fs) as [f|] eqn:R; simpl; [|done]. intros [= <-].
  destruct (remove_lookup _ _ _ R) as [H1 H2]. split; [eauto|]. split; [|done].
  specialize (H1 []). by rewrite app_nil_r in H1.
Qed.

Lemma unlink_file p c fs : lookup p fs = Some (File c) -> p <> [] -> is_Some_res (unlink p fs).
Proof.
  intros L Hne. unfold unlink. rewrite L.
  assert (exists d x, p = d ++ [x]) as (d & x & ->).
  { destruct p as [|y p0 _] using rev_ind; [done|]. eauto. }
  destruct (lookup_snoc_Some _ _ _ _ L) as (es & Ld & _).
  destruct (remove_is_Some d x fs es Ld) as [f ->]. simpl. done.
Qed.

Lemma rmtree_inv p fs fs' :
  rmtree p fs = Ok fs' ->
  lookup p fs' = None
  /\ (forall q, ~ p `prefix_of` q -> ~ q `prefix_of` p -> lookup q fs' = lookup q fs).
Proof.
  unfold rmtree. destruct (lookup p fs) as [[c|es]|] eqn:L; try done.
  destruct (remove p fs) as [f|] eqn:R; simpl; [|done]. intros [= <-].
  destruct (remove_lookup _ _ _ R) as [H1 H2]. split; [|done].
  specialize (H1 []). by rewrite app_nil_r in H1.
Qed.

Lemma rename_inv src dst fs fs' :
  rename src dst fs = Ok fs' -> src <> dst -> lookup dst fs = None ->
  lookup dst fs' = lookup src fs
  /\ lookup src fs' = None
  /\ (forall q, ~ src `prefix_of` q -> ~ q `prefix_of` src ->
                ~ dst `prefix_of` q -> ~ q `prefix_of` dst ->
                lookup q fs' = lookup q fs).
Proof.
  intros R Hne Hdst. pose proof R as R0. unfold rename in R.
  destruct (lookup src fs) as [n|] eqn:Hsrc; [|done].
  destruct src as [|x0 s0] eqn:Es; [done|]. rewrite <- Es in *.
  rewrite bool_decide_false in R by done.
  destruct (negb (is_dir (parent dst) fs) || bool_decide (dst = [])) eqn:C1; [done|].
  apply orb_false_iff in C1 as [C1 _]. apply negb_false_iff in C1.
  destruct (bool_decide (src `prefix_of` dst)) eqn:C2; [done|].
  apply bool_decide_eq_false in C2.
  destruct (rename_fresh src dst fs n Hsrc Hdst C1 C2) as (f2 & R2 & L1 & L2 & L3).
  rewrite R0 in R2. injection R2 as <-. split; [done|]. split; [|done].
  specialize (L2 []). by rewrite app_nil_r in L2.
Qed.

Lemma siblings_incomparable (d : path) (x y : string) :
  x <> y -> ~ (d ++ [x]) `prefix_of` (d ++ [y]).
Proof.
  intros Hne [k E]. rewrite <- app_assoc in E. apply app_inv_head in E.
  simpl in E. by injection E.
Qed.


Lemma put_is_dir p n fs fs' q :
  put p n fs = Some fs' -> is_dir q fs = true -> ~ p `prefix_of` q -> is_dir q fs' = true.
Proof.
  unfold put. destruct (split_last p) as [[d x]|] eqn:E; simpl; [|done].
  apply split_last_Some in E as ->. intros U Hq Hpq.
  destruct (decide (d `prefix_of` q)) as [[k ->]|Hd].
  - destruct k as [|y r].
    + rewrite app_nil_r in *. eapply update_dir_is_dir; [done|done|done].
    + assert (y <> x) as Hne.
      { intros ->. apply Hpq. apply prefix_app, (prefix_cons _ [] r), prefix_nil. }
      destruct (update_dir_Some _ _ _ _ U) as (es & L1 & L2).
      unfold is_dir in *.
      rewrite (update_dir_below _ _ _ _ _ _ _ U L1), assoc_set_entry_ne by done.
      by rewrite lookup_app, L1 in Hq.
  - eapply update_dir_is_dir; [done|done|]. intros Hp. by destruct Hd.
Qed.

(** Directories that are not at or below the two paths of a rename stay
    directories. *)
Lemma rename_is_dir src dst fs fs' q :
  rename src dst fs = Ok fs' -> is_dir q fs = true ->
  ~ src `prefix_of` q -> ~ dst `prefix_of` q -> is_dir q fs' = true.
Proof.
  unfold rename. destruct (lookup src fs) as [n|]; [|done].
  destruct src as [|x0 s0] eqn:Es; [done|]. rewrite <- Es.
  destruct (bool_decide (src = dst)); [by intros [= <-]|].
  destruct (negb _ || _); [done|]. destruct (bool_decide (src `prefix_of` dst)); [done|].
  intros R Hq H1 H2.
  assert (or_raise FileNotFoundError (remove src fs ≫= put dst n) = Ok fs') as Hgo.
  { destruct (lookup dst fs) as [[?|[|]]|], n; try done. }
  destruct (remove src fs) as [fs1|] eqn:R1; simpl in Hgo; [|done].
  destruct (put dst n fs1) as [fs2|] eqn:P2; simpl in Hgo; [|done].
  injection Hgo as <-.
  eapply put_is_dir; [done| |done]. by eapply remove_is_dir.
Qed.
(** *** Removing a directory tree *)

Lemma node_nested_ind (P : node -> Prop) :
  (forall c, P (File c)) ->
  (forall es, Forall (fun e => P e.2) es -> P (Dir es)) ->
  forall n, P n.
Proof.
  intros HF HD. fix IH 1. intros [c|es]; [apply HF|apply HD].
  induction es as [|[x c] r IHr]; constructor; [apply IH|apply IHr].
Qed.

(** When no removal fails, nothing is left. *)
Lemma rmtree_rest_none bu br n :
  (forall q, bu q = false) -> (forall q, br q = false) ->
  forall p, rmtree_rest bu br p n = None.
Proof.
  intros Hu Hr. induction n as [c|es IH] using node_nested_ind; intros p; cbn [rmtree_rest].
  { by rewrite Hu. }
  match goal with |- match ?l with _ => _ end = _ => assert (l = []) as -> end.
  { induction IH as [|[x c] r Hc _ IHr]; [done|]. cbn [snd] in Hc. by rewrite Hc. }
  by rewrite Hr.
Qed.

(** What is left of a directory is a directory: it is empty, or it has
    the entries from some place of the listing on, the first of them
    being what is left of the entry that stood there. *)
Lemma rmtree_rest_shape bu br p es rest :
  rmtree_rest bu br p (Dir es) = Some rest ->
  (rest = Dir [] /\ br p = true)
  \/ exists pre x c c' r,
       es = pre ++ (x, c) :: r /\ rest = Dir ((x, c') :: r)
       /\ rmtree_rest bu br (p ++ [x]) c = Some c'
       /\ Forall (fun e => rmtree_rest bu br (p ++ [e.1]) e.2 = None) pre.
Proof.
  cbn [rmtree_rest].
  match goal with |- match ?l with _ => _ end = _ -> _ => set (l0 := l) end.
  assert (l0 = []
          \/ exists pre x c c' r,
               es = pre ++ (x, c) :: r /\ l0 = (x, c') :: r
               /\ rmtree_rest bu br (p ++ [x]) c = Some c'
               /\ Forall (fun e => rmtree_rest bu br (p ++ [e.1]) e.2 = None) pre) as H.
  { subst l0. induction es as [|[x c] r IHr]; [by left|].
    destruct (rmtree_rest bu br (p ++ [x]) c) as [c'|] eqn:E.
    - right. exists [], x, c, c', r. by repeat split.
    - destruct IHr as [->|(pre & y & d & d' & r' & -> & -> & H1 & H2)]; [by left|].
      right. exists ((x, c) :: pre), y, d, d', r'. repeat split; try done.
      by constructor. }
  destruct H as [->|(pre & x & c & c' & r & -> & El & H1 & H2)].
  - destruct (br p) eqn:B; [|done]. intros [= <-]. by left.
  - rewrite El. intros [= <-]. right. by exists pre, x, c, c', r.
Qed.

(** What is left of a file is the file. *)
Lemma rmtree_rest_file bu br p c rest :
  rmtree_rest bu br p (File c) = Some rest -> rest = File c /\ bu p = true.
Proof. cbn [rmtree_rest]. destruct (bu p); [|done]. by intros [= <-]. Qed.

(** The three ways [rmtree_op] can end: the directory is removed; the
    removal fails at once and nothing is changed; or it fails part-way
    and what is left of the directory stays in the tree. *)
Lemma rmtree_op_cases p w :
  (exists fs', rmtree p (fs w) = Ok fs'
     /\ rmtree_op p w = (Ok tt, with_trace (trace w ++ [EvFs (FRmtree p)]) (with_fs fs' w)))
  \/ (exists e, rmtree_op p w = (Raise e, w))
  \/ (exists es rest fs',
        lookup p (fs w) = Some (Dir es)
        /\ rmtree_rest (fun q => faults w (FUnlink q)) (fun q => faults w (FRmdir q))
             p (Dir es) = Some rest
        /\ put p rest (fs w) = Some fs'
        /\ rmtree_op p w = (Raise InjectedOSError, with_fs fs' w)).
Proof.
  unfold rmtree_op. destruct (faults w (FRmtree p)); [right; left; eauto|].
  destruct (lookup p (fs w)) as [[c|es]|] eqn:L; [right; left; eauto| |right; left; eauto].
  destruct (rmtree_rest _ _ p (Dir es)) as [rest|] eqn:R.
  - destruct (put p rest (fs w)) as [fs'|] eqn:P; [|right; left; eauto].
    right. right. by exists es, rest, fs'.
  - destruct (rmtree p (fs w)) as [fs'|e] eqn:E; [left; eauto|right; left; eauto].
Qed.

(** In an environment where nothing fails the removal is that of the
    whole directory. *)
Lemma rmtree_op_no_fault p w :
  (forall op, faults w op = false) -> rmtree_op p w = fs_op (FRmtree p) (rmtree p) w.
Proof.
  intros Hf. unfold rmtree_op, fs_op. rewrite Hf.
  destruct (lookup p (fs w)) as [[c|es]|] eqn:L.
  - unfold rmtree. by rewrite L.
  - rewrite rmtree_rest_none by (intros; apply Hf). by destruct (rmtree p (fs w)).
  - unfold rmtree. by rewrite L.
Qed.

(** Whatever its outcome, the removal changes nothing beside the
    directory. *)
Lemma rmtree_op_frame p w :
  faults (rmtree_op p w).2 = faults w /\ cfg (rmtree_op p w).2 = cfg w
  /\ operation_log (rmtree_op p w).2 = operation_log w
  /\ forall q, ~ p `prefix_of` q -> ~ q `prefix_of` p ->
               lookup q (fs (rmtree_op p w).2) = lookup q (fs w).
Proof.
  destruct (rmtree_op_cases p w) as [(fs' & Hrm & ->)|[(e & ->)|(es & rest & fs' & _ & _ & P & ->)]];
    cbn [snd]; simpl_w; repeat split; try done.
  - intros q H1 H2. by apply (rmtree_inv _ _ _ Hrm).
  - intros q H1 H2. by apply (put_lookup _ _ _ _ P).
Qed.


(** C10: every key is made of strings at the even positions and of
    integers at the odd positions (the one-element key of the fallback
    branch included), so that comparing the keys of two names never
    compares an integer with a string (the comparison has a result) and
    sorting any list of names by the key never raises. *)
Theorem natural_sort_key_never_mixes (n1 n2 : string) (names : list string) :
  alternating false (natural_sort_key n1) = true
  /\ is_Some (key_lt (natural_sort_key n1) (natural_sort_key n2))
  /\ is_Some (natural_sorted names).
Proof.
  split; [apply natural_sort_key_alternating|]. split.
  - eapply key_lt_alternating; apply natural_sort_key_alternating.
  - apply sorted_by_total. intros. eapply key_lt_alternating; apply natural_sort_key_alternating.
Qed.
(** C8: [natural_sort_key] splits the name into alternating runs without
    and of decimal digits (the pieces put together are the name); a run
    of digits becomes its integer value and integers are compared as
    numbers, so two names that differ in one number are ordered as the
    numbers are; the other runs are put in lower case (the letters [A]
    to [Z] become [a] to [z], the other characters below 128 stay), so
    names that differ only by case have the same key and [Page10] comes
    after [page2]; "page2" comes before "page10" and the three names of
    the example are sorted as stated; when the conversion fails, as for
    a name with a superscript digit after a number, the key is the
    single lower-cased name, so the function has a result for every
    name. *)
Theorem natural_sort_key_contract :
  (forall name, flatten (re_split name) = name /\ alt_pieces false (re_split name) = true)
  /\ (forall p s n m,
        all_chars nondigit p = true -> all_chars nondigit s = true ->
        0 <= n -> 0 <= m -> n <> m ->
        key_lt (natural_sort_key (p +:+ dec n +:+ s)) (natural_sort_key (p +:+ dec m +:+ s))
        = Some (n <? m))
  /\ (forall x y, kelem_lt (KInt x) (KInt y) = Some (x <? y))
  /\ (forall a b, lower a = lower b -> natural_sort_key a = natural_sort_key b)
  /\ (forall c, ((65 <=? code c) && (code c <=? 90))%N = true ->
                lower_char c = ascii_of_N (code c + 32))
  /\ (forall c, (code c <? 128)%N = true -> ((65 <=? code c) && (code c <=? 90))%N = false ->
                lower_char c = c)
  /\ lower "Page10.JPG" = "page10.jpg"
  /\ natural_sort_key "Page10.JPG" = [KStr "page"; KInt 10; KStr ".jpg"]
  /\ natural_sort_key "page10.jpg" = [KStr "page"; KInt 10; KStr ".jpg"]
  /\ natural_sort_key "007" = [KStr ""; KInt 7; KStr ""]
  /\ key_lt (natural_sort_key "page2") (natural_sort_key "Page10") = Some true
  /\ key_lt (natural_sort_key "Page10") (natural_sort_key "page2") = Some false
  /\ natural_sorted ["Page10"; "page2"; "PAGE1"] = Some ["PAGE1"; "page2"; "Page10"]
  /\ key_lt (natural_sort_key "page2") (natural_sort_key "page10") = Some true
  /\ key_lt (natural_sort_key "page10") (natural_sort_key "page2") = Some false
  /\ natural_sorted ["page10"; "page2"] = Some ["page2"; "page10"]
  /\ natural_sorted ["2.jpg"; "10.jpg"; "1.jpg"] = Some ["1.jpg"; "2.jpg"; "10.jpg"]
  /\ (forall name, natural_sort_key_try name = None ->
                   natural_sort_key name = [KStr (lower name)])
  /\ (forall name k, natural_sort_key_try name = Some k -> natural_sort_key name = k)
  /\ natural_sort_key (String (ascii_of_N 178) "") = [KStr (String (ascii_of_N 178) "")]
  /\ natural_sort_key_try (String "1" (String (ascii_of_N 178) "")) = None
  /\ natural_sort_key (String "A" (String "1" (String (ascii_of_N 178) "")))
     = [KStr (String "a" (String "1" (String (ascii_of_N 178) "")))].
Proof.
  split; [intros name; split; [apply flatten_re_split_from|apply re_split_alt]|].
  repeat apply conj.
  - intros. by apply key_lt_by_number.
  - done.
  - apply natural_sort_key_case.
  - intros c. by_cases_on_char c.
  - intros c. by_cases_on_char c.
  - by vm_compute.
  - by vm_compute.
  - by vm_compute.
  - by vm_compute.
  - by vm_compute.
  - by vm_compute.
  - by vm_compute.
  - by vm_compute.
  - by vm_compute.
  - by vm_compute.
  - by vm_compute.
  - intros name H. unfold natural_sort_key. by rewrite H.
  - intros name k H. unfold natural_sort_key. by rewrite H.
  - by vm_compute.
  - by vm_compute.
  - by vm_compute.
Qed.

(** *** [safe_rename] never renames onto an existing entry *)

Lemma unique_name_fresh fuel : forall counter final_dst dst fs p,
  unique_name fuel counter final_dst dst fs = Some p -> exists_ p fs = false.
Proof.
  induction fuel as [|f IH]; intros counter final_dst dst fs p; cbn [unique_name].
  - destruct (exists_ final_dst fs) eqn:E; simpl; [done|]. by intros [= <-].
  - destruct (exists_ final_dst fs) eqn:E; simpl; [|by intros [= <-]].
    destruct (counter + 1 >? 100); [done|]. apply IH.
Qed.


Lemma safe_rename_no_overwrite src dst w :
  fs (run (safe_rename src dst) w) = fs w
  \/ exists final, exists_ final (fs w) = false
       /\ rename src final (fs w) = Ok (fs (run (safe_rename src dst) w)).
Proof.
  unfold safe_rename. unfold_M. simpl_w.
  destruct (exists_ src (fs w)); simpl_w; [|by left].
  destruct (dry_run (cfg w)); simpl_w; [by left|].
  destruct (bool_decide (src = dst)); simpl_w; [by left|].
  destruct (unique_name 100 1 dst dst (fs w)) as [final|] eqn:E; simpl_w; [|by left].
  apply unique_name_fresh in E.
  destruct (faults w (FRename src final)); simpl_w; [by left|].
  destruct (rename src final (fs w)) as [f'|e] eqn:R; simpl_w; [|by left].
  right. eauto.
Qed.

(** The numbering of step 2: in a child directory the [.jpg] files, in
    natural order, are renamed with [safe_rename] to the numbers offset,
    offset + 1, ... printed with zero padding to width four (exactly four
    characters for the numbers 0 to 9999); the loop stops with the logged
    error when the number reaches offset + 10000, that is after 10000
    files; the planned names are pairwise distinct; the [while] loop
    moves a number that is already used to the next free one; and
    [safe_rename] either leaves the tree as it is or renames the file to
    a name that did not exist. *)
Lemma step2_numbering subdir entries files w :
  iterdir subdir (fs w) = Ok entries ->
  sorted_by (fun p => natural_sort_key (name p))
    (List.filter (fun p => is_file p (fs w) && bool_decide (lsuffix p = ".jpg")) entries)
  = Some files ->
  process_subdir subdir w
  = run_numbering subdir ".jpg" (start_num (cfg w)) 0 (Z.to_nat 10000) files w
  /\ NoDup (numbered_targets subdir ".jpg" (start_num (cfg w)) 0 files).*2
  /\ (forall n, 0 <= n <= 9999 -> String.length (fmt04 n) = 4%nat)
  /\ (forall used c,
        c <= next_free used c
        /\ (fmt04 (next_free used c) ∉ used)
        /\ (forall m, c <= m < next_free used c -> fmt04 m ∈ used))
  /\ (forall src dst w0,
        fs (run (safe_rename src dst) w0) = fs w0
        \/ exists final, exists_ final (fs w0) = false
             /\ rename src final (fs w0) = Ok (fs (run (safe_rename src dst) w0))).
Proof.
  intros Hentries Hsorted.
  split; [|split; [|split; [|split]]].
  - unfold process_subdir, sorted_paths.
    unfold bind at 1, read_fs. rewrite Hentries.
    unfold bind at 1, gets. rewrite Hsorted.
    rewrite bind_ret_l. unfold bind at 1. cbn [fst snd].
    rewrite number_loop_plan; [done|lia|set_solver].
  - apply numbered_targets_NoDup.
  - apply length_fmt04.
  - apply next_free_spec.
  - apply safe_rename_no_overwrite.
Qed.

Lemma step2_numbering_witness :
  process_subdir ["A"; "B"] (initial_world two_pages batch_config [] [])
  = run_numbering ["A"; "B"] ".jpg" 0 0 (Z.to_nat 10000)
      [["A"; "B"; "a.jpg"]; ["A"; "B"; "b.jpg"]]
      (initial_world two_pages batch_config [] []).
Proof.
  apply (step2_numbering ["A"; "B"]
           [["A"; "B"; "b.jpg"]; ["A"; "B"; "a.jpg"]]
           [["A"; "B"; "a.jpg"]; ["A"; "B"; "b.jpg"]]
           (initial_world two_pages batch_config [] [])).
  - reflexivity.
  - vm_compute. reflexivity.
Defined.

(** C4: the numbers of step 2 do not stay within four digits.  With the
    start number 9999 and two pages in a child directory, the first page
    becomes [9999.jpg] and the second [10000.jpg]: the number 10000 is
    below the bound 9999 + 10000 of the guard, so the loop neither stops
    nor logs an error, and the name has five digits.  With the start
    number 0 the same two pages get the four-digit names [0000.jpg] and
    [0001.jpg]. *)
Theorem step2_five_digit_name :
  let w := run (process_subdir ["A"; "B"])
             (initial_world two_pages (config_with false true false 9999) [] []) in
  let w0 := run (process_subdir ["A"; "B"])
              (initial_world two_pages (config_with false true false 0) [] []) in
  iterdir ["A"; "B"] (fs w) = Ok [["A"; "B"; "9999.jpg"]; ["A"; "B"; "10000.jpg"]]
  /\ fmt04 (9999 + 1) = "10000"
  /\ String.length (fmt04 (9999 + 1)) = 5%nat
  /\ (9999 + 1 <? 9999 + 10000) = true
  /\ List.filter is_error (log w) = []
  /\ iterdir ["A"; "B"] (fs w0) = Ok [["A"; "B"; "0000.jpg"]; ["A"; "B"; "0001.jpg"]].
Proof. vm_compute. repeat split. Qed.

(** *** [confirm_operation] *)

Lemma save_config_writes w :
  is_dir [] (fs w) = true -> is_dir config_file (fs w) = false ->
  faults w (FMkdir []) = false -> faults w (FWrite config_file) = false ->
  lookup config_file (fs (run save_config w)) = Some (File (Json (cfg w)))
  /\ cfg (run save_config w) = cfg w.
Proof.
  intros Hroot Hfile Hf1 Hf2. unfold save_config. unfold_M.
  cbn [parent config_file split_last]. rewrite Hf1.
  cbn [mkdir_parents mkdir_from]. simpl_w. rewrite Hf2.
  unfold write_file. cbn [parent config_file split_last]. simpl_w.
  rewrite Hroot, Hfile. rewrite bool_decide_false by done. simpl_w.
  unfold is_dir in Hroot. cbn [lookup] in Hroot.
  destruct (fs w) as [c|es] eqn:E; [done|].
  unfold put, config_file. cbn [split_last mbind option_bind update_dir or_raise]. simpl_w.
  split; [|done]. cbn [lookup]. rewrite assoc_set_entry_eq. done.
Qed.

(** *** A step that is declined *)

Lemma work_dirs_state p w : (work_dirs p w).2 = w.
Proof.
  unfold work_dirs. unfold_M. by destruct (iterdir p (fs w)).
Qed.

Lemma child_dirs_state parents : forall w, (child_dirs parents w).2 = w.
Proof.
  induction parents as [|par r IH]; intros w; [done|]. cbn [child_dirs].
  pose proof (work_dirs_state par w) as H1.
  destruct (work_dirs par w) as [[subs|e] w1] eqn:E1; cbn [snd] in H1; subst w1.
  2:{ by rewrite (bind_Raise _ _ _ _ _ E1). }
  rewrite (bind_Ok _ _ _ _ _ E1).
  pose proof (IH w) as H2.
  destruct (child_dirs r w) as [[rest|e] w2] eqn:E2; cbn [snd] in H2; subst w2.
  2:{ by rewrite (bind_Raise _ _ _ _ _ E2). }
  by rewrite (bind_Ok _ _ _ _ _ E2).
Qed.

Section Declined.
Context (answer : string) (rest : list string) (w0 : world).
Context (Hdry : dry_run (cfg w0) = false).
Context (Hskip : skip_step_confirmations (cfg w0) = false).
Context (Hint : interactive_mode (cfg w0) = true).
Context (Hin : stdin w0 = answer :: rest).
Context (H1 : lower (strip answer) <> "").
Context (H2 : lower (strip answer) <> "y").
Context (H3 : lower (strip answer) <> "a").

Lemma confirm_declined message w :
  cfg w = cfg w0 -> stdin w = answer :: rest ->
  confirm_operation message w = (Ok false, with_stdin rest w).
Proof.
  intros Ec Es. unfold confirm_operation. rewrite bind_ret_l_gets. cbv beta.
  rewrite Ec, Hdry, Hskip, Hint. cbn [orb negb]. unfold bind at 1, input. rewrite Es.
  by rewrite !bool_decide_false.
Qed.

Lemma declined_tail message tag (body : M unit) w :
  only_asked w0 answer rest w -> stdin w = answer :: rest ->
  only_asked w0 answer rest
    (run (ok <- confirm_operation message ;;
          if negb ok then logw INFO tag [] else body) w).
Proof.
  intros (A1 & A2 & A3 & A4 & A5 & _) Es. unfold run.
  rewrite (bind_Ok _ _ _ _ _ (confirm_declined message w A2 Es)). cbn [negb].
  unfold logw, modify. cbn [snd]. unfold only_asked. simpl_w. by repeat split; try left.
Qed.

Lemma only_asked_log w lv tag args :
  only_asked w0 answer rest w ->
  only_asked w0 answer rest
    (with_log (log w ++ [{| l_level := lv; l_tag := tag; l_args := args |}]) w).
Proof. unfold only_asked. by simpl_w. Qed.

Lemma only_asked_start : only_asked w0 answer rest w0.
Proof. unfold only_asked. repeat split; try done. by right. Qed.

(** The shape shared by the steps: the number of things to do is
    logged, and when there is something to do the step asks. *)
Lemma declined_step message tag tag0 tag1 args (lv : level) (nothing : bool) (body : M unit) w :
  only_asked w0 answer rest w -> stdin w = answer :: rest ->
  only_asked w0 answer rest
    (run (logw INFO tag0 args ;;
          if nothing then logw lv tag1 []
          else (ok <- confirm_operation message ;;
                if negb ok then logw INFO tag [] else body)) w).
Proof.
  intros Hw Es. unfold run, bind at 1, logw at 1, modify. cbn [fst snd].
  destruct nothing.
  - unfold logw, modify. cbn [snd]. by do 2 apply only_asked_log.
  - apply declined_tail; [by apply only_asked_log|by simpl_w].
Qed.

Lemma declined_steps step : step ∈ step_functions -> only_asked w0 answer rest (run step w0).
Proof.
  pose proof only_asked_start as Hw.
  unfold step_functions. intros Hstep.
  repeat (apply elem_of_cons in Hstep as [->|Hstep]); [..|by apply elem_of_nil in Hstep].
  - unfold step1_convert. unfold run. rewrite !bind_ret_l_gets. cbv zeta.
    destruct (bool_decide _).
    + unfold logw, modify. cbn [snd]. by apply only_asked_log.
    + unfold bind at 1, logw at 1, modify. cbn [fst snd].
      apply declined_tail; [by apply only_asked_log|by simpl_w].
  - unfold step2_rename, run.
    pose proof (work_dirs_state [] w0) as S1.
    destruct (work_dirs [] w0) as [[parents|e] w1] eqn:E1; cbn [snd] in S1; subst w1.
    2:{ by rewrite (bind_Raise _ _ _ _ _ E1). }
    rewrite (bind_Ok _ _ _ _ _ E1).
    pose proof (child_dirs_state parents w0) as S2.
    destruct (child_dirs parents w0) as [[subdirs|e] w2] eqn:E2; cbn [snd] in S2; subst w2.
    2:{ by rewrite (bind_Raise _ _ _ _ _ E2). }
    rewrite (bind_Ok _ _ _ _ _ E2). cbv zeta. by apply declined_step.
  - unfold step3_rename_subdirs, run.
    pose proof (work_dirs_state [] w0) as S1.
    destruct (work_dirs [] w0) as [[parents|e] w1] eqn:E1; cbn [snd] in S1; subst w1.
    2:{ by rewrite (bind_Raise _ _ _ _ _ E1). }
    rewrite (bind_Ok _ _ _ _ _ E1). cbv zeta. by apply declined_step.
  - unfold step4_add_prefix, run.
    pose proof (work_dirs_state [] w0) as S1.
    destruct (work_dirs [] w0) as [[parents|e] w1] eqn:E1; cbn [snd] in S1; subst w1.
    2:{ by rewrite (bind_Raise _ _ _ _ _ E1). }
    rewrite (bind_Ok _ _ _ _ _ E1).
    pose proof (child_dirs_state parents w0) as S2.
    destruct (child_dirs parents w0) as [[subdirs|e] w2] eqn:E2; cbn [snd] in S2; subst w2.
    2:{ by rewrite (bind_Raise _ _ _ _ _ E2). }
    rewrite (bind_Ok _ _ _ _ _ E2). cbv zeta. by apply declined_step.
  - unfold step5_move_files, run.
    pose proof (work_dirs_state [] w0) as S1.
    destruct (work_dirs [] w0) as [[parents|e] w1] eqn:E1; cbn [snd] in S1; subst w1.
    2:{ by rewrite (bind_Raise _ _ _ _ _ E1). }
    rewrite (bind_Ok _ _ _ _ _ E1).
    pose proof (child_dirs_state parents w0) as S2.
    destruct (child_dirs parents w0) as [[subdirs|e] w2] eqn:E2; cbn [snd] in S2; subst w2.
    2:{ by rewrite (bind_Raise _ _ _ _ _ E2). }
    rewrite (bind_Ok _ _ _ _ _ E2). cbv zeta. by apply declined_step.
  - unfold step6_clean_dirs, run. rewrite !bind_ret_l_gets. cbv zeta. by apply declined_step.
  - unfold step7_final_rename, run.
    pose proof (work_dirs_state [] w0) as S1.
    destruct (work_dirs [] w0) as [[parents|e] w1] eqn:E1; cbn [snd] in S1; subst w1.
    2:{ by rewrite (bind_Raise _ _ _ _ _ E1). }
    rewrite (bind_Ok _ _ _ _ _ E1). cbv zeta. by apply declined_step.
  - unfold step8_compress, run. rewrite !bind_ret_l_gets. cbv zeta. by apply declined_step.
  - unfold step9_rename_cbz, run. rewrite !bind_ret_l_gets. cbv zeta. by apply declined_step.
Qed.

End Declined.

(** C9: the confirmation protocol.  In dry-run mode, and outside it when
    the confirmations are to be skipped or the mode is not interactive,
    the answer is yes without a question, and the line is logged.
    Otherwise one answer is read, white space around it is dropped and
    it is put in lower case: the empty answer and [y] confirm; [a]
    confirms, sets the flag to skip the confirmations and writes the
    configuration at once, so that no later step asks; any other answer
    declines, and a step that is declined carries out no file operation,
    journals nothing, leaves the tree and the configuration as they are
    and reads no second answer.  When there is no answer to read
    ([input] raises [EOFError]) the exception is not caught here. *)
Theorem confirm_operation_protocol message w :
  (dry_run (cfg w) = true ->
   confirm_operation message w
   = (Ok true,
      with_log (log w ++ [{| l_level := INFO; l_tag := "[DRY RUN] skip confirmation";
                             l_args := [message] |}]) w))
  /\ (dry_run (cfg w) = false ->
      skip_step_confirmations (cfg w) || negb (interactive_mode (cfg w)) = true ->
      confirm_operation message w
      = (Ok true,
         with_log (log w ++ [{| l_level := INFO; l_tag := "skip confirmation";
                                l_args := [message] |}]) w))
  /\ (dry_run (cfg w) = false ->
      skip_step_confirmations (cfg w) = false -> interactive_mode (cfg w) = true ->
      forall answer rest, stdin w = answer :: rest ->
      let response := lower (strip answer) in
      (response = "" \/ response = "y" ->
       confirm_operation message w = (Ok true, with_stdin rest w))
      /\ (response <> "" -> response <> "y" -> response <> "a" ->
          confirm_operation message w = (Ok false, with_stdin rest w))
      /\ (response = "a" ->
          let w' := run (confirm_operation message) w in
          (confirm_operation message w).1 = Ok true
          /\ cfg w' = set_skip_step_confirmations true (cfg w)
          /\ stdin w' = rest
          /\ (is_dir [] (fs w) = true -> is_dir config_file (fs w) = false ->
              faults w (FMkdir []) = false -> faults w (FWrite config_file) = false ->
              lookup config_file (fs w') = Some (File (Json (cfg w'))))
          /\ (forall message', confirm_operation message' w'
              = (Ok true,
                 with_log (log w' ++ [{| l_level := INFO; l_tag := "skip confirmation";
                                         l_args := [message'] |}]) w'))))
  /\ (dry_run (cfg w) = false ->
      skip_step_confirmations (cfg w) = false -> interactive_mode (cfg w) = true ->
      stdin w = [] -> confirm_operation message w = (Raise EOFError, w))
  /\ (dry_run (cfg w) = false ->
      skip_step_confirmations (cfg w) = false -> interactive_mode (cfg w) = true ->
      forall answer rest step, stdin w = answer :: rest ->
      let response := lower (strip answer) in
      response <> "" -> response <> "y" -> response <> "a" ->
      step ∈ step_functions ->
      let w' := run step w in
      fs w' = fs w /\ cfg w' = cfg w /\ operation_log w' = operation_log w
      /\ trace w' = trace w /\ (stdin w' = rest \/ stdin w' = answer :: rest))
  /\ Forall (fun answer =>
               (confirm_operation message (initial_world one_page ask_config [answer] [])).1
               = Ok true)
       ["y"; "Y"; " y "; ""; "   "; "a"; " A"]
  /\ Forall (fun answer =>
               (confirm_operation message (initial_world one_page ask_config [answer] [])).1
               = Ok false)
       ["n"; "N"; "yes"; "no"; "always"; "y y"]
  /\ strip "  Y es " = "Y es" /\ lower (strip " Y ") = "y".
Proof.
  split; [|split; [|split; [|split; [|split; [|split; [|split]]]]]].
  - intros Hdry. unfold confirm_operation. unfold_M. by rewrite Hdry.
  - intros Hdry Hskip. unfold confirm_operation. unfold_M. by rewrite Hdry, Hskip.
  - intros Hdry Hskip Hint answer rest Hin response.
    assert (confirm_operation message w
            = if bool_decide (response = "a")
              then bind (modify (fun w => with_cfg (set_skip_step_confirmations true (cfg w)) w))
                     (fun _ => bind save_config (fun _ => ret true)) (with_stdin rest w)
              else (Ok (bool_decide (response = "") || bool_decide (response = "y")),
                    with_stdin rest w)) as Hstep.
    { unfold confirm_operation. rewrite bind_ret_l_gets. cbv beta.
      rewrite Hdry, Hskip, Hint. cbn [orb negb]. unfold bind at 1, input. rewrite Hin.
      fold response. by destruct (bool_decide (response = "a")). }
    split; [|split].
    + intros [E|E]; rewrite Hstep, E; done.
    + intros H1 H2 H3. rewrite Hstep. by rewrite !bool_decide_false.
    + intros E w'. subst w'. unfold run. rewrite Hstep.
      rewrite bool_decide_true by done.
      set (w1 := with_cfg (set_skip_step_confirmations true (cfg w)) (with_stdin rest w)).
      assert (forall B (k : M B),
                bind (modify (fun w => with_cfg (set_skip_step_confirmations true (cfg w)) w))
                  (fun _ => k) (with_stdin rest w) = k w1) as Hmod by done.
      rewrite Hmod.
      assert (exists w2, save_config w1 = (Ok tt, w2)) as [w2 Hw2].
      { unfold save_config, try_catch.
        destruct (bind _ _ w1) as [[[]|e] w2]; [eauto|]. unfold logw, modify. eauto. }
      assert (run save_config w1 = w2) as Hrun by (unfold run; by rewrite Hw2).
      unfold bind. rewrite Hw2. cbn [fst snd ret].
      assert (cfg w2 = cfg w1 /\ stdin w2 = stdin w1) as [Hc Hs].
      { rewrite <- Hrun. unfold save_config. unfold_M.
        destruct (faults w1 _); simpl_w; [done|].
        destruct (mkdir_parents _ _); simpl_w; [|done].
        destruct (faults w1 _); simpl_w; [done|].
        destruct (write_file _ _ _); simpl_w; done. }
      split; [done|]. split; [exact Hc|]. split; [exact Hs|]. split.
      * intros Hroot Hfile Hf1 Hf2. rewrite Hc, <- Hrun.
        apply (save_config_writes w1); done.
      * intros message'. unfold confirm_operation. rewrite bind_ret_l_gets. cbv beta.
        rewrite Hc. unfold w1. simpl_w.
        cbn [dry_run set_skip_step_confirmations skip_step_confirmations interactive_mode].
        rewrite Hdry. cbn [orb]. done.
  - intros Hdry Hskip Hint Hin. unfold confirm_operation. rewrite bind_ret_l_gets. cbv beta.
    rewrite Hdry, Hskip, Hint. cbn [orb negb]. unfold bind at 1, input. by rewrite Hin.
  - intros Hdry Hskip Hint answer rest step Hin response H1 H2 H3 Hstep w'.
    destruct (declined_steps answer rest w Hdry Hskip Hint Hin H1 H2 H3 step Hstep)
      as (A1 & A2 & A3 & A4 & _ & A6).
    done.
  - repeat (constructor; [by vm_compute|]). constructor.
  - repeat (constructor; [by vm_compute|]). constructor.
  - split; by vm_compute.
Qed.

(** *** [BackupManager.rollback] *)

Lemma rollback_record_effect op w :
  exists w', rollback_record op w = (Ok tt, w')
    /\ fs w' = rollback_effect (faults w) op (fs w)
    /\ faults w' = faults w
    /\ operation_log w' = operation_log w.
Proof.
  unfold rollback_record, rollback_effect, target_path. cbv zeta.
  destruct (op_operation op), (op_target op) as [tgt|]; unfold_M; simpl_w;
    try (eexists; split; [reflexivity|done]).
  - destruct (exists_ tgt (fs w)); simpl_w; [|eexists; split; [reflexivity|done]].
    destruct (exists_ (op_source op) (fs w)); simpl_w; [eexists; split; [reflexivity|done]|].
    destruct (faults w _); simpl_w; [eexists; split; [reflexivity|done]|].
    destruct (rename _ _ _); simpl_w; eexists; (split; [reflexivity|done]).
  - destruct (exists_ tgt (fs w)); simpl_w; [|eexists; split; [reflexivity|done]].
    destruct (faults w (FMkdir _)); simpl_w; [eexists; split; [reflexivity|done]|].
    destruct (mkdir_parents _ _); simpl_w; [|eexists; split; [reflexivity|done]].
    destruct (faults w (FCopy _ _)); simpl_w; [eexists; split; [reflexivity|done]|].
    destruct (copy2 _ _ _); simpl_w; eexists; (split; [reflexivity|done]).
Qed.

Lemma for_each_rollback l : forall w,
  exists w', for_each l rollback_record w = (Ok tt, w')
    /\ fs w' = foldl (fun f op => rollback_effect (faults w) op f) (fs w) l
    /\ faults w' = faults w
    /\ operation_log w' = operation_log w.
Proof.
  induction l as [|op r IH]; intros w.
  - exists w. done.
  - destruct (rollback_record_effect op w) as (w1 & E1 & F1 & B1 & J1).
    destruct (IH w1) as (w2 & E2 & F2 & B2 & J2).
    exists w2. cbn [for_each foldl]. unfold bind. rewrite E1, E2.
    rewrite F2, F1, B1, B2, J2. done.
Qed.

Lemma strict_prefix_parent (p d : path) (y : string) :
  p `prefix_of` (d ++ [y]) -> p <> d ++ [y] -> p `prefix_of` d.
Proof.
  intros [k E] Hne. destruct k as [|z k' _] using rev_ind.
  - rewrite app_nil_r in E. by subst.
  - rewrite app_assoc in E. apply app_inj_tail in E as [-> _]. by apply prefix_app_r.
Qed.

(** *** Making the directories of a path *)

Lemma put_new_dir p fs fs' :
  put p (Dir []) fs = Some fs' -> lookup p fs = None ->
  (forall q c, lookup q fs' = Some (File c) <-> lookup q fs = Some (File c))
  /\ (forall q, is_dir q fs' = true <-> is_dir q fs = true \/ q = p).
Proof.
  intros P Hnone. destruct (put_lookup _ _ _ _ P) as [Lp Lframe].
  assert (exists d x es, p = d ++ [x] /\ lookup d fs = Some (Dir es)
                         /\ is_dir d fs' = true) as (d & x & es & -> & Ld & Ld').
  { unfold put in P. destruct (split_last p) as [[d x]|] eqn:E; simpl in P; [|done].
    apply split_last_Some in E as ->.
    destruct (update_dir_Some _ _ _ _ P) as (es & L1 & L2).
    exists d, x, es. split; [done|]. split; [done|]. unfold is_dir. by rewrite L2. }
  assert (forall q, q `prefix_of` d ->
            is_dir q fs = true /\ is_dir q fs' = true) as Habove.
  { intros q [k ->]. split; eapply is_dir_prefix; [|done]. unfold is_dir. by rewrite Ld. }
  assert (forall q, q `prefix_of` d ++ [x] \/ d ++ [x] `prefix_of` q
                    \/ (~ d ++ [x] `prefix_of` q /\ ~ q `prefix_of` d ++ [x])) as Hcases.
  { intros q. destruct (decide (q `prefix_of` d ++ [x])); [by left|].
    destruct (decide (d ++ [x] `prefix_of` q)); [right; by left|right; by right]. }
  assert (forall q, q `prefix_of` d ++ [x] -> q = d ++ [x] \/ q `prefix_of` d) as Hpre.
  { intros q Hq. destruct (decide (q = d ++ [x])); [by left|right].
    by eapply strict_prefix_parent. }
  split.
  - intros q c. destruct (Hcases q) as [Hq|[[k ->]|[H1 H2]]].
    + destruct (Hpre q Hq) as [->|Hq'].
      * rewrite Lp, Hnone. done.
      * destruct (Habove q Hq') as [A1 A2]. unfold is_dir in A1, A2.
        destruct (lookup q fs) as [[?|?]|], (lookup q fs') as [[?|?]|]; done.
    + rewrite (lookup_app (d ++ [x]) k fs'), (lookup_app (d ++ [x]) k fs), Lp, Hnone.
      simpl. by destruct k.
    + by rewrite Lframe.
  - intros q. destruct (Hcases q) as [Hq|[[k ->]|[H1 H2]]].
    + destruct (Hpre q Hq) as [->|Hq'].
      * unfold is_dir. rewrite Lp, Hnone. split; [by right|done].
      * destruct (Habove q Hq') as [A1 A2]. rewrite A1, A2. split; [by left|done].
    + unfold is_dir.
      rewrite (lookup_app (d ++ [x]) k fs'), (lookup_app (d ++ [x]) k fs), Lp, Hnone. simpl.
      destruct k as [|y k]; simpl; [split; [intros _; right; by rewrite app_nil_r|done]|].
      split; [done|]. intros [?|E]; [done|].
      rewrite <- (app_nil_r (d ++ [x])) in E at 2. by apply app_inv_head in E.
    + unfold is_dir. rewrite Lframe by done. split; [by left|].
      intros [?|E]; [done|]. rewrite E in H1. by destruct H1.
Qed.

(** [mkdir(parents=True, exist_ok=True)] when no component of the path
    is a file: the path is a directory afterwards, the files are the
    files of before, and the only new directories are on the path. *)
Lemma mkdir_from_ok todo : forall made fs,
  is_dir made fs = true ->
  (forall k c, lookup (made ++ take k todo) fs <> Some (File c)) ->
  exists fs', mkdir_from made todo fs = Ok fs'
    /\ is_dir (made ++ todo) fs' = true
    /\ (forall q c, lookup q fs' = Some (File c) <-> lookup q fs = Some (File c))
    /\ (forall q, is_dir q fs' = true -> is_dir q fs = true \/ q `prefix_of` made ++ todo).
Proof.
  induction todo as [|x r IH]; intros made fs Hmade Hfree.
  { exists fs. rewrite app_nil_r. split; [done|]. split; [done|]. split; [done|]. by left. }
  cbn [mkdir_from].
  assert (forall k c, lookup ((made ++ [x]) ++ take k r) fs <> Some (File c)) as Hfree'.
  { intros k c. rewrite <- app_assoc. apply (Hfree (S k) c). }
  destruct (lookup (made ++ [x]) fs) as [[c|es]|] eqn:Lx.
  - exfalso. apply (Hfree 1%nat c). by destruct r.
  - destruct (IH (made ++ [x]) fs) as (fs' & E & H1 & H2 & H3);
      [unfold is_dir; by rewrite Lx|done|].
    rewrite <- app_assoc in H1, H3. by exists fs'.
  - apply is_dir_lookup in Hmade as Hm. destruct Hm as [em Lm].
    destruct (put_is_Some made x (Dir []) fs em Lm) as [fs1 P]. rewrite P.
    destruct (put_new_dir _ _ _ P Lx) as [F1 D1].
    destruct (IH (made ++ [x]) fs1) as (fs' & E & H1 & H2 & H3).
    { apply D1. by right. }
    { intros k c. rewrite F1. apply Hfree'. }
    rewrite <- app_assoc in H1, H3. exists fs'. split; [done|]. split; [done|]. split.
    + intros q c. by rewrite H2, F1.
    + intros q Hq. destruct (H3 q Hq) as [Hq1|Hq1]; [|by right].
      apply D1 in Hq1 as [?|E']; [by left|right]. rewrite E'.
      cbn [app]. apply prefix_app, (prefix_cons _ [] r), prefix_nil.
Qed.

(** C5: [rollback] never raises and goes through the journal from the
    last record to the first, undoing each record as [rollback_effect]
    says; a rename record is undone only when the target exists and the
    source does not, and then the source is the former target again; a
    move record copies the target back to the source and keeps the
    target, and the directories of the source that are missing are made
    first (after steps 5 and 6 the pages are copied back into the child
    directory that step 6 has removed); a delete record only logs the
    warning that it cannot be undone; a record whose operation fails is
    logged as an error, the tree is left as it is and the loop goes
    on. *)
Theorem rollback_best_effort w :
  (rollback w).1 = Ok tt
  /\ fs (run rollback w)
     = foldl (fun f op => rollback_effect (faults w) op f) (fs w) (rev (operation_log w))
  /\ operation_log (run rollback w) = operation_log w
  /\ (forall op w0, (rollback_record op w0).1 = Ok tt)
  /\ (forall op w0, op_operation op = OpDelete ->
        rollback_record op w0
        = (Ok tt, with_log (log w0 ++ [{| l_level := WARNING;
                                          l_tag := "cannot roll back delete";
                                          l_args := [str (op_source op)] |}]) w0))
  /\ (forall op tgt w0, op_operation op = OpRename -> op_target op = Some tgt ->
        (exists_ tgt (fs w0) && negb (exists_ (op_source op) (fs w0)) = false ->
         rollback_record op w0 = (Ok tt, w0))
        /\ (forall n, lookup tgt (fs w0) = Some n -> lookup (op_source op) (fs w0) = None ->
              is_dir (parent (op_source op)) (fs w0) = true ->
              ~ tgt `prefix_of` op_source op ->
              faults w0 (FRename tgt (op_source op)) = false ->
              let f' := fs (run (rollback_record op) w0) in
              lookup (op_source op) f' = Some n /\ lookup tgt f' = None)
        /\ (exists_ tgt (fs w0) && negb (exists_ (op_source op) (fs w0)) = true ->
            faults w0 (FRename tgt (op_source op)) = true ->
            rollback_record op w0
            = (Ok tt, with_log (log w0 ++ [{| l_level := ERROR; l_tag := "rollback failed";
                                              l_args := ["OSError"] |}]) w0)))
  /\ (forall op tgt w0, op_operation op = OpMove -> op_target op = Some tgt ->
        (exists_ tgt (fs w0) = false -> rollback_record op w0 = (Ok tt, w0))
        /\ (forall c, lookup tgt (fs w0) = Some (File c) ->
              (forall p c', p `prefix_of` parent (op_source op) ->
                            lookup p (fs w0) <> Some (File c')) ->
              is_dir (op_source op) (fs w0) = false -> op_source op <> [] ->
              faults w0 (FMkdir (parent (op_source op))) = false ->
              faults w0 (FCopy tgt (op_source op)) = false ->
              let f' := fs (run (rollback_record op) w0) in
              lookup (op_source op) f' = Some (File c) /\ lookup tgt f' = Some (File c)
              /\ is_dir (parent (op_source op)) f' = true
              /\ (forall q c', q <> op_source op -> lookup q (fs w0) = Some (File c') ->
                               lookup q f' = Some (File c'))))
  /\ (let w1 := run (step5_move_files ;; step6_clean_dirs)
                  (initial_world two_pages batch_config [] []) in
      fs w1 = Dir [("A", Dir [("a.jpg", File (Raw "a")); ("b.jpg", File (Raw "b"))])]
      /\ fs (run rollback w1)
         = Dir [("A", Dir [("a.jpg", File (Raw "a")); ("b.jpg", File (Raw "b"));
                           ("B", Dir [("b.jpg", File (Raw "b")); ("a.jpg", File (Raw "a"))])])]
      /\ List.filter is_error (log (run rollback w1)) = []).
Proof.
  destruct (for_each_rollback (rev (operation_log w))
              (with_log (log w ++ [{| l_level := INFO; l_tag := "rollback start"; l_args := [] |}]) w))
    as (w1 & E1 & F1 & B1 & J1).
  assert (rollback w = (Ok tt, with_log (log w1 ++ [{| l_level := INFO; l_tag := "rollback done"; l_args := [] |}]) w1)) as Hr.
  { unfold rollback. unfold bind at 1, logw at 1, modify. cbn [fst snd].
    rewrite bind_ret_l_gets. simpl_w. unfold bind. rewrite E1. done. }
  split; [by rewrite Hr|]. split; [unfold run; by rewrite Hr|].
  split; [unfold run; by rewrite Hr|].
  split; [|split; [|split; [|split]]]; [| | | |by vm_compute].
  - intros op w0. by destruct (rollback_record_effect op w0) as (w' & -> & _).
  - intros op w0 Hop. unfold rollback_record. rewrite Hop. done.
  - intros op tgt w0 Hop Htgt. split; [|split].
    + intros Hc. unfold rollback_record, target_path. rewrite Hop, Htgt. unfold_M.
      by rewrite Hc.
    + intros n Ht Hs Hpar Hpre Hflt f'.
      destruct (rollback_record_effect op w0) as (w' & E & F & _).
      unfold f', run. rewrite E. cbn [snd]. rewrite F.
      unfold rollback_effect. cbv zeta. rewrite Hop, Htgt, Hflt.
      assert (exists_ tgt (fs w0) = true) as -> by (apply exists_lookup; by rewrite Ht).
      assert (exists_ (op_source op) (fs w0) = false) as -> by (by apply not_exists_lookup).
      cbn [negb andb].
      destruct (rename_fresh tgt (op_source op) (fs w0) n Ht Hs Hpar Hpre)
        as (f2 & -> & L1 & L2 & _).
      split; [done|]. specialize (L2 []). by rewrite app_nil_r in L2.
    + intros Hc Hflt. unfold rollback_record, target_path. rewrite Hop, Htgt. unfold_M.
      by rewrite Hc, Hflt.
  - intros op tgt w0 Hop Htgt. split.
    + intros Hc. unfold rollback_record, target_path. rewrite Hop, Htgt. unfold_M.
      by rewrite Hc.
    + intros c Ht Hfree Hnd Hne Hf1 Hf2 f'.
      destruct (rollback_record_effect op w0) as (w' & E & F & _).
      unfold f', run. rewrite E. cbn [snd]. rewrite F.
      unfold rollback_effect. cbv zeta. rewrite Hop, Htgt, Hf1, Hf2.
      assert (exists_ tgt (fs w0) = true) as -> by (apply exists_lookup; by rewrite Ht).
      cbn [negb andb].
      assert (exists d y, op_source op = d ++ [y]) as (d & y & Ed).
      { destruct (op_source op) as [|y p0 _] using rev_ind; [done|]. eauto. }
      rewrite Ed in *. rewrite parent_snoc in *.
      destruct (mkdir_from_ok d [] (fs w0)) as (fs1 & Emk & D1 & K1 & N1).
      { unfold is_dir. cbn [lookup].
        destruct (fs w0) as [c0|es0] eqn:Efs; [|done].
        exfalso. apply (Hfree [] c0); [apply prefix_nil|]. cbn [lookup]. congruence. }
      { intros k c'. cbn [app]. apply Hfree. exists (drop k d). by rewrite take_drop. }
      cbn [app] in D1, N1. unfold mkdir_parents. rewrite Emk.
      assert (is_dir (d ++ [y]) fs1 = false) as Hnd1.
      { destruct (is_dir (d ++ [y]) fs1) eqn:Hd1; [|done].
        apply N1 in Hd1 as [Hd1|Hd1]; [congruence|].
        apply prefix_length in Hd1. rewrite length_app in Hd1. simpl in Hd1. lia. }
      assert (lookup tgt fs1 = Some (File c)) as Ht1 by (by apply K1).
      destruct (copy2_file tgt (d ++ [y]) c fs1 Ht1) as (f2 & -> & L1 & L2);
        [by rewrite parent_snoc|done|done|].
      assert (forall q c', q <> d ++ [y] -> lookup q fs1 = Some (File c') ->
                lookup q f2 = Some (File c')) as Hkeep.
      { intros q c' Hq Lq. rewrite L2; [done| |].
        - intros [k Ek]. destruct k as [|x r]; [by rewrite app_nil_r in Ek|].
          rewrite Ek, lookup_app in Lq.
          unfold is_dir in Hnd1. destruct (lookup (d ++ [y]) fs1) as [[?|?]|]; done.
        - intros Hp. apply strict_prefix_parent in Hp as [k ->]; [|done].
          unfold is_dir in D1. rewrite lookup_app, Lq in D1. by destruct k. }
      split; [done|]. split.
      { destruct (decide (tgt = d ++ [y])) as [->|Hdiff]; [done|]. by apply Hkeep. }
      split.
      { unfold is_dir in *. destruct (lookup d fs1) as [[?|ed]|] eqn:Ld1; try done.
        destruct (decide (d `prefix_of` d ++ [y])) as [_|Hn];
          [|destruct Hn; by apply prefix_app_r].
        assert (lookup d f2 = lookup d fs1 \/ exists ed', lookup d f2 = Some (Dir ed'))
          as [->| [ed' ->]]; [|by rewrite Ld1|done].
        right. unfold copy2, read_file in *.
        assert (is_Some (lookup (d ++ [y]) f2)) as Hs by (rewrite L1; eauto).
        apply (lookup_prefix_is_Some d) in Hs as [n Hn]; [|by apply prefix_app_r].
        destruct n as [c0|ed']; [|eauto].
        rewrite lookup_app, Hn in L1. done. }
      intros q c' Hq Lq. apply Hkeep; [done|]. by apply K1.
Qed.

(** *** The order of journal entries and file operations *)

Lemma safe_rename_trace src dst w :
  exists tail, trace (run (safe_rename src dst) w) = trace w ++ tail
               /\ journal_first [] tail = true.
Proof.
  unfold safe_rename. unfold_M. simpl_w.
  destruct (exists_ src (fs w)); simpl_w; [|exists []; by rewrite app_nil_r].
  destruct (dry_run (cfg w)); simpl_w; [eexists [_]; done|].
  destruct (bool_decide (src = dst)); simpl_w; [exists []; by rewrite app_nil_r|].
  destruct (unique_name 100 1 dst dst (fs w)) as [final|]; simpl_w;
    [|exists []; by rewrite app_nil_r].
  destruct (faults w (FRename src final)); simpl_w; [eexists [_]; done|].
  destruct (rename src final (fs w)) as [f'|e]; simpl_w; [|eexists [_]; done].
  eexists [_; _]. rewrite <- app_assoc. split; [done|].
  cbn. by rewrite bool_decide_true.
Qed.

(** C1: [safe_rename] appends the journal record before it renames, but
    step 5 moves the file first and appends the record afterwards (as
    steps 6 to 9 do with their operations), so the trace of a run does
    not have every destructive operation after its journal record. *)
Theorem journal_after_move_in_step5 :
  (forall src dst w,
     exists tail, trace (run (safe_rename src dst) w) = trace w ++ tail
                  /\ journal_first [] tail = true)
  /\ trace (run step5_move_files (initial_world one_page batch_config [] []))
     = [EvFs (FMove ["A"; "B"; "0001.jpg"] ["A"; "0001.jpg"]);
        EvJournal {| op_timestamp := 0; op_operation := OpMove;
                     op_source := ["A"; "B"; "0001.jpg"];
                     op_target := Some ["A"; "0001.jpg"] |}]
  /\ journal_first []
       (trace (run step5_move_files (initial_world one_page batch_config [] []))) = false
  /\ journal_first []
       (trace (run pipeline (initial_world comic batch_config [] ["aaaa"]))) = false.
Proof.
  split; [apply safe_rename_trace|]. by vm_compute.
Qed.

(** C7: step 9 only looks for [.zip] files in the working directory
    itself.  For the expected tree the archive of a parent directory is
    there and becomes [<parent>.cbz]; for a tree one level deeper the
    archive made by step 8 lies in a subdirectory and keeps its [.zip]
    name after step 9. *)
Theorem step9_leaves_nested_zip :
  fs (run pipeline (initial_world comic batch_config [] ["aaaa"]))
  = Dir [("A.cbz", File (Archive [("0001.jpg", Picture false "RGB" "x");
                                  ("0002.jpg", Raw "y"); ("0003.jpg", Raw "z")]))]
  /\ fs (run pipeline (initial_world deep_tree batch_config [] ["aaaa"]))
     = Dir [("A", Dir [("0000", Dir [("C.zip", File (Archive [("1.jpg", Raw "page")]))])])]
  /\ fs (run (step8_compress ;; step9_rename_cbz)
           (initial_world one_page batch_config [] ["aaaa"]))
     = Dir [("A", Dir [("B.zip", File (Archive [("0001.jpg", Raw "page")]))])].
Proof. by vm_compute. Qed.

(** *** Dry run: the tree at the end of a computation *)

Lemma quiet_ret {A} (a : A) : quiet (ret a).
Proof. by intros w _ _. Qed.

Lemma quiet_raise {A} e : quiet (@raise A e).
Proof. by intros w _ _. Qed.

Lemma quiet_gets {A} (f : world -> A) : quiet (gets f).
Proof. by intros w _ _. Qed.

Lemma quiet_ask_fs {A} (f : node -> A) : quiet (ask_fs f).
Proof. by intros w _ _. Qed.

Lemma quiet_read_fs {A} (f : node -> res A) : quiet (read_fs f).
Proof. by intros w _ _. Qed.

Lemma quiet_logw lv tag args : quiet (logw lv tag args).
Proof. by intros w _ _. Qed.

Lemma quiet_record_operation k s t : quiet (record_operation k s t).
Proof. by intros w _ _. Qed.

Lemma quiet_draw : quiet draw.
Proof. intros w _ _. unfold draw. by destruct (rand w). Qed.

Lemma quiet_input : quiet input.
Proof. intros w _ _. unfold input. by destruct (stdin w). Qed.

Lemma quiet_fault_point op : quiet (fault_point op).
Proof. intros w _ _. unfold fault_point. by destruct (faults w op). Qed.

Lemma quiet_bind {A B} (m : M A) (k : A -> M B) :
  quiet m -> (forall a, quiet (k a)) -> quiet (bind m k).
Proof.
  intros Hm Hk w Hdry Hf. specialize (Hm w Hdry Hf). unfold bind.
  destruct (m w) as [[a|e] w1]; simpl in *; [|done].
  destruct Hm as (E1 & E2 & E3).
  destruct (Hk a w1) as (F1 & F2 & F3); [by rewrite E2|intros; by rewrite E3|].
  by rewrite F1, F2, F3.
Qed.

(** Reading the configuration gives a configuration in dry-run mode. *)
Lemma quiet_bind_cfg {B} (k : config -> M B) :
  (forall c, dry_run c = true -> quiet (k c)) -> quiet (bind (gets cfg) k).
Proof. intros Hk w Hdry Hf. rewrite bind_ret_l_gets_pair. by apply Hk. Qed.

Lemma quiet_try_catch {A} (m : M A) (h : exn -> M A) :
  quiet m -> (forall e, quiet (h e)) -> quiet (try_catch m h).
Proof.
  intros Hm Hh w Hdry Hf. specialize (Hm w Hdry Hf). unfold try_catch.
  destruct (m w) as [[a|e] w1]; simpl in *; [done|].
  destruct Hm as (E1 & E2 & E3).
  destruct (Hh e w1) as (F1 & F2 & F3); [by rewrite E2|intros; by rewrite E3|].
  by rewrite F1, F2, F3.
Qed.

Lemma quiet_for_each {A} (l : list A) (body : A -> M unit) :
  (forall x, quiet (body x)) -> quiet (for_each l body).
Proof.
  intros H. induction l as [|x r IH]; simpl; [apply quiet_ret|].
  apply quiet_bind; [apply H|]. intros _. apply IH.
Qed.

Lemma quiet_when b (m : M unit) : quiet m -> quiet (when b m).
Proof. intros H. destruct b; [done|apply quiet_ret]. Qed.

Create HintDb quiet.

#[local] Hint Resolve quiet_ret quiet_raise quiet_gets quiet_ask_fs quiet_read_fs
  quiet_logw quiet_record_operation quiet_draw quiet_input quiet_fault_point : quiet.

Ltac use_dry_run :=
  repeat match goal with
         | H : dry_run ?c = true |- context [dry_run ?c] =>
             rewrite H; cbn [negb andb orb]; rewrite ?andb_false_r
         end.

Ltac quiet_step :=
  use_dry_run;
  lazymatch goal with
  | |- quiet (bind (gets cfg) _) => apply quiet_bind_cfg; intros ? ?
  | |- quiet (bind _ _) => apply quiet_bind; [|intros ?]
  | |- quiet (try_catch _ _) => apply quiet_try_catch; [|intros ?]
  | |- quiet (for_each _ _) => apply quiet_for_each; intros ?
  | |- quiet (if ?b then _ else _) => destruct b
  | |- quiet (match ?x with _ => _ end) => destruct x
  | |- quiet (let _ := _ in _) => cbv zeta
  | |- quiet _ => solve [auto with quiet]
  end.

Ltac quiet_auto := unfold when; repeat quiet_step.

Lemma quiet_confirm_operation message : quiet (confirm_operation message).
Proof. unfold confirm_operation. quiet_auto. Qed.

Lemma quiet_safe_rename src dst : quiet (safe_rename src dst).
Proof. unfold safe_rename. quiet_auto. Qed.

Lemma quiet_sorted_paths l : quiet (sorted_paths l).
Proof. unfold sorted_paths. quiet_auto. Qed.

Lemma quiet_work_dirs p : quiet (work_dirs p).
Proof. unfold work_dirs. quiet_auto. Qed.

#[local] Hint Resolve quiet_confirm_operation quiet_safe_rename quiet_sorted_paths
  quiet_work_dirs : quiet.

Lemma quiet_child_dirs parents : quiet (child_dirs parents).
Proof. induction parents as [|p r IH]; simpl; quiet_auto. Qed.

Lemma quiet_number_loop where_ ext start items : forall idx used,
  quiet (number_loop where_ ext start idx used items).
Proof.
  induction items as [|x r IH]; intros idx used; cbn [number_loop]; quiet_auto.
Qed.

Lemma quiet_sorted_jpg_files d : quiet (sorted_jpg_files d).
Proof. unfold sorted_jpg_files. quiet_auto. Qed.

Lemma quiet_dir_is_empty p : quiet (dir_is_empty p).
Proof. unfold dir_is_empty. quiet_auto. Qed.

#[local] Hint Resolve quiet_child_dirs quiet_number_loop quiet_sorted_jpg_files
  quiet_dir_is_empty : quiet.

Lemma quiet_step1 : quiet step1_convert.
Proof. unfold step1_convert. quiet_auto. Qed.

Lemma quiet_process_subdir d : quiet (process_subdir d).
Proof. unfold process_subdir. quiet_auto. Qed.

Lemma quiet_process_parent d : quiet (process_parent d).
Proof. unfold process_parent. quiet_auto. Qed.

#[local] Hint Resolve quiet_process_subdir quiet_process_parent : quiet.

Lemma quiet_step2 : quiet step2_rename.
Proof. unfold step2_rename. quiet_auto. Qed.

Lemma quiet_step3 : quiet step3_rename_subdirs.
Proof. unfold step3_rename_subdirs. quiet_auto. Qed.

Lemma quiet_step4 : quiet step4_add_prefix.
Proof. unfold step4_add_prefix. quiet_auto. Qed.

Lemma quiet_step5 : quiet step5_move_files.
Proof. unfold step5_move_files. quiet_auto. Qed.

Lemma quiet_step6 : quiet step6_clean_dirs.
Proof. unfold step6_clean_dirs. quiet_auto. Qed.

Lemma quiet_compress_directory d : quiet (compress_directory d).
Proof. unfold compress_directory. quiet_auto. Qed.

#[local] Hint Resolve quiet_compress_directory : quiet.

Lemma quiet_step8 : quiet step8_compress.
Proof. unfold step8_compress. quiet_auto. Qed.

Lemma quiet_step9 : quiet step9_rename_cbz.
Proof. unfold step9_rename_cbz. quiet_auto. Qed.

(** *** Step 7 in dry run: the temporary directory *)

Lemma mkdtemp_spec tries d : forall w,
  (forall op, faults w op = false) ->
  cfg (mkdtemp tries d w).2 = cfg w /\ faults (mkdtemp tries d w).2 = faults w
  /\ match (mkdtemp tries d w).1 with
     | Raise _ => fs (mkdtemp tries d w).2 = fs w
     | Ok p => exists_ p (fs w) = false /\ mkdir p (fs w) = Ok (fs (mkdtemp tries d w).2)
     end.
Proof.
  induction tries as [|t IH]; intros w Hf; [done|].
  assert (forall nm w1, fs w1 = fs w -> cfg w1 = cfg w -> faults w1 = faults w ->
    let m := (taken <- ask_fs (exists_ (d ++ ["tmp" +:+ nm])) ;;
              if (taken : bool) then mkdtemp t d
              else (fs_op (FMkdir (d ++ ["tmp" +:+ nm])) (mkdir (d ++ ["tmp" +:+ nm])) ;;
                    ret (d ++ ["tmp" +:+ nm]))) w1 in
    cfg m.2 = cfg w /\ faults m.2 = faults w
    /\ match m.1 with
       | Raise _ => fs m.2 = fs w
       | Ok p => exists_ p (fs w) = false /\ mkdir p (fs w) = Ok (fs m.2)
       end) as Hbody.
  { intros nm w1 E1 E2 E3. cbv zeta.
    set (p := d ++ ["tmp" +:+ nm]).
    assert ((taken <- ask_fs (exists_ p) ;;
             if (taken : bool) then mkdtemp t d
             else (fs_op (FMkdir p) (mkdir p) ;; ret p)) w1
            = if exists_ p (fs w1) then mkdtemp t d w1
              else (fs_op (FMkdir p) (mkdir p) ;; ret p) w1) as ->.
    { unfold bind at 1, ask_fs, gets. cbn [fst snd]. by destruct (exists_ p (fs w1)). }
    destruct (exists_ p (fs w1)) eqn:Ex.
    - destruct (IH w1) as (H1 & H2 & H3); [intros; by rewrite E3|].
      rewrite <- E1, <- E2, <- E3. done.
    - unfold bind, fs_op. rewrite E3, Hf.
      destruct (mkdir p (fs w1)) as [fs'|e] eqn:Mk; simpl_w; cbn [ret fst snd]; simpl_w.
      + rewrite <- E1. done.
      + done. }
  cbv zeta in Hbody.
  assert (exists nm w1, fs w1 = fs w /\ cfg w1 = cfg w /\ faults w1 = faults w
            /\ mkdtemp (S t) d w
                = (taken <- ask_fs (exists_ (d ++ ["tmp" +:+ nm])) ;;
                   if (taken : bool) then mkdtemp t d
                   else (fs_op (FMkdir (d ++ ["tmp" +:+ nm])) (mkdir (d ++ ["tmp" +:+ nm])) ;;
                         ret (d ++ ["tmp" +:+ nm]))) w1)
    as (nm & w1 & E1 & E2 & E3 & ->).
  { cbn [mkdtemp]. unfold bind at 1, draw.
    destruct (rand w) as [|nm r]; [exists "", w|exists nm, (with_rand r w)]; done. }
  by apply Hbody.
Qed.

Lemma quiet_with_temporary_directory d body :
  (forall tmp, quiet (body tmp)) -> quiet (with_temporary_directory d body).
Proof.
  intros Hb w Hdry Hf. unfold with_temporary_directory.
  destruct (mkdtemp_spec TMP_MAX d w Hf) as (C1 & F1 & Hres).
  destruct (mkdtemp TMP_MAX d w) as [[tmp|e] w1] eqn:Emk; cbn [fst snd] in *.
  2:{ by rewrite (bind_Raise _ _ _ _ _ Emk). }
  rewrite (bind_Ok _ _ _ _ _ Emk).
  destruct Hres as [Hfresh Hmk].
  destruct (Hb tmp w1) as (B1 & B2 & B3); [by rewrite C1|intros; by rewrite F1|].
  assert (forall w2, fs w2 = fs w1 -> cfg w2 = cfg w1 -> faults w2 = faults w1 ->
            exists w3, cleanup tmp w2 = (Ok tt, w3)
              /\ fs w3 = fs w /\ cfg w3 = cfg w /\ faults w3 = faults w) as Hclean.
  { intros w2 E1 E2 E3. unfold cleanup, bind, ask_fs, gets, when. cbn [fst snd].
    rewrite E1, (mkdir_exists _ _ _ Hmk). cbv beta iota.
    rewrite rmtree_op_no_fault by (intros; by rewrite E3, F1). unfold fs_op.
    rewrite E3, F1, Hf. cbv beta iota.
    rewrite E1, (mkdir_then_rmtree _ _ _ Hfresh Hmk).
    eexists. split; [reflexivity|]. simpl_w. by rewrite E2, E3, C1, F1. }
  destruct (body tmp w1) as [[[]|e] w2] eqn:Eb; cbn [fst snd] in *.
  - rewrite (bind_Ok _ _ _ tt w2) by (by apply try_catch_Ok).
    destruct (Hclean w2 B1 B2 B3) as (w3 & -> & H1 & H2 & H3). done.
  - destruct (Hclean w2 B1 B2 B3) as (w3 & Hc & H1 & H2 & H3).
    rewrite (bind_Raise _ _ _ e w3); [done|].
    rewrite (try_catch_Raise _ _ _ _ _ Eb). by rewrite (bind_Ok _ _ _ _ _ Hc).
Qed.

Lemma quiet_step7_phase1 temp_path files : forall temp_files,
  quiet (step7_phase1 temp_path files temp_files).
Proof.
  induction files as [|f r IH]; intros temp_files; cbn [step7_phase1]; quiet_auto.
Qed.

Lemma quiet_step7_phase2 directory temp_files : forall new_idx,
  quiet (step7_phase2 directory new_idx temp_files).
Proof.
  induction temp_files as [|[o t] r IH]; intros new_idx; cbn [step7_phase2]; quiet_auto.
Qed.

#[local] Hint Resolve quiet_step7_phase1 quiet_step7_phase2 : quiet.

Lemma quiet_step7_directory directory : quiet (step7_directory directory).
Proof.
  unfold step7_directory. apply quiet_with_temporary_directory. intros tmp. quiet_auto.
Qed.

#[local] Hint Resolve quiet_step7_directory : quiet.

Lemma quiet_step7 : quiet step7_final_rename.
Proof. unfold step7_final_rename. quiet_auto. Qed.

Lemma quiet_pipeline : quiet pipeline.
Proof.
  unfold pipeline, step_functions. cbn [for_each].
  repeat (apply quiet_bind; [|intros _]);
    auto using quiet_step1, quiet_step2, quiet_step3, quiet_step4, quiet_step5,
      quiet_step6, quiet_step7, quiet_step8, quiet_step9, quiet_ret.
Qed.

(** A dry run in an environment where no file operation fails: the tree
    after the nine steps is the tree before them, whatever the tree, the
    journal, the answers and the random names are.  (Step 7 makes its
    temporary directory in the working directory also in dry-run mode;
    it is empty and removed again at the end of each round of the
    loop.) *)
Lemma dry_run_leaves_tree_unchanged w :
  dry_run (cfg w) = true -> (forall op, faults w op = false) ->
  fs (run pipeline w) = fs w.
Proof. intros Hdry Hf. by destruct (quiet_pipeline w Hdry Hf). Qed.

Lemma dry_run_leaves_tree_unchanged_witness :
  fs (run pipeline (initial_world comic dry_config [] ["aaaa"])) = comic.
Proof.
  apply (dry_run_leaves_tree_unchanged (initial_world comic dry_config [] ["aaaa"])).
  - reflexivity.
  - intros op. reflexivity.
Defined.

(** C3: a dry run is not without file operations.  On the tree with the
    one page [A/B/0001.jpg], in dry-run mode, step 7 makes a temporary
    directory in the working directory and removes it again, before it
    looks at the flag; the other eight steps carry out no file operation
    at all.  When the temporary directory cannot be removed it stays in
    the tree after the run, and in a working directory where no
    directory can be made the dry run ends with the exception of step 7.
    When nothing fails, the tree at the end is the tree of the
    beginning. *)
Theorem dry_run_step7_makes_directory :
  let w := initial_world one_page dry_config [] ["aaaa"] in
  file_operations (trace (run pipeline w)) = [FMkdir ["tmpaaaa"]; FRmtree ["tmpaaaa"]]
  /\ trace (run step7_final_rename w)
     = [EvFs (FMkdir ["tmpaaaa"]); EvFs (FRmtree ["tmpaaaa"])]
  /\ Forall (fun step => file_operations (trace (run step w)) = [])
       [step1_convert; step2_rename; step3_rename_subdirs; step4_add_prefix;
        step5_move_files; step6_clean_dirs; step8_compress; step9_rename_cbz]
  /\ fs (run pipeline (faulty_world fail_rmtree one_page dry_config [] ["aaaa"]))
     = Dir [("A", Dir [("B", Dir [("0001.jpg", File (Raw "page"))])]); ("tmpaaaa", Dir [])]
  /\ (pipeline (faulty_world fail_mkdir one_page dry_config [] ["aaaa"])).1
     = Raise InjectedOSError
  /\ fs (run pipeline w) = one_page.
Proof.
  cbv zeta. split; [by vm_compute|]. split; [by vm_compute|].
  split; [repeat (constructor; [by vm_compute|]); constructor|].
  split; [by vm_compute|]. split; by vm_compute.
Qed.

(** *** Step 8: building the archive *)


Lemma fs_op_cases op f w :
  (exists fs', faults w op = false /\ f (fs w) = Ok fs'
      /\ fs_op op f w = (Ok tt, with_trace (trace w ++ [EvFs op]) (with_fs fs' w)))
  \/ (exists e, fs_op op f w = (Raise e, w)
        /\ (faults w op = true \/ f (fs w) = Raise e)).
Proof.
  unfold fs_op. destruct (faults w op) eqn:F; [right; eauto|].
  destruct (f (fs w)) as [fs'|e] eqn:E; [left|right]; eauto 10.
Qed.


Lemma parent_of_existing_is_dir p x fs n :
  lookup (p ++ [x]) fs = Some n -> is_dir p fs = true.
Proof.
  intros (es & L & _)%lookup_snoc_Some. unfold is_dir. by rewrite L.
Qed.


(** *** Step 8: one leaf directory *)

Section Compress.
Context (par : path) (nm zipname tempname : string).
Context (files : list path).
Let d : path := par ++ [nm].
Let zip : path := par ++ [zipname].
Context (Hzip : zipname <> nm) (Htemp : tempname <> nm) (Htz : tempname <> zipname).
Context (Hfiles : Forall (fun f => exists x, f = d ++ [x]) files).












End Compress.

Lemma with_suffix_snoc par nm sfx : with_suffix (par ++ [nm]) sfx = par ++ [stem nm +:+ sfx].
Proof. unfold with_suffix. by rewrite parent_snoc, name_snoc. Qed.

Lemma glob_suffix_children d sfx f :
  Forall (fun p => exists x, p = d ++ [x]) (glob_suffix d sfx f).
Proof.
  unfold glob_suffix. destruct (lookup d f) as [[c|es]|]; try by constructor.
  apply Forall_fmap, Forall_forall. intros e _. simpl. eauto.
Qed.






(** *** Moving an entry from one directory to a sibling directory *)

Lemma cousins_incomparable (par : path) (a b : string) (r1 r2 : path) :
  a <> b -> ~ (par ++ a :: r1) `prefix_of` (par ++ b :: r2).
Proof.
  intros Hne [k E]. rewrite <- app_assoc in E. apply app_inv_head in E.
  simpl in E. by injection E.
Qed.

Lemma assoc_NoDup {A} x (a : A) es : NoDup es.*1 -> (x, a) ∈ es -> assoc x es = Some a.
Proof.
  induction es as [|[y b] r IH]; simpl; [by intros _ ?%elem_of_nil|].
  intros [Hy Hr]%NoDup_cons [[= -> ->]|Hin]%elem_of_cons.
  - by rewrite bool_decide_true.
  - rewrite bool_decide_false; [by apply IH|].
    intros ->. apply Hy. apply list_elem_of_fmap. by exists (y, a).
Qed.

Lemma assoc_Some_elem {A} x (a : A) es : assoc x es = Some a -> (x, a) ∈ es.
Proof.
  induction es as [|[y b] r IH]; simpl; [done|].
  destruct (bool_decide (x = y)) eqn:E.
  - apply bool_decide_eq_true in E as ->. intros [= ->]. apply elem_of_cons. by left.
  - intros H. apply elem_of_cons. right. by apply IH.
Qed.

Lemma assoc_None_names {A} x (es : list (string * A)) : assoc x es = None <-> x ∉ es.*1.
Proof.
  induction es as [|[y b] r IH]; simpl.
  - split; [intros _ ?%elem_of_nil|]; done.
  - destruct (bool_decide (x = y)) eqn:E.
    + apply bool_decide_eq_true in E as ->. split; [done|]. intros H. exfalso. apply H.
      apply elem_of_cons. by left.
    + apply bool_decide_eq_false in E. rewrite IH. split.
      * intros H [->|H']%elem_of_cons; done.
      * intros H H'. apply H. apply elem_of_cons. by right.
Qed.

Section Move.
Context (par : path) (a b : string) (Hab : a <> b).
Let A : path := par ++ [a].
Let B : path := par ++ [b].

(** Renaming [A/s] to [B/t], where [t] is free in [B]: the entry leaves
    the entries of [A] and is added to those of [B]; whatever is not
    above or below [A] or [B] stays as it is. *)
Lemma rename_between_dirs s t fs ea eb n :
  lookup A fs = Some (Dir ea) -> lookup B fs = Some (Dir eb) ->
  assoc s ea = Some n -> assoc t eb = None ->
  exists fs',
    move (A ++ [s]) (B ++ [t]) fs = Ok fs'
    /\ lookup A fs' = Some (Dir (remove_entry s ea))
    /\ lookup B fs' = Some (Dir (set_entry t n eb))
    /\ (forall q, ~ A `prefix_of` q -> ~ q `prefix_of` A ->
                  ~ B `prefix_of` q -> ~ q `prefix_of` B ->
                  lookup q fs' = lookup q fs).
Proof.
  intros LA LB Hs Ht.
  assert (~ A `prefix_of` B /\ ~ B `prefix_of` A) as [IAB IBA].
  { split; apply siblings_incomparable; done. }
  assert (lookup (A ++ [s]) fs = Some n) as Lsrc by (by rewrite lookup_app, LA; simpl; rewrite Hs).
  assert (lookup (B ++ [t]) fs = None) as Ldst by (by rewrite lookup_app, LB; simpl; rewrite Ht).
  assert (~ (A ++ [s]) `prefix_of` (B ++ [t])) as Hpre.
  { unfold A, B. rewrite <- !app_assoc. by apply cousins_incomparable. }
  assert (is_dir (parent (B ++ [t])) fs = true) as Hpar.
  { rewrite parent_snoc. apply is_dir_lookup. eauto. }
  destruct (rename_fresh _ _ _ _ Lsrc Ldst Hpar Hpre) as (fs' & R & L1 & L2 & L3).
  exists fs'. split.
  { unfold move. assert (is_dir (B ++ [t]) fs = false) as ->; [|done].
    unfold is_dir. by rewrite Ldst. }
  (* the two directories, by the steps of [rename] *)
  unfold rename in R. rewrite Lsrc in R.
  destruct (A ++ [s]) as [|x0 s0] eqn:Es; [by destruct A|]. rewrite <- Es in *.
  rewrite bool_decide_false in R by (intros E; apply Hpre; by rewrite E).
  rewrite Hpar in R. rewrite (bool_decide_false (B ++ [t] = [])) in R by (by destruct B).
  cbn [negb orb] in R. rewrite bool_decide_false, Ldst in R by done.
  destruct (remove (A ++ [s]) fs) as [fs1|] eqn:R1; simpl in R; [|done].
  destruct (put (B ++ [t]) n fs1) as [fs2|] eqn:P2; simpl in R; [|done].
  injection R as <-.
  unfold remove in R1. rewrite split_last_snoc in R1. simpl in R1.
  unfold put in P2. rewrite split_last_snoc in P2. simpl in P2.
  destruct (update_dir_Some _ _ _ _ R1) as (ea' & LA1 & LA2).
  rewrite LA in LA1. injection LA1 as <-.
  assert (lookup B fs1 = Some (Dir eb)) as LB1.
  { rewrite (update_dir_frame _ _ _ _ _ R1); done. }
  destruct (update_dir_Some _ _ _ _ P2) as (eb' & LB2 & LB3).
  rewrite LB1 in LB2. injection LB2 as <-.
  split; [|split; [done|]].
  - rewrite (update_dir_frame _ _ _ _ _ P2); done.
  - intros q H1 H2 H3 H4.
    rewrite (update_dir_frame _ _ _ _ _ P2), (update_dir_frame _ _ _ _ _ R1); done.
Qed.

End Move.

(** *** Step 7: the two phases *)

Lemma assoc_app {A} x (es1 es2 : list (string * A)) :
  assoc x (es1 ++ es2) = match assoc x es1 with Some a => Some a | None => assoc x es2 end.
Proof.
  induction es1 as [|[y b] r IH]; simpl; [done|]. by destruct (bool_decide (x = y)).
Qed.

Lemma page_name_inj i j : page_name i = page_name j -> i = j.
Proof. unfold page_name. intros H. by apply str_app_inv_r, fmt04_inj in H. Qed.

Section Step7.
Context (par : path) (dn tn : string) (Hne : dn <> tn).
Let dir : path := par ++ [dn].
Let tmp : path := par ++ [tn].

Lemma phase1_spec (nd : string -> node) names : forall acc w ed et,
  dry_run (cfg w) = false -> (forall op, faults w op = false) ->
  lookup dir (fs w) = Some (Dir ed) -> lookup tmp (fs w) = Some (Dir et) ->
  NoDup names ->
  (forall n, n ∈ names -> assoc n ed = Some (nd n)) ->
  (forall n, n ∈ names -> assoc n et = None) ->
  exists w1,
    step7_phase1 tmp ((fun n => dir ++ [n]) <$> names) acc w
    = (Ok (acc ++ ((fun n => (n, tmp ++ [n])) <$> names)), w1)
    /\ cfg w1 = cfg w /\ faults w1 = faults w
    /\ lookup dir (fs w1) = Some (Dir (foldl (fun e n => remove_entry n e) ed names))
    /\ lookup tmp (fs w1) = Some (Dir (et ++ ((fun n => (n, nd n)) <$> names)))
    /\ (forall q, apart dir q -> apart tmp q -> lookup q (fs w1) = lookup q (fs w)).
Proof.
  induction names as [|n r IH]; intros acc w ed et Hdry Hf Ld Lt Hnd Hed Het.
  - exists w. simpl. rewrite !app_nil_r. done.
  - apply NoDup_cons in Hnd as [Hn Hnd]. cbn [fmap list_fmap step7_phase1].
    rewrite bind_ret_l_gets, Hdry. rewrite name_snoc.
    destruct (rename_between_dirs par dn tn Hne n n (fs w) ed et (nd n) Ld Lt)
      as (fs' & Hmv & Ld' & Lt' & Fr'); [apply Hed; set_solver|apply Het; set_solver|].
    fold dir tmp in Hmv.
    set (w' := with_clock (S (clock w))
                 (with_trace ((trace w ++ [EvFs (FMove (dir ++ [n]) (tmp ++ [n]))])
                              ++ [EvJournal {| op_timestamp := clock w; op_operation := OpMove;
                                               op_source := dir ++ [n];
                                               op_target := Some (tmp ++ [n]) |}])
                    (with_operation_log
                       (operation_log w ++ [{| op_timestamp := clock w; op_operation := OpMove;
                                               op_source := dir ++ [n];
                                               op_target := Some (tmp ++ [n]) |}])
                       (with_trace (trace w ++ [EvFs (FMove (dir ++ [n]) (tmp ++ [n]))])
                          (with_fs fs' w))))).
    assert (try_catch
              (fs_op (FMove (dir ++ [n]) (tmp ++ [n])) (move (dir ++ [n]) (tmp ++ [n])) ;;
               record_operation OpMove (dir ++ [n]) (Some (tmp ++ [n])) ;;
               ret (acc ++ [(n, tmp ++ [n])]))
              (fun e =>
                 logw ERROR "move to temporary directory failed" [str (dir ++ [n]); exn_name e] ;;
                 ret acc) w
            = (Ok (acc ++ [(n, tmp ++ [n])]), w')) as Hstep.
    { unfold_M. by rewrite Hf, Hmv. }
    rewrite (bind_Ok _ _ _ _ _ Hstep).
    destruct (IH (acc ++ [(n, tmp ++ [n])]) w' (remove_entry n ed) (set_entry n (nd n) et))
      as (w1 & E1 & C1 & F1 & D1 & T1 & Fr1); try done.
    { intros m Hm. rewrite assoc_remove_entry_ne; [apply Hed; set_solver|]. by intros ->. }
    { intros m Hm. rewrite assoc_set_entry_ne; [apply Het; set_solver|]. by intros ->. }
    exists w1. rewrite E1, <- app_assoc. split; [done|]. split; [done|]. split; [done|].
    split; [done|]. split.
    + rewrite T1, set_entry_fresh by (apply Het; set_solver). by rewrite <- app_assoc.
    + intros q [H1 H2] [H3 H4]. rewrite Fr1 by done. by apply Fr'.
Qed.

Lemma phase2_spec (nd : string -> node) names : forall idx w ed et,
  dry_run (cfg w) = false -> (forall op, faults w op = false) ->
  lookup dir (fs w) = Some (Dir ed) -> lookup tmp (fs w) = Some (Dir et) ->
  NoDup names ->
  (forall n, n ∈ names -> assoc n et = Some (nd n)) ->
  (forall k, idx <= k < idx + Z.of_nat (length names) -> assoc (page_name k) ed = None) ->
  exists w1,
    step7_phase2 dir idx ((fun n => (n, tmp ++ [n])) <$> names) w = (Ok tt, w1)
    /\ cfg w1 = cfg w /\ faults w1 = faults w
    /\ lookup dir (fs w1) = Some (Dir (ed ++ renumbered nd idx names))
    /\ lookup tmp (fs w1) = Some (Dir (foldl (fun e n => remove_entry n e) et names))
    /\ (forall q, apart dir q -> apart tmp q -> lookup q (fs w1) = lookup q (fs w)).
Proof.
  induction names as [|n r IH]; intros idx w ed et Hdry Hf Ld Lt Hnd Het Hed.
  - exists w. simpl. rewrite !app_nil_r. done.
  - apply NoDup_cons in Hnd as [Hn Hnd]. cbn [fmap list_fmap step7_phase2 length] in *.
    rewrite bind_ret_l_gets, Hdry.
    assert (tn <> dn) as Hne' by done.
    destruct (rename_between_dirs par tn dn Hne' n (page_name idx) (fs w) et ed (nd n) Lt Ld)
      as (fs' & Hmv & Lt' & Ld' & Fr'); [apply Het; set_solver|apply Hed; lia|].
    fold dir tmp in Hmv. fold (page_name idx).
    match goal with
    | |- context [bind (try_catch ?m ?h) _ w] =>
        assert (exists w', try_catch m h w = (Ok tt, w') /\ fs w' = fs'
                           /\ cfg w' = cfg w /\ faults w' = faults w) as (w' & Hstep & E1 & E2 & E3)
    end.
    { unfold_M. rewrite Hf, Hmv. eexists. split; [reflexivity|done]. }
    rewrite (bind_Ok _ _ _ _ _ Hstep).
    destruct (IH (idx + 1) w' (set_entry (page_name idx) (nd n) ed) (remove_entry n et))
      as (w1 & R1 & C1 & F1 & D1 & T1 & Fr1).
    { by rewrite E2. }
    { intros op. by rewrite E3. }
    { by rewrite E1. }
    { by rewrite E1. }
    { done. }
    { intros m Hm. rewrite assoc_remove_entry_ne; [apply Het; set_solver|]. by intros ->. }
    { intros k Hk. rewrite assoc_set_entry_ne; [apply Hed; lia|].
      intros E%page_name_inj. lia. }
    exists w1. split; [done|]. split; [by rewrite C1|]. split; [by rewrite F1|].
    split; [|split; [done|]].
    + rewrite D1, set_entry_fresh by (apply Hed; lia). by rewrite <- app_assoc.
    + intros q [H1 H2] [H3 H4]. rewrite Fr1, E1 by done. by apply Fr'.
Qed.

End Step7.

(** *** Sorting by a rank *)

Section Rank.
Context {A : Type} (f : A -> key) (rank : A -> Z).

Lemma insert_by_rank x l :
  (forall y, y ∈ l -> key_lt (f y) (f x) = Some (rank y <? rank x)) ->
  StronglySorted (fun a b => rank a <= rank b) l ->
  exists l', insert_by f x l = Some l'
    /\ StronglySorted (fun a b => rank a <= rank b) l'.
Proof.
  induction l as [|y r IH]; intros Hk Hs; simpl.
  - eexists. split; [done|]. repeat constructor.
  - rewrite (Hk y) by set_solver. simpl.
    apply StronglySorted_cons in Hs as [Hy Hs].
    destruct (Z.ltb_spec (rank y) (rank x)) as [Hlt|Hge].
    + destruct IH as (l' & E & Hl'); [intros; apply Hk; set_solver|done|].
      rewrite E. simpl. eexists. split; [done|].
      apply StronglySorted_cons. split; [|done].
      pose proof (insert_by_Permutation _ _ _ _ E) as HP.
      rewrite HP. constructor; [lia|done].
    + eexists. split; [done|].
      apply StronglySorted_cons. split.
      * constructor; [done|]. eapply Forall_impl; [exact Hy|]. simpl. intros; lia.
      * apply StronglySorted_cons. done.
Qed.

Lemma sorted_by_rank l :
  (forall a b, a ∈ l -> b ∈ l -> key_lt (f a) (f b) = Some (rank a <? rank b)) ->
  exists l', sorted_by f l = Some l' /\ l' ≡ₚ l
    /\ StronglySorted (fun a b => rank a <= rank b) l'.
Proof.
  induction l as [|x r IH]; intros Hk; simpl.
  - eexists. split; [done|]. split; [done|constructor].
  - destruct IH as (r' & E & HP & Hs); [intros; apply Hk; set_solver|].
    rewrite E. simpl.
    destruct (insert_by_rank x r') as (l' & E' & Hs'); [|done|].
    { intros y Hy. rewrite HP in Hy. apply Hk; set_solver. }
    exists l'. split; [done|]. split; [|done].
    rewrite (insert_by_Permutation _ _ _ _ E'). by rewrite HP.
Qed.

Lemma sorted_by_unique l target :
  (forall a b, a ∈ l -> b ∈ l -> key_lt (f a) (f b) = Some (rank a <? rank b)) ->
  (forall a b, a ∈ l -> b ∈ l -> rank a = rank b -> a = b) ->
  l ≡ₚ target -> StronglySorted (fun a b => rank a <= rank b) target ->
  sorted_by f l = Some target.
Proof.
  intros Hk Hinj HP Hs.
  destruct (sorted_by_rank l Hk) as (l' & -> & HP' & Hs'). f_equal.
  eapply StronglySorted_unique_strong; [|exact Hs'|exact Hs|by rewrite HP'].
  intros a b Ha Hb H1 H2. rewrite HP' in Ha. rewrite <- HP in Hb.
  cbv beta in H1, H2. apply Hinj; [done..|lia].
Qed.

End Rank.

Lemma natural_sort_key_page i :
  0 <= i -> natural_sort_key (page_name i) = [KStr ""; KInt i; KStr ".jpg"].
Proof. intros Hi. unfold page_name. by rewrite natural_sort_key_numbered. Qed.

Lemma key_lt_pages i j :
  0 <= i -> 0 <= j ->
  key_lt (natural_sort_key (page_name i)) (natural_sort_key (page_name j)) = Some (i <? j).
Proof.
  intros Hi Hj. rewrite !natural_sort_key_page by done. simpl.
  destruct (Z.eqb_spec i j) as [->|Hne]; [|done].
  by rewrite Z.ltb_irrefl.
Qed.

Lemma elem_of_page_names n N :
  n ∈ page_names N <-> exists i, n = page_name i /\ 1 <= i <= Z.of_nat N.
Proof.
  unfold page_names. rewrite list_elem_of_fmap. split.
  - intros (i & -> & Hi%elem_of_seqZ). exists i. split; [done|lia].
  - intros (i & -> & Hi). exists i. split; [done|]. apply elem_of_seqZ. lia.
Qed.

Lemma StronglySorted_seqZ (m0 m n : Z) :
  m0 <= m -> StronglySorted (fun x y => m0 <= x <= y) (seqZ m n).
Proof.
  destruct (Z.le_gt_cases n 0) as [Hn|Hn]; [rewrite seqZ_nil by done; constructor|].
  rewrite <- (Z2Nat.id n) by lia. generalize (Z.to_nat n) as k. clear. intros k. revert m.
  induction k as [|k IH]; intros m Hm; [rewrite seqZ_nil by done; constructor|].
  rewrite seqZ_cons by lia. constructor.
  - replace (Z.pred (Z.of_nat (S k))) with (Z.of_nat k) by lia. apply IH. lia.
  - apply Forall_forall. intros x Hx%elem_of_seqZ. lia.
Qed.

Lemma NoDup_page_names N : NoDup (page_names N).
Proof.
  unfold page_names. apply NoDup_fmap_2; [|apply NoDup_seqZ].
  intros i j. apply page_name_inj.
Qed.

(** The files [0001.jpg], ..., in whatever order the directory lists
    them, are sorted into the order of their numbers. *)
Lemma sorted_pages (d : path) (l : list string) N :
  l ≡ₚ page_names N ->
  sorted_by (fun p => natural_sort_key (name p)) ((fun n => d ++ [n]) <$> l)
  = Some ((fun n => d ++ [n]) <$> page_names N).
Proof.
  intros HP.
  apply (sorted_by_unique _ (fun p => key_number (natural_sort_key (name p)))).
  - intros a b (n & -> & Hn)%list_elem_of_fmap (m & -> & Hm)%list_elem_of_fmap.
    rewrite HP in Hn, Hm.
    apply elem_of_page_names in Hn as (i & -> & Hi), Hm as (j & -> & Hj).
    rewrite !name_snoc, key_lt_pages, !natural_sort_key_page by lia. done.
  - intros a b (n & -> & Hn)%list_elem_of_fmap (m & -> & Hm)%list_elem_of_fmap.
    rewrite HP in Hn, Hm.
    apply elem_of_page_names in Hn as (i & -> & Hi), Hm as (j & -> & Hj).
    rewrite !name_snoc, !natural_sort_key_page by lia. simpl. by intros ->.
  - by rewrite HP.
  - unfold page_names. rewrite <- list_fmap_compose.
    apply (StronglySorted_fmap _ (fun x y => 1 <= x <= y));
      [|apply (StronglySorted_seqZ 1 1 (Z.of_nat N)); lia].
    intros x y Hxy. simpl.
    rewrite !name_snoc, !natural_sort_key_page by lia. simpl. lia.
Qed.

(** *** The entries of a directory that step 7 renumbers *)

Lemma remove_entry_NoDup {A} x (es : list (string * A)) :
  NoDup es.*1 -> NoDup (remove_entry x es).*1.
Proof.
  induction es as [|[y b] r IH]; simpl; [done|].
  intros [Hy Hr]%NoDup_cons. destruct (bool_decide (y = x)); simpl; [by apply IH|].
  apply NoDup_cons. split; [|by apply IH].
  intros (e & E & He)%list_elem_of_fmap. apply Hy.
  apply list_elem_of_fmap. exists e. split; [done|].
  unfold remove_entry in He. apply list_elem_of_In, filter_In in He as [He _].
  by apply list_elem_of_In.
Qed.

Lemma remove_entry_Permutation {A} x (a : A) es :
  NoDup es.*1 -> assoc x es = Some a -> es ≡ₚ (x, a) :: remove_entry x es.
Proof.
  induction es as [|[y b] r IH]; simpl; [done|].
  intros [Hy Hr]%NoDup_cons. destruct (bool_decide (x = y)) eqn:E.
  - apply bool_decide_eq_true in E as ->. intros [= ->].
    rewrite bool_decide_true by done. simpl.
    fold (remove_entry y r). rewrite remove_entry_fresh; [done|].
    by apply assoc_None_names.
  - apply bool_decide_eq_false in E. intros Ha.
    rewrite bool_decide_false by congruence. simpl. fold (remove_entry x r).
    rewrite (IH Hr Ha) at 1. apply Permutation_swap.
Qed.

Lemma assoc_remove_all {A} names : forall (es : list (string * A)) x,
  assoc x (foldl (fun e n => remove_entry n e) es names)
  = if bool_decide (x ∈ names) then None else assoc x es.
Proof.
  induction names as [|n r IH]; intros es x; simpl; [done|].
  rewrite IH. destruct (decide (x = n)) as [->|Hne].
  - rewrite (bool_decide_true (n ∈ n :: r)) by set_solver.
    rewrite assoc_remove_entry_eq. by destruct (bool_decide (n ∈ r)).
  - rewrite assoc_remove_entry_ne by done.
    destruct (decide (x ∈ r)).
    + rewrite !bool_decide_true by set_solver. done.
    + rewrite !bool_decide_false by set_solver. done.
Qed.

Lemma assoc_named {A} (nd : string -> A) names x :
  assoc x ((fun n => (n, nd n)) <$> names)
  = if bool_decide (x ∈ names) then Some (nd x) else None.
Proof.
  induction names as [|n r IH]; csimpl; [done|].
  destruct (decide (x = n)) as [->|Hne].
  - rewrite !bool_decide_true by set_solver. done.
  - rewrite (bool_decide_false (x = n)) by done. rewrite IH.
    destruct (decide (x ∈ r)).
    + rewrite !bool_decide_true by set_solver. done.
    + rewrite !bool_decide_false by set_solver. done.
Qed.

Lemma renumbered_pages nd (k : nat) : forall idx,
  renumbered nd idx (page_name <$> seqZ idx (Z.of_nat k))
  = (fun n => (n, nd n)) <$> (page_name <$> seqZ idx (Z.of_nat k)).
Proof.
  induction k as [|k IH]; intros idx; [done|].
  rewrite seqZ_cons by lia.
  replace (Z.pred (Z.of_nat (S k))) with (Z.of_nat k) by lia.
  cbn [fmap list_fmap renumbered]. f_equal. apply IH.
Qed.

(** Taking entries out of a directory and putting them back at the end
    gives the same entries, in another order. *)
Lemma move_out_and_back (nd : string -> node) names : forall es,
  NoDup es.*1 -> NoDup names ->
  (forall n, n ∈ names -> assoc n es = Some (nd n)) ->
  foldl (fun e n => remove_entry n e) es names ++ ((fun n => (n, nd n)) <$> names) ≡ₚ es.
Proof.
  induction names as [|n r IH]; intros es Hes Hnd Ha; simpl.
  - by rewrite app_nil_r.
  - apply NoDup_cons in Hnd as [Hn Hr].
    rewrite <- Permutation_middle.
    rewrite (IH (remove_entry n es)); [| by apply remove_entry_NoDup | done |].
    + symmetry. apply remove_entry_Permutation; [done|]. apply Ha. set_solver.
    + intros m Hm. rewrite assoc_remove_entry_ne; [apply Ha; set_solver|]. by intros ->.
Qed.

Lemma jpg_file_names_Permutation es es' :
  es ≡ₚ es' -> jpg_file_names es ≡ₚ jpg_file_names es'.
Proof.
  intros HP. unfold jpg_file_names. apply fmap_Permutation.
  induction HP as [|x l l' _ IH|x y l|l l' l'' _ IH1 _ IH2]; simpl.
  - done.
  - destruct (_ && _); [by constructor|done].
  - repeat destruct (_ && _); try done. apply Permutation_swap.
  - by etrans.
Qed.

Lemma jpg_file_names_assoc es n :
  NoDup es.*1 -> n ∈ jpg_file_names es ->
  exists c, assoc n es = Some (File c) /\ ends_with ".jpg" n = true.
Proof.
  intros Hnd (e & -> & He)%list_elem_of_fmap.
  apply list_elem_of_In, filter_In in He as [He Hp].
  apply andb_true_iff in Hp as [H1 H2]. destruct e as [x [c|es']]; [|done].
  exists c. split; [|done]. apply assoc_NoDup; [done|by apply list_elem_of_In].
Qed.

(** [d.glob('*.jpg')] with [is_file], in terms of the entries of [d]. *)
Lemma glob_jpg_files (d : path) f es :
  lookup d f = Some (Dir es) -> NoDup es.*1 ->
  List.filter (fun p => is_file p f) (glob_suffix d ".jpg" f)
  = (fun n => d ++ [n]) <$> jpg_file_names es.
Proof.
  intros Hd Hnd. unfold glob_suffix, jpg_file_names. rewrite Hd.
  assert (forall e, e ∈ es -> is_file (d ++ [e.1]) f
                               = match e.2 with File _ => true | Dir _ => false end) as Hf.
  { intros [x n] He. unfold is_file. rewrite lookup_app, Hd. simpl.
    rewrite (assoc_NoDup x n es) by done. by destruct n. }
  clear Hd Hnd. induction es as [|e r IH]; simpl; [done|].
  destruct (ends_with ".jpg" e.1) eqn:E; simpl.
  - rewrite Hf by set_solver. destruct e.2; simpl; [f_equal|]; apply IH; intros; apply Hf; set_solver.
  - apply IH; intros; apply Hf; set_solver.
Qed.

(** *** Step 7 on one directory *)

Lemma mkdtemp_name tries d : forall w p w1,
  mkdtemp tries d w = (Ok p, w1) -> exists nm, p = d ++ [nm].
Proof.
  induction tries as [|t IH]; intros w p w1; [done|].
  cbn [mkdtemp]. unfold bind at 1.
  destruct (draw w) as [[nm|e] w0]; [|done].
  unfold bind at 1, ask_fs, gets. cbn [fst snd].
  destruct (exists_ (d ++ ["tmp" +:+ nm]) (fs w0)); [apply IH|].
  unfold bind. destruct (fs_op _ _ w0) as [[[]|e] w2]; [|done].
  unfold ret. intros [= <- _]. eauto.
Qed.

Lemma sorted_jpg_files_pages (d : path) es N w :
  lookup d (fs w) = Some (Dir es) -> NoDup es.*1 ->
  jpg_file_names es ≡ₚ page_names N ->
  sorted_jpg_files d w = (Ok ((fun n => d ++ [n]) <$> page_names N), w).
Proof.
  intros Hd Hnd HP. unfold sorted_jpg_files. rewrite bind_ret_l_gets.
  rewrite (glob_jpg_files d (fs w) es Hd Hnd). unfold sorted_paths.
  by rewrite (sorted_pages d _ N HP).
Qed.

Lemma step7_directory_pages par dn ed N w :
  (forall op, faults w op = false) ->
  lookup (par ++ [dn]) (fs w) = Some (Dir ed) -> NoDup ed.*1 ->
  jpg_file_names ed ≡ₚ page_names N ->
  exists ed',
    lookup (par ++ [dn]) (fs (run (step7_directory (par ++ [dn])) w)) = Some (Dir ed')
    /\ ed' ≡ₚ ed
    /\ faults (run (step7_directory (par ++ [dn])) w) = faults w
    /\ (forall q, apart (par ++ [dn]) q ->
          lookup q (fs (run (step7_directory (par ++ [dn])) w)) = lookup q (fs w)).
Proof.
  intros Hf Hd Hnd HP. set (dir := par ++ [dn]) in *.
  destruct (dry_run (cfg w)) eqn:Hdry.
  { destruct (quiet_step7_directory dir w Hdry Hf) as (E1 & E2 & E3).
    exists ed. unfold run. rewrite E1, E3. done. }
  unfold run, step7_directory, with_temporary_directory. subst dir. rewrite parent_snoc.
  set (dir := par ++ [dn]) in *.
  destruct (mkdtemp_spec TMP_MAX par w Hf) as (C1 & F1 & Hres).
  destruct (mkdtemp TMP_MAX par w) as [[tmp|e] w1] eqn:Emk; cbn [fst snd] in *.
  2:{ rewrite (bind_Raise _ _ _ _ _ Emk). cbn [snd]. rewrite Hres, F1. by exists ed. }
  rewrite (bind_Ok _ _ _ _ _ Emk).
  destruct (mkdtemp_name _ _ _ _ _ Emk) as [tn ->].
  destruct Hres as [Hfresh Hmk]. apply not_exists_lookup in Hfresh.
  assert (dn <> tn) as Hne.
  { intros E. subst dir. rewrite E in Hd. congruence. }
  set (tmp := par ++ [tn]) in *.
  unfold mkdir in Hmk. rewrite (proj2 (not_exists_lookup _ _) Hfresh) in Hmk.
  destruct (put tmp (Dir []) (fs w)) as [fs1|] eqn:Eput; [|done].
  injection Hmk as Hfs1. apply put_lookup in Eput as [Lt1 Fr1].
  rewrite Hfs1 in Lt1, Fr1.
  assert (lookup dir (fs w1) = Some (Dir ed)) as Ld1.
  { rewrite Fr1; [done|apply siblings_incomparable; congruence
                     |apply siblings_incomparable; congruence]. }
  assert (forall op, faults w1 op = false) as Hf1 by (intros; by rewrite F1).
  assert (dry_run (cfg w1) = false) as Hdry1 by (by rewrite C1).
  set (names := page_names N).
  set (nd := fun n => default (Dir []) (assoc n ed)).
  assert (forall n, n ∈ names -> assoc n ed = Some (nd n)) as Hnames.
  { intros n Hn. unfold names in Hn. rewrite <- HP in Hn.
    destruct (jpg_file_names_assoc ed n Hnd Hn) as (c & Ha & _). unfold nd. by rewrite Ha. }
  destruct (phase1_spec par dn tn Hne nd names [] w1 ed [])
    as (w2 & E2 & C2 & F2 & Ld2 & Lt2 & Fr2);
    [done|done|done|done|apply NoDup_page_names|done|done|].
  rewrite app_nil_l in E2, Lt2.
  destruct (phase2_spec par dn tn Hne nd names 1 w2
              (foldl (fun e n => remove_entry n e) ed names)
              ((fun n => (n, nd n)) <$> names))
    as (w3 & E3 & C3 & F3 & Ld3 & Lt3 & Fr3).
  { by rewrite C2. }
  { intros op. by rewrite F2. }
  { done. }
  { done. }
  { apply NoDup_page_names. }
  { intros n Hn. rewrite assoc_named. by rewrite bool_decide_true. }
  { intros k Hk. rewrite assoc_remove_all. rewrite bool_decide_true; [done|].
    apply elem_of_page_names. exists k. split; [done|].
    unfold names, page_names in Hk. rewrite length_fmap, length_seqZ in Hk. lia. }
  fold dir tmp in E2, E3, Ld2, Lt2, Ld3, Lt3, Fr2, Fr3.
  assert ((files <- sorted_jpg_files dir ;;
           temp_files <- step7_phase1 tmp files [] ;;
           step7_phase2 dir 1 temp_files) w1 = (Ok tt, w3)) as Hbody.
  { rewrite (bind_Ok _ _ _ _ _ (sorted_jpg_files_pages dir ed N w1 Ld1 Hnd HP)).
    fold names. by rewrite (bind_Ok _ _ _ _ _ E2). }
  rewrite (bind_Ok _ _ _ tt w3) by (by apply try_catch_Ok).
  destruct (lookup_snoc_Some _ _ _ _ Lt3) as (ep & Lp3 & _).
  destruct (remove_is_Some par tn (fs w3) ep Lp3) as [fs4 Erm].
  fold tmp in Erm.
  assert (cleanup tmp w3 = (Ok tt, with_trace (trace w3 ++ [EvFs (FRmtree tmp)]) (with_fs fs4 w3)))
    as Hclean.
  { unfold cleanup, bind, ask_fs, gets, when. unfold exists_. rewrite Lt3.
    rewrite bool_decide_true by eauto.
    rewrite rmtree_op_no_fault by (intros; by rewrite F3, F2, Hf1).
    unfold fs_op. rewrite F3, F2, Hf1.
    unfold rmtree. by rewrite Lt3, Erm. }
  rewrite Hclean. cbn [snd]. simpl_w.
  apply remove_lookup in Erm as [Gone Fr4].
  exists (foldl (fun e n => remove_entry n e) ed names ++ renumbered nd 1 names).
  split; [|split; [|split]].
  - rewrite Fr4; [done|apply siblings_incomparable; congruence
                     |apply siblings_incomparable; congruence].
  - unfold names, page_names. rewrite renumbered_pages. apply move_out_and_back; try done.
    apply NoDup_page_names.
  - by rewrite F3, F2.
  - intros q [H1 H2].
    destruct (decide (tmp `prefix_of` q)) as [[r ->]|Ht1].
    { rewrite Gone. symmetry. by rewrite lookup_app, Hfresh. }
    destruct (decide (q `prefix_of` tmp)) as [Ht2|Ht2].
    { exfalso. destruct Ht2 as [r Hr]. destruct r as [|x r0 _] using rev_ind.
      - apply Ht1. exists []. rewrite app_nil_r in *. done.
      - apply H2. unfold tmp in Hr. rewrite app_assoc in Hr.
        apply app_inj_tail in Hr as [Hpar _].
        exists (r0 ++ [dn]). unfold dir. by rewrite Hpar, app_assoc. }
    rewrite Fr4, Fr3, Fr2, Fr1 by done. done.
Qed.

(** *** Computations confined to a part of the tree *)

Lemma apart_below (p k q : path) : apart p q -> apart (p ++ k) q.
Proof.
  intros [H1 H2]. split.
  - intros [r ->]. apply H1. exists (k ++ r). by rewrite app_assoc.
  - intros Hq. destruct (prefix_weak_total q p (p ++ k)) as [H|H];
      [done|by apply prefix_app_r|by apply H2|by apply H1].
Qed.

Lemma rename_frame src dst fs fs' q :
  rename src dst fs = Ok fs' -> apart src q -> apart dst q -> lookup q fs' = lookup q fs.
Proof.
  unfold rename. destruct (lookup src fs) as [n|]; [|done].
  destruct src as [|x0 s0] eqn:Es; [done|]. rewrite <- Es.
  destruct (bool_decide (src = dst)); [by intros [= <-]|].
  destruct (negb _ || _); [done|]. destruct (bool_decide (src `prefix_of` dst)); [done|].
  intros R [H1 H2] [H3 H4].
  assert (or_raise FileNotFoundError (remove src fs ≫= put dst n) = Ok fs') as Hgo.
  { destruct (lookup dst fs) as [[?|[|]]|], n; try done. }
  destruct (remove src fs) as [fs1|] eqn:R1; simpl in Hgo; [|done].
  destruct (put dst n fs1) as [fs2|] eqn:P2; simpl in Hgo; [|done].
  injection Hgo as <-.
  apply put_lookup in P2 as [_ F2]. apply remove_lookup in R1 as [_ F1].
  by rewrite F2, F1.
Qed.

Lemma move_frame src dst fs fs' q :
  move src dst fs = Ok fs' -> apart src q -> apart dst q -> lookup q fs' = lookup q fs.
Proof.
  unfold move. destruct (_ && _).
  - destruct (exists_ _ fs); [done|]. intros R H1 H2.
    eapply rename_frame; [done|done|by apply apart_below].
  - apply rename_frame.
Qed.

Section Confined.
Context (S : path -> Prop).

Lemma confined_pure {A} (m : M A) :
  (forall w, fs (m w).2 = fs w /\ faults (m w).2 = faults w) -> confined S m.
Proof. intros H w. destruct (H w) as [-> ->]. done. Qed.

Lemma confined_ret {A} (a : A) : confined S (ret a).
Proof. by apply confined_pure. Qed.

Lemma confined_raise {A} e : confined S (@raise A e).
Proof. by apply confined_pure. Qed.

Lemma confined_gets {A} (f : world -> A) : confined S (gets f).
Proof. by apply confined_pure. Qed.

Lemma confined_ask_fs {A} (f : node -> A) : confined S (ask_fs f).
Proof. by apply confined_pure. Qed.

Lemma confined_read_fs {A} (f : node -> res A) : confined S (read_fs f).
Proof. by apply confined_pure. Qed.

Lemma confined_logw lv tag args : confined S (logw lv tag args).
Proof. by apply confined_pure. Qed.

Lemma confined_record_operation k s t : confined S (record_operation k s t).
Proof. by apply confined_pure. Qed.

Lemma confined_draw : confined S draw.
Proof. apply confined_pure. intros w. unfold draw. by destruct (rand w). Qed.

Lemma confined_input : confined S input.
Proof. apply confined_pure. intros w. unfold input. by destruct (stdin w). Qed.

Lemma confined_bind {A B} (m : M A) (k : A -> M B) :
  confined S m -> (forall a, confined S (k a)) -> confined S (bind m k).
Proof.
  intros Hm Hk w. unfold bind. destruct (Hm w) as [F1 L1].
  destruct (m w) as [[a|e] w1]; cbn [snd] in *; [|done].
  destruct (Hk a w1) as [F2 L2]. split; [by rewrite F2|].
  intros q Hq. by rewrite L2, L1.
Qed.

Lemma confined_try_catch {A} (m : M A) (h : exn -> M A) :
  confined S m -> (forall e, confined S (h e)) -> confined S (try_catch m h).
Proof.
  intros Hm Hh w. unfold try_catch. destruct (Hm w) as [F1 L1].
  destruct (m w) as [[a|e] w1]; cbn [snd] in *; [done|].
  destruct (Hh e w1) as [F2 L2]. split; [by rewrite F2|].
  intros q Hq. by rewrite L2, L1.
Qed.

Lemma confined_for_each {A} (l : list A) (body : A -> M unit) :
  (forall x, x ∈ l -> confined S (body x)) -> confined S (for_each l body).
Proof.
  induction l as [|x r IH]; intros H; cbn [for_each]; [apply confined_ret|].
  apply confined_bind; [apply H; set_solver|]. intros _. apply IH. intros; apply H; set_solver.
Qed.

Lemma confined_when b (m : M unit) : confined S m -> confined S (when b m).
Proof. destruct b; [done|]. intros _. apply confined_ret. Qed.

Lemma confined_fs_op op (f : node -> res node) :
  (forall fs fs' q, f fs = Ok fs' -> S q -> lookup q fs' = lookup q fs) ->
  confined S (fs_op op f).
Proof.
  intros H w. unfold fs_op. destruct (faults w op); [done|].
  destruct (f (fs w)) as [fs'|e] eqn:E; [|done]. split; [done|].
  intros q Hq. simpl_w. by eapply H.
Qed.

Lemma confined_move src dst :
  (forall q, S q -> apart src q /\ apart dst q) ->
  confined S (fs_op (FMove src dst) (move src dst)).
Proof.
  intros H. apply confined_fs_op. intros fs fs' q Hmv Hq.
  destruct (H q Hq). by eapply move_frame.
Qed.

End Confined.

Create HintDb confined.
#[local] Hint Resolve confined_ret confined_raise confined_gets confined_ask_fs
  confined_read_fs confined_logw confined_record_operation confined_draw
  confined_input : confined.

Ltac confined_step :=
  lazymatch goal with
  | |- confined _ (bind _ _) => apply confined_bind; [|intros]
  | |- confined _ (try_catch _ _) => apply confined_try_catch; [|intros]
  | |- confined _ (when _ _) => apply confined_when
  | |- confined _ (if ?b then _ else _) => destruct b
  | |- confined _ (match ?x with _ => _ end) => destruct x
  | |- confined _ _ => solve [eauto with confined]
  end.

Ltac confined_auto := repeat confined_step.

Lemma confined_bind_post (S : path -> Prop) {A B} (Q : A -> Prop) (m : M A) (k : A -> M B) :
  confined S m -> (forall w a w1, m w = (Ok a, w1) -> Q a) ->
  (forall a, Q a -> confined S (k a)) -> confined S (bind m k).
Proof.
  intros Hm HQ Hk w. unfold bind. destruct (Hm w) as [F1 L1].
  destruct (m w) as [[a|e] w1] eqn:E; cbn [snd] in *; [|done].
  destruct (Hk a (HQ _ _ _ E) w1) as [F2 L2]. split; [by rewrite F2|].
  intros q Hq. by rewrite L2, L1.
Qed.

Lemma confined_work_dirs S p : confined S (work_dirs p).
Proof. unfold work_dirs. confined_auto. Qed.

Lemma confined_sorted_jpg_files S d : confined S (sorted_jpg_files d).
Proof. unfold sorted_jpg_files, sorted_paths. confined_auto. Qed.

Lemma sorted_jpg_files_below d w l w1 :
  sorted_jpg_files d w = (Ok l, w1) -> Forall (fun f => d `prefix_of` f) l.
Proof.
  unfold sorted_jpg_files. rewrite bind_ret_l_gets. unfold sorted_paths.
  destruct (sorted_by _ _) as [r|] eqn:E; [|done]. intros [= <- _].
  apply sorted_by_Permutation in E. rewrite E.
  apply Forall_forall. intros p Hp%list_elem_of_In%filter_In. destruct Hp as [Hp _].
  apply list_elem_of_In in Hp.
  pose proof (glob_suffix_children d ".jpg" (fs w)) as HF.
  rewrite Forall_forall in HF. destruct (HF p Hp) as [x ->]. by apply prefix_app_r.
Qed.

Section Frame.
Context (d tmp : path).
Let S : path -> Prop := fun q => apart d q /\ apart tmp q.
Let G : string * path -> Prop := fun t => d `prefix_of` t.2 \/ tmp `prefix_of` t.2.

Lemma S_apart (p q : path) : d `prefix_of` p \/ tmp `prefix_of` p -> S q -> apart p q.
Proof. intros [[k ->]|[k ->]] [H1 H2]; by apply apart_below. Qed.

Lemma confined_step7_phase1 files : forall acc,
  Forall (fun f => d `prefix_of` f) files -> confined S (step7_phase1 tmp files acc).
Proof.
  induction files as [|f r IH]; intros acc Hfiles; cbn [step7_phase1]; [apply confined_ret|].
  apply Forall_cons in Hfiles as [Hf Hr].
  apply confined_bind; [apply confined_gets|]. intros c. destruct (dry_run c); [by apply IH|].
  apply confined_bind; [|intros; by apply IH].
  apply confined_try_catch; [|intros; confined_auto].
  apply confined_bind; [|intros; confined_auto].
  apply confined_move. intros q Hq. split; apply S_apart; try done; [by left|].
  right. by apply prefix_app_r.
Qed.

Lemma step7_phase1_below files : forall acc w l w1,
  Forall (fun f => d `prefix_of` f) files -> Forall G acc ->
  step7_phase1 tmp files acc w = (Ok l, w1) -> Forall G l.
Proof.
  induction files as [|f r IH]; intros acc w l w1 Hfiles Hacc; cbn [step7_phase1].
  { by intros [= <- _]. }
  apply Forall_cons in Hfiles as [Hf Hr].
  rewrite bind_ret_l_gets. destruct (dry_run (cfg w)).
  { apply IH; [done|]. apply Forall_app. split; [done|]. apply Forall_singleton. by left. }
  match goal with |- bind ?m _ w = _ -> _ => destruct (m w) as [[a|e] w0] eqn:E end.
  2:{ by rewrite (bind_Raise _ _ _ _ _ E). }
  rewrite (bind_Ok _ _ _ _ _ E). apply IH; [done|].
  assert (a = acc ++ [(name f, tmp ++ [name f])] \/ a = acc) as [->| ->]; [| |done].
  2:{ apply Forall_app. split; [done|]. apply Forall_singleton. right. by apply prefix_app_r. }
  revert E. unfold_M. destruct (faults w _); [intros [= <- _]; by right|].
  destruct (move _ _ _); intros [= <- _]; [by left|by right].
Qed.

Lemma confined_step7_phase2 temp_files : forall new_idx,
  Forall G temp_files -> confined S (step7_phase2 d new_idx temp_files).
Proof.
  induction temp_files as [|[o t] r IH]; intros new_idx HG; cbn [step7_phase2];
    [apply confined_ret|].
  apply Forall_cons in HG as [Ht Hr].
  apply confined_bind; [apply confined_gets|]. intros c.
  apply confined_bind; [|intros; by apply IH].
  destruct (dry_run c); [apply confined_logw|].
  apply confined_try_catch; [|intros; confined_auto].
  apply confined_bind; [|intros; confined_auto].
  apply confined_move. intros q Hq. split; apply S_apart; try done.
  left. by apply prefix_app_r.
Qed.

Lemma confined_cleanup : confined S (cleanup tmp).
Proof.
  unfold cleanup. apply confined_bind; [apply confined_ask_fs|]. intros still.
  apply confined_when. intros w. destruct (rmtree_op_frame tmp w) as (F & _ & _ & Fr).
  split; [done|]. intros q [_ [H1 H2]]. by apply Fr.
Qed.

Lemma confined_step7_body :
  confined S (try_catch (files <- sorted_jpg_files d ;;
                         temp_files <- step7_phase1 tmp files [] ;;
                         step7_phase2 d 1 temp_files)
                        (fun e => cleanup tmp ;; raise e) ;;
              cleanup tmp).
Proof.
  apply confined_bind; [|intros; apply confined_cleanup].
  apply confined_try_catch.
  2:{ intros e. apply confined_bind; [apply confined_cleanup|intros; apply confined_raise]. }
  apply (confined_bind_post _ (Forall (fun f => d `prefix_of` f)));
    [apply confined_sorted_jpg_files|apply sorted_jpg_files_below|].
  intros files Hfiles.
  apply (confined_bind_post _ (Forall G)); [by apply confined_step7_phase1| |].
  - intros w a w1. by apply step7_phase1_below.
  - intros temp_files HG. by apply confined_step7_phase2.
Qed.

End Frame.

(** Step 7 on the directory [d] changes nothing beside [d], where the
    names that were free next to [d] stay out of consideration. *)
Lemma step7_directory_frame d w :
  (forall op, faults w op = false) ->
  faults (run (step7_directory d) w) = faults w
  /\ forall q, apart d q ->
       (forall tn, lookup (parent d ++ [tn]) (fs w) = None -> apart (parent d ++ [tn]) q) ->
       lookup q (fs (run (step7_directory d) w)) = lookup q (fs w).
Proof.
  intros Hf. unfold run, step7_directory, with_temporary_directory.
  destruct (mkdtemp_spec TMP_MAX (parent d) w Hf) as (C1 & F1 & Hres).
  destruct (mkdtemp TMP_MAX (parent d) w) as [[tmp|e] w1] eqn:Emk; cbn [fst snd] in *.
  2:{ rewrite (bind_Raise _ _ _ _ _ Emk). cbn [snd]. by rewrite Hres, F1. }
  rewrite (bind_Ok _ _ _ _ _ Emk).
  destruct (mkdtemp_name _ _ _ _ _ Emk) as [tn ->].
  destruct Hres as [Hfresh Hmk].
  unfold mkdir in Hmk. rewrite Hfresh in Hmk. apply not_exists_lookup in Hfresh.
  destruct (put _ (Dir []) (fs w)) as [fs1|] eqn:Eput; [|done].
  injection Hmk as Hfs1. apply put_lookup in Eput as [_ Fr1]. rewrite Hfs1 in Fr1.
  destruct (confined_step7_body d (parent d ++ [tn]) w1) as [F2 L2].
  split; [by rewrite F2|].
  intros q Hq Hfree. destruct (Hfree tn Hfresh) as [H1 H2].
  rewrite L2 by done. by apply Fr1.
Qed.

(** *** Step 7 as a whole *)

Lemma save_config_keeps dn es w :
  lookup [dn] (fs w) = Some (Dir es) ->
  faults (save_config w).2 = faults w
  /\ lookup [dn] (fs (save_config w).2) = Some (Dir es).
Proof.
  intros Hd. unfold save_config. unfold_M.
  cbn [parent config_file split_last mkdir_parents mkdir_from].
  destruct (faults w (FMkdir [])); simpl_w; [done|].
  destruct (faults w (FWrite _)); simpl_w; [done|].
  destruct (write_file config_file (Json (cfg w)) (fs w)) as [fs'|e] eqn:E;
    simpl_w; [|done].
  unfold config_file in E. split; [done|]. destruct (decide (dn = "config.json")) as [->|Hne].
  - unfold write_file in E.
    assert (is_dir ["config.json"] (fs w) = true) as Hdir by (unfold is_dir; by rewrite Hd).
    rewrite Hdir in E. by destruct (negb _ || _).
  - apply write_file_inv in E as [_ Fr]. rewrite Fr; [done| |].
    + apply (siblings_incomparable [] "config.json" dn). congruence.
    + apply (siblings_incomparable [] dn "config.json"). congruence.
Qed.

Lemma confirm_operation_keeps message dn es w r w' :
  lookup [dn] (fs w) = Some (Dir es) ->
  confirm_operation message w = (r, w') ->
  faults w' = faults w /\ lookup [dn] (fs w') = Some (Dir es).
Proof.
  intros Hd. unfold confirm_operation. rewrite bind_ret_l_gets.
  destruct (dry_run (cfg w)); [by intros [= <- <-]|].
  destruct (_ || _); [by intros [= <- <-]|].
  unfold bind at 1, input. destruct (stdin w) as [|answer rest]; [by intros [= <- <-]|].
  destruct (bool_decide _); [|by intros [= <- <-]].
  rewrite bind_ret_l_modify.
  match goal with |- bind save_config _ ?w0 = _ -> _ =>
    destruct (save_config_keeps dn es w0 Hd) as [F L];
    unfold bind at 1; destruct (save_config w0) as [[[]|e] w1]
  end; by intros [= <- <-].
Qed.

Lemma work_dirs_children p w l w1 :
  work_dirs p w = (Ok l, w1) ->
  w1 = w /\ Forall (fun d => exists x, d = p ++ [x]) l.
Proof.
  unfold work_dirs. rewrite bind_ret_l_gets. unfold bind at 1, read_fs.
  destruct (iterdir p (fs w)) as [ds|e] eqn:E; [|done].
  rewrite bind_ret_l_gets. intros [= <- <-]. split; [done|].
  unfold iterdir in E. destruct (lookup p (fs w)) as [[c|es]|]; try done.
  injection E as <-. apply Forall_forall.
  intros d Hd%list_elem_of_In%filter_In. destruct Hd as [Hd _].
  apply list_elem_of_In, list_elem_of_fmap in Hd as (e & -> & _). eauto.
Qed.

Lemma for_each_invariant {A} (P : world -> Prop) (l : list A) (body : A -> M unit) :
  (forall x w, x ∈ l -> P w -> P (body x w).2) ->
  forall w, P w -> P (for_each l body w).2.
Proof.
  induction l as [|x r IH]; intros H w Hw; [done|]. cbn [for_each]. unfold bind.
  pose proof (H x w ltac:(set_solver) Hw) as H1.
  destruct (body x w) as [[[]|e] w1]; [|done]. apply IH; [|done].
  intros; apply H; [set_solver|done].
Qed.

Lemma Permutation_NoDup_names {A} (es es' : list (string * A)) :
  es' ≡ₚ es -> NoDup es.*1 -> NoDup es'.*1.
Proof. intros HP. by rewrite HP. Qed.

Lemma assoc_Permutation {A} x (es es' : list (string * A)) :
  NoDup es.*1 -> es' ≡ₚ es -> assoc x es' = assoc x es.
Proof.
  intros Hnd HP. destruct (assoc x es) as [a|] eqn:E.
  - apply assoc_Some_elem in E. apply assoc_NoDup; [by rewrite HP|by rewrite HP].
  - apply assoc_None_names in E. apply assoc_None_names. by rewrite HP.
Qed.

Section Step7Whole.
Context (dn : string) (es : list (string * node)) (N : nat).
Hypothesis Hnd : NoDup es.*1.
Hypothesis HP : jpg_file_names es ≡ₚ page_names N.

(** What step 7 keeps: no failure in the environment, and the entries
    of the directory. *)
Let kept (w : world) : Prop :=
  (forall op, faults w op = false)
  /\ exists es', lookup [dn] (fs w) = Some (Dir es') /\ es' ≡ₚ es.

Lemma kept_transfer w w' :
  faults w' = faults w -> lookup [dn] (fs w') = lookup [dn] (fs w) -> kept w -> kept w'.
Proof. intros F L [Hf Hes]. split; [intros; by rewrite F|by rewrite L]. Qed.

Lemma kept_step7_directory d w :
  (exists x, d = [] ++ [x]) -> kept w -> kept (step7_directory d w).2.
Proof.
  intros [x ->] [Hf (es' & Hd & Hes)]. destruct (decide (x = dn)) as [->|Hne].
  - destruct (step7_directory_pages [] dn es' N w Hf Hd) as (es2 & L2 & P2 & F2 & _).
    { by rewrite Hes. }
    { by rewrite (jpg_file_names_Permutation _ _ Hes). }
    split; [intros; unfold run in F2; by rewrite F2|].
    exists es2. split; [done|by rewrite P2].
  - destruct (step7_directory_frame ([] ++ [x]) w Hf) as [F L].
    apply (kept_transfer w); [done| |by split; eauto].
    apply L.
    + split; apply (siblings_incomparable []); congruence.
    + intros tn Hfree. rewrite parent_snoc in *.
      assert (tn <> dn) as Htn.
      { intros E. rewrite E in Hfree. cbn [app] in Hfree. congruence. }
      split; apply (siblings_incomparable []); congruence.
Qed.

Lemma kept_step7 w : kept w -> kept (run step7_final_rename w).
Proof.
  intros Hw. unfold run, step7_final_rename.
  destruct (confined_work_dirs (fun _ => True) [] w) as [F0 L0].
  destruct (work_dirs [] w) as [[l|e] w0] eqn:Ew; cbn [snd] in *.
  2:{ rewrite (bind_Raise _ _ _ _ _ Ew). apply (kept_transfer w); auto. }
  rewrite (bind_Ok _ _ _ _ _ Ew). apply work_dirs_children in Ew as [-> Hl].
  unfold logw at 1. rewrite bind_ret_l_modify.
  match goal with |- kept (_ ?w1).2 =>
    assert (kept w1) as Hw1 by (by apply (kept_transfer w)); generalize dependent w1
  end.
  intros w1 Hw1. destruct (bool_decide (length l = 0%nat)).
  { by apply (kept_transfer w1). }
  destruct (confirm_operation "step7" w1) as [[ok|e] w2] eqn:Ec.
  2:{ rewrite (bind_Raise _ _ _ _ _ Ec). cbn [snd].
      destruct Hw1 as [Hf (es' & Hd & Hes)].
      destruct (confirm_operation_keeps _ _ _ _ _ _ Hd Ec) as [F2 L2].
      split; [intros; by rewrite F2|eauto]. }
  rewrite (bind_Ok _ _ _ _ _ Ec).
  assert (kept w2) as Hw2.
  { destruct Hw1 as [Hf (es' & Hd & Hes)].
    destruct (confirm_operation_keeps _ _ _ _ _ _ Hd Ec) as [F2 L2].
    split; [intros; by rewrite F2|eauto]. }
  destruct ok; cbn [negb]; [|by apply (kept_transfer w2)].
  apply for_each_invariant; [|done].
  intros d w3 Hd Hw3. apply kept_step7_directory; [|done].
  rewrite Forall_forall in Hl. by apply Hl.
Qed.

Lemma kept_renumbering w w' :
  lookup [dn] (fs w) = Some (Dir es) -> kept w' -> renumbering_kept dn es N w w'.
Proof.
  intros Hd [Hf (es' & Hd' & Hes)]. split; [eauto|]. split.
  - intros n r. change (dn :: n :: r) with ([dn] ++ n :: r).
    rewrite !lookup_app, Hd, Hd'. cbn [mbind option_bind lookup].
    by rewrite (assoc_Permutation n es es' Hnd Hes).
  - apply (sorted_jpg_files_pages [dn] es' N w' Hd').
    + by rewrite Hes.
    + by rewrite (jpg_file_names_Permutation _ _ Hes).
Qed.

End Step7Whole.

(** C6: step 7 is idempotent on a numbered directory.  When the [.jpg]
    files of a parent directory are [0001.jpg], ..., [000N.jpg] without
    a gap, then after step 7, and after step 7 run a second time, the
    directory has the entries it had (the same names, each with the
    content it had), and its [.jpg] files in natural order are the same
    list [0001.jpg], ..., [000N.jpg], each at its position.  This holds
    in every mode (dry run or not, whatever is answered at the
    confirmation) and whatever the other parent directories hold, in an
    environment where no file operation fails. *)
Theorem step7_idempotent dn es N w :
  (forall op, faults w op = false) ->
  lookup [dn] (fs w) = Some (Dir es) -> NoDup es.*1 ->
  jpg_file_names es ≡ₚ page_names N ->
  let w1 := run step7_final_rename w in
  let w2 := run step7_final_rename w1 in
  renumbering_kept dn es N w w /\ renumbering_kept dn es N w w1
  /\ renumbering_kept dn es N w w2.
Proof.
  intros Hf Hd Hnd HP w1 w2.
  assert ((forall op, faults w op = false)
          /\ exists es', lookup [dn] (fs w) = Some (Dir es') /\ es' ≡ₚ es) as H0 by eauto.
  pose proof (kept_step7 dn es N Hnd HP w H0) as H1.
  pose proof (kept_step7 dn es N Hnd HP _ H1) as H2.
  split; [|split]; by apply kept_renumbering.
Qed.

Lemma step7_idempotent_witness :
  renumbering_kept "A" numbered_entries 2
    (initial_world numbered_tree batch_config [] ["aaaa"; "bbbb"; "cccc"; "dddd"])
    (run step7_final_rename
       (initial_world numbered_tree batch_config [] ["aaaa"; "bbbb"; "cccc"; "dddd"])).
Proof.
  refine (proj1 (proj2 (step7_idempotent "A" numbered_entries 2
            (initial_world numbered_tree batch_config [] ["aaaa"; "bbbb"; "cccc"; "dddd"])
            _ _ _ _))).
  - intros op. reflexivity.
  - reflexivity.
  - apply (bool_decide_unpack _). vm_compute. exact I.
  - vm_compute. apply perm_swap.
Defined.

(** * Further properties *)

(** ** [safe_rename] *)

Lemma unique_name_find_from dst fs fuel : forall counter final_dst,
  counter = 101 - Z.of_nat fuel ->
  unique_name fuel counter final_dst dst fs
  = List.find (is_free fs) (final_dst :: (numbered_sibling dst <$> seqZ counter (100 - counter))).
Proof.
  induction fuel as [|f IH]; intros counter final_dst Hc; cbn [unique_name List.find].
  - unfold is_free. destruct (negb (exists_ final_dst fs)); [done|].
    rewrite seqZ_nil by lia. done.
  - unfold is_free at 1. destruct (negb (exists_ final_dst fs)); [done|].
    destruct (counter + 1 >? 100) eqn:E.
    + rewrite seqZ_nil by lia. done.
    + rewrite IH by lia. rewrite (seqZ_cons counter) by lia.
      replace (Z.succ counter) with (counter + 1) by lia.
      replace (Z.pred (100 - counter)) with (100 - (counter + 1)) by lia.
      done.
Qed.

Lemma find_all_false {A} (f : A -> bool) l :
  (forall x, x ∈ l -> f x = false) -> List.find f l = None.
Proof.
  induction l as [|x r IH]; intros H; simpl; [done|].
  rewrite H by set_solver. apply IH. intros; apply H; set_solver.
Qed.

Lemma find_first {A} (f : A -> bool) l x :
  List.find f l = Some x ->
  exists l1 l2, l = l1 ++ x :: l2 /\ f x = true /\ (forall y, y ∈ l1 -> f y = false).
Proof.
  induction l as [|y r IH]; simpl; [done|]. destruct (f y) eqn:E.
  - intros [= ->]. exists [], r. split; [done|]. split; [done|]. set_solver.
  - intros (l1 & l2 & -> & Hx & Hl)%IH. exists (y :: l1), l2. split; [done|].
    split; [done|]. intros z [->|Hz]%elem_of_cons; auto.
Qed.

(** The search of [safe_rename] for a free name is the search through
    the hundred candidates: the target, then the suffixes [_1] to [_99];
    the suffix [_100] is never tried. *)
Lemma unique_name_first_free dst fs :
  unique_name 100 1 dst dst fs = List.find (is_free fs) (rename_candidates dst)
  /\ length (rename_candidates dst) = 100%nat
  /\ (Forall (fun p => exists_ p fs = true) (rename_candidates dst) ->
      unique_name 100 1 dst dst fs = None).
Proof.
  assert (unique_name 100 1 dst dst fs = List.find (is_free fs) (rename_candidates dst)) as H.
  { by rewrite (unique_name_find_from dst fs 100 1 dst). }
  split; [done|]. split; [done|].
  intros Hall. rewrite H. apply find_all_false.
  intros p Hp. rewrite Forall_forall in Hall. unfold is_free.
  by rewrite Hall.
Qed.

Lemma is_free_lookup fs p : is_free fs p = true <-> lookup p fs = None.
Proof.
  unfold is_free. rewrite negb_true_iff. apply not_exists_lookup.
Qed.

(** X1: the contract of [safe_rename].  It never raises.  A result
    [False] means that the tree is as before (it is the result when the
    source is missing and when the hundred candidate names are taken).
    In dry-run mode the result is [True] for an existing source, the
    tree is unchanged and the rename is journaled all the same.
    Otherwise a result [True] means: either source and target are the
    same path and nothing is done, or the source now sits under the
    first free candidate name, which did not exist before, the source
    is gone, and every path beside the two is as before. *)
Theorem safe_rename_contract src dst w :
  let w' := run (safe_rename src dst) w in
  exists b, (safe_rename src dst w).1 = Ok b
    /\ (b = false -> fs w' = fs w)
    /\ (exists_ src (fs w) = false -> b = false)
    /\ (exists_ src (fs w) = true -> dry_run (cfg w) = true ->
        b = true /\ fs w' = fs w
        /\ operation_log w'
           = operation_log w ++ [{| op_timestamp := clock w; op_operation := OpRename;
                                    op_source := src; op_target := Some dst |}])
    /\ (exists_ src (fs w) = true -> dry_run (cfg w) = false -> src = dst ->
        b = true /\ fs w' = fs w /\ operation_log w' = operation_log w)
    /\ (dry_run (cfg w) = false -> src <> dst ->
        List.find (is_free (fs w)) (rename_candidates dst) = None -> b = false)
    /\ (b = true -> dry_run (cfg w) = false -> src <> dst ->
        exists final n,
          List.find (is_free (fs w)) (rename_candidates dst) = Some final
          /\ lookup src (fs w) = Some n /\ lookup final (fs w) = None
          /\ lookup final (fs w') = Some n /\ lookup src (fs w') = None
          /\ forall q, apart src q -> apart final q -> lookup q (fs w') = lookup q (fs w)).
Proof.
  intros w'. subst w'. unfold run.
  destruct (safe_rename src dst w) as [r w1] eqn:E. cbn [fst snd]. revert E.
  unfold safe_rename, ask_fs. rewrite bind_ret_l_gets.
  destruct (exists_ src (fs w)) eqn:Hsrc; cbn [negb].
  2:{ unfold_M. intros [= <- <-]. exists false. simpl_w. repeat split; try done. }
  rewrite bind_ret_l_gets. destruct (dry_run (cfg w)) eqn:Hdry.
  { unfold_M. intros [= <- <-]. exists true. simpl_w. repeat split; try done. }
  destruct (bool_decide (src = dst)) eqn:Heq.
  { apply bool_decide_eq_true in Heq. unfold_M. intros [= <- <-]. exists true. simpl_w.
    repeat split; try done. }
  apply bool_decide_eq_false in Heq.
  destruct (unique_name_first_free dst (fs w)) as (Hfind & _ & _).
  unfold try_catch, bind at 1, gets. cbn [fst snd]. rewrite Hfind.
  destruct (List.find (is_free (fs w)) (rename_candidates dst)) as [final|] eqn:Efind.
  2:{ unfold_M. intros [= <- <-]. exists false. simpl_w. repeat split; try done. }
  apply find_first in Efind as Hfree. destruct Hfree as (_ & _ & _ & Hfree & _).
  apply is_free_lookup in Hfree.
  unfold record_operation at 1. rewrite bind_ret_l_modify.
  match goal with |- context [bind (fs_op ?op ?f) _ ?w0] =>
    destruct (fs_op_cases op f w0) as [(fs' & Hf & Hren & Hop)|(e & Hop & _)];
    [rewrite (bind_Ok _ _ _ _ _ Hop)|rewrite (bind_Raise _ _ _ _ _ Hop)]
  end.
  - simpl_w. unfold_M. intros [= <- <-]. exists true. simpl_w.
    apply rename_inv in Hren as (L1 & L2 & Fr);
      [|intros ->; apply exists_lookup in Hsrc; rewrite Hfree in Hsrc; by destruct Hsrc|done].
    apply exists_lookup in Hsrc as [n Hn].
    split; [done|]. split; [done|]. split; [done|]. split; [done|]. split; [done|].
    split; [done|]. intros _ _ _. exists final, n.
    split; [done|]. split; [done|]. split; [done|]. split; [by rewrite L1|].
    split; [done|]. intros q [H1 H2] [H3 H4]. by apply Fr.
  - unfold_M. intros [= <- <-]. exists false. simpl_w. repeat split; try done.
Qed.

(** ** [safe_rename] and [rollback] *)

Lemma rename_there_and_back src dst fs fs1 :
  rename src dst fs = Ok fs1 -> src <> dst -> lookup dst fs = None ->
  exists fs2, rename dst src fs1 = Ok fs2
    /\ lookup src fs2 = lookup src fs
    /\ forall q, apart src q -> lookup q fs2 = lookup q fs.
Proof.
  intros R Hne Hdst. destruct (rename_inv _ _ _ _ R Hne Hdst) as (I1 & I2 & _).
  unfold rename in R.
  destruct (lookup src fs) as [n|] eqn:Hsrc; [|done].
  destruct src as [|x0 s0] eqn:Es; [done|]. rewrite <- Es in *.
  assert (src <> []) as Hsrc_ne by (by rewrite Es).
  rewrite bool_decide_false in R by done.
  destruct (negb (is_dir (parent dst) fs) || bool_decide (dst = [])) eqn:C1; [done|].
  apply orb_false_iff in C1 as [C1 C1']. apply negb_false_iff in C1.
  apply bool_decide_eq_false in C1'.
  destruct (bool_decide (src `prefix_of` dst)) eqn:C2; [done|].
  apply bool_decide_eq_false in C2.
  rewrite Hdst in R.
  destruct (remove src fs) as [fr|] eqn:Erm; simpl in R; [|done].
  destruct (put dst n fr) as [f1|] eqn:Eput; simpl in R; [|done]. injection R as ->.
  assert (~ dst `prefix_of` src) as C3.
  { intros Hp. assert (is_Some (lookup dst fs)) as [? ?]; [|congruence].
    eapply lookup_prefix_is_Some; [done|by rewrite Hsrc]. }
  pose proof (remove_lookup _ _ _ Erm) as [_ Frm].
  assert (lookup dst fr = None) as Hdst_r by (by rewrite Frm).
  pose proof (put_then_remove _ _ _ _ Hdst_r Eput) as Eback.
  assert (exists ps x, src = ps ++ [x]) as (ps & x & Esrc).
  { clear -Hsrc_ne. destruct src as [|y p _] using rev_ind; [done|eauto]. }
  assert (exists es, lookup ps fr = Some (Dir es) /\ is_dir ps fs = true) as (es & Lps & Dps).
  { revert Erm. rewrite Esrc. unfold remove. rewrite split_last_snoc. simpl.
    intros (es & L1 & L2)%update_dir_Some. exists (remove_entry x es).
    split; [done|]. unfold is_dir. by rewrite L1. }
  destruct (put_is_Some ps x n fr es Lps) as [fs2 Eput2]. rewrite <- Esrc in Eput2.
  exists fs2. pose proof (put_lookup _ _ _ _ Eput2) as [L2 F2].
  split; [|split; [done|]].
  2:{ intros q [H1 H2]. by rewrite F2, Frm. }
  unfold rename. pose proof (put_lookup _ _ _ _ Eput) as [Ld _]. rewrite Ld.
  destruct dst as [|y0 d0] eqn:Ed; [done|]. rewrite <- Ed in *.
  rewrite bool_decide_false by done.
  assert (is_dir (parent src) fs1 = true) as Dp1.
  { rewrite Esrc, parent_snoc.
    eapply put_is_dir; [exact Eput| |].
    - eapply remove_is_dir; [exact Erm|done|]. rewrite Esrc.
      intros [k Hk]. apply (f_equal length) in Hk. rewrite !length_app in Hk. simpl in Hk. lia.
    - intros Hp. assert (is_Some (lookup dst fs)) as [? ?]; [|congruence].
      eapply lookup_prefix_is_Some; [done|]. apply is_dir_lookup in Dps as [? ->]. eauto. }
  rewrite Dp1. rewrite (bool_decide_false (src = [])) by done. cbn [negb orb].
  rewrite bool_decide_false by done. rewrite I2, Eback. simpl. by rewrite Eput2.
Qed.

Lemma rollback_fs w :
  (rollback w).1 = Ok tt
  /\ fs (run rollback w)
     = foldl (fun f op => rollback_effect (faults w) op f) (fs w) (rev (operation_log w)).
Proof.
  unfold run, rollback, logw. rewrite bind_ret_l_modify, bind_ret_l_gets. simpl_w.
  match goal with |- context [bind (for_each ?l _) _ ?w0] =>
    destruct (for_each_rollback l w0) as (w1 & E & F1 & F2 & F3)
  end.
  rewrite (bind_Ok _ _ _ _ _ E). unfold modify. cbn [fst snd]. simpl_w. done.
Qed.

(** What [safe_rename] leaves behind, for the journal as well. *)
Lemma safe_rename_cases src dst w :
  exists b w1, safe_rename src dst w = (Ok b, w1)
    /\ faults w1 = faults w
    /\ ((fs w1 = fs w /\ operation_log w1 = operation_log w)
        \/ (fs w1 = fs w /\ exists_ src (fs w) = true
            /\ exists tgt, operation_log w1
                 = operation_log w ++ [{| op_timestamp := clock w; op_operation := OpRename;
                                          op_source := src; op_target := Some tgt |}])
        \/ (exists final, lookup final (fs w) = None /\ src <> final
              /\ rename src final (fs w) = Ok (fs w1)
              /\ operation_log w1
                 = operation_log w ++ [{| op_timestamp := clock w; op_operation := OpRename;
                                          op_source := src; op_target := Some final |}])).
Proof.
  unfold safe_rename, ask_fs. rewrite bind_ret_l_gets.
  destruct (exists_ src (fs w)) eqn:Hsrc; cbn [negb].
  2:{ unfold_M. eexists _, _. split; [done|]. simpl_w. eauto. }
  rewrite bind_ret_l_gets. destruct (dry_run (cfg w)) eqn:Hdry.
  { unfold_M. eexists _, _. split; [done|]. simpl_w. split; [done|]. right; left. eauto. }
  destruct (bool_decide (src = dst)) eqn:Heq.
  { unfold_M. eexists _, _. split; [done|]. simpl_w. eauto. }
  unfold try_catch, bind at 1, gets. cbn [fst snd].
  destruct (unique_name 100 1 dst dst (fs w)) as [final|] eqn:Efind.
  2:{ unfold_M. eexists _, _. split; [done|]. simpl_w. eauto. }
  apply unique_name_fresh, not_exists_lookup in Efind.
  unfold record_operation at 1. rewrite bind_ret_l_modify.
  match goal with |- context [bind (fs_op ?op ?f) _ ?w0] =>
    destruct (fs_op_cases op f w0) as [(fs' & Hf & Hren & Hop)|(e & Hop & _)];
    [rewrite (bind_Ok _ _ _ _ _ Hop)|rewrite (bind_Raise _ _ _ _ _ Hop)]
  end.
  - simpl_w. unfold_M. eexists _, _. split; [done|]. simpl_w. split; [done|].
    right; right. exists final. split; [done|]. split; [|done].
    intros ->. apply exists_lookup in Hsrc as [? ?]. congruence.
  - unfold_M. eexists _, _. split; [done|]. simpl_w. split; [done|]. right; left. eauto.
Qed.

(** X2: a rename made by [safe_rename] is undone by [rollback].  From
    an empty journal and when no file operation fails, [safe_rename]
    followed by [rollback] never raises and gives back the source: what
    is found at the source path, below it and at every path that is
    neither above nor below it is what was there before (the directory
    above the source lists it last afterwards). *)
Theorem safe_rename_then_rollback src dst w :
  operation_log w = [] -> (forall op, faults w op = false) ->
  let m := (safe_rename src dst ;; rollback) in
  (m w).1 = Ok tt
  /\ forall q, src `prefix_of` q \/ apart src q -> lookup q (fs (run m w)) = lookup q (fs w).
Proof.
  intros Hlog Hf m. subst m. unfold run.
  destruct (safe_rename_cases src dst w) as (b & w1 & E & F1 & Hcases).
  rewrite (bind_Ok _ _ _ _ _ E).
  destruct (rollback_fs w1) as [R1 R2]. unfold run in R2. split; [done|].
  rewrite R2. rewrite Hlog in Hcases. cbn [app] in Hcases.
  destruct Hcases as [[-> ->]|[(-> & Hsrc & tgt & ->)|(final & Hfree & Hne & Hren & ->)]];
    cbn [rev app foldl].
  - done.
  - unfold rollback_effect. cbn [op_operation op_target op_source].
    rewrite Hsrc. rewrite andb_false_r. done.
  - unfold rollback_effect. cbn [op_operation op_target op_source].
    destruct (rename_inv _ _ _ _ Hren Hne Hfree) as (I1 & I2 & _).
    destruct (rename_there_and_back _ _ _ _ Hren Hne Hfree) as (fs2 & Hback & L2 & Fr2).
    assert (exists n, lookup src (fs w) = Some n) as [n Hn].
    { unfold rename in Hren. destruct (lookup src (fs w)); [eauto|done]. }
    rewrite (proj2 (exists_lookup _ _)) by (rewrite I1, Hn; eauto).
    rewrite (proj2 (not_exists_lookup _ _)) by done.
    rewrite F1, Hf. cbn [negb andb]. rewrite Hback.
    intros q [[r ->]|Hq]; [|by apply Fr2].
    by rewrite !lookup_app, L2.
Qed.

Lemma safe_rename_then_rollback_witness :
  let m := (safe_rename ["A"; "B"; "a.jpg"] ["A"; "B"; "0000.jpg"] ;; rollback) in
  (m (initial_world two_pages batch_config [] [])).1 = Ok tt
  /\ forall q, ["A"; "B"; "a.jpg"] `prefix_of` q \/ apart ["A"; "B"; "a.jpg"] q ->
       lookup q (fs (run m (initial_world two_pages batch_config [] [])))
       = lookup q two_pages.
Proof.
  apply (safe_rename_then_rollback ["A"; "B"; "a.jpg"] ["A"; "B"; "0000.jpg"]
           (initial_world two_pages batch_config [] [])).
  - reflexivity.
  - intros op. reflexivity.
Defined.

(** ** Steps 2 and 3 on entries that are numbered already *)

Lemma key_lt_numbered ext i j :
  0 <= i -> 0 <= j -> all_chars nondigit ext = true ->
  key_lt (natural_sort_key (fmt04 i +:+ ext)) (natural_sort_key (fmt04 j +:+ ext))
  = Some (i <? j).
Proof.
  intros Hi Hj He. rewrite !natural_sort_key_numbered by done. simpl.
  destruct (Z.eqb_spec i j) as [->|Hne]; [|done].
  by rewrite String.eqb_refl, Z.ltb_irrefl.
Qed.

Lemma elem_of_numbered_paths d ext start n p :
  p ∈ numbered_paths d ext start n
  <-> exists i, p = d ++ [fmt04 i +:+ ext] /\ start <= i < start + Z.of_nat n.
Proof.
  unfold numbered_paths. rewrite list_elem_of_fmap. split.
  - intros (i & -> & Hi%elem_of_seqZ). eauto.
  - intros (i & -> & Hi). exists i. split; [done|]. by apply elem_of_seqZ.
Qed.

(** Entries named by consecutive numbers, in whatever order they are
    listed, are sorted into the order of the numbers. *)
Lemma sorted_numbered (d : path) ext start n (l : list path) :
  0 <= start -> all_chars nondigit ext = true ->
  l ≡ₚ numbered_paths d ext start n ->
  sorted_by (fun p => natural_sort_key (name p)) l = Some (numbered_paths d ext start n).
Proof.
  intros Hs He HP.
  apply (sorted_by_unique _ (fun p => key_number (natural_sort_key (name p)))).
  - intros a b Ha Hb. rewrite HP in Ha, Hb.
    apply elem_of_numbered_paths in Ha as (i & -> & Hi), Hb as (j & -> & Hj).
    rewrite !name_snoc, key_lt_numbered, !natural_sort_key_numbered by (done || lia). done.
  - intros a b Ha Hb. rewrite HP in Ha, Hb.
    apply elem_of_numbered_paths in Ha as (i & -> & Hi), Hb as (j & -> & Hj).
    rewrite !name_snoc, !natural_sort_key_numbered by (done || lia). simpl. by intros ->.
  - done.
  - unfold numbered_paths.
    apply (StronglySorted_fmap _ (fun x y => start <= x <= y));
      [|apply StronglySorted_seqZ; lia].
    intros x y Hxy. simpl.
    rewrite !name_snoc, !natural_sort_key_numbered by (done || lia). simpl. lia.
Qed.

Lemma number_loop_numbered where_ ext start (n : nat) : forall idx used w,
  0 <= idx -> idx + Z.of_nat n <= 10000 ->
  (forall s, s ∈ used -> exists j, 0 <= j < idx /\ s = fmt04 (start + j)) ->
  dry_run (cfg w) = false ->
  (forall p, p ∈ numbered_paths where_ ext (start + idx) n -> exists_ p (fs w) = true) ->
  number_loop where_ ext start idx used (numbered_paths where_ ext (start + idx) n) w
  = (Ok tt, w).
Proof.
  induction n as [|n IH]; intros idx used w Hidx Hn Hused Hdry Hex; [done|].
  unfold numbered_paths in *. rewrite seqZ_cons in * by lia.
  replace (Z.pred (Z.of_nat (S n))) with (Z.of_nat n) in * by lia.
  replace (Z.succ (start + idx)) with (start + (idx + 1)) in * by lia.
  cbn [fmap list_fmap number_loop].
  rewrite next_free_unused.
  2:{ intros (j & Hj & E%fmt04_inj)%Hused. lia. }
  destruct (Z.leb_spec (start + 10000) (start + idx)) as [|_]; [lia|].
  assert (safe_rename (where_ ++ [fmt04 (start + idx) +:+ ext])
            (where_ ++ [fmt04 (start + idx) +:+ ext]) w = (Ok true, w)) as Hsame.
  { unfold safe_rename, ask_fs. rewrite bind_ret_l_gets.
    rewrite Hex by set_solver. cbn [negb]. rewrite bind_ret_l_gets, Hdry.
    by rewrite bool_decide_true by done. }
  rewrite (bind_Ok _ _ _ _ _ Hsame). apply IH; [lia|lia| |done|].
  - intros s [->%elem_of_singleton|Hs]%elem_of_union.
    + exists idx. split; [lia|done].
    + destruct (Hused s Hs) as (j & Hj & ->). exists j. split; [lia|done].
  - intros p Hp. apply Hex. set_solver.
Qed.

(** X3: steps 2 and 3 leave entries alone that carry their numbers
    already.  Outside dry-run mode, when the [.jpg] files of a child
    directory are exactly [<start_num>.jpg], [<start_num + 1>.jpg], ...
    (four digits, at most 10000 of them, in any order of listing),
    [process_subdir] of step 2 changes nothing at all: no rename, no
    journal entry, no log line.  The same holds for [process_parent] of
    step 3 and child directories named [<start_num>], ... *)
Theorem numbered_entries_left_alone d entries (n : nat) w :
  dry_run (cfg w) = false -> 0 <= start_num (cfg w) -> Z.of_nat n <= 10000 ->
  iterdir d (fs w) = Ok entries ->
  (List.filter (fun p => is_file p (fs w) && bool_decide (lsuffix p = ".jpg")) entries
     ≡ₚ numbered_paths d ".jpg" (start_num (cfg w)) n ->
   process_subdir d w = (Ok tt, w))
  /\ (List.filter (is_work_dir (cfg w) (fs w)) entries
        ≡ₚ numbered_paths d "" (start_num (cfg w)) n ->
      process_parent d w = (Ok tt, w)).
Proof.
  intros Hdry Hstart Hn Hit. split; intros HP.
  - unfold process_subdir. unfold bind at 1, read_fs. rewrite Hit.
    rewrite bind_ret_l_gets. unfold sorted_paths.
    rewrite (sorted_numbered d ".jpg" _ n _ Hstart eq_refl HP).
    rewrite bind_ret_l, bind_ret_l_gets.
    replace (start_num (cfg w)) with (start_num (cfg w) + 0) at 2 by lia.
    apply number_loop_numbered; [lia|lia|set_solver|done|].
    intros p Hp. rewrite Z.add_0_r in Hp. rewrite <- HP in Hp.
    apply list_elem_of_In, filter_In in Hp as [_ [Hp _]%andb_true_iff].
    apply exists_lookup. unfold is_file in Hp. destruct (lookup p (fs w)); [eauto|done].
  - unfold process_parent, work_dirs. rewrite bind_assoc, bind_ret_l_gets.
    rewrite bind_assoc. unfold bind at 1, read_fs. rewrite Hit.
    rewrite bind_assoc, bind_ret_l_gets, bind_ret_l. unfold sorted_paths.
    rewrite (sorted_numbered d "" _ n _ Hstart eq_refl HP).
    rewrite bind_ret_l, bind_ret_l_gets.
    replace (start_num (cfg w)) with (start_num (cfg w) + 0) at 2 by lia.
    apply number_loop_numbered; [lia|lia|set_solver|done|].
    intros p Hp. rewrite Z.add_0_r in Hp. rewrite <- HP in Hp.
    apply list_elem_of_In, filter_In in Hp as [_ [Hp _]%andb_true_iff].
    apply exists_lookup. unfold is_dir in Hp. destruct (lookup p (fs w)); [eauto|done].
Qed.

Lemma numbered_entries_left_alone_witness :
  process_subdir ["A"] (initial_world numbered_tree (config_with false true false 1) [] [])
  = (Ok tt, initial_world numbered_tree (config_with false true false 1) [] []).
Proof.
  refine (proj1 (numbered_entries_left_alone ["A"]
                   [["A"; "0002.jpg"]; ["A"; "0001.jpg"]; ["A"; "notes.txt"]] 2
                   (initial_world numbered_tree (config_with false true false 1) [] [])
                   _ _ _ _) _).
  - reflexivity.
  - simpl. lia.
  - lia.
  - reflexivity.
  - vm_compute. apply perm_swap.
Defined.

(** ** Step 6 *)

Lemma file_apart_from_empty p q fs c :
  lookup p fs = Some (Dir []) -> lookup q fs = Some (File c) -> apart p q.
Proof.
  intros Hp Hq. split.
  - intros [r ->]. rewrite lookup_app, Hp in Hq. by destruct r.
  - intros [r ->]. destruct r as [|x r]; [rewrite app_nil_r in Hp; congruence|].
    by rewrite (lookup_under_file _ _ _ _ _ Hq) in Hp.
Qed.

Lemma rmdir_keeps_file p fs fs' q c :
  rmdir p fs = Ok fs' -> lookup q fs = Some (File c) -> lookup q fs' = Some (File c).
Proof.
  unfold rmdir. destruct (lookup p fs) as [[?|[|]]|] eqn:Hp; try done.
  destruct (remove p fs) as [f1|] eqn:Erm; simpl; [|done]. intros [= <-] Hq.
  destruct (file_apart_from_empty p q fs c Hp Hq) as [H1 H2].
  apply remove_lookup in Erm as [_ Fr]. by rewrite Fr.
Qed.

Lemma write_file_keeps_file p c0 fs fs' q c :
  write_file p c0 fs = Ok fs' -> q <> p -> lookup q fs = Some (File c) ->
  lookup q fs' = Some (File c).
Proof.
  intros Hw Hne Hq. pose proof Hw as Hw0. unfold write_file in Hw.
  destruct (negb (is_dir (parent p) fs) || bool_decide (p = [])) eqn:C1; [done|].
  apply orb_false_iff in C1 as [C1 C1']. apply negb_false_iff in C1.
  destruct (is_dir p fs) eqn:C2; [done|].
  apply write_file_inv in Hw0 as [_ Fr]. rewrite Fr; [done| |].
  - intros [r ->]. destruct r as [|x r]; [by rewrite app_nil_r in Hne|].
    rewrite lookup_app in Hq. unfold is_dir in C2.
    destruct (lookup p fs) as [[?|?]|]; try done.
  - intros [r ->]. destruct r as [|y r0 _] using rev_ind; [by rewrite app_nil_r in Hne|].
    rewrite app_assoc, parent_snoc in C1. apply is_dir_lookup in C1 as [es Hes].
    destruct r0 as [|z r0].
    + rewrite app_nil_r in Hes. congruence.
    + by rewrite (lookup_under_file _ _ _ _ _ Hq) in Hes.
Qed.

Section KeepsFiles.

Lemma keeps_files_pure {A} (m : M A) :
  (forall w, fs (m w).2 = fs w) -> keeps_files m.
Proof. intros H w q c _ Hq. by rewrite H. Qed.

Lemma keeps_files_bind {A B} (m : M A) (k : A -> M B) :
  keeps_files m -> (forall a, keeps_files (k a)) -> keeps_files (bind m k).
Proof.
  intros Hm Hk w q c Hne Hq. unfold bind. specialize (Hm w q c Hne Hq).
  destruct (m w) as [[a|e] w1]; cbn [snd] in *; [|done]. by apply Hk.
Qed.

Lemma keeps_files_try_catch {A} (m : M A) (h : exn -> M A) :
  keeps_files m -> (forall e, keeps_files (h e)) -> keeps_files (try_catch m h).
Proof.
  intros Hm Hh w q c Hne Hq. unfold try_catch. specialize (Hm w q c Hne Hq).
  destruct (m w) as [[a|e] w1]; cbn [snd] in *; [done|]. by apply Hh.
Qed.

Lemma keeps_files_for_each {A} (l : list A) (body : A -> M unit) :
  (forall x, keeps_files (body x)) -> keeps_files (for_each l body).
Proof.
  intros H. induction l as [|x r IH]; cbn [for_each]; [by apply keeps_files_pure|].
  apply keeps_files_bind; [apply H|]. by intros _.
Qed.

Lemma keeps_files_fs_op op (f : node -> res node) :
  (forall fs fs' q c, f fs = Ok fs' -> q <> config_file ->
     lookup q fs = Some (File c) -> lookup q fs' = Some (File c)) ->
  keeps_files (fs_op op f).
Proof.
  intros H w q c Hne Hq. unfold fs_op. destruct (faults w op); [done|].
  destruct (f (fs w)) as [fs'|e] eqn:E; [|done]. simpl_w. by eapply H.
Qed.

Lemma keeps_files_save_config : keeps_files save_config.
Proof.
  unfold save_config. apply keeps_files_try_catch; [|intros; by apply keeps_files_pure].
  apply keeps_files_bind.
  { apply keeps_files_fs_op. intros fs fs' q c H _ Hq. cbn in H. by injection H as <-. }
  intros _. apply keeps_files_bind; [by apply keeps_files_pure|]. intros c0.
  apply keeps_files_bind; [|intros; by apply keeps_files_pure].
  apply keeps_files_fs_op. intros fs fs' q c H Hne Hq. by eapply write_file_keeps_file.
Qed.

Lemma keeps_files_confirm_operation message : keeps_files (confirm_operation message).
Proof.
  unfold confirm_operation. apply keeps_files_bind; [by apply keeps_files_pure|]. intros c.
  destruct (dry_run c).
  { apply keeps_files_bind; [by apply keeps_files_pure|]. intros; by apply keeps_files_pure. }
  destruct (_ || _).
  { apply keeps_files_bind; [by apply keeps_files_pure|]. intros; by apply keeps_files_pure. }
  apply keeps_files_bind.
  { apply keeps_files_pure. intros w. unfold input. by destruct (stdin w). }
  intros answer. destruct (bool_decide _); [|by apply keeps_files_pure].
  apply keeps_files_bind; [by apply keeps_files_pure|]. intros _.
  apply keeps_files_bind; [apply keeps_files_save_config|]. intros; by apply keeps_files_pure.
Qed.

End KeepsFiles.

(** X4: step 6 removes nothing but empty directories.  In every mode
    and whatever the environment makes fail, each file that is in the
    tree before step 6 is there afterwards with its content (only the
    configuration file can be rewritten, by the answer "a" at the
    confirmation), and so is every directory above such a file. *)
Theorem step6_keeps_files w q c :
  q <> config_file -> lookup q (fs w) = Some (File c) ->
  lookup q (fs (run step6_clean_dirs w)) = Some (File c)
  /\ forall d, d `prefix_of` q -> d <> q -> is_dir d (fs (run step6_clean_dirs w)) = true.
Proof.
  intros Hne Hq.
  assert (keeps_files step6_clean_dirs) as H.
  { unfold step6_clean_dirs. apply keeps_files_bind; [by apply keeps_files_pure|]. intros c0.
    apply keeps_files_bind; [by apply keeps_files_pure|]. intros f.
    apply keeps_files_bind; [by apply keeps_files_pure|]. intros _.
    destruct (bool_decide _); [by apply keeps_files_pure|].
    apply keeps_files_bind; [apply keeps_files_confirm_operation|]. intros ok.
    destruct (negb ok); [by apply keeps_files_pure|].
    apply keeps_files_bind; [|intros; by apply keeps_files_pure].
    apply keeps_files_for_each. intros p.
    apply keeps_files_try_catch; [|intros; by apply keeps_files_pure].
    apply keeps_files_bind.
    { apply keeps_files_pure. intros w0. unfold dir_is_empty, bind, read_fs.
      by destruct (iterdir p (fs w0)). }
    intros empty.
    apply keeps_files_bind; [by apply keeps_files_pure|]. intros c1.
    unfold when. destruct (_ && _); [|by apply keeps_files_pure].
    apply keeps_files_bind.
    { apply keeps_files_fs_op. intros fs fs' q0 c2 Hrm _ Hq0.
      by eapply rmdir_keeps_file. }
    intros _. apply keeps_files_bind; by intros; apply keeps_files_pure. }
  specialize (H w q c Hne Hq). split; [done|].
  intros d [r ->] Hd. unfold run, is_dir. rewrite lookup_app in H.
  destruct (lookup d (fs (step6_clean_dirs w).2)) as [[c'|es]|]; simpl in H; try done.
  destruct r; [by rewrite app_nil_r in Hd|done].
Qed.

Lemma step6_keeps_files_witness :
  lookup ["A"; "B"; "0001.jpg"]
    (fs (run step6_clean_dirs (initial_world one_page batch_config [] [])))
  = Some (File (Raw "page")).
Proof.
  refine (proj1 (step6_keeps_files (initial_world one_page batch_config [] [])
                   ["A"; "B"; "0001.jpg"] (Raw "page") _ _)).
  - discriminate.
  - reflexivity.
Defined.
(** ** Step 8 when nothing fails *)

Lemma sorted_paths_total (l : list path) :
  is_Some (sorted_by (fun p => natural_sort_key (name p)) l).
Proof.
  apply sorted_by_total. intros a b.
  apply (key_lt_alternating _ _ false); apply natural_sort_key_alternating.
Qed.




(** ** [suffix], [stem] and [with_suffix] *)

Lemma substring_0_app_l s t : String.substring 0 (String.length s) (s +:+ t) = s.
Proof.
  induction s as [|c s IH]; simpl; [by destruct t|]. by rewrite IH.
Qed.

Lemma substring_app_r s t n :
  String.substring (String.length s) n (s +:+ t) = String.substring 0 n t.
Proof. induction s as [|c s IH]; simpl; [done|]. apply IH. Qed.

Lemma substring_all t : String.substring 0 (String.length t) t = t.
Proof. induction t as [|c t IH]; simpl; [done|]. by rewrite IH. Qed.

Lemma rindex_dot_None_shift s : forall i j, rindex_dot s i = None -> rindex_dot s j = None.
Proof.
  induction s as [|c s IH]; intros i j; simpl; [done|].
  destruct (rindex_dot s (S i)) eqn:E; [done|]. rewrite (IH _ (S j) E).
  by destruct (bool_decide (c = "."%char)).
Qed.

Lemma rindex_dot_app s t : forall i,
  rindex_dot (s +:+ t) i
  = match rindex_dot t (i + String.length s) with
    | Some j => Some j
    | None => rindex_dot s i
    end.
Proof.
  induction s as [|c s IH]; intros i; cbn [String.append String.length rindex_dot].
  - rewrite Nat.add_0_r. by destruct (rindex_dot t i).
  - rewrite IH. replace (S i + String.length s)%nat with (i + S (String.length s))%nat by lia.
    by destruct (rindex_dot t (i + S (String.length s))).
Qed.

(** The last dot splits the name. *)
Lemma rindex_dot_Some s : forall i j,
  rindex_dot s i = Some j ->
  exists a b, s = a +:+ String "." b /\ j = (i + String.length a)%nat
              /\ rindex_dot b 0 = None.
Proof.
  induction s as [|c s IH]; intros i j; simpl; [done|].
  destruct (rindex_dot s (S i)) as [k|] eqn:E.
  - intros [= ->]. destruct (IH _ _ E) as (a & b & -> & -> & Hb).
    exists (String c a), b. simpl. split; [done|]. split; [lia|done].
  - destruct (bool_decide (c = "."%char)) eqn:Ec; [|done]. intros [= <-].
    apply bool_decide_eq_true in Ec as ->. exists "", s. simpl.
    split; [done|]. split; [lia|]. by eapply rindex_dot_None_shift.
Qed.

Lemma rindex_dot_last a b i :
  rindex_dot b 0 = None -> rindex_dot (a +:+ String "." b) i = Some (i + String.length a)%nat.
Proof.
  intros Hb. rewrite rindex_dot_app. cbn [rindex_dot].
  rewrite (rindex_dot_None_shift b 0 _ Hb). by rewrite bool_decide_true.
Qed.

(** A name with a stem and an extension: [suffix] and [stem] take it
    apart again. *)
Lemma suffix_stem_app a b :
  a <> "" -> b <> "" -> rindex_dot b 0 = None ->
  suffix (a +:+ String "." b) = String "." b /\ stem (a +:+ String "." b) = a.
Proof.
  intros Ha Hb Hnd.
  assert (suffix (a +:+ String "." b) = String "." b) as Hs.
  { unfold suffix. rewrite (rindex_dot_last a b 0 Hnd). cbn [Nat.add].
    rewrite str_length_app. cbn [String.length].
    rewrite bool_decide_true.
    2:{ destruct a; [done|]. destruct b; [done|]. simpl. lia. }
    replace (String.length a + S (String.length b) - String.length a)%nat
      with (String.length (String "." b)) by (simpl; lia).
    by rewrite substring_app_r, substring_all. }
  split; [done|]. unfold stem. rewrite Hs, str_length_app.
  replace (String.length a + String.length (String "." b) - String.length (String "." b))%nat
    with (String.length a) by lia.
  apply substring_0_app_l.
Qed.

(** Every name is its stem followed by its suffix; a suffix that is not
    empty is a dot and an extension without a dot, after a stem that is
    not empty. *)
Lemma suffix_shape nm :
  (suffix nm = "" /\ stem nm = nm)
  \/ exists a b, nm = a +:+ String "." b /\ a <> "" /\ b <> "" /\ rindex_dot b 0 = None
                 /\ suffix nm = String "." b /\ stem nm = a.
Proof.
  destruct (rindex_dot nm 0) as [i|] eqn:E.
  - destruct (rindex_dot_Some _ _ _ E) as (a & b & -> & -> & Hb).
    destruct (decide (a = "")) as [->|Ha].
    { left. unfold stem, suffix. rewrite E. cbn [Nat.add String.length].
      rewrite bool_decide_false by lia. cbn [String.length].
      rewrite Nat.sub_0_r. split; [done|]. apply substring_all. }
    destruct (decide (b = "")) as [->|Hb'].
    { left. unfold stem, suffix. rewrite E. cbn [Nat.add].
      rewrite bool_decide_false by (rewrite str_length_app; simpl; lia). cbn [String.length].
      rewrite Nat.sub_0_r. split; [done|]. apply substring_all. }
    right. exists a, b. destruct (suffix_stem_app a b Ha Hb' Hb) as [-> ->]. done.
  - left. unfold stem, suffix. rewrite E. cbn [String.length]. rewrite Nat.sub_0_r.
    split; [done|]. apply substring_all.
Qed.

Lemma stem_suffix nm : stem nm +:+ suffix nm = nm.
Proof.
  destruct (suffix_shape nm) as [[-> ->]|(a & b & -> & _ & _ & _ & -> & ->)];
    [apply str_app_nil_r|done].
Qed.

(** [with_suffix] with an extension: the result has that suffix and the
    stem of before. *)
Lemma name_with_suffix (p : path) e :
  name (with_suffix p (String "." e)) = stem (name p) +:+ String "." e.
Proof. unfold with_suffix. by rewrite name_snoc. Qed.

Lemma suffix_with_suffix (p : path) e :
  stem (name p) <> "" -> e <> "" -> rindex_dot e 0 = None ->
  suffix (name (with_suffix p (String "." e))) = String "." e
  /\ stem (name (with_suffix p (String "." e))) = stem (name p).
Proof.
  intros Hs He Hd. rewrite name_with_suffix. by apply suffix_stem_app.
Qed.

Lemma stem_nonempty nm : suffix nm <> "" -> stem nm <> "".
Proof.
  destruct (suffix_shape nm) as [[-> _]|(a & b & -> & Ha & _ & _ & _ & ->)]; done.
Qed.

(** ** Steps 2 to 5 never lose a file *)

Lemma relocates_id f : relocates f f (fun q => q).
Proof. split; [done|]. by intros. Qed.

Lemma relocates_trans f0 f1 f2 r1 r2 :
  relocates f0 f1 r1 -> relocates f1 f2 r2 -> relocates f0 f2 (fun q => r2 (r1 q)).
Proof.
  intros [A1 A2] [B1 B2]. split.
  - intros q c Hq. by apply B1, A1.
  - intros q1 q2 c1 c2 H1 H2 E. eapply A2; [done..|].
    eapply B2; [by apply A1|by apply A1|done].
Qed.

Lemma rebase_prefix src dst r : rebase src dst (src ++ r) = dst ++ r.
Proof.
  unfold rebase. rewrite bool_decide_true by (by apply prefix_app_r).
  by rewrite drop_app_length.
Qed.

Lemma rebase_other src dst q : ~ src `prefix_of` q -> rebase src dst q = q.
Proof. intros H. unfold rebase. by rewrite bool_decide_false. Qed.

(** A rename to a path that is free relocates the files at and below
    the source, and leaves the other files where they are. *)
Lemma rename_relocates src dst fs fs' :
  rename src dst fs = Ok fs' -> lookup dst fs = None ->
  relocates fs fs' (rebase src dst).
Proof.
  intros R Hdst.
  destruct (decide (src = dst)) as [->|Hne].
  { unfold rename in R. destruct (lookup dst fs); [done|]. done. }
  destruct (rename_inv _ _ _ _ R Hne Hdst) as (I1 & I2 & Fr).
  assert (is_dir (parent dst) fs = true /\ exists n, lookup src fs = Some n) as [Hpar [n Hn]].
  { unfold rename in R. destruct (lookup src fs) as [n|]; [|done].
    destruct src; [done|]. rewrite bool_decide_false in R by done.
    destruct (is_dir (parent dst) fs); [eauto|done]. }
  assert (forall q c, lookup q fs = Some (File c) -> ~ src `prefix_of` q ->
            lookup q fs' = Some (File c)) as Hother.
  { intros q c Hq Hsq. rewrite Fr; [done|done| | |].
    - intros [r ->]. destruct r as [|x r]; [rewrite app_nil_r in Hsq; by destruct Hsq|].
      by rewrite (lookup_under_file _ _ _ _ _ Hq) in Hn.
    - intros [r Hr]. rewrite Hr, lookup_app, Hdst in Hq. done.
    - intros [r ->]. destruct r as [|y r0 _] using rev_ind.
      { rewrite app_nil_r in Hdst. congruence. }
      rewrite app_assoc, parent_snoc in Hpar. apply is_dir_lookup in Hpar as [es Hes].
      destruct r0 as [|z r0]; [rewrite app_nil_r in Hes; congruence|].
      by rewrite (lookup_under_file _ _ _ _ _ Hq) in Hes. }
  split.
  - intros q c Hq. destruct (decide (src `prefix_of` q)) as [[r ->]|Hsq].
    + rewrite rebase_prefix, lookup_app, I1. by rewrite lookup_app in Hq.
    + rewrite rebase_other by done. by apply Hother.
  - intros q1 q2 c1 c2 H1 H2.
    destruct (decide (src `prefix_of` q1)) as [[r1 ->]|Hs1],
             (decide (src `prefix_of` q2)) as [[r2 ->]|Hs2];
      rewrite ?rebase_prefix, ?(rebase_other _ _ q1), ?(rebase_other _ _ q2) by done.
    + by intros ->%app_inv_head.
    + intros E. rewrite <- E, lookup_app, Hdst in H2. done.
    + intros E. rewrite E, lookup_app, Hdst in H1. done.
    + done.
Qed.

Section Lossless.

Lemma lossless_pure {A} (m : M A) : (forall w, fs (m w).2 = fs w) -> lossless m.
Proof. intros H w. exists (fun q => q). rewrite H. apply relocates_id. Qed.

Lemma lossless_bind {A B} (m : M A) (k : A -> M B) :
  lossless m -> (forall a, lossless (k a)) -> lossless (bind m k).
Proof.
  intros Hm Hk w. unfold bind. destruct (Hm w) as [r1 H1].
  destruct (m w) as [[a|e] w1]; cbn [snd] in *; [|eauto].
  destruct (Hk a w1) as [r2 H2]. eexists. by eapply relocates_trans.
Qed.

Lemma lossless_try_catch {A} (m : M A) (h : exn -> M A) :
  lossless m -> (forall e, lossless (h e)) -> lossless (try_catch m h).
Proof.
  intros Hm Hh w. unfold try_catch. destruct (Hm w) as [r1 H1].
  destruct (m w) as [[a|e] w1]; cbn [snd] in *; [eauto|].
  destruct (Hh e w1) as [r2 H2]. eexists. by eapply relocates_trans.
Qed.

Lemma lossless_for_each {A} (l : list A) (body : A -> M unit) :
  (forall x, lossless (body x)) -> lossless (for_each l body).
Proof.
  intros H. induction l as [|x r IH]; cbn [for_each]; [by apply lossless_pure|].
  apply lossless_bind; [apply H|]. by intros _.
Qed.

Lemma lossless_safe_rename src dst : lossless (safe_rename src dst).
Proof.
  intros w. destruct (safe_rename_cases src dst w) as (b & w1 & -> & _ & Hc). cbn [snd].
  destruct Hc as [[-> _]|[(-> & _)|(final & Hfree & _ & Hren & _)]].
  - exists (fun q => q). apply relocates_id.
  - exists (fun q => q). apply relocates_id.
  - exists (rebase src final). by eapply rename_relocates.
Qed.

Lemma lossless_sorted_paths l : lossless (sorted_paths l).
Proof.
  apply lossless_pure. intros w. unfold sorted_paths. by destruct (sorted_by _ _).
Qed.

Lemma lossless_work_dirs p : lossless (work_dirs p).
Proof.
  apply lossless_pure. intros w. by destruct (confined_work_dirs (fun _ => True) p w) as [_ ?];
    unfold work_dirs, bind, read_fs, gets; destruct (iterdir p (fs w)).
Qed.

End Lossless.

Lemma lossless_weaken {A} (m : M A) : lossless m -> lossless_but_config m.
Proof.
  intros H w. destruct (H w) as [rho [H1 H2]]. exists rho. split.
  - intros q c _. apply H1.
  - intros q1 q2 c1 c2 _ _. apply H2.
Qed.

Lemma lossless_after_keeps {A B} (m : M A) (k : A -> M B) :
  keeps_files m -> (forall a, lossless_but_config (k a)) -> lossless_but_config (bind m k).
Proof.
  intros Hm Hk w. unfold bind. pose proof (Hm w) as Hkeep.
  destruct (m w) as [[a|e] w1]; cbn [snd] in *.
  - destruct (Hk a w1) as [rho [H1 H2]]. exists rho. split.
    + intros q c Hne Hq. apply H1; [done|]. by apply Hkeep.
    + intros q1 q2 c1 c2 N1 N2 Q1 Q2. eapply H2; [done|done| |]; by apply Hkeep.
  - exists (fun q => q). split; [intros q c Hne Hq; by apply Hkeep|]. by intros.
Qed.

Lemma lossless_but_config_pure {A} (m : M A) :
  (forall w, fs (m w).2 = fs w) -> lossless_but_config m.
Proof. intros H. by apply lossless_weaken, lossless_pure. Qed.

Lemma work_dirs_pure p w : fs (work_dirs p w).2 = fs w.
Proof. unfold work_dirs, bind, read_fs, gets. by destruct (iterdir p (fs w)). Qed.

Lemma child_dirs_pure parents : forall w, fs (child_dirs parents w).2 = fs w.
Proof.
  induction parents as [|par r IH]; intros w; cbn [child_dirs]; [done|].
  unfold bind at 1. pose proof (work_dirs_pure par w) as H1.
  destruct (work_dirs par w) as [[subs|e] w1]; cbn [snd] in *; [|done].
  unfold bind. pose proof (IH w1) as H2.
  destruct (child_dirs r w1) as [[rest|e] w2]; unfold ret; cbn [snd] in *; congruence.
Qed.

Lemma sorted_jpg_files_pure d w : fs (sorted_jpg_files d w).2 = fs w.
Proof.
  unfold sorted_jpg_files. rewrite bind_ret_l_gets_pair. unfold sorted_paths.
  by destruct (sorted_by _ _).
Qed.

Lemma lossless_number_loop where_ ext start items : forall idx used,
  lossless (number_loop where_ ext start idx used items).
Proof.
  induction items as [|item r IH]; intros idx used; cbn [number_loop];
    [by apply lossless_pure|].
  destruct (_ <=? _); [by apply lossless_pure|].
  apply lossless_bind; [apply lossless_safe_rename|]. intros _. apply IH.
Qed.

Lemma lossless_process_subdir d : lossless (process_subdir d).
Proof.
  unfold process_subdir. apply lossless_bind.
  { apply lossless_pure. intros w. unfold read_fs. done. }
  intros entries. apply lossless_bind; [by apply lossless_pure|]. intros f.
  apply lossless_bind; [apply lossless_sorted_paths|]. intros files.
  apply lossless_bind; [by apply lossless_pure|]. intros c. apply lossless_number_loop.
Qed.

Lemma lossless_process_parent d : lossless (process_parent d).
Proof.
  unfold process_parent. apply lossless_bind; [apply lossless_work_dirs|]. intros ds.
  apply lossless_bind; [apply lossless_sorted_paths|]. intros subdirs.
  apply lossless_bind; [by apply lossless_pure|]. intros c. apply lossless_number_loop.
Qed.

Lemma free_in_parent_free fuel : forall counter np file pd fs p k,
  counter + Z.of_nat fuel = 102 ->
  free_in_parent fuel counter np file pd fs = (p, k) -> k <= 100 -> exists_ p fs = false.
Proof.
  induction fuel as [|f IH]; intros counter np file pd fs p k Hsum; cbn [free_in_parent].
  - intros [= <- <-]. lia.
  - destruct (exists_ np fs) eqn:Ex; cbn [andb].
    + destruct (Z.leb_spec counter 100); [|intros [= <- <-]; lia].
      apply IH. lia.
    + by intros [= <- <-].
Qed.

Lemma move_relocates src dst fs fs' :
  move src dst fs = Ok fs' -> exists_ dst fs = false -> relocates fs fs' (rebase src dst).
Proof.
  intros Hm Hfree. apply not_exists_lookup in Hfree. unfold move, is_dir in Hm.
  rewrite Hfree in Hm. cbn [andb] in Hm. by eapply rename_relocates.
Qed.

(** The body of the inner loop of step 5. *)
Lemma lossless_step5_move file parent_dir :
  lossless
    (try_catch
       (let base_name := name file in
        found <- ask_fs (free_in_parent 101 1 (parent_dir ++ [base_name]) file parent_dir) ;;
        let '(new_path, counter) := found in
        if counter >? 100 then
          logw ERROR "cannot resolve name conflict" [str file]
        else
          c <- gets cfg ;;
          when (negb (dry_run c))
            (fs_op (FMove file new_path) (move file new_path) ;;
             record_operation OpMove file (Some new_path) ;;
             logw INFO "moved" [str file; str new_path]))
       (fun e => logw ERROR "move failed" [str file; exn_name e])).
Proof.
  intros w. cbv zeta. unfold try_catch, ask_fs. rewrite bind_ret_l_gets.
  destruct (free_in_parent 101 1 (parent_dir ++ [name file]) file parent_dir (fs w))
    as [new_path counter] eqn:Efree.
  destruct (Z.gtb_spec counter 100) as [Hgt|Hle].
  { exists (fun q => q). apply relocates_id. }
  apply free_in_parent_free in Efree; [|lia|lia].
  rewrite bind_ret_l_gets. unfold when. destruct (negb (dry_run (cfg w))).
  2:{ exists (fun q => q). apply relocates_id. }
  destruct (fs_op_cases (FMove file new_path) (move file new_path) w)
    as [(fs' & _ & Hmv & Hop)|(e & Hop & _)].
  - rewrite (bind_Ok _ _ _ _ _ Hop). unfold_M. simpl_w.
    exists (rebase file new_path). by apply move_relocates.
  - rewrite (bind_Raise _ _ _ _ _ Hop). unfold_M. simpl_w.
    exists (fun q => q). apply relocates_id.
Qed.

(** X6: steps 2, 3, 4 and 5 never lose a file.  In every mode and
    whatever the environment makes fail, each of these steps only
    relocates files: every file that is in the tree before the step
    (the configuration file, which the answer "a" at the confirmation
    rewrites, set apart) is found after it, with its content, at the
    path a map [rho] gives for it, and two files are never found at the
    same path.  So no file is deleted, overwritten or merged with
    another by the renames of steps 2 to 4 and the moves of step 5. *)
Theorem steps_2_to_5_lossless :
  lossless_but_config step2_rename /\ lossless_but_config step3_rename_subdirs
  /\ lossless_but_config step4_add_prefix /\ lossless_but_config step5_move_files.
Proof.
  assert (forall w, fs (work_dirs [] w).2 = fs w) as Hwd by apply work_dirs_pure.
  split; [|split; [|split]].
  - unfold step2_rename.
    apply lossless_after_keeps; [by apply keeps_files_pure|]. intros parents.
    apply lossless_after_keeps; [apply keeps_files_pure, child_dirs_pure|]. intros subdirs.
    apply lossless_after_keeps; [by apply keeps_files_pure|]. intros _.
    destruct (bool_decide _); [by apply lossless_but_config_pure|].
    apply lossless_after_keeps; [apply keeps_files_confirm_operation|]. intros ok.
    destruct (negb ok); [by apply lossless_but_config_pure|].
    apply lossless_weaken, lossless_for_each. intros sp. apply lossless_process_subdir.
  - unfold step3_rename_subdirs.
    apply lossless_after_keeps; [by apply keeps_files_pure|]. intros parents.
    apply lossless_after_keeps; [by apply keeps_files_pure|]. intros _.
    destruct (bool_decide _); [by apply lossless_but_config_pure|].
    apply lossless_after_keeps; [apply keeps_files_confirm_operation|]. intros ok.
    destruct (negb ok); [by apply lossless_but_config_pure|].
    apply lossless_weaken, lossless_for_each. intros par. apply lossless_process_parent.
  - unfold step4_add_prefix.
    apply lossless_after_keeps; [by apply keeps_files_pure|]. intros parents.
    apply lossless_after_keeps; [apply keeps_files_pure, child_dirs_pure|]. intros subdirs.
    apply lossless_after_keeps; [by apply keeps_files_pure|]. intros _.
    destruct (bool_decide _); [by apply lossless_but_config_pure|].
    apply lossless_after_keeps; [apply keeps_files_confirm_operation|]. intros ok.
    destruct (negb ok); [by apply lossless_but_config_pure|].
    apply lossless_weaken, lossless_for_each. intros sp. cbv zeta.
    apply lossless_bind; [apply lossless_pure, sorted_jpg_files_pure|]. intros files.
    apply lossless_for_each. intros file.
    destruct (contains "_" (name file)); [by apply lossless_pure|].
    apply lossless_bind; [apply lossless_safe_rename|]. intros; by apply lossless_pure.
  - unfold step5_move_files.
    apply lossless_after_keeps; [by apply keeps_files_pure|]. intros parents.
    apply lossless_after_keeps; [apply keeps_files_pure, child_dirs_pure|]. intros subdirs.
    apply lossless_after_keeps; [by apply keeps_files_pure|]. intros _.
    destruct (bool_decide _); [by apply lossless_but_config_pure|].
    apply lossless_after_keeps; [apply keeps_files_confirm_operation|]. intros ok.
    destruct (negb ok); [by apply lossless_but_config_pure|].
    apply lossless_weaken, lossless_for_each. intros [subdir parent_dir].
    apply lossless_bind; [apply lossless_pure, sorted_jpg_files_pure|]. intros files.
    apply lossless_for_each. intros file. apply lossless_step5_move.
Qed.

(** ** Step 1 *)

Lemma write_file_keeps_none p c0 fs fs' q :
  write_file p c0 fs = Ok fs' -> q <> p -> lookup q fs = None -> lookup q fs' = None.
Proof.
  intros Hw Hne Hq. pose proof Hw as Hw0. unfold write_file in Hw.
  destruct (negb (is_dir (parent p) fs) || bool_decide (p = [])) eqn:C1; [done|].
  apply orb_false_iff in C1 as [C1 C1']. apply negb_false_iff in C1.
  apply bool_decide_eq_false in C1'.
  apply write_file_inv in Hw0 as [L Fr].
  destruct (decide (p `prefix_of` q)) as [[r ->]|H1].
  { rewrite lookup_app, L. destruct r; [by rewrite app_nil_r in Hne|done]. }
  destruct (decide (q `prefix_of` p)) as [[r ->]|H2]; [|by rewrite Fr].
  exfalso. destruct r as [|y r0 _] using rev_ind; [by rewrite app_nil_r in Hne|].
  rewrite app_assoc, parent_snoc in C1. apply is_dir_lookup in C1 as [es Hes].
  rewrite lookup_app, Hq in Hes. done.
Qed.

Lemma unlink_keeps_file p fs fs' q c :
  unlink p fs = Ok fs' -> q <> p -> lookup q fs = Some (File c) -> lookup q fs' = Some (File c).
Proof.
  intros Hu Hne Hq. destruct (unlink_inv _ _ _ Hu) as ([c0 Hp] & _ & Fr). rewrite Fr; [done| |].
  - intros [r ->]. destruct r as [|x r]; [by rewrite app_nil_r in Hne|].
    by rewrite (lookup_under_file _ _ _ _ _ Hp) in Hq.
  - intros [r ->]. destruct r as [|x r]; [by rewrite app_nil_r in Hne|].
    by rewrite (lookup_under_file _ _ _ _ _ Hq) in Hp.
Qed.

Lemma unlink_keeps_none p fs fs' q :
  unlink p fs = Ok fs' -> lookup q fs = None -> lookup q fs' = None.
Proof.
  intros Hu Hq. destruct (unlink_inv _ _ _ Hu) as ([c0 Hp] & L & Fr).
  destruct (decide (p `prefix_of` q)) as [[r ->]|H1]; [by rewrite lookup_app, L|].
  destruct (decide (q `prefix_of` p)) as [[r ->]|H2]; [|by rewrite Fr].
  rewrite lookup_app, Hq in Hp. done.
Qed.

(** What the conversion of one file does. *)
Lemma convert_file_effect g w :
  dry_run (cfg w) = false -> (forall op, faults w op = false) ->
  g <> [] -> g <> with_suffix g ".jpg" ->
  exists w1, convert_file g w = (Ok tt, w1)
    /\ faults w1 = faults w /\ cfg w1 = cfg w
    /\ (forall q c, q <> with_suffix g ".jpg" -> q <> g ->
          lookup q (fs w) = Some (File c) -> lookup q (fs w1) = Some (File c))
    /\ (forall q, q <> with_suffix g ".jpg" ->
          lookup q (fs w) = None -> lookup q (fs w1) = None)
    /\ (lookup (with_suffix g ".jpg") (fs w1) = lookup (with_suffix g ".jpg") (fs w)
        \/ exists px, lookup (with_suffix g ".jpg") (fs w1) = Some (rgb_picture px))
    /\ (lookup g (fs w) = None -> fs w1 = fs w)
    /\ (forall animated mode px,
          lookup g (fs w) = Some (File (Picture animated mode px)) ->
          bool_decide (lsuffix g = ".gif") && animated = false ->
          is_dir (with_suffix g ".jpg") (fs w) = false ->
          lookup g (fs w1) = None
          /\ lookup (with_suffix g ".jpg") (fs w1) = Some (rgb_picture px)
          /\ operation_log w1
             = operation_log w ++ [{| op_timestamp := clock w; op_operation := OpDelete;
                                      op_source := g; op_target := None |}]).
Proof.
  intros Hdry Hf Hnil Hne. set (tgt := with_suffix g ".jpg") in *.
  unfold convert_file, open_and_convert. fold tgt. unfold_M. rewrite Hdry. cbn [negb].
  rewrite !Hf. unfold read_file.
  destruct (lookup g (fs w)) as [[c|es]|] eqn:Hg; simpl_w.
  2,3: (eexists; split; [reflexivity|]; simpl_w; repeat split; try done; eauto).
  destruct c as [data|animated mode px|ms|cf]; simpl_w.
  1,3,4: (eexists; split; [reflexivity|]; simpl_w; repeat split; try done; eauto).
  destruct (bool_decide (lsuffix g = ".gif") && animated) eqn:Hgif; simpl_w.
  { eexists; split; [reflexivity|]; simpl_w. repeat split; try done; eauto.
    all: simplify_eq; congruence. }
  assert (exists d n, g = d ++ [n] /\ is_dir d (fs w) = true) as (d & n & Eg & Hd).
  { clear Hne. subst tgt. destruct g as [|n d _] using rev_ind; [done|].
    exists d, n. split; [done|]. by eapply parent_of_existing_is_dir. }
  assert (parent tgt = d /\ tgt <> []) as [Hpt Htn].
  { subst tgt. unfold with_suffix. rewrite Eg, !parent_snoc. split; [done|]. by destruct d. }
  rewrite (Hf (FWrite tgt)).
  destruct (write_file tgt (Picture false "RGB" px) (fs w)) as [fs1|e] eqn:Hw; simpl_w.
  2:{ eexists; split; [reflexivity|]; simpl_w. repeat split; try done; eauto.
      all: exfalso; destruct (write_file_ok tgt (Picture false "RGB" px) (fs w))
             as (? & ? & _); [by rewrite Hpt|done|done|congruence]. }
  rewrite Hf.
  assert (lookup g fs1 = Some (File (Picture animated mode px))) as Hg1.
  { eapply write_file_keeps_file; [exact Hw|done|done]. }
  destruct (unlink g fs1) as [fs2|e] eqn:Hu; simpl_w.
  2:{ exfalso. assert (is_Some_res (unlink g fs1)) as H; [|by rewrite Hu in H].
      eapply unlink_file; [exact Hg1|]. rewrite Eg. by destruct d. }
  destruct (write_file_inv _ _ _ _ Hw) as [Lt _].
  destruct (unlink_inv _ _ _ Hu) as (_ & Lg & _).
  eexists; split; [reflexivity|]; simpl_w.
  split; [done|]. split; [done|]. split; [|split; [|split; [|split; [done|]]]].
  - intros q c Hq1 Hq2 Hq. eapply unlink_keeps_file; [exact Hu|done|].
    eapply write_file_keeps_file; [exact Hw|done|done].
  - intros q Hq1 Hq. eapply unlink_keeps_none; [exact Hu|].
    eapply write_file_keeps_none; [exact Hw|done|done].
  - right. exists px. eapply unlink_keeps_file; [exact Hu|by intros ->|done].
  - intros a m p [= <- <- <-] _ _. split; [done|]. split; [|done].
    eapply unlink_keeps_file; [exact Hu|by intros ->|done].
Qed.

Lemma for_each_app_Ok {A} (l1 l2 : list A) (body : A -> M unit) w w1 :
  for_each l1 body w = (Ok tt, w1) ->
  for_each (l1 ++ l2) body w = for_each l2 body w1.
Proof.
  revert w. induction l1 as [|x r IH]; intros w; cbn [for_each app].
  - by intros [= ->].
  - unfold bind. destruct (body x w) as [[[]|e] w0]; [apply IH|done].
Qed.

Lemma lsuffix_with_suffix_jpg (h : path) :
  stem (name h) <> "" -> lsuffix (with_suffix h ".jpg") = ".jpg".
Proof.
  intros Hs. unfold lsuffix.
  by destruct (suffix_with_suffix h "jpg" Hs ltac:(done) eq_refl) as [-> _].
Qed.

Lemma convert_list_elem c f g :
  "" ∉ image_exts c -> g ∈ convert_list c f ->
  g <> [] /\ is_jpeg_suffix (lsuffix g) = false /\ stem (name g) <> "".
Proof.
  intros Hex Hg. apply list_elem_of_In, filter_In in Hg as [Hin Hp].
  apply andb_true_iff in Hp as [Hp Hj]. apply andb_true_iff in Hp as [_ Hp].
  apply andb_true_iff in Hp as [Hfile Hext]. apply bool_decide_eq_true in Hext.
  apply negb_true_iff in Hj. split.
  - intros ->. unfold is_file in Hfile. simpl in Hfile.
    destruct f as [c0|es]; [|done]. by apply list_elem_of_In in Hin.
  - split; [done|]. apply stem_nonempty. intros E. unfold lsuffix in Hext.
    rewrite E in Hext. done.
Qed.

Section Step1.
Context (file : path) (animated : bool) (mode px : string).
Let tgt : path := with_suffix file ".jpg".

(** The files of the list that do not get in the way of [file]. *)
Let good (g : path) : Prop :=
  g <> [] /\ g <> with_suffix g ".jpg" /\ g <> tgt /\ file <> with_suffix g ".jpg".

Lemma convert_before l : forall w,
  Forall good l -> file ∉ l ->
  dry_run (cfg w) = false -> (forall op, faults w op = false) ->
  lookup file (fs w) = Some (File (Picture animated mode px)) ->
  is_dir tgt (fs w) = false ->
  exists w1, for_each l convert_file w = (Ok tt, w1)
    /\ dry_run (cfg w1) = false /\ (forall op, faults w1 op = false)
    /\ lookup file (fs w1) = Some (File (Picture animated mode px))
    /\ is_dir tgt (fs w1) = false.
Proof.
  induction l as [|g r IH]; intros w Hgood Hnot Hdry Hf Hfile Htgt; [by exists w|].
  apply Forall_cons in Hgood as [(G1 & G2 & G3 & G4) Hgood].
  apply not_elem_of_cons in Hnot as [Hne Hnot].
  destruct (convert_file_effect g w Hdry Hf G1 G2)
    as (w1 & E & F1 & C1 & K1 & K2 & K3 & _).
  cbn [for_each]. rewrite (bind_Ok _ _ _ _ _ E).
  apply IH; [done|done|by rewrite C1|intros; by rewrite F1|by apply K1|].
  destruct (decide (with_suffix g ".jpg" = tgt)) as [Et|Et].
  - rewrite Et in K3. unfold is_dir in *. destruct K3 as [->|[p ->]]; done.
  - unfold is_dir in *. destruct (lookup tgt (fs w)) as [[c|es]|] eqn:L; [|done|].
    + by rewrite (K1 tgt c) by done.
    + by rewrite (K2 tgt) by done.
Qed.

Lemma convert_after l : forall w px',
  Forall good l ->
  dry_run (cfg w) = false -> (forall op, faults w op = false) ->
  lookup file (fs w) = None -> lookup tgt (fs w) = Some (rgb_picture px') ->
  exists w1, for_each l convert_file w = (Ok tt, w1)
    /\ lookup file (fs w1) = None
    /\ (exists px'', lookup tgt (fs w1) = Some (rgb_picture px''))
    /\ (Forall (fun g => with_suffix g ".jpg" = tgt -> g = file) l ->
        lookup tgt (fs w1) = Some (rgb_picture px')).
Proof.
  induction l as [|g r IH]; intros w px' Hgood Hdry Hf Hfile Htgt; [exists w; eauto|].
  apply Forall_cons in Hgood as [(G1 & G2 & G3 & G4) Hgood].
  destruct (convert_file_effect g w Hdry Hf G1 G2)
    as (w1 & E & F1 & C1 & K1 & K2 & K3 & K5 & _).
  cbn [for_each]. rewrite (bind_Ok _ _ _ _ _ E).
  assert (forall op, faults w1 op = false) as Hf1 by (intros; by rewrite F1).
  assert (dry_run (cfg w1) = false) as Hdry1 by (by rewrite C1).
  assert (lookup file (fs w1) = None) as Hfile1 by (by apply K2).
  destruct (decide (with_suffix g ".jpg" = tgt)) as [Et|Et].
  - rewrite Et in K3.
    assert (exists p, lookup tgt (fs w1) = Some (rgb_picture p)) as [p Hp].
    { destruct K3 as [->|?]; eauto. }
    destruct (IH w1 p Hgood Hdry1 Hf1 Hfile1 Hp) as (w2 & E2 & L2 & L3 & L4).
    exists w2. split; [done|]. split; [done|]. split; [done|].
    intros [Hg Hu]%Forall_cons. rewrite (Hg Et) in K5. rewrite (K5 Hfile) in *.
    rewrite Htgt in Hp. injection Hp as <-. by apply L4.
  - assert (lookup tgt (fs w1) = Some (rgb_picture px')) as Hp by (by apply K1).
    destruct (IH w1 px' Hgood Hdry1 Hf1 Hfile1 Hp) as (w2 & E2 & L2 & L3 & L4).
    exists w2. split; [done|]. split; [done|]. split; [done|].
    intros [_ Hu]%Forall_cons. by apply L4.
Qed.

End Step1.

Lemma confirm_operation_auto message w :
  dry_run (cfg w) = false ->
  skip_step_confirmations (cfg w) || negb (interactive_mode (cfg w)) = true ->
  confirm_operation message w
  = (Ok true, with_log (log w ++ [{| l_level := INFO; l_tag := "skip confirmation";
                                     l_args := [message] |}]) w).
Proof.
  intros Hdry Hauto. unfold confirm_operation. rewrite bind_ret_l_gets, Hdry, Hauto. done.
Qed.

Lemma step1_convert_loop w :
  dry_run (cfg w) = false ->
  skip_step_confirmations (cfg w) || negb (interactive_mode (cfg w)) = true ->
  convert_list (cfg w) (fs w) <> [] ->
  exists w0, fs w0 = fs w /\ cfg w0 = cfg w /\ faults w0 = faults w
    /\ step1_convert w = for_each (convert_list (cfg w) (fs w)) convert_file w0.
Proof.
  intros Hdry Hauto Hne. unfold step1_convert. rewrite !bind_ret_l_gets. cbv zeta.
  fold (convert_list (cfg w) (fs w)).
  rewrite bool_decide_false by (by destruct (convert_list (cfg w) (fs w))).
  unfold logw at 1. rewrite bind_ret_l_modify.
  erewrite bind_Ok by (by apply confirm_operation_auto). cbn [negb].
  eexists. split; [|split; [|split; [|reflexivity]]]; done.
Qed.

(** X7: what step 1 does to a picture.  Outside dry-run mode, without
    failing operations and without a question at the confirmation (and
    with the empty suffix not among the image suffixes): a file of the
    list to convert that holds a picture, other than an animated GIF,
    is gone after step 1, and the path with its suffix replaced by
    [.jpg] holds an RGB picture, whatever file was there before; it is
    the picture converted from that file unless another file of the
    list has the same name up to its suffix. *)
Theorem step1_converts file animated mode px w :
  let tgt := with_suffix file ".jpg" in
  let w' := run step1_convert w in
  dry_run (cfg w) = false -> (forall op, faults w op = false) ->
  skip_step_confirmations (cfg w) || negb (interactive_mode (cfg w)) = true ->
  "" ∉ image_exts (cfg w) ->
  file ∈ convert_list (cfg w) (fs w) ->
  lookup file (fs w) = Some (File (Picture animated mode px)) ->
  bool_decide (lsuffix file = ".gif") && animated = false ->
  is_dir tgt (fs w) = false ->
  (step1_convert w).1 = Ok tt
  /\ lookup file (fs w') = None
  /\ (exists px', lookup tgt (fs w') = Some (rgb_picture px'))
  /\ ((forall g, g ∈ convert_list (cfg w) (fs w) -> with_suffix g ".jpg" = tgt -> g = file) ->
      lookup tgt (fs w') = Some (rgb_picture px)).
Proof.
  intros tgt w' Hdry Hf Hauto Hext Hin Hfile Hgif Htgt. subst w'. unfold run.
  destruct (step1_convert_loop w Hdry Hauto) as (w0 & E1 & E2 & E3 & ->).
  { intros E. rewrite E in Hin. by apply elem_of_nil in Hin. }
  set (l := convert_list (cfg w) (fs w)) in *.
  assert (forall g, g ∈ l ->
            g <> [] /\ g <> with_suffix g ".jpg" /\ g <> tgt
            /\ file <> with_suffix g ".jpg") as Hgood.
  { intros g Hg. destruct (convert_list_elem _ _ g Hext Hg) as (G1 & G2 & G3).
    destruct (convert_list_elem _ _ file Hext Hin) as (F1 & F2 & F3).
    assert (forall a b : path, a ∈ l -> stem (name b) <> "" -> a <> with_suffix b ".jpg") as Hd.
    { intros a b Ha Hb ->. destruct (convert_list_elem _ _ _ Hext Ha) as (_ & A2 & _).
      rewrite (lsuffix_with_suffix_jpg b Hb) in A2. done. }
    split; [done|]. split; [by apply Hd|]. split; by apply Hd. }
  destruct (list_elem_of_split_l _ _ Hin) as (l1 & l2 & El & Hnot).
  assert (Forall (fun g => g <> [] /\ g <> with_suffix g ".jpg" /\ g <> tgt
                           /\ file <> with_suffix g ".jpg") l1) as Hg1.
  { apply Forall_forall. intros g Hg. apply Hgood. rewrite El. set_solver. }
  assert (Forall (fun g => g <> [] /\ g <> with_suffix g ".jpg" /\ g <> tgt
                           /\ file <> with_suffix g ".jpg") l2) as Hg2.
  { apply Forall_forall. intros g Hg. apply Hgood. rewrite El. set_solver. }
  destruct (convert_before file animated mode px l1 w0 Hg1 Hnot)
    as (w1 & Eb & D1 & F1 & L1 & T1);
    [by rewrite E2|intros; by rewrite E3|by rewrite E1|by rewrite E1|].
  rewrite El, (for_each_app_Ok _ _ _ _ _ Eb). cbn [for_each].
  destruct (Hgood file Hin) as (G1 & G2 & _).
  destruct (convert_file_effect file w1 D1 F1 G1 G2)
    as (w2 & Ec & F2 & C2 & _ & _ & _ & _ & K).
  destruct (K _ _ _ L1 Hgif T1) as (M1 & M2 & _).
  rewrite (bind_Ok _ _ _ _ _ Ec).
  destruct (convert_after file l2 w2 px Hg2) as (w3 & Ea & N1 & N2 & N3);
    [by rewrite C2|intros; by rewrite F2|done|done|].
  rewrite Ea. cbn [fst snd]. split; [done|]. split; [done|]. split; [done|].
  intros Huniq. apply N3. apply Forall_forall. intros g Hg Ht.
  apply Huniq; [|done]. rewrite ?El. set_solver.
Qed.

Lemma step1_converts_witness :
  lookup ["A"; "B"; "x.png"] (fs (run step1_convert (initial_world comic batch_config [] [])))
  = None
  /\ lookup ["A"; "B"; "x.jpg"] (fs (run step1_convert (initial_world comic batch_config [] [])))
     = Some (rgb_picture "x").
Proof.
  destruct (step1_converts ["A"; "B"; "x.png"] false "RGBA" "x"
              (initial_world comic batch_config [] [])) as (_ & H1 & _ & H2).
  - reflexivity.
  - intros op. reflexivity.
  - reflexivity.
  - vm_compute. intros H. repeat (apply elem_of_cons in H as [H|H]; [discriminate|]).
    by apply elem_of_nil in H.
  - vm_compute. repeat constructor.
  - reflexivity.
  - reflexivity.
  - reflexivity.
  - split; [exact H1|]. apply H2. intros g Hg Ht.
    vm_compute in Hg.
    repeat (apply elem_of_cons in Hg as [->|Hg]; [first [reflexivity | discriminate Ht]|]).
    by apply elem_of_nil in Hg.
Defined.

(** ** Step 9: from [.zip] to [.cbz] *)

Lemma substring_split s : forall n, (n <= String.length s)%nat ->
  s = String.substring 0 n s +:+ String.substring n (String.length s - n) s.
Proof.
  induction s as [|a s IH]; intros [|n] Hn; simpl in *; try lia; try done.
  - by rewrite substring_all.
  - f_equal. apply IH. lia.
Qed.

Lemma ends_with_app sfx s :
  ends_with sfx s = true -> exists a, s = a +:+ sfx.
Proof.
  unfold ends_with. intros [Hl Hs]%andb_true_iff.
  apply bool_decide_eq_true in Hl, Hs.
  exists (String.substring 0 (String.length s - String.length sfx) s).
  pose proof (substring_split s (String.length s - String.length sfx) ltac:(lia)) as E.
  replace (String.length s - (String.length s - String.length sfx))%nat
    with (String.length sfx) in E by lia.
  by rewrite Hs in E.
Qed.

Lemma str_app_inj_l a s t : a +:+ s = a +:+ t -> s = t.
Proof. induction a as [|x a IH]; simpl; [done|]. intros [= E]. auto. Qed.

Lemma str_app_same_length a b s t :
  String.length s = String.length t -> a +:+ s = b +:+ t -> s = t.
Proof.
  intros Hl E. assert (String.length a = String.length b) as Hab.
  { apply (f_equal String.length) in E. rewrite !str_length_app in E. lia. }
  assert (a = b) as ->.
  { rewrite <- (substring_0_app_l a s), E, Hab. apply substring_0_app_l. }
  by apply (str_app_inj_l b).
Qed.

(** The names that [glob('*.zip')] matches: [.zip] itself, which has no
    suffix, and the names with a stem and the suffix [.zip]. *)
Lemma zip_name_shape x :
  ends_with ".zip" x = true ->
  (x = ".zip" /\ stem x = ".zip")
  \/ exists a, a <> "" /\ x = a +:+ ".zip" /\ stem x = a.
Proof.
  intros [a ->]%ends_with_app. destruct (decide (a = "")) as [->|Ha].
  - left. done.
  - right. exists a. split; [done|]. split; [done|].
    by destruct (suffix_stem_app a "zip" Ha ltac:(done) eq_refl) as [_ ->].
Qed.

Lemma cbz_name_not_zip x y : ends_with ".zip" x = true -> x <> y +:+ ".cbz".
Proof.
  intros [a ->]%ends_with_app E. by apply str_app_same_length in E.
Qed.

Lemma lookup_root_entry x es : lookup [x] (Dir es) = assoc x es.
Proof. simpl. by destruct (assoc x es). Qed.

Lemma with_suffix_root x sfx : with_suffix [x] sfx = [stem x +:+ sfx].
Proof. apply (with_suffix_snoc [] x sfx). Qed.

(** [os.rename] between two names of the root directory. *)
Lemma rename_root x y fs fs' :
  rename [x] [y] fs = Ok fs' -> x <> y ->
  exists es n, fs = Dir es /\ assoc x es = Some n
    /\ fs' = Dir (set_entry y n (remove_entry x es)).
Proof.
  intros R Hne. unfold rename in R.
  destruct fs as [c0|es]; [done|]. rewrite lookup_root_entry in R.
  destruct (assoc x es) as [n|] eqn:Hx; [|done].
  rewrite bool_decide_false in R by congruence.
  destruct (negb _ || _); [done|].
  destruct (bool_decide ([x] `prefix_of` [y])); [done|].
  exists es, n. split; [done|]. split; [done|].
  assert (or_raise FileNotFoundError (remove [x] (Dir es) ≫= put [y] n) = Ok fs') as Hgo.
  { destruct (lookup [y] (Dir es)) as [[?|[|]]|], n; try done. }
  cbn in Hgo. by injection Hgo as <-.
Qed.

Lemma rename_root_file x y es c :
  assoc x es = Some (File c) -> x <> y -> is_dir [y] (Dir es) = false ->
  rename [x] [y] (Dir es) = Ok (Dir (set_entry y (File c) (remove_entry x es))).
Proof.
  intros Hx Hne Hy. unfold is_dir in Hy. rewrite lookup_root_entry in Hy.
  unfold rename. rewrite !lookup_root_entry, Hx.
  rewrite bool_decide_false by congruence.
  cbn [parent split_last is_dir lookup negb orb].
  rewrite bool_decide_false by done.
  rewrite bool_decide_false.
  2:{ intros [k E]. simpl in E. congruence. }
  destruct (assoc y es) as [[?|?]|]; try done; reflexivity.
Qed.

(** One round of the loop of step 9 for a name of the root directory. *)
Lemma rename_to_cbz_effect x w :
  dry_run (cfg w) = false -> (forall op, faults w op = false) ->
  let y := stem x +:+ ".cbz" in
  exists w1, rename_to_cbz [x] w = (Ok tt, w1)
    /\ cfg w1 = cfg w /\ faults w1 = faults w
    /\ (fs w1 = fs w \/ rename [x] [y] (fs w) = Ok (fs w1))
    /\ (forall fs', rename [x] [y] (fs w) = Ok fs' -> fs w1 = fs').
Proof.
  intros Hdry Hf y. unfold rename_to_cbz. rewrite with_suffix_root. fold y.
  unfold_M. rewrite Hdry. cbn [negb]. rewrite Hf.
  destruct (rename [x] [y] (fs w)) as [fs1|e] eqn:R; simpl_w.
  - eexists. split; [reflexivity|]. simpl_w. repeat split; auto. by intros ? [= <-].
  - eexists. split; [reflexivity|]. simpl_w. repeat split; auto. done.
Qed.

Section Step9.
Context (nm : string) (fs0 : node).
Let tgt : string := stem nm +:+ ".cbz".

(** No directory has appeared in the root directory. *)
Let no_new_dir (f : node) : Prop :=
  forall q, is_dir [q] f = true -> is_dir [q] fs0 = true.

Let listed (g : path) : Prop :=
  exists x, g = [x] /\ ends_with ".zip" x = true /\ is_dir [x] fs0 = false.

Lemma rename_to_cbz_step x w :
  ends_with ".zip" x = true -> is_dir [x] fs0 = false ->
  dry_run (cfg w) = false -> (forall op, faults w op = false) ->
  no_new_dir (fs w) ->
  exists w1, rename_to_cbz [x] w = (Ok tt, w1)
    /\ dry_run (cfg w1) = false /\ (forall op, faults w1 op = false)
    /\ no_new_dir (fs w1)
    /\ (fs w1 = fs w
        \/ exists c0, lookup [x] (fs w) = Some (File c0)
             /\ lookup [x] (fs w1) = None
             /\ lookup [stem x +:+ ".cbz"] (fs w1) = Some (File c0)
             /\ forall q, q <> x -> q <> stem x +:+ ".cbz" ->
                  lookup [q] (fs w1) = lookup [q] (fs w)).
Proof.
  intros Hx Hx0 Hdry Hf HJ.
  destruct (rename_to_cbz_effect x w Hdry Hf) as (w1 & E & C1 & F1 & [K|K] & _).
  { exists w1. rewrite C1, F1, K. eauto 10. }
  assert (x <> stem x +:+ ".cbz") as Hne by (by apply cbz_name_not_zip).
  destruct (rename_root _ _ _ _ K Hne) as (es & n & E0 & An & E1).
  assert (exists c0, n = File c0) as [c0 ->].
  { destruct n as [c0|es']; [eauto|]. exfalso.
    assert (is_dir [x] (fs w) = true) as Hd.
    { unfold is_dir. by rewrite E0, lookup_root_entry, An. }
    apply HJ in Hd. congruence. }
  assert (forall q, q <> x -> q <> stem x +:+ ".cbz" ->
            lookup [q] (fs w1) = lookup [q] (fs w)) as Hfr.
  { intros q Q1 Q2. rewrite E0, E1, !lookup_root_entry.
    rewrite assoc_set_entry_ne by done. by rewrite assoc_remove_entry_ne. }
  assert (lookup [x] (fs w1) = None) as L1.
  { rewrite E1, lookup_root_entry, assoc_set_entry_ne by done.
    apply assoc_remove_entry_eq. }
  assert (lookup [stem x +:+ ".cbz"] (fs w1) = Some (File c0)) as L2.
  { rewrite E1, lookup_root_entry. apply assoc_set_entry_eq. }
  exists w1. split; [done|]. split; [by rewrite C1|]. split; [intros; by rewrite F1|].
  split.
  - intros q Hq. destruct (decide (q = x)) as [->|Q1].
    { unfold is_dir in Hq. by rewrite L1 in Hq. }
    destruct (decide (q = stem x +:+ ".cbz")) as [->|Q2].
    { unfold is_dir in Hq. by rewrite L2 in Hq. }
    apply HJ. unfold is_dir in *. by rewrite <- Hfr.
  - right. exists c0. split; [by rewrite E0, lookup_root_entry|]. done.
Qed.

Lemma rename_before l : forall w,
  Forall listed l -> [nm] ∉ l -> ends_with ".zip" nm = true ->
  dry_run (cfg w) = false -> (forall op, faults w op = false) ->
  no_new_dir (fs w) -> 
  exists w1, for_each l rename_to_cbz w = (Ok tt, w1)
    /\ dry_run (cfg w1) = false /\ (forall op, faults w1 op = false)
    /\ no_new_dir (fs w1)
    /\ lookup [nm] (fs w1) = lookup [nm] (fs w).
Proof.
  induction l as [|g r IH]; intros w Hl Hnot Hz Hdry Hf HJ; [by exists w|].
  apply Forall_cons in Hl as [(x & -> & Hx & Hx0) Hl].
  apply not_elem_of_cons in Hnot as [Hne Hnot].
  destruct (rename_to_cbz_step x w Hx Hx0 Hdry Hf HJ) as (w1 & E & D1 & F1 & J1 & K).
  cbn [for_each]. rewrite (bind_Ok _ _ _ _ _ E).
  destruct (IH w1 Hl Hnot Hz D1 F1 J1) as (w2 & E2 & D2 & F2 & J2 & L2).
  exists w2. split; [done|]. split; [done|]. split; [done|]. split; [done|].
  rewrite L2. destruct K as [->|(c0 & _ & _ & _ & Hfr)]; [done|].
  apply Hfr; [congruence|]. by apply cbz_name_not_zip.
Qed.

Lemma rename_after l : forall w c,
  Forall listed l -> ends_with ".zip" nm = true ->
  dry_run (cfg w) = false -> (forall op, faults w op = false) ->
  no_new_dir (fs w) ->
  lookup [nm] (fs w) = None -> lookup [tgt] (fs w) = Some (File c) ->
  exists w1, for_each l rename_to_cbz w = (Ok tt, w1)
    /\ lookup [nm] (fs w1) = None
    /\ (exists c', lookup [tgt] (fs w1) = Some (File c'))
    /\ (stem nm <> ".zip" -> lookup [tgt] (fs w1) = Some (File c)).
Proof.
  induction l as [|g r IH]; intros w c Hl Hz Hdry Hf HJ Hnm Htgt; [exists w; eauto|].
  apply Forall_cons in Hl as [(x & -> & Hx & Hx0) Hl].
  destruct (rename_to_cbz_step x w Hx Hx0 Hdry Hf HJ) as (w1 & E & D1 & F1 & J1 & K).
  cbn [for_each]. rewrite (bind_Ok _ _ _ _ _ E).
  destruct K as [K|(c0 & Lx & Lx1 & Ly1 & Hfr)].
  { apply IH; try done; by rewrite K. }
  assert (x <> nm) as Hxn by (intros ->; congruence).
  assert (lookup [nm] (fs w1) = None) as Hnm1.
  { rewrite Hfr; [done|congruence|]. by apply cbz_name_not_zip. }
  destruct (decide (stem x = stem nm)) as [Es|Es].
  - assert (lookup [tgt] (fs w1) = Some (File c0)) as Ht1.
    { subst tgt. by rewrite <- Es. }
    destruct (IH w1 c0 Hl Hz D1 F1 J1 Hnm1 Ht1) as (w2 & E2 & L2 & L3 & _).
    exists w2. split; [done|]. split; [done|]. split; [done|].
    intros Hs. exfalso.
    destruct (zip_name_shape x Hx) as [[_ Sx]|(a & _ & -> & Sx)]; [congruence|].
    destruct (zip_name_shape nm Hz) as [[_ Sn]|(b & _ & En & Sn)]; [congruence|].
    apply Hxn. rewrite En. congruence.
  - assert (lookup [tgt] (fs w1) = Some (File c)) as Ht1.
    { rewrite Hfr; [done| |].
      - intros Ex. apply (cbz_name_not_zip x (stem nm) Hx). symmetry. exact Ex.
      - intros E'. apply Es. symmetry. by apply (str_app_inv_r _ _ ".cbz"). }
    apply IH; done.
Qed.

End Step9.

Lemma step9_loop w :
  dry_run (cfg w) = false ->
  skip_step_confirmations (cfg w) || negb (interactive_mode (cfg w)) = true ->
  let zip_files := List.filter (fun p => is_file p (fs w)) (glob_suffix [] ".zip" (fs w)) in
  zip_files <> [] ->
  exists w0, fs w0 = fs w /\ cfg w0 = cfg w /\ faults w0 = faults w
    /\ step9_rename_cbz w = for_each zip_files rename_to_cbz w0.
Proof.
  intros Hdry Hauto zip_files Hne. unfold step9_rename_cbz.
  rewrite bind_ret_l_gets. cbv zeta. fold zip_files.
  unfold logw at 1. rewrite bind_ret_l_modify.
  rewrite bool_decide_false by (by destruct zip_files).
  erewrite bind_Ok by (by apply confirm_operation_auto). cbn [negb].
  eexists. split; [|split; [|split; [|reflexivity]]]; done.
Qed.

(** X8: what step 9 does to a [.zip] file of the root directory.
    Outside dry-run mode, without failing operations and without a
    question at the confirmation: a file of the root directory whose
    name ends in [.zip] and whose stem is not [.zip] (the names [.zip]
    and [.zip.zip] both go to [.zip.cbz]), is gone after step 9 when the
    name with [.cbz] in the place of the suffix is free, and that name
    then holds the content of the [.zip] file. *)
Theorem step9_renames nm c w :
  let tgt := [stem nm +:+ ".cbz"] in
  let w' := run step9_rename_cbz w in
  dry_run (cfg w) = false -> (forall op, faults w op = false) ->
  skip_step_confirmations (cfg w) || negb (interactive_mode (cfg w)) = true ->
  lookup [nm] (fs w) = Some (File c) -> ends_with ".zip" nm = true ->
  stem nm <> ".zip" -> lookup tgt (fs w) = None ->
  (step9_rename_cbz w).1 = Ok tt
  /\ lookup [nm] (fs w') = None
  /\ lookup tgt (fs w') = Some (File c).
Proof.
  intros tgt w' Hdry Hf Hauto Hnm Hz Hstem Hfree. subst w' tgt. unfold run.
  assert (is_dir [stem nm +:+ ".cbz"] (fs w) = false) as Htgt
    by (unfold is_dir; by rewrite Hfree).
  set (l := List.filter (fun p => is_file p (fs w)) (glob_suffix [] ".zip" (fs w))).
  assert ([nm] ∈ l) as Hin.
  { apply list_elem_of_In, filter_In. split; [|unfold is_file; by rewrite Hnm].
    apply list_elem_of_In. unfold glob_suffix. destruct (fs w) as [c0|es]; [done|].
    rewrite lookup_root_entry in Hnm. cbn [lookup].
    apply (list_elem_of_fmap_2' _ _ (nm, File c)); [|done].
    apply list_elem_of_In, filter_In. split; [|done].
    apply list_elem_of_In. by apply assoc_Some_elem. }
  assert (Forall (fun g => exists x, g = [x] /\ ends_with ".zip" x = true
                             /\ is_dir [x] (fs w) = false) l) as Hl.
  { apply Forall_forall. intros g Hg. apply list_elem_of_In, filter_In in Hg as [Hg Hfile].
    apply list_elem_of_In in Hg. unfold glob_suffix in Hg.
    destruct (lookup [] (fs w)) as [[c0|es]|]; try by apply elem_of_nil in Hg.
    apply list_elem_of_fmap in Hg as ([x n] & -> & He).
    apply list_elem_of_In, filter_In in He as [_ He]. exists x.
    split; [done|]. split; [done|]. unfold is_file, is_dir in *. cbn [app fst] in *.
    by destruct (lookup [x] (fs w)) as [[?|?]|]. }
  destruct (step9_loop w Hdry Hauto) as (w0 & E1 & E2 & E3 & ->); fold l.
  { intros E. rewrite E in Hin. by apply elem_of_nil in Hin. }
  destruct (list_elem_of_split_l _ _ Hin) as (l1 & l2 & El & Hnot).
  rewrite El in Hl. apply Forall_app in Hl as [Hl1 [_ Hl2]%Forall_cons].
  assert (forall q, is_dir [q] (fs w0) = true -> is_dir [q] (fs w) = true) as HJ
    by (by rewrite E1).
  destruct (rename_before nm (fs w) l1 w0 Hl1 Hnot Hz)
    as (w1 & Eb & D1 & F1 & J1 & L1); [by rewrite E2|intros; by rewrite E3|done|].
  rewrite E1, Hnm in L1.
  rewrite El, (for_each_app_Ok _ _ _ _ _ Eb). cbn [for_each].
  assert (is_dir [nm] (fs w) = false) as Hnd by (unfold is_dir; by rewrite Hnm).
  destruct (rename_to_cbz_step (fs w) nm w1 Hz Hnd D1 F1 J1)
    as (w2 & Ec & D2 & F2 & J2 & _).
  destruct (rename_to_cbz_effect nm w1 D1 F1) as (w2' & Ec' & _ & _ & _ & K).
  rewrite Ec in Ec'. injection Ec' as <-.
  assert (exists es1, fs w1 = Dir es1) as [es1 Ees].
  { destruct (fs w1) as [c0|es1]; [done|eauto]. }
  assert (nm <> stem nm +:+ ".cbz") as Hne by (by apply cbz_name_not_zip).
  rewrite Ees, lookup_root_entry in L1.
  assert (is_dir [stem nm +:+ ".cbz"] (Dir es1) = false) as Hd1.
  { rewrite <- Ees. destruct (is_dir _ (fs w1)) eqn:Hd; [|done].
    apply J1 in Hd. congruence. }
  rewrite Ees in K. specialize (K _ (rename_root_file nm _ es1 c L1 Hne Hd1)).
  rewrite (bind_Ok _ _ _ _ _ Ec).
  destruct (rename_after nm (fs w) l2 w2 c Hl2 Hz D2 F2 J2) as (w3 & Ea & N1 & N2 & N3).
  { rewrite K, lookup_root_entry, assoc_set_entry_ne by done. apply assoc_remove_entry_eq. }
  { rewrite K, lookup_root_entry. apply assoc_set_entry_eq. }
  rewrite Ea. cbn [fst snd]. split; [done|]. split; [done|]. by apply N3.
Qed.

Lemma step9_renames_witness :
  lookup ["a.zip"] (fs (run step9_rename_cbz (initial_world two_archives batch_config [] [])))
  = None
  /\ lookup ["a.cbz"] (fs (run step9_rename_cbz (initial_world two_archives batch_config [] [])))
     = Some (File (Archive [("0001.jpg", Raw "one")])).
Proof.
  destruct (step9_renames "a.zip" (Archive [("0001.jpg", Raw "one")])
              (initial_world two_archives batch_config [] [])) as (_ & H1 & H2).
  - reflexivity.
  - intros op. reflexivity.
  - reflexivity.
  - reflexivity.
  - reflexivity.
  - vm_compute. discriminate.
  - reflexivity.
  - split; [exact H1|exact H2].
Defined.

(** ** Step 6: what is left of the directories *)

Lemma rglob_node_complete p : forall n pre m,
  p <> [] -> lookup p n = Some m -> pre ++ p ∈ rglob_node pre n.
Proof.
  induction p as [|x q IH]; intros n pre m Hne Hl; [done|].
  destruct n as [c|es]; [done|]. cbn [lookup] in Hl.
  destruct (assoc x es) as [c|] eqn:Hx; [|done]. cbn in Hl.
  apply assoc_Some_elem in Hx. cbn [rglob_node]. apply elem_of_app.
  destruct q as [|y q'].
  - left. by apply (list_elem_of_fmap_2' _ _ (x, c)).
  - right. specialize (IH c (pre ++ [x]) m ltac:(done) Hl).
    rewrite <- app_assoc in IH. cbn [app] in IH.
    induction es as [|[z d] r IHr]; [by apply elem_of_nil in Hx|].
    apply elem_of_app. apply elem_of_cons in Hx as [[= <- <-]|Hx]; [by left|].
    right. by apply IHr.
Qed.

Lemma rglob_complete p f m : p <> [] -> lookup p f = Some m -> p ∈ rglob f.
Proof. intros Hne Hl. apply (rglob_node_complete p f [] m Hne Hl). Qed.

Section SortDescProps.
Context {A : Type} (k : A -> nat).

Lemma insert_desc_Permutation x l : insert_desc k x l ≡ₚ x :: l.
Proof.
  induction l as [|y r IH]; [done|]. cbn [insert_desc].
  destruct (k x <? k y)%nat; [|done]. rewrite IH. apply perm_swap.
Qed.

Lemma sort_desc_Permutation l : sort_desc k l ≡ₚ l.
Proof.
  induction l as [|x r IH]; [done|]. cbn [sort_desc].
  by rewrite insert_desc_Permutation, IH.
Qed.

Lemma insert_desc_sorted x l :
  StronglySorted (fun a b => k b <= k a)%nat l ->
  StronglySorted (fun a b => k b <= k a)%nat (insert_desc k x l).
Proof.
  induction 1 as [|y r Hr IH Hy]; cbn [insert_desc]; [repeat constructor|].
  destruct (k x <? k y)%nat eqn:C.
  - apply Nat.ltb_lt in C. constructor; [done|].
    rewrite insert_desc_Permutation. constructor; [lia|done].
  - apply Nat.ltb_ge in C. constructor; [by constructor|].
    constructor; [done|]. eapply Forall_impl; [exact Hy|]. simpl. intros; lia.
Qed.

Lemma sort_desc_sorted l : StronglySorted (fun a b => k b <= k a)%nat (sort_desc k l).
Proof.
  induction l as [|x r IH]; cbn [sort_desc]; [constructor|]. by apply insert_desc_sorted.
Qed.

(** What comes later in the sorted list has no larger key. *)
Lemma sort_desc_later l l1 x l2 :
  sort_desc k l = l1 ++ x :: l2 -> Forall (fun y => k y <= k x)%nat l2.
Proof.
  intros E. pose proof (sort_desc_sorted l) as S. rewrite E in S.
  apply StronglySorted_app_1_r in S. by inversion S.
Qed.

End SortDescProps.

Lemma str_snoc_longer (p : path) x r :
  p <> [] -> (String.length (str p) < String.length (str (p ++ x :: r)))%nat.
Proof.
  unfold str. induction p as [|y p IH]; intros Hne; [done|].
  destruct p as [|z p].
  - cbn [app join]. rewrite !str_length_app. simpl. lia.
  - specialize (IH ltac:(done)). cbn [app join] in *.
    rewrite !str_length_app in *. simpl in *. lia.
Qed.

Lemma rmdir_inv g fs fs' :
  rmdir g fs = Ok fs' ->
  lookup g fs = Some (Dir [])
  /\ (forall r, lookup (g ++ r) fs' = None)
  /\ (forall q, apart g q -> lookup q fs' = lookup q fs).
Proof.
  unfold rmdir. destruct (lookup g fs) as [[?|[|]]|] eqn:Hg; try done.
  destruct (remove g fs) as [f1|] eqn:Erm; simpl; [|done]. intros [= <-].
  apply remove_lookup in Erm as [R1 R2]. split; [done|]. split; [done|].
  intros q [H1 H2]. by apply R2.
Qed.

Lemma rmdir_empty_ok g fs :
  lookup g fs = Some (Dir []) -> g <> [] -> exists fs', rmdir g fs = Ok fs'.
Proof.
  intros Hg Hne. unfold rmdir. rewrite Hg.
  destruct g as [|x d _] using rev_ind; [done|].
  apply parent_of_existing_is_dir, is_dir_lookup in Hg as [es Hd].
  destruct (remove_is_Some d x fs es Hd) as [fs' ->]. simpl. eauto.
Qed.

(** One round of the loop of step 6. *)
Lemma clean_dir_effect g w :
  dry_run (cfg w) = false -> (forall op, faults w op = false) ->
  exists w1, clean_dir g w = (Ok tt, w1)
    /\ cfg w1 = cfg w /\ faults w1 = faults w
    /\ (fs w1 = fs w \/ rmdir g (fs w) = Ok (fs w1))
    /\ (g <> [] -> lookup g (fs w) = Some (Dir []) -> lookup g (fs w1) = None)
    /\ (lookup g (fs w) <> Some (Dir []) -> fs w1 = fs w).
Proof.
  intros Hdry Hf. unfold clean_dir, dir_is_empty. unfold_M. unfold iterdir.
  destruct (lookup g (fs w)) as [[c|es]|] eqn:Hg; simpl_w.
  1,3: (eexists; split; [reflexivity|]; simpl_w; repeat split; auto; done).
  rewrite Hdry. cbn [negb]. rewrite andb_true_r.
  destruct es as [|e es]; cbn [fmap list_fmap].
  2:{ rewrite bool_decide_false by done. simpl_w.
      eexists; split; [reflexivity|]; simpl_w; repeat split; auto; done. }
  rewrite bool_decide_true by done. rewrite Hf.
  destruct (rmdir g (fs w)) as [fs1|e] eqn:R; simpl_w.
  - eexists; split; [reflexivity|]; simpl_w. split; [done|]. split; [done|].
    split; [by right|]. split; [|done]. intros _ _.
    apply rmdir_inv in R as (_ & R1 & _). specialize (R1 []). by rewrite app_nil_r in R1.
  - eexists; split; [reflexivity|]; simpl_w. split; [done|]. split; [done|].
    split; [by left|]. split; [|done]. intros Hne _. exfalso.
    destruct (rmdir_empty_ok g (fs w) Hg Hne) as [fs' E]. congruence.
Qed.

Section Step6.
Context (p : path).

(** The state of [p] that step 6 arrives at. *)
Let settled (f : node) : Prop :=
  lookup p f = None \/ exists e es, lookup p f = Some (Dir (e :: es)).

Let no_file (f : node) : Prop :=
  lookup p f = None \/ exists es, lookup p f = Some (Dir es).

Lemma rmdir_no_file g fs fs' : rmdir g fs = Ok fs' -> no_file fs -> no_file fs'.
Proof.
  intros R HN. pose proof R as R0. apply rmdir_inv in R as (Hg & R1 & R2).
  destruct (decide (g `prefix_of` p)) as [[r ->]|H1]; [left; apply R1|].
  destruct (decide (p `prefix_of` g)) as [[r ->]|H2].
  - right. unfold rmdir in R0. rewrite Hg in R0.
    destruct (remove (p ++ r) fs) as [f1|] eqn:Erm; [|done]. injection R0 as <-.
    unfold remove in Erm. destruct (split_last (p ++ r)) as [[d x]|] eqn:E; [|done].
    apply split_last_Some in E. cbn in Erm.
    destruct (update_dir_Some _ _ _ _ Erm) as (es & _ & L2).
    destruct r as [|y r _] using rev_ind.
    { exfalso. apply H1. by rewrite app_nil_r. }
    rewrite app_assoc in E. apply app_inj_tail in E as [<- <-].
    rewrite lookup_app in L2. destruct (lookup p f1) as [[c|es1]|]; [|eauto|done].
    by destruct r.
  - unfold no_file. rewrite (R2 p); [done|by split].
Qed.

Lemma clean_before l : forall w,
  dry_run (cfg w) = false -> (forall op, faults w op = false) -> no_file (fs w) ->
  exists w1, for_each l clean_dir w = (Ok tt, w1)
    /\ dry_run (cfg w1) = false /\ (forall op, faults w1 op = false) /\ no_file (fs w1).
Proof.
  induction l as [|g r IH]; intros w Hdry Hf HN; [by exists w|].
  destruct (clean_dir_effect g w Hdry Hf) as (w1 & E & C1 & F1 & K & _).
  cbn [for_each]. rewrite (bind_Ok _ _ _ _ _ E).
  apply IH; [by rewrite C1|intros; by rewrite F1|].
  destruct K as [->|K]; [done|]. by eapply rmdir_no_file.
Qed.

Lemma clean_after l : forall w,
  p <> [] ->
  Forall (fun g => String.length (str g) <= String.length (str p))%nat l ->
  dry_run (cfg w) = false -> (forall op, faults w op = false) -> settled (fs w) ->
  exists w1, for_each l clean_dir w = (Ok tt, w1) /\ settled (fs w1).
Proof.
  induction l as [|g r IH]; intros w Hp Hl Hdry Hf HS; [by exists w|].
  apply Forall_cons in Hl as [Hg Hl].
  destruct (clean_dir_effect g w Hdry Hf) as (w1 & E & C1 & F1 & K & _).
  cbn [for_each]. rewrite (bind_Ok _ _ _ _ _ E).
  apply IH; [done|done|by rewrite C1|intros; by rewrite F1|].
  destruct K as [->|K]; [done|]. apply rmdir_inv in K as (Lg & R1 & R2).
  destruct (decide (g `prefix_of` p)) as [[r' ->]|H1]; [left; apply R1|].
  destruct (decide (p `prefix_of` g)) as [[r' ->]|H2].
  - exfalso. destruct r' as [|x r'].
    + apply H1. by rewrite app_nil_r.
    + pose proof (str_snoc_longer p x r' Hp). lia.
  - unfold settled. rewrite (R2 p); [done|by split].
Qed.

End Step6.

Lemma step6_loop w :
  dry_run (cfg w) = false ->
  skip_step_confirmations (cfg w) || negb (interactive_mode (cfg w)) = true ->
  let dirs := sort_desc (fun p => String.length (str p))
                (List.filter (is_work_dir (cfg w) (fs w)) (rglob (fs w))) in
  dirs <> [] ->
  exists w0, fs w0 = fs w /\ cfg w0 = cfg w /\ faults w0 = faults w
    /\ step6_clean_dirs w
       = (for_each dirs clean_dir ;; logw INFO "step6: done" []) w0.
Proof.
  intros Hdry Hauto dirs Hne. unfold step6_clean_dirs.
  rewrite !bind_ret_l_gets. cbv zeta. fold dirs.
  unfold logw at 1. rewrite bind_ret_l_modify.
  rewrite bool_decide_false by (by destruct dirs).
  erewrite bind_Ok by (by apply confirm_operation_auto). cbn [negb].
  eexists. split; [|split; [|split; [|reflexivity]]]; done.
Qed.

(** X9: step 6 leaves no empty directory behind.  Outside dry-run mode,
    without failing operations and without a question at the
    confirmation: every directory below the root whose name is not in
    [skip_dirs] is, after step 6, either gone or not empty; a directory
    that becomes empty because its empty subdirectories are removed is
    removed in the same run, since the longer paths are handled
    first. *)
Theorem step6_leaves_no_empty_dir p w :
  let w' := run step6_clean_dirs w in
  dry_run (cfg w) = false -> (forall op, faults w op = false) ->
  skip_step_confirmations (cfg w) || negb (interactive_mode (cfg w)) = true ->
  p <> [] -> is_work_dir (cfg w) (fs w) p = true ->
  (step6_clean_dirs w).1 = Ok tt
  /\ (lookup p (fs w') = None \/ exists e es, lookup p (fs w') = Some (Dir (e :: es))).
Proof.
  intros w' Hdry Hf Hauto Hp Hwd. subst w'. unfold run.
  set (k := fun p : path => String.length (str p)).
  set (l := sort_desc k (List.filter (is_work_dir (cfg w) (fs w)) (rglob (fs w)))).
  assert (exists es0, lookup p (fs w) = Some (Dir es0)) as [es0 L0].
  { apply andb_true_iff in Hwd as [Hd _]. by apply is_dir_lookup. }
  assert (p ∈ l) as Hin.
  { subst l. rewrite sort_desc_Permutation. apply list_elem_of_In, filter_In.
    split; [|done]. apply list_elem_of_In. by eapply rglob_complete. }
  destruct (step6_loop w Hdry Hauto) as (w0 & E1 & E2 & E3 & ->); fold k l.
  { intros E. rewrite E in Hin. by apply elem_of_nil in Hin. }
  destruct (list_elem_of_split _ _ Hin) as (l1 & l2 & El).
  pose proof (sort_desc_later k _ _ _ _ El) as Hl2. fold l in El. rewrite El.
  destruct (clean_before p l1 w0) as (w1 & Eb & D1 & F1 & N1);
    [by rewrite E2|intros; by rewrite E3|right; rewrite E1; eauto|].
  destruct (clean_dir_effect p w1 D1 F1) as (w2 & Ec & C2 & F2 & _ & K1 & K2).
  assert (lookup p (fs w2) = None \/ exists e es, lookup p (fs w2) = Some (Dir (e :: es)))
    as S2.
  { destruct N1 as [N1|[[|e es] N1]].
    - left. rewrite K2; [done|congruence].
    - left. by apply K1.
    - right. exists e, es. rewrite K2; [done|congruence]. }
  destruct (clean_after p l2 w2 Hp Hl2) as (w3 & Ea & S3);
    [by rewrite C2|intros; by rewrite F2|done|].
  assert (for_each (l1 ++ p :: l2) clean_dir w0 = (Ok tt, w3)) as Eall.
  { rewrite (for_each_app_Ok _ _ _ _ _ Eb). cbn [for_each].
    by rewrite (bind_Ok _ _ _ _ _ Ec). }
  rewrite (bind_Ok _ _ _ _ _ Eall). unfold logw, modify. simpl_w. done.
Qed.

Lemma step6_leaves_no_empty_dir_witness :
  lookup ["A"; "B"]
    (fs (run step6_clean_dirs (initial_world hollow_tree batch_config [] []))) = None.
Proof.
  destruct (step6_leaves_no_empty_dir ["A"; "B"]
              (initial_world hollow_tree batch_config [] [])) as [_ [H|(e & es & H)]].
  - reflexivity.
  - intros op. reflexivity.
  - reflexivity.
  - done.
  - reflexivity.
  - exact H.
  - vm_compute in H. discriminate H.
Defined.

(** ** Step 4: the prefix of the directory name *)

Lemma contains_here sub b : contains sub (sub +:+ b) = true.
Proof.
  assert (String.prefix sub (sub +:+ b) = true) as H.
  { induction sub as [|x s IH]; simpl; [by destruct b|].
    destruct (Ascii.ascii_dec x x); [done|congruence]. }
  destruct (sub +:+ b); simpl in *; by rewrite H.
Qed.

Lemma contains_app_r sub a s : contains sub s = true -> contains sub (a +:+ s) = true.
Proof.
  intros H. induction a as [|x a IH]; simpl; [done|]. rewrite IH. apply orb_true_r.
Qed.

Lemma contains_infix sub a b : contains sub (a +:+ sub +:+ b) = true.
Proof. apply contains_app_r, contains_here. Qed.

(** The names that [safe_rename] tries for [dir_num_name]: all of them
    are in the same directory and hold an underscore. *)
Lemma candidate_names (d : path) dn m p :
  p ∈ rename_candidates (d ++ [dn +:+ "_" +:+ m]) ->
  exists x, p = d ++ [x] /\ contains "_" x = true.
Proof.
  unfold rename_candidates. intros [->|Hp]%elem_of_cons.
  - eexists. split; [done|]. apply contains_infix.
  - apply list_elem_of_fmap in Hp as (k & -> & _). unfold numbered_sibling.
    rewrite parent_snoc, name_snoc. eexists. split; [done|]. apply contains_infix.
Qed.

(** None of them is the name that another file of the directory gets. *)
Lemma candidate_not_target (d : path) dn m n p :
  p ∈ rename_candidates (d ++ [dn +:+ "_" +:+ m]) ->
  ends_with ".jpg" m = true -> contains "_" n = false -> m <> n ->
  p <> d ++ [dn +:+ "_" +:+ n].
Proof.
  unfold rename_candidates. intros Hp Hm Hn Hne E. apply elem_of_cons in Hp as [->|Hp].
  - apply app_inv_head in E. injection E as E. apply str_app_inj_l in E.
    injection E as E. done.
  - apply list_elem_of_fmap in Hp as (k & -> & _). unfold numbered_sibling in E.
    rewrite parent_snoc, name_snoc in E. apply app_inv_head in E. injection E as E.
    apply ends_with_app in Hm as [m0 ->].
    assert (dn +:+ String "_" (m0 +:+ ".jpg") = (dn +:+ String "_" m0) +:+ ".jpg") as Ea.
    { by rewrite str_app_assoc. }
    rewrite Ea in E.
    destruct (suffix_stem_app (dn +:+ String "_" m0) "jpg") as [Es Et];
      [by destruct dn|done|done|].
    rewrite Es, Et in E. rewrite str_app_assoc in E. apply str_app_inj_l in E.
    injection E as E.
    assert (contains "_" n = true) as Hc by (rewrite <- E; apply (contains_infix "_" m0)).
    congruence.
Qed.

(** [safe_rename] leaves the tree as it is or renames the source to a
    candidate name that is free. *)
Lemma safe_rename_moves src dst w :
  exists b w1, safe_rename src dst w = (Ok b, w1)
    /\ cfg w1 = cfg w /\ faults w1 = faults w
    /\ (fs w1 = fs w
        \/ exists final, final ∈ rename_candidates dst /\ lookup final (fs w) = None
             /\ src <> final /\ rename src final (fs w) = Ok (fs w1)).
Proof.
  unfold safe_rename, ask_fs. rewrite bind_ret_l_gets.
  destruct (exists_ src (fs w)) eqn:Hsrc; cbn [negb].
  2:{ unfold_M. eexists _, _. split; [done|]. simpl_w. eauto. }
  rewrite bind_ret_l_gets. destruct (dry_run (cfg w)) eqn:Hdry.
  { unfold_M. eexists _, _. split; [done|]. simpl_w. eauto. }
  destruct (bool_decide (src = dst)) eqn:Heq.
  { unfold_M. eexists _, _. split; [done|]. simpl_w. eauto. }
  destruct (unique_name_first_free dst (fs w)) as (Hfind & _ & _).
  unfold try_catch, bind at 1, gets. cbn [fst snd]. rewrite Hfind.
  destruct (List.find (is_free (fs w)) (rename_candidates dst)) as [final|] eqn:Efind.
  2:{ unfold_M. eexists _, _. split; [done|]. simpl_w. eauto. }
  apply find_first in Efind as (l1 & l2 & El & Hfree & _).
  apply is_free_lookup in Hfree.
  unfold record_operation at 1. rewrite bind_ret_l_modify.
  match goal with |- context [bind (fs_op ?op ?f) _ ?w0] =>
    destruct (fs_op_cases op f w0) as [(fs' & Hf & Hren & Hop)|(e & Hop & _)];
    [rewrite (bind_Ok _ _ _ _ _ Hop)|rewrite (bind_Raise _ _ _ _ _ Hop)]
  end.
  - simpl_w. unfold_M. eexists _, _. split; [done|]. simpl_w. split; [done|].
    split; [done|]. right. exists final. split; [rewrite El; set_solver|].
    split; [done|]. split; [|done].
    intros ->. apply exists_lookup in Hsrc as [? ?]. congruence.
  - unfold_M. eexists _, _. split; [done|]. simpl_w. eauto.
Qed.

(** With a free target and nothing failing, the rename is made. *)
Lemma safe_rename_free src dst w n :
  dry_run (cfg w) = false -> (forall op, faults w op = false) ->
  lookup src (fs w) = Some n -> lookup dst (fs w) = None ->
  is_dir (parent dst) (fs w) = true -> ~ src `prefix_of` dst ->
  exists w1, safe_rename src dst w = (Ok true, w1)
    /\ cfg w1 = cfg w /\ faults w1 = faults w
    /\ rename src dst (fs w) = Ok (fs w1).
Proof.
  intros Hdry Hf Hsrc Hdst Hpar Hpre.
  destruct (rename_fresh src dst (fs w) n Hsrc Hdst Hpar Hpre) as (fs' & R & _).
  unfold safe_rename, ask_fs. rewrite bind_ret_l_gets.
  assert (exists_ src (fs w) = true) as -> by (apply exists_lookup; by rewrite Hsrc).
  cbn [negb]. rewrite bind_ret_l_gets, Hdry.
  rewrite bool_decide_false by (intros ->; by apply Hpre).
  unfold try_catch, bind at 1, gets. cbn [fst snd].
  assert (unique_name 100 1 dst dst (fs w) = Some dst) as ->.
  { cbn [unique_name]. by rewrite (proj2 (not_exists_lookup dst (fs w)) Hdst). }
  unfold_M. simpl_w. rewrite Hf, R. simpl_w.
  eexists. split; [reflexivity|]. simpl_w. done.
Qed.

(** One round of the inner loop of step 4. *)
Lemma add_prefix_effect dn (sd : path) m w :
  exists w1, add_prefix dn (sd ++ [m]) w = (Ok tt, w1)
    /\ cfg w1 = cfg w /\ faults w1 = faults w
    /\ (fs w1 = fs w
        \/ (contains "_" m = false
            /\ exists x, sd ++ [x] ∈ rename_candidates (sd ++ [dn +:+ "_" +:+ m])
                 /\ contains "_" x = true /\ m <> x
                 /\ lookup (sd ++ [x]) (fs w) = None
                 /\ rename (sd ++ [m]) (sd ++ [x]) (fs w) = Ok (fs w1))).
Proof.
  unfold add_prefix. rewrite name_snoc, parent_snoc.
  destruct (contains "_" m) eqn:Hm; [exists w; by eauto|]. cbv zeta.
  destruct (safe_rename_moves (sd ++ [m]) (sd ++ [dn +:+ "_" +:+ m]) w)
    as (b & w1 & E & C1 & F1 & K).
  rewrite (bind_Ok _ _ _ _ _ E). exists w1. split; [done|]. split; [done|]. split; [done|].
  destruct K as [K|(final & Hc & Hfree & Hne & R)]; [by left|]. right. split; [done|].
  destruct (candidate_names _ _ _ _ Hc) as (x & -> & Hx). exists x.
  split; [done|]. split; [done|]. split; [congruence|done].
Qed.

Lemma add_prefix_free dn (sd : path) m w c :
  dry_run (cfg w) = false -> (forall op, faults w op = false) ->
  contains "_" m = false ->
  lookup (sd ++ [m]) (fs w) = Some (File c) ->
  lookup (sd ++ [dn +:+ "_" +:+ m]) (fs w) = None ->
  exists w1, add_prefix dn (sd ++ [m]) w = (Ok tt, w1)
    /\ cfg w1 = cfg w /\ faults w1 = faults w
    /\ lookup (sd ++ [m]) (fs w1) = None
    /\ lookup (sd ++ [dn +:+ "_" +:+ m]) (fs w1) = Some (File c).
Proof.
  intros Hdry Hf Hm Hsrc Hdst. unfold add_prefix. rewrite name_snoc, parent_snoc, Hm.
  cbv zeta.
  assert (m <> dn +:+ "_" +:+ m) as Hne.
  { intros E. rewrite E in Hm. by rewrite (contains_infix "_" dn m) in Hm. }
  assert (~ (sd ++ [m]) `prefix_of` (sd ++ [dn +:+ "_" +:+ m])) as Hpre.
  { intros Hp. apply prefix_length_eq in Hp; [|by rewrite !length_app].
    apply app_inj_tail in Hp as [_ Hp]. done. }
  destruct (safe_rename_free (sd ++ [m]) (sd ++ [dn +:+ "_" +:+ m]) w (File c))
    as (w1 & E & C1 & F1 & R); try done.
  { rewrite parent_snoc. by eapply parent_of_existing_is_dir. }
  rewrite (bind_Ok _ _ _ _ _ E). exists w1. split; [done|]. split; [done|]. split; [done|].
  apply rename_inv in R as (R1 & R2 & _); [|by intros [_ ?]%app_inj_tail|done].
  by rewrite R1, R2.
Qed.

(** A rename inside a directory changes nothing at the other paths of
    the same length. *)
Lemma rename_sibling_frame (sd : path) m x (q : path) fs fs' :
  rename (sd ++ [m]) (sd ++ [x]) fs = Ok fs' -> lookup (sd ++ [x]) fs = None -> m <> x ->
  length q = S (length sd) -> q <> sd ++ [m] -> q <> sd ++ [x] ->
  lookup q fs' = lookup q fs.
Proof.
  intros R Hfree Hne Hlen Q1 Q2.
  apply rename_inv in R as (_ & _ & Fr); [|by intros [_ ?]%app_inj_tail|done].
  assert (forall a : path, length a = S (length sd) -> q <> a ->
            ~ a `prefix_of` q /\ ~ q `prefix_of` a) as Hap.
  { intros a Ha Hq. split; intros Hp; apply prefix_length_eq in Hp; try lia; congruence. }
  destruct (Hap (sd ++ [m])) as [? ?]; [rewrite length_app; simpl; lia|done|].
  destruct (Hap (sd ++ [x])) as [? ?]; [rewrite length_app; simpl; lia|done|].
  by apply Fr.
Qed.

(** The list of the inner loops of steps 4 and 5. *)
Lemma sorted_jpg_files_listing sd w :
  exists files, sorted_jpg_files sd w = (Ok files, w)
    /\ forall f, f ∈ files <->
         exists m, f = sd ++ [m] /\ ends_with ".jpg" m = true /\ is_file f (fs w) = true.
Proof.
  unfold sorted_jpg_files. rewrite bind_ret_l_gets. unfold sorted_paths.
  set (l := List.filter _ _).
  destruct (sorted_paths_total l) as [files E]. rewrite E. exists files.
  split; [done|]. intros f. rewrite (sorted_by_Permutation _ _ _ E). subst l.
  rewrite list_elem_of_In, filter_In, <- list_elem_of_In. unfold glob_suffix. split.
  - intros [Hf Hfile]. destruct (lookup sd (fs w)) as [[c|es]|]; try by apply elem_of_nil in Hf.
    apply list_elem_of_fmap in Hf as ([m nd] & -> & He).
    apply list_elem_of_In, filter_In in He as [_ He]. exists m. done.
  - intros (m & -> & Hm & Hfile). split; [|done]. unfold is_file in Hfile.
    rewrite lookup_app in Hfile. destruct (lookup sd (fs w)) as [[c|es]|]; try done.
    cbn in Hfile. destruct (assoc m es) as [nd|] eqn:Hm'; [|done].
    apply (list_elem_of_fmap_2' _ _ (m, nd)); [|done].
    apply list_elem_of_In, filter_In. split; [|done].
    apply list_elem_of_In. by apply assoc_Some_elem.
Qed.

Lemma rename_source_exists src dst fs fs' :
  rename src dst fs = Ok fs' -> is_Some (lookup src fs).
Proof. unfold rename. destruct (lookup src fs); [eauto|by destruct src]. Qed.

Lemma split_first {A} (P : A -> Prop) `{!forall x, Decision (P x)} (l : list A) :
  Exists P l ->
  exists l1 x l2, l = l1 ++ x :: l2 /\ P x /\ Forall (fun y => ~ P y) l1.
Proof.
  induction l as [|y r IH]; intros HE; [by apply Exists_nil in HE|].
  destruct (decide (P y)) as [Hy|Hy].
  - exists [], y, r. by repeat split.
  - apply Exists_cons in HE as [HE|HE]; [done|].
    destruct (IH HE) as (l1 & x & l2 & -> & Hx & Hl). exists (y :: l1), x, l2.
    split; [done|]. split; [done|]. by constructor.
Qed.

Lemma work_dirs_listing p w es :
  lookup p (fs w) = Some (Dir es) ->
  work_dirs p w
  = (Ok (List.filter (is_work_dir (cfg w) (fs w)) ((fun e => p ++ [e.1]) <$> es)), w).
Proof.
  intros Hp. unfold work_dirs. rewrite bind_ret_l_gets. unfold bind at 1, read_fs, iterdir.
  rewrite Hp. by rewrite bind_ret_l_gets.
Qed.

Lemma work_dirs_elem p w es x :
  lookup p (fs w) = Some (Dir es) -> is_work_dir (cfg w) (fs w) (p ++ [x]) = true ->
  p ++ [x] ∈ List.filter (is_work_dir (cfg w) (fs w)) ((fun e => p ++ [e.1]) <$> es).
Proof.
  intros Hp Hx. apply list_elem_of_In, filter_In. split; [|done]. apply list_elem_of_In.
  apply andb_true_iff in Hx as [Hd _]. unfold is_dir in Hd.
  rewrite lookup_app, Hp in Hd. cbn in Hd. destruct (assoc x es) as [nd|] eqn:Hx; [|done].
  apply (list_elem_of_fmap_2' _ _ (x, nd)); [|done]. by apply assoc_Some_elem.
Qed.

Lemma child_dirs_listing parents : forall w,
  Forall (fun par => is_dir par (fs w) = true) parents ->
  exists l, child_dirs parents w = (Ok l, w)
    /\ Forall (fun sp => exists x, sp.2 ∈ parents /\ sp.1 = sp.2 ++ [x]) l
    /\ (forall par x, par ∈ parents ->
          is_work_dir (cfg w) (fs w) (par ++ [x]) = true -> (par ++ [x], par) ∈ l).
Proof.
  induction parents as [|par r IH]; intros w Hall.
  { exists []. split; [done|]. split; [done|]. intros ? ? H. by apply elem_of_nil in H. }
  apply Forall_cons in Hall as [Hpar Hall].
  apply is_dir_lookup in Hpar as [es Hpar].
  destruct (IH w Hall) as (l & E & Hshape & Hin).
  cbn [child_dirs]. rewrite (bind_Ok _ _ _ _ _ (work_dirs_listing par w es Hpar)).
  rewrite (bind_Ok _ _ _ _ _ E). eexists. split; [done|]. split.
  - apply Forall_app. split.
    + apply Forall_fmap, Forall_forall. intros sd Hsd%list_elem_of_In%filter_In.
      destruct Hsd as [Hsd _]. apply list_elem_of_In, list_elem_of_fmap in Hsd as (e & -> & _).
      exists e.1. split; [set_solver|done].
    + eapply Forall_impl; [exact Hshape|]. intros sp (x & ? & ?). exists x. set_solver.
  - intros par' x [->|Hp]%elem_of_cons Hx; apply elem_of_app.
    + left. apply (list_elem_of_fmap_2' _ _ (par ++ [x])); [|done].
      by apply work_dirs_elem.
    + right. by apply Hin.
Qed.

Section Step4.
Context (d : path) (n : string) (c : content).
Let src0 : path := d ++ [n].
Let tgt : path := d ++ [name d +:+ "_" +:+ n].

Let live (w : world) : Prop :=
  dry_run (cfg w) = false /\ forall op, faults w op = false.
Let before (f : node) : Prop :=
  lookup src0 f = Some (File c) /\ lookup tgt f = None.
Let after (f : node) : Prop :=
  lookup src0 f = None /\ lookup tgt f = Some (File c).

Lemma inner_after sd files : forall w,
  length sd = length d -> contains "_" n = false ->
  Forall (fun f => exists m, f = sd ++ [m]) files ->
  live w -> after (fs w) ->
  exists w1, for_each files (add_prefix (name sd)) w = (Ok tt, w1)
    /\ live w1 /\ after (fs w1).
Proof.
  intros w Hlen Hn. revert w.
  induction files as [|f r IH]; intros w Hall Hl Ha; [by exists w|].
  apply Forall_cons in Hall as [[m ->] Hall].
  destruct (add_prefix_effect (name sd) sd m w) as (w1 & E & C1 & F1 & K).
  cbn [for_each]. rewrite (bind_Ok _ _ _ _ _ E).
  apply IH; [done|by unfold live; rewrite C1, F1|].
  destruct K as [->|(Hm & x & _ & Hx & Hne & Hfree & R)]; [done|].
  destruct Ha as [A1 A2]. pose proof (rename_source_exists _ _ _ _ R) as [nd Hsrc].
  assert (length src0 = S (length sd) /\ length tgt = S (length sd)) as [L1 L2].
  { subst src0 tgt. rewrite !length_app. simpl. lia. }
  assert (src0 <> sd ++ [m]) as Q1 by (intros E'; rewrite E' in A1; congruence).
  assert (src0 <> sd ++ [x]) as Q2 by (intros [_ E']%app_inj_tail; congruence).
  assert (tgt <> sd ++ [m]) as Q3.
  { intros [_ E']%app_inj_tail.
    assert (contains "_" m = true) as Hc
      by (rewrite <- E'; apply (contains_infix "_" (name d) n)).
    congruence. }
  assert (tgt <> sd ++ [x]) as Q4 by (intros E'; rewrite E' in A2; congruence).
  unfold after.
  by rewrite (rename_sibling_frame sd m x src0 _ _ R), (rename_sibling_frame sd m x tgt _ _ R).
Qed.

Lemma inner_before_other sd files : forall w,
  length sd = length d -> sd <> d ->
  Forall (fun f => exists m, f = sd ++ [m]) files ->
  live w -> before (fs w) ->
  exists w1, for_each files (add_prefix (name sd)) w = (Ok tt, w1)
    /\ live w1 /\ before (fs w1).
Proof.
  intros w Hlen Hsd. revert w.
  induction files as [|f r IH]; intros w Hall Hl Hb; [by exists w|].
  apply Forall_cons in Hall as [[m ->] Hall].
  destruct (add_prefix_effect (name sd) sd m w) as (w1 & E & C1 & F1 & K).
  cbn [for_each]. rewrite (bind_Ok _ _ _ _ _ E).
  apply IH; [done|by unfold live; rewrite C1, F1|].
  destruct K as [->|(Hm & x & _ & Hx & Hne & Hfree & R)]; [done|].
  assert (length src0 = S (length sd) /\ length tgt = S (length sd)) as [L1 L2].
  { subst src0 tgt. rewrite !length_app. simpl. lia. }
  assert (forall a b : string, d ++ [a] <> sd ++ [b]) as Q
    by (intros a b [? _]%app_inj_tail; congruence).
  unfold before.
  by rewrite (rename_sibling_frame sd m x src0 _ _ R), (rename_sibling_frame sd m x tgt _ _ R);
    try apply Q.
Qed.

Lemma inner_before_same files : forall w,
  contains "_" n = false ->
  Forall (fun f => exists m, f = d ++ [m] /\ ends_with ".jpg" m = true /\ m <> n) files ->
  live w -> before (fs w) ->
  exists w1, for_each files (add_prefix (name d)) w = (Ok tt, w1)
    /\ live w1 /\ before (fs w1).
Proof.
  intros w Hn. revert w.
  induction files as [|f r IH]; intros w Hall Hl Hb; [by exists w|].
  apply Forall_cons in Hall as [(m & -> & Hjpg & Hmn) Hall].
  destruct (add_prefix_effect (name d) d m w) as (w1 & E & C1 & F1 & K).
  cbn [for_each]. rewrite (bind_Ok _ _ _ _ _ E).
  apply IH; [done|by unfold live; rewrite C1, F1|].
  destruct K as [->|(Hm & x & Hc & Hx & Hne & Hfree & R)]; [done|].
  destruct Hb as [B1 B2]. pose proof (rename_source_exists _ _ _ _ R) as [nd Hsrc].
  assert (length src0 = S (length d) /\ length tgt = S (length d)) as [L1 L2].
  { subst src0 tgt. rewrite !length_app. simpl. lia. }
  assert (src0 <> d ++ [m]) as Q1 by (intros [_ E']%app_inj_tail; congruence).
  assert (src0 <> d ++ [x]) as Q2 by (intros E'; rewrite E' in B1; congruence).
  assert (tgt <> d ++ [m]) as Q3 by (intros E'; rewrite E' in B2; congruence).
  assert (tgt <> d ++ [x]) as Q4.
  { intros E'. by apply (candidate_not_target d (name d) m n (d ++ [x])). }
  unfold before.
  by rewrite (rename_sibling_frame d m x src0 _ _ R), (rename_sibling_frame d m x tgt _ _ R).
Qed.

Lemma prefix_subdir_after sp w :
  length sp.1 = length d -> contains "_" n = false -> live w -> after (fs w) ->
  exists w1, prefix_subdir sp w = (Ok tt, w1) /\ live w1 /\ after (fs w1).
Proof.
  intros Hlen Hn Hl Ha. unfold prefix_subdir. cbv zeta.
  destruct (sorted_jpg_files_listing sp.1 w) as (files & E & Hfiles).
  rewrite (bind_Ok _ _ _ _ _ E). apply inner_after; try done.
  apply Forall_forall. intros f (m & -> & _)%Hfiles. eauto.
Qed.

Lemma prefix_subdir_before_other sp w :
  length sp.1 = length d -> sp.1 <> d -> live w -> before (fs w) ->
  exists w1, prefix_subdir sp w = (Ok tt, w1) /\ live w1 /\ before (fs w1).
Proof.
  intros Hlen Hn Hl Ha. unfold prefix_subdir. cbv zeta.
  destruct (sorted_jpg_files_listing sp.1 w) as (files & E & Hfiles).
  rewrite (bind_Ok _ _ _ _ _ E). apply inner_before_other; try done.
  apply Forall_forall. intros f (m & -> & _)%Hfiles. eauto.
Qed.

Lemma prefix_subdir_same sp w :
  sp.1 = d -> ends_with ".jpg" n = true -> contains "_" n = false ->
  live w -> before (fs w) ->
  exists w1, prefix_subdir sp w = (Ok tt, w1) /\ live w1 /\ after (fs w1).
Proof.
  intros Hsp Hjpg Hn Hl [B1 B2]. unfold prefix_subdir. cbv zeta. rewrite Hsp.
  destruct (sorted_jpg_files_listing d w) as (files & E & Hfiles).
  rewrite (bind_Ok _ _ _ _ _ E).
  assert (src0 ∈ files) as Hin.
  { apply Hfiles. exists n. split; [done|]. split; [done|]. unfold is_file.
    fold src0. by rewrite B1. }
  destruct (list_elem_of_split_l _ _ Hin) as (l1 & l2 & El & Hnot).
  assert (Forall (fun f => exists m, f = d ++ [m] /\ ends_with ".jpg" m = true /\ m <> n) l1)
    as H1.
  { apply Forall_forall. intros f Hf.
    destruct (proj1 (Hfiles f)) as (m & -> & Hm & _); [rewrite El; set_solver|].
    exists m. split; [done|]. split; [done|]. intros ->. by apply Hnot. }
  assert (Forall (fun f => exists m, f = d ++ [m]) l2) as H2.
  { apply Forall_forall. intros f Hf.
    destruct (proj1 (Hfiles f)) as (m & -> & _); [rewrite El; set_solver|]. eauto. }
  destruct (inner_before_same l1 w Hn H1 Hl) as (w1 & E1 & [D1 F1] & [B1' B2']); [done|].
  destruct (add_prefix_free (name d) d n w1 c D1 F1 Hn B1' B2')
    as (w2 & E2 & C2 & F2 & A1 & A2).
  destruct (inner_after d l2 w2 eq_refl Hn H2) as (w3 & E3 & L3 & A3);
    [by unfold live; rewrite C2, F2|done|].
  exists w3. split; [|done]. rewrite El, (for_each_app_Ok _ _ _ _ _ E1). cbn [for_each].
  by rewrite (bind_Ok _ _ _ _ _ E2).
Qed.

Lemma outer_after l : forall w,
  contains "_" n = false -> Forall (fun sp : path * path => length sp.1 = length d) l ->
  live w -> after (fs w) ->
  exists w1, for_each l prefix_subdir w = (Ok tt, w1) /\ after (fs w1).
Proof.
  induction l as [|sp r IH]; intros w Hn Hall Hl Ha; [by exists w|].
  apply Forall_cons in Hall as [Hsp Hall].
  destruct (prefix_subdir_after sp w Hsp Hn Hl Ha) as (w1 & E & L1 & A1).
  cbn [for_each]. rewrite (bind_Ok _ _ _ _ _ E). by apply IH.
Qed.

Lemma outer_before l : forall w,
  Forall (fun sp : path * path => length sp.1 = length d /\ sp.1 <> d) l ->
  live w -> before (fs w) ->
  exists w1, for_each l prefix_subdir w = (Ok tt, w1) /\ live w1 /\ before (fs w1).
Proof.
  induction l as [|sp r IH]; intros w Hall Hl Hb; [by exists w|].
  apply Forall_cons in Hall as [[Hsp Hne] Hall].
  destruct (prefix_subdir_before_other sp w Hsp Hne Hl Hb) as (w1 & E & L1 & B1).
  cbn [for_each]. rewrite (bind_Ok _ _ _ _ _ E). by apply IH.
Qed.

End Step4.

Lemma step4_loop w :
  dry_run (cfg w) = false ->
  skip_step_confirmations (cfg w) || negb (interactive_mode (cfg w)) = true ->
  forall es, fs w = Dir es ->
  exists subdirs w0,
    fs w0 = fs w /\ cfg w0 = cfg w /\ faults w0 = faults w
    /\ Forall (fun sp : path * path => length sp.1 = 2%nat) subdirs
    /\ (forall a b, is_work_dir (cfg w) (fs w) [a] = true ->
          is_work_dir (cfg w) (fs w) [a; b] = true -> ([a; b], [a]) ∈ subdirs)
    /\ (subdirs <> [] -> step4_add_prefix w = for_each subdirs prefix_subdir w0).
Proof.
  intros Hdry Hauto es Hes.
  assert (lookup [] (fs w) = Some (Dir es)) as Hroot by (by rewrite Hes).
  set (parents := List.filter (is_work_dir (cfg w) (fs w)) ((fun e => [] ++ [e.1]) <$> es)).
  assert (Forall (fun par => is_dir par (fs w) = true /\ length par = 1%nat) parents) as Hpar.
  { apply Forall_forall. intros par Hp%list_elem_of_In%filter_In. destruct Hp as [Hp Hw].
    apply andb_true_iff in Hw as [Hd _]. split; [done|].
    apply list_elem_of_In, list_elem_of_fmap in Hp as (e & -> & _). done. }
  destruct (child_dirs_listing parents w) as (l & E & Hshape & Hin).
  { eapply Forall_impl; [exact Hpar|]. by intros ? [? _]. }
  exists l. eexists. split; [|split; [|split; [|split; [|split]]]]; cycle 5.
  - intros Hne. unfold step4_add_prefix.
    rewrite (bind_Ok _ _ _ _ _ (work_dirs_listing [] w es Hroot)). fold parents.
    rewrite (bind_Ok _ _ _ _ _ E). cbv zeta.
    unfold logw at 1. rewrite bind_ret_l_modify.
    rewrite bool_decide_false by (by destruct l).
    erewrite bind_Ok by (by apply confirm_operation_auto). cbn [negb]. reflexivity.
  - done.
  - done.
  - done.
  - rewrite Forall_forall in Hshape. rewrite Forall_forall in Hpar. apply Forall_forall.
    intros sp Hsp. destruct (Hshape sp Hsp) as (x & Hp & Ex).
    destruct (Hpar _ Hp) as [_ Hl].
    unfold path in *. by rewrite Ex, length_app, Hl.
  - intros a b Ha Hb. apply (Hin [a] b); [|done].
    apply (work_dirs_elem [] w es a Hroot Ha).
Qed.

(** X10: what step 4 does to a page.  Outside dry-run mode, without
    failing operations and without a question at the confirmation: for
    directories [A] and [A/B] whose names are not in [skip_dirs], a
    file [A/B/n] whose name ends in [.jpg] and holds no underscore is
    renamed to [A/B/B_n], provided that name is free before the step:
    afterwards [A/B/n] is gone and [A/B/B_n] holds its content,
    whatever else step 4 renames. *)
Theorem step4_adds_prefix A B n c w :
  let w' := run step4_add_prefix w in
  dry_run (cfg w) = false -> (forall op, faults w op = false) ->
  skip_step_confirmations (cfg w) || negb (interactive_mode (cfg w)) = true ->
  is_work_dir (cfg w) (fs w) [A] = true -> is_work_dir (cfg w) (fs w) [A; B] = true ->
  lookup [A; B; n] (fs w) = Some (File c) ->
  ends_with ".jpg" n = true -> contains "_" n = false ->
  lookup [A; B; B +:+ "_" +:+ n] (fs w) = None ->
  (step4_add_prefix w).1 = Ok tt
  /\ lookup [A; B; n] (fs w') = None
  /\ lookup [A; B; B +:+ "_" +:+ n] (fs w') = Some (File c).
Proof.
  intros w' Hdry Hf Hauto HA HB Hsrc Hjpg Hn Htgt. subst w'. unfold run.
  assert (exists es, fs w = Dir es) as [es Hes].
  { destruct (fs w) as [c0|es]; [done|eauto]. }
  destruct (step4_loop w Hdry Hauto es Hes) as (l & w0 & E1 & E2 & E3 & Hlen & Hin & Hstep).
  specialize (Hin A B HA HB).
  rewrite Hstep by (intros E; rewrite E in Hin; by apply elem_of_nil in Hin).
  destruct (split_first (fun sp : path * path => sp.1 = [A; B]) l)
    as (l1 & sp & l2 & El & Hsp & Hl1).
  { apply Exists_exists. by exists ([A; B], [A]). }
  rewrite El in Hlen. apply Forall_app in Hlen as [Hlen1 [_ Hlen2]%Forall_cons].
  destruct (outer_before [A; B] n c l1 w0) as (w1 & Eb & L1 & B1).
  { apply Forall_forall. intros x Hx. rewrite Forall_forall in Hlen1.
    rewrite Forall_forall in Hl1. split; [by apply Hlen1|by apply Hl1]. }
  { split; [by rewrite E2|intros; by rewrite E3]. }
  { rewrite E1. split; done. }
  destruct (prefix_subdir_same [A; B] n c sp w1 Hsp Hjpg Hn L1 B1) as (w2 & Ec & L2 & A2).
  destruct (outer_after [A; B] n c l2 w2 Hn Hlen2 L2 A2) as (w3 & Ea & A3).
  rewrite El, (for_each_app_Ok _ _ _ _ _ Eb). cbn [for_each].
  rewrite (bind_Ok _ _ _ _ _ Ec), Ea. cbn [fst snd]. split; [done|]. exact A3.
Qed.

Lemma step4_adds_prefix_witness :
  lookup ["A"; "B"; "y.jpg"]
    (fs (run step4_add_prefix (initial_world comic batch_config [] []))) = None
  /\ lookup ["A"; "B"; "B_y.jpg"]
       (fs (run step4_add_prefix (initial_world comic batch_config [] [])))
     = Some (File (Raw "y")).
Proof.
  destruct (step4_adds_prefix "A" "B" "y.jpg" (Raw "y")
              (initial_world comic batch_config [] [])) as (_ & H1 & H2);
    try reflexivity.
  split; [exact H1|exact H2].
Defined.

(** ** Properties of the tree that a step keeps *)

Section Preserves.
Context (I : node -> Prop).

Lemma preserves_pure {A} (m : M A) : (forall w, fs (m w).2 = fs w) -> preserves I m.
Proof. intros H w Hw. by rewrite H. Qed.

Lemma preserves_bind_post {A B} (Q : A -> Prop) (m : M A) (k : A -> M B) :
  preserves I m -> (forall w a w1, m w = (Ok a, w1) -> Q a) ->
  (forall a, Q a -> preserves I (k a)) -> preserves I (bind m k).
Proof.
  intros Hm HQ Hk w Hw. unfold bind. specialize (Hm w Hw).
  destruct (m w) as [[a|e] w1] eqn:E; cbn [snd] in *; [|done].
  by apply (Hk a (HQ _ _ _ E)).
Qed.

Lemma preserves_bind {A B} (m : M A) (k : A -> M B) :
  preserves I m -> (forall a, preserves I (k a)) -> preserves I (bind m k).
Proof. intros Hm Hk. apply (preserves_bind_post (fun _ => True)); auto. Qed.

Lemma preserves_for_each {A} (l : list A) (body : A -> M unit) :
  (forall x, x ∈ l -> preserves I (body x)) -> preserves I (for_each l body).
Proof.
  induction l as [|x r IH]; intros H; cbn [for_each]; [by apply preserves_pure|].
  apply preserves_bind; [apply H; set_solver|]. intros _. apply IH.
  intros; apply H; set_solver.
Qed.

End Preserves.

Lemma child_dirs_shape parents : forall w l w1,
  child_dirs parents w = (Ok l, w1) ->
  Forall (fun sp : path * path => exists x, sp.2 ∈ parents /\ sp.1 = sp.2 ++ [x]) l.
Proof.
  induction parents as [|par r IH]; intros w l w1; cbn [child_dirs].
  { by intros [= <- _]. }
  unfold bind at 1. destruct (work_dirs par w) as [[subs|e] w0] eqn:E; [|done].
  apply work_dirs_children in E as [-> Hsubs].
  unfold bind at 1. destruct (child_dirs r w) as [[rest|e] w2] eqn:E2; [|done].
  intros [= <- _]. apply Forall_app. split.
  - apply Forall_fmap. eapply Forall_impl; [exact Hsubs|]. intros d [x ->].
    exists x. split; [set_solver|done].
  - eapply Forall_impl; [exact (IH _ _ _ E2)|]. intros sp (x & ? & ?). exists x. set_solver.
Qed.

Section Step4Skip.
Context (sd0 : path) (n : string) (c : content).
Let I (f : node) : Prop := lookup (sd0 ++ [n]) f = Some (File c).

Lemma preserves_add_prefix dn (sd : path) m :
  contains "_" n = true -> length sd = length sd0 ->
  preserves I (add_prefix dn (sd ++ [m])).
Proof.
  intros Hn Hlen w Hw.
  destruct (add_prefix_effect dn sd m w) as (w1 & -> & _ & _ & K). cbn [snd].
  destruct K as [->|(Hm & x & _ & Hx & Hne & Hfree & R)]; [done|].
  unfold I in *. rewrite (rename_sibling_frame sd m x (sd0 ++ [n]) _ _ R); try done.
  - rewrite length_app. simpl. lia.
  - intros [_ E']%app_inj_tail. congruence.
  - intros E'. rewrite E' in Hw. congruence.
Qed.

Lemma preserves_prefix_subdir sp :
  contains "_" n = true -> length sp.1 = length sd0 -> preserves I (prefix_subdir sp).
Proof.
  intros Hn Hlen. unfold prefix_subdir. cbv zeta.
  apply (preserves_bind_post I
           (Forall (fun f => exists m, f = sp.1 ++ [m]))).
  - apply preserves_pure, sorted_jpg_files_pure.
  - intros w files w1 E. destruct (sorted_jpg_files_listing sp.1 w) as (fl & E' & Hfl).
    pose proof (eq_trans (eq_sym E) E') as X. injection X as -> _. apply Forall_forall.
    intros f (m & -> & _)%Hfl. eauto.
  - intros files Hfiles. apply preserves_for_each. intros f Hf.
    rewrite Forall_forall in Hfiles. destruct (Hfiles f Hf) as [m ->].
    by apply preserves_add_prefix.
Qed.

End Step4Skip.

(** X11: step 4 leaves the pages alone that have an underscore in their
    name.  In every mode, whatever the answers are and whatever file
    operation fails: a file [A/B/n] with an underscore in [n] is found
    after step 4 where it was, with the same content; it gets no prefix
    and no other rename of the step takes its place. *)
Theorem step4_skips_underscore A B n c w :
  lookup [A; B; n] (fs w) = Some (File c) -> contains "_" n = true ->
  lookup [A; B; n] (fs (run step4_add_prefix w)) = Some (File c).
Proof.
  intros Hq Hn. unfold run. revert w Hq.
  change (preserves (fun f => lookup ([A; B] ++ [n]) f = Some (File c)) step4_add_prefix).
  unfold step4_add_prefix.
  apply (preserves_bind_post _ (Forall (fun d : path => length d = 1%nat))).
  { apply preserves_pure, work_dirs_pure. }
  { intros w l w1 E. apply work_dirs_children in E as [_ Hl].
    eapply Forall_impl; [exact Hl|]. by intros d [x ->]. }
  intros parents Hpar.
  apply (preserves_bind_post _ (Forall (fun sp : path * path => length sp.1 = 2%nat))).
  { apply preserves_pure, child_dirs_pure. }
  { intros w l w1 E. apply child_dirs_shape in E.
    eapply Forall_impl; [exact E|]. intros sp (x & Hp & Ex). cbv beta.
    rewrite Forall_forall in Hpar. specialize (Hpar _ Hp).
    unfold path in *. by rewrite Ex, length_app, Hpar. }
  intros subdirs Hsub. cbv zeta.
  apply preserves_bind; [by apply preserves_pure|]. intros _.
  destruct (bool_decide _); [by apply preserves_pure|].
  apply preserves_bind.
  { intros w Hw. by apply keeps_files_confirm_operation. }
  intros ok. destruct ok; cbn [negb]; [|by apply preserves_pure].
  apply preserves_for_each. intros sp Hsp. rewrite Forall_forall in Hsub.
  apply (preserves_prefix_subdir [A; B] n c sp Hn). by apply Hsub.
Qed.

Lemma step4_skips_underscore_witness :
  lookup ["A"; "B"; "a_1.jpg"]
    (fs (run step4_add_prefix (initial_world underscore_tree batch_config [] [])))
  = Some (File (Raw "a")).
Proof.
  apply (step4_skips_underscore "A" "B" "a_1.jpg" (Raw "a")
           (initial_world underscore_tree batch_config [] [])); reflexivity.
Defined.

(** ** Step 5: the pages go up to the parent directory *)

Lemma free_in_parent_shape fuel : forall counter y file (pd : path) fs p k,
  free_in_parent fuel counter (pd ++ [y]) file pd fs = (p, k) ->
  exists x, p = pd ++ [x] /\ (lookup (pd ++ [y]) fs = None -> x = y).
Proof.
  induction fuel as [|f IH]; intros counter y file pd fs p k; cbn [free_in_parent].
  { intros [= <- <-]. eauto. }
  destruct (exists_ (pd ++ [y]) fs) eqn:Ex; cbn [andb].
  - destruct (counter <=? 100).
    + intros (x & -> & _)%IH. exists x. split; [done|]. intros Hfree.
      apply not_exists_lookup in Hfree. congruence.
    + intros [= <- <-]. eauto.
  - intros [= <- <-]. eauto.
Qed.

(** One round of the inner loop of step 5. *)
Lemma move_up_effect (par sd : path) m w :
  exists w1, move_up par (sd ++ [m]) w = (Ok tt, w1)
    /\ cfg w1 = cfg w /\ faults w1 = faults w
    /\ (fs w1 = fs w
        \/ exists x, lookup (par ++ [x]) (fs w) = None
             /\ rename (sd ++ [m]) (par ++ [x]) (fs w) = Ok (fs w1)
             /\ (lookup (par ++ [m]) (fs w) = None -> x = m)).
Proof.
  unfold move_up. cbv zeta. rewrite name_snoc. unfold try_catch, ask_fs.
  rewrite bind_ret_l_gets.
  destruct (free_in_parent 101 1 (par ++ [m]) (sd ++ [m]) par (fs w))
    as [new_path counter] eqn:Efree.
  destruct (Z.gtb_spec counter 100) as [Hgt|Hle].
  { unfold_M. eexists. split; [reflexivity|]. simpl_w. auto. }
  pose proof Efree as Hfree. apply free_in_parent_free in Hfree; [|lia|lia].
  apply not_exists_lookup in Hfree.
  apply free_in_parent_shape in Efree as (x & -> & Hx).
  rewrite bind_ret_l_gets. unfold when. destruct (negb (dry_run (cfg w))).
  2:{ unfold_M. eexists. split; [reflexivity|]. simpl_w. auto. }
  destruct (fs_op_cases (FMove (sd ++ [m]) (par ++ [x])) (move (sd ++ [m]) (par ++ [x])) w)
    as [(fs' & _ & Hmv & Hop)|(e & Hop & _)].
  - rewrite (bind_Ok _ _ _ _ _ Hop). unfold_M. simpl_w.
    eexists. split; [reflexivity|]. simpl_w. split; [done|]. split; [done|].
    right. exists x. split; [done|]. split; [|done].
    unfold move, is_dir in Hmv. by rewrite Hfree in Hmv.
  - rewrite (bind_Raise _ _ _ _ _ Hop). unfold_M. simpl_w.
    eexists. split; [reflexivity|]. simpl_w. auto.
Qed.

(** With the name free in the parent directory and nothing failing, the
    file is moved there under its name. *)
Lemma move_up_free (par sd : path) m w n :
  dry_run (cfg w) = false -> (forall op, faults w op = false) ->
  lookup (sd ++ [m]) (fs w) = Some n -> lookup (par ++ [m]) (fs w) = None ->
  is_dir par (fs w) = true -> ~ (sd ++ [m]) `prefix_of` (par ++ [m]) ->
  exists w1, move_up par (sd ++ [m]) w = (Ok tt, w1)
    /\ cfg w1 = cfg w /\ faults w1 = faults w
    /\ rename (sd ++ [m]) (par ++ [m]) (fs w) = Ok (fs w1).
Proof.
  intros Hdry Hf Hsrc Hdst Hpar Hpre.
  destruct (rename_fresh (sd ++ [m]) (par ++ [m]) (fs w) n Hsrc Hdst) as (fs' & R & _);
    [by rewrite parent_snoc|done|].
  unfold move_up. cbv zeta. rewrite name_snoc. unfold try_catch, ask_fs.
  rewrite bind_ret_l_gets.
  assert (free_in_parent 101 1 (par ++ [m]) (sd ++ [m]) par (fs w) = (par ++ [m], 1)) as ->.
  { cbn [free_in_parent]. by rewrite (proj2 (not_exists_lookup _ _) Hdst). }
  cbv beta iota. change (1 >? 100) with false. cbv iota.
  rewrite bind_ret_l_gets, Hdry. cbn [negb when].
  unfold_M. rewrite Hf. unfold move, is_dir. rewrite Hdst. cbn [andb]. rewrite R. simpl_w.
  eexists. split; [reflexivity|]. simpl_w. done.
Qed.

(** The moves of step 5 go from [A'/B'/m] to [A'/x]. What they leave
    alone: *)
Lemma move_frame3 A' B' m x a b k f f' :
  rename [A'; B'; m] [A'; x] f = Ok f' -> lookup [A'; x] f = None ->
  [a; b; k] <> [A'; B'; m] -> [a; b] <> [A'; x] ->
  lookup [a; b; k] f' = lookup [a; b; k] f.
Proof.
  intros R Hfree Q1 Q2. apply rename_inv in R as (_ & _ & Fr); [|done|done].
  apply Fr.
  - intros [r E]. apply Q1. by simplify_list_eq.
  - intros [r E]. apply Q1. by simplify_list_eq.
  - intros [r E]. apply Q2. by simplify_list_eq.
  - intros [r E]. by simplify_list_eq.
Qed.

Lemma move_frame2 A' B' m x a k f f' :
  rename [A'; B'; m] [A'; x] f = Ok f' -> lookup [A'; x] f = None ->
  [a; k] <> [A'; x] -> [a; k] <> [A'; B'] ->
  lookup [a; k] f' = lookup [a; k] f.
Proof.
  intros R Hfree Q1 Q2. apply rename_inv in R as (_ & _ & Fr); [|done|done].
  apply Fr.
  - intros [r E]. by simplify_list_eq.
  - intros [r E]. apply Q2. by simplify_list_eq.
  - intros [r E]. apply Q1. by simplify_list_eq.
  - intros [r E]. apply Q1. by simplify_list_eq.
Qed.

Section Step5.
Context (A : string) (W : string -> Prop).

(** The child directories stay directories, and the pages of the child
    directories have names that are free in [A] and differ from one
    child directory to the other. *)
Let DW (f : node) : Prop := forall B', W B' -> is_dir [A; B'] f = true.
Let J (f : node) : Prop :=
  forall B' m, W B' -> ends_with ".jpg" m = true -> is_Some (lookup [A; B'; m] f) ->
    lookup [A; m] f = None
    /\ forall B'', W B'' -> is_Some (lookup [A; B''; m] f) -> B'' = B'.

Lemma dw_move A' B' m x f f' :
  rename [A'; B'; m] [A'; x] f = Ok f' -> lookup [A'; x] f = None -> DW f -> DW f'.
Proof.
  intros R Hfree HD B1 HW. specialize (HD B1 HW).
  eapply rename_is_dir; [exact R|done| |].
  - intros [r E]. by simplify_list_eq.
  - intros [r E]. cbn in E. injection E as <- <- _. unfold is_dir in HD.
    by rewrite Hfree in HD.
Qed.

Lemma j_move_same B' m f f' :
  W B' -> ends_with ".jpg" m = true ->
  rename [A; B'; m] [A; m] f = Ok f' -> DW f -> J f -> J f'.
Proof.
  intros HW Hm R HD HJ.
  pose proof (rename_source_exists _ _ _ _ R) as Hsrc.
  destruct (HJ B' m HW Hm Hsrc) as [Hfree Huniq].
  assert (lookup [A; B'; m] f' = None) as Hgone.
  { by apply rename_inv in R as (_ & ? & _). }
  assert (forall B1, W B1 -> [A; B1] <> [A; m]) as Hd.
  { intros B1 H1 [= <-]. specialize (HD _ H1). unfold is_dir in HD. by rewrite Hfree in HD. }
  assert (forall B1 m1, W B1 -> is_Some (lookup [A; B1; m1] f') ->
            lookup [A; B1; m1] f' = lookup [A; B1; m1] f) as Hfr.
  { intros B1 m1 H1 HS. apply (move_frame3 _ _ _ _ _ _ _ _ _ R Hfree); [|by apply Hd].
    intros E. rewrite E, Hgone in HS. by destruct HS. }
  intros B1 m1 H1 Hm1 HS. pose proof HS as HS'. rewrite (Hfr _ _ H1 HS) in HS'.
  destruct (HJ B1 m1 H1 Hm1 HS') as [Hfree1 Huniq1]. split.
  - rewrite (move_frame2 _ _ _ _ _ _ _ _ R Hfree); [done| |].
    + intros [= ->]. assert (B1 = B') as -> by (by apply Huniq).
      rewrite Hgone in HS. by destruct HS.
    + intros [= ->]. specialize (HD _ HW). unfold is_dir in HD. by rewrite Hfree1 in HD.
  - intros B2 H2 HS2. apply Huniq1; [done|]. by rewrite <- (Hfr _ _ H2 HS2).
Qed.

Lemma move_other_frame A' B' m x f f' q :
  A' <> A -> rename [A'; B'; m] [A'; x] f = Ok f' -> lookup [A'; x] f = None ->
  lookup (A :: q) f' = lookup (A :: q) f.
Proof.
  intros Hne R Hfree. apply rename_inv in R as (_ & _ & Fr); [|done|done].
  apply Fr; intros [r E]; by simplify_list_eq.
Qed.

Lemma j_move_other A' B' m x f f' :
  A' <> A -> rename [A'; B'; m] [A'; x] f = Ok f' -> lookup [A'; x] f = None ->
  J f -> J f'.
Proof.
  intros Hne R Hfree HJ B1 m1 H1 Hm1 HS.
  rewrite (move_other_frame _ _ _ _ _ _ _ Hne R Hfree) in HS.
  destruct (HJ B1 m1 H1 Hm1 HS) as [Hfree1 Huniq1].
  rewrite (move_other_frame _ _ _ _ _ _ _ Hne R Hfree). split; [done|].
  intros B2 H2 HS2. rewrite (move_other_frame _ _ _ _ _ _ _ Hne R Hfree) in HS2. auto.
Qed.

Context (B n : string) (c : content).

Lemma before_move A' B' m x f f' :
  rename [A'; B'; m] [A'; x] f = Ok f' -> lookup [A'; x] f = None ->
  [A'; B'; m] <> [A; B; n] -> lookup [A; B; n] f = Some (File c) ->
  lookup [A; B; n] f' = Some (File c).
Proof.
  intros R Hfree Hne Hsrc. rewrite (move_frame3 _ _ _ _ _ _ _ _ _ R Hfree); [done|done|].
  intros E. rewrite <- E in Hfree.
  change [A; B; n] with ([A; B] ++ [n]) in Hsrc. by rewrite lookup_app, Hfree in Hsrc.
Qed.

Lemma after_move A' B' m x f f' :
  rename [A'; B'; m] [A'; x] f = Ok f' -> lookup [A'; x] f = None ->
  DW f -> W B ->
  lookup [A; B; n] f = None -> lookup [A; n] f = Some (File c) ->
  lookup [A; B; n] f' = None /\ lookup [A; n] f' = Some (File c).
Proof.
  intros R Hfree HD HW A1 A2. pose proof (rename_source_exists _ _ _ _ R) as [nd Hsrc].
  rewrite (move_frame3 _ _ _ _ _ _ _ _ _ R Hfree), (move_frame2 _ _ _ _ _ _ _ _ R Hfree);
    [done| | | |].
  - intros E. rewrite E in A2. congruence.
  - intros [= <- <-]. pose proof (lookup_under_file [A; n] m [] c f A2) as X.
    cbn [app] in X. congruence.
  - intros E. rewrite E in A1. congruence.
  - intros E. specialize (HD _ HW). unfold is_dir in HD. rewrite E in HD.
    by rewrite Hfree in HD.
Qed.

Let live (w : world) : Prop :=
  dry_run (cfg w) = false /\ forall op, faults w op = false.

Lemma inner_before5 A' B' files : forall w,
  (A' = A -> W B') ->
  Forall (fun f => exists m, f = [A'; B'; m] /\ ends_with ".jpg" m = true
                             /\ f <> [A; B; n]) files ->
  live w -> DW (fs w) -> J (fs w) -> lookup [A; B; n] (fs w) = Some (File c) ->
  exists w1, for_each files (move_up [A']) w = (Ok tt, w1)
    /\ live w1 /\ DW (fs w1) /\ J (fs w1) /\ lookup [A; B; n] (fs w1) = Some (File c).
Proof.
  intros w HW. revert w.
  induction files as [|f r IH]; intros w Hall Hl HD HJ Hsrc; [by exists w|].
  apply Forall_cons in Hall as [(m & -> & Hm & Hne) Hall].
  destruct (move_up_effect [A'] [A'; B'] m w) as (w1 & E & C1 & F1 & K).
  cbn [app] in E, K. cbn [for_each]. rewrite (bind_Ok _ _ _ _ _ E).
  apply IH; [done|by unfold live; rewrite C1, F1| | |].
  - destruct K as [->|(x & Hfree & R & _)]; [done|]. by eapply dw_move.
  - destruct K as [->|(x & Hfree & R & Hx)]; [done|].
    destruct (decide (A' = A)) as [->|HA].
    + pose proof (rename_source_exists _ _ _ _ R) as HS.
      destruct (HJ B' m (HW eq_refl) Hm HS) as [Hfree' _].
      rewrite (Hx Hfree') in R. by eapply (j_move_same B' m); [apply HW| | | |].
    + by eapply j_move_other.
  - destruct K as [->|(x & Hfree & R & _)]; [done|]. by eapply before_move.
Qed.

Lemma inner_after5 A' B' files : forall w,
  W B -> Forall (fun f => exists m, f = [A'; B'; m]) files ->
  live w -> DW (fs w) ->
  lookup [A; B; n] (fs w) = None -> lookup [A; n] (fs w) = Some (File c) ->
  exists w1, for_each files (move_up [A']) w = (Ok tt, w1)
    /\ live w1 /\ DW (fs w1)
    /\ lookup [A; B; n] (fs w1) = None /\ lookup [A; n] (fs w1) = Some (File c).
Proof.
  intros w HW. revert w.
  induction files as [|f r IH]; intros w Hall Hl HD A1 A2; [by exists w|].
  apply Forall_cons in Hall as [(m & ->) Hall].
  destruct (move_up_effect [A'] [A'; B'] m w) as (w1 & E & C1 & F1 & K).
  cbn [app] in E, K. cbn [for_each]. rewrite (bind_Ok _ _ _ _ _ E).
  destruct K as [K|(x & Hfree & R & _)].
  { apply IH; [done|by unfold live; rewrite C1, F1|by rewrite K..]. }
  destruct (after_move _ _ _ _ _ _ R Hfree HD HW A1 A2) as [A1' A2'].
  apply IH; [done|by unfold live; rewrite C1, F1|by eapply dw_move|done|done].
Qed.

End Step5.

Lemma work_dirs_work p w l w1 :
  work_dirs p w = (Ok l, w1) -> Forall (fun d => is_work_dir (cfg w) (fs w) d = true) l.
Proof.
  unfold work_dirs. rewrite bind_ret_l_gets. unfold bind at 1, read_fs.
  destruct (iterdir p (fs w)) as [ds|e]; [|done].
  rewrite bind_ret_l_gets. intros [= <- _]. apply Forall_forall.
  by intros d [_ Hd]%list_elem_of_In%filter_In.
Qed.

Lemma child_dirs_work parents : forall w l w1,
  child_dirs parents w = (Ok l, w1) ->
  Forall (fun sp : path * path => is_work_dir (cfg w) (fs w) sp.1 = true) l.
Proof.
  induction parents as [|par r IH]; intros w l w1; cbn [child_dirs].
  { by intros [= <- _]. }
  unfold bind at 1. destruct (work_dirs par w) as [[subs|e] w0] eqn:E; [|done].
  pose proof (work_dirs_work _ _ _ _ E) as Hsubs.
  apply work_dirs_children in E as [-> _].
  unfold bind at 1. destruct (child_dirs r w) as [[rest|e] w2] eqn:E2; [|done].
  intros [= <- _]. apply Forall_app. split; [by apply Forall_fmap|by eapply IH].
Qed.

(** The list of steps 4 and 5: the child directories of the directories
    of the root, each with its parent. *)
Lemma root_subdirs w es :
  fs w = Dir es ->
  exists parents subdirs,
    work_dirs [] w = (Ok parents, w) /\ child_dirs parents w = (Ok subdirs, w)
    /\ Forall (fun sp : path * path =>
                 exists a b, sp = ([a; b], [a])
                             /\ is_work_dir (cfg w) (fs w) [a; b] = true) subdirs
    /\ (forall a b, is_work_dir (cfg w) (fs w) [a] = true ->
          is_work_dir (cfg w) (fs w) [a; b] = true -> ([a; b], [a]) ∈ subdirs).
Proof.
  intros Hes.
  assert (lookup [] (fs w) = Some (Dir es)) as Hroot by (by rewrite Hes).
  set (parents := List.filter (is_work_dir (cfg w) (fs w)) ((fun e => [] ++ [e.1]) <$> es)).
  assert (Forall (fun par => is_dir par (fs w) = true /\ exists a, par = [a]) parents) as Hpar.
  { apply Forall_forall. intros par Hp%list_elem_of_In%filter_In. destruct Hp as [Hp Hw].
    apply andb_true_iff in Hw as [Hd _]. split; [done|].
    apply list_elem_of_In, list_elem_of_fmap in Hp as (e & -> & _). by exists e.1. }
  destruct (child_dirs_listing parents w) as (l & E & Hshape & Hin).
  { eapply Forall_impl; [exact Hpar|]. by intros ? [? _]. }
  exists parents, l. split; [by apply work_dirs_listing|]. split; [done|]. split.
  - pose proof (child_dirs_work _ _ _ _ E) as Hwork.
    rewrite Forall_forall in Hshape. rewrite Forall_forall in Hpar.
    rewrite Forall_forall in Hwork. apply Forall_forall.
    intros [sd par] Hsp. destruct (Hshape _ Hsp) as (x & Hp & Ex).
    destruct (Hpar _ Hp) as [_ [a Ea]]. specialize (Hwork _ Hsp).
    cbn [fst snd] in *. subst par sd. exists a, x. done.
  - intros a b Ha Hb. apply (Hin [a] b); [|done].
    apply (work_dirs_elem [] w es a Hroot Ha).
Qed.

Section Step5Loop.
Context (A B n : string) (c : content) (W : string -> Prop).

Let DW (f : node) : Prop := forall B', W B' -> is_dir [A; B'] f = true.
Let J (f : node) : Prop :=
  forall B' m, W B' -> ends_with ".jpg" m = true -> is_Some (lookup [A; B'; m] f) ->
    lookup [A; m] f = None
    /\ forall B'', W B'' -> is_Some (lookup [A; B''; m] f) -> B'' = B'.
Let live (w : world) : Prop :=
  dry_run (cfg w) = false /\ forall op, faults w op = false.
Let before (w : world) : Prop :=
  live w /\ DW (fs w) /\ J (fs w) /\ lookup [A; B; n] (fs w) = Some (File c).
Let after (w : world) : Prop :=
  live w /\ DW (fs w)
  /\ lookup [A; B; n] (fs w) = None /\ lookup [A; n] (fs w) = Some (File c).
Let shape (sp : path * path) : Prop :=
  exists A' B', sp = ([A'; B'], [A']) /\ (A' = A -> W B').

Lemma move_subdir_before_other sp w :
  shape sp -> sp.1 <> [A; B] -> before w ->
  exists w1, move_subdir sp w = (Ok tt, w1) /\ before w1.
Proof.
  intros (A' & B' & -> & HW) Hne (Hl & HD & HJ & Hsrc). unfold move_subdir.
  destruct (sorted_jpg_files_listing [A'; B'] w) as (files & E & Hfiles).
  rewrite (bind_Ok _ _ _ _ _ E).
  destruct (inner_before5 A W B n c A' B' files w HW) as (w1 & E1 & H1); try done.
  - apply Forall_forall. intros f (m & -> & Hm & _)%Hfiles. exists m.
    split; [done|]. split; [done|]. intros [= -> -> _]. by apply Hne.
  - by exists w1.
Qed.

Lemma move_subdir_after sp w :
  shape sp -> W B -> after w ->
  exists w1, move_subdir sp w = (Ok tt, w1) /\ after w1.
Proof.
  intros (A' & B' & -> & _) HW (Hl & HD & A1 & A2). unfold move_subdir.
  destruct (sorted_jpg_files_listing [A'; B'] w) as (files & E & Hfiles).
  rewrite (bind_Ok _ _ _ _ _ E).
  destruct (inner_after5 A W B n c A' B' files w HW) as (w1 & E1 & H1); try done.
  - apply Forall_forall. intros f (m & -> & _)%Hfiles. by exists m.
  - by exists w1.
Qed.

Lemma move_subdir_same w :
  W B -> ends_with ".jpg" n = true -> before w ->
  exists w1, move_subdir ([A; B], [A]) w = (Ok tt, w1) /\ after w1.
Proof.
  intros HW Hjpg (Hl & HD & HJ & Hsrc). unfold move_subdir.
  destruct (sorted_jpg_files_listing [A; B] w) as (files & E & Hfiles).
  rewrite (bind_Ok _ _ _ _ _ E).
  assert ([A; B; n] ∈ files) as Hin.
  { apply Hfiles. exists n. split; [done|]. split; [done|]. unfold is_file.
    cbn [app]. by rewrite Hsrc. }
  destruct (list_elem_of_split_l _ _ Hin) as (l1 & l2 & El & Hnot).
  assert (Forall (fun f => exists m, f = [A; B; m] /\ ends_with ".jpg" m = true
                                     /\ f <> [A; B; n]) l1) as H1.
  { apply Forall_forall. intros f Hf.
    destruct (proj1 (Hfiles f)) as (m & -> & Hm & _); [rewrite El; set_solver|].
    exists m. split; [done|]. split; [done|]. intros E'. apply Hnot.
    cbn [app] in Hf. by rewrite <- E'. }
  assert (Forall (fun f => exists m, f = [A; B; m]) l2) as H2.
  { apply Forall_forall. intros f Hf.
    destruct (proj1 (Hfiles f)) as (m & -> & _); [rewrite El; set_solver|]. by exists m. }
  destruct (inner_before5 A W B n c A B l1 w (fun _ => HW) H1 Hl HD HJ Hsrc)
    as (w1 & E1 & [D1 F1] & HD1 & HJ1 & Hsrc1).
  destruct (HJ1 B n HW Hjpg) as [Hfree _]; [by rewrite Hsrc1|].
  destruct (move_up_free [A] [A; B] n w1 (File c) D1 F1) as (w2 & E2 & C2 & F2 & R);
    [done|done| |intros [r Er]; cbn in Er; congruence|].
  { apply (is_dir_prefix [A] [B]). by apply HD1. }
  cbn [app] in E2, R.
  assert (lookup [A; B; n] (fs w2) = None /\ lookup [A; n] (fs w2) = Some (File c))
    as [A1 A2].
  { apply rename_inv in R as (R1 & R2 & _); [|done|done]. by rewrite R1, R2. }
  destruct (inner_after5 A W B n c A B l2 w2 HW H2) as (w3 & E3 & H3);
    [by unfold live; rewrite C2, F2|by eapply dw_move|done|done|].
  exists w3. split; [|done]. rewrite El, (for_each_app_Ok _ _ _ _ _ E1). cbn [for_each].
  by rewrite (bind_Ok _ _ _ _ _ E2).
Qed.

Lemma outer_before5 l : forall w,
  Forall (fun sp => shape sp /\ sp.1 <> [A; B]) l -> before w ->
  exists w1, for_each l move_subdir w = (Ok tt, w1) /\ before w1.
Proof.
  induction l as [|sp r IH]; intros w Hall Hb; [by exists w|].
  apply Forall_cons in Hall as [[Hsp Hne] Hall].
  destruct (move_subdir_before_other sp w Hsp Hne Hb) as (w1 & E & B1).
  cbn [for_each]. rewrite (bind_Ok _ _ _ _ _ E). by apply IH.
Qed.

Lemma outer_after5 l : forall w,
  W B -> Forall shape l -> after w ->
  exists w1, for_each l move_subdir w = (Ok tt, w1) /\ after w1.
Proof.
  induction l as [|sp r IH]; intros w HW Hall Ha; [by exists w|].
  apply Forall_cons in Hall as [Hsp Hall].
  destruct (move_subdir_after sp w Hsp HW Ha) as (w1 & E & A1).
  cbn [for_each]. rewrite (bind_Ok _ _ _ _ _ E). by apply IH.
Qed.

End Step5Loop.

Lemma step5_loop w es :
  dry_run (cfg w) = false ->
  skip_step_confirmations (cfg w) || negb (interactive_mode (cfg w)) = true ->
  fs w = Dir es ->
  exists subdirs w0,
    fs w0 = fs w /\ cfg w0 = cfg w /\ faults w0 = faults w
    /\ Forall (fun sp : path * path =>
                 exists a b, sp = ([a; b], [a])
                             /\ is_work_dir (cfg w) (fs w) [a; b] = true) subdirs
    /\ (forall a b, is_work_dir (cfg w) (fs w) [a] = true ->
          is_work_dir (cfg w) (fs w) [a; b] = true -> ([a; b], [a]) ∈ subdirs)
    /\ (subdirs <> [] -> step5_move_files w = for_each subdirs move_subdir w0).
Proof.
  intros Hdry Hauto Hes.
  destruct (root_subdirs w es Hes) as (parents & l & E1 & E2 & Hshape & Hin).
  exists l. eexists. split; [|split; [|split; [|split; [|split]]]]; cycle 5.
  - intros Hne. unfold step5_move_files.
    rewrite (bind_Ok _ _ _ _ _ E1), (bind_Ok _ _ _ _ _ E2). cbv zeta.
    unfold logw at 1. rewrite bind_ret_l_modify.
    rewrite bool_decide_false by (by destruct l).
    erewrite bind_Ok by (by apply confirm_operation_auto). cbn [negb]. reflexivity.
  - done.
  - done.
  - done.
  - done.
  - done.
Qed.

(** X12: step 5 moves a page up under its own name.  Outside dry-run
    mode, without failing operations and without a question at the
    confirmation: let the entries named [*.jpg] in the child directories
    of [A] (those with a name not in [skip_dirs]) have names that are
    free in [A] and that differ from one child directory to the other.
    Then a file [A/B/n] of such a child directory is, after step 5,
    gone from [A/B] and found as [A/n] with its content. *)
Theorem step5_moves_page_up A B n c w :
  let w' := run step5_move_files w in
  dry_run (cfg w) = false -> (forall op, faults w op = false) ->
  skip_step_confirmations (cfg w) || negb (interactive_mode (cfg w)) = true ->
  is_work_dir (cfg w) (fs w) [A] = true -> is_work_dir (cfg w) (fs w) [A; B] = true ->
  lookup [A; B; n] (fs w) = Some (File c) -> ends_with ".jpg" n = true ->
  (forall B' m, is_work_dir (cfg w) (fs w) [A; B'] = true ->
     ends_with ".jpg" m = true -> is_Some (lookup [A; B'; m] (fs w)) ->
     lookup [A; m] (fs w) = None
     /\ forall B'', is_work_dir (cfg w) (fs w) [A; B''] = true ->
          is_Some (lookup [A; B''; m] (fs w)) -> B'' = B') ->
  (step5_move_files w).1 = Ok tt
  /\ lookup [A; B; n] (fs w') = None
  /\ lookup [A; n] (fs w') = Some (File c).
Proof.
  intros w' Hdry Hf Hauto HA HB Hsrc Hjpg Hnames. subst w'. unfold run.
  assert (exists es, fs w = Dir es) as [es Hes].
  { destruct (fs w) as [c0|es]; [done|eauto]. }
  destruct (step5_loop w es Hdry Hauto Hes)
    as (l & w0 & E1 & E2 & E3 & Hshape & Hin & Hstep).
  specialize (Hin A B HA HB).
  rewrite Hstep by (intros E; rewrite E in Hin; by apply elem_of_nil in Hin).
  set (W := fun B' : string => is_work_dir (cfg w) (fs w) [A; B'] = true).
  assert (Forall (fun sp : path * path =>
                    exists A' B', sp = ([A'; B'], [A']) /\ (A' = A -> W B')) l) as Hsh.
  { eapply Forall_impl; [exact Hshape|]. intros sp (a & b & -> & Hw).
    exists a, b. split; [done|]. by intros ->. }
  destruct (split_first (fun sp : path * path => sp.1 = [A; B]) l)
    as (l1 & sp & l2 & El & Hsp & Hl1).
  { apply Exists_exists. by exists ([A; B], [A]). }
  rewrite El in Hsh. apply Forall_app in Hsh as [Hsh1 [Hshp Hsh2]%Forall_cons].
  assert (sp = ([A; B], [A])) as ->.
  { destruct Hshp as (a & b & -> & _). cbn [fst] in Hsp. by injection Hsp as -> ->. }
  destruct (outer_before5 A B n c W l1 w0) as (w1 & Eb & B1).
  { apply Forall_forall. intros x Hx. rewrite Forall_forall in Hsh1.
    rewrite Forall_forall in Hl1. split; [by apply Hsh1|by apply Hl1]. }
  { split; [split; [by rewrite E2|intros; by rewrite E3]|]. rewrite E1.
    split; [|split; [exact Hnames|done]].
    intros B' HW. by apply andb_true_iff in HW as [? _]. }
  destruct (move_subdir_same A B n c W w1 HB Hjpg B1) as (w2 & Ec & A2).
  destruct (outer_after5 A B n c W l2 w2 HB Hsh2 A2) as (w3 & Ea & (_ & _ & A3 & A4)).
  rewrite El, (for_each_app_Ok _ _ _ _ _ Eb). cbn [for_each].
  rewrite (bind_Ok _ _ _ _ _ Ec), Ea. cbn [fst snd]. done.
Qed.

Lemma step5_moves_page_up_witness :
  lookup ["A"; "B"; "a.jpg"]
    (fs (run step5_move_files (initial_world two_pages batch_config [] []))) = None
  /\ lookup ["A"; "a.jpg"]
       (fs (run step5_move_files (initial_world two_pages batch_config [] [])))
     = Some (File (Raw "a")).
Proof.
  destruct (step5_moves_page_up "A" "B" "a.jpg" (Raw "a")
              (initial_world two_pages batch_config [] [])) as (_ & H1 & H2);
    try reflexivity.
  2:{ split; [exact H1|exact H2]. }
  assert (lookup ["A"] two_pages
          = Some (Dir [("B", Dir [("b.jpg", File (Raw "b")); ("a.jpg", File (Raw "a"))])]))
    as EA by reflexivity.
  assert (forall B' r, is_Some (lookup ("A" :: B' :: r) two_pages) -> B' = "B") as HB.
  { intros B' r HS. change ("A" :: B' :: r) with (["A"] ++ [B'] ++ r) in HS.
    rewrite lookup_app, EA in HS. cbn [mbind option_bind] in HS.
    rewrite lookup_app, lookup_root_entry in HS. cbn [assoc] in HS.
    destruct (decide (B' = "B")); [done|]. rewrite bool_decide_false in HS by done.
    by destruct HS. }
  intros B' m HW Hm HS. assert (B' = "B") as -> by (by eapply HB).
  assert (m = "a.jpg" \/ m = "b.jpg") as Hcases.
  { change ["A"; "B"; m] with (["A"; "B"] ++ [m]) in HS. rewrite lookup_app in HS.
    change (lookup ["A"; "B"] (fs (initial_world two_pages batch_config [] [])))
      with (Some (Dir [("b.jpg", File (Raw "b")); ("a.jpg", File (Raw "a"))])) in HS.
    cbn [mbind option_bind] in HS. rewrite lookup_root_entry in HS. cbn [assoc] in HS.
    destruct (decide (m = "b.jpg")); [by right|]. rewrite bool_decide_false in HS by done.
    destruct (decide (m = "a.jpg")); [by left|]. rewrite bool_decide_false in HS by done.
    by destruct HS. }
  split.
  - destruct Hcases as [-> | ->]; reflexivity.
  - intros B'' _ HS'. by eapply HB.
Defined.

(** ** Steps 2 and 3: numbering onto free names *)

Lemma numbered_name_inj ext a b : fmt04 a +:+ ext = fmt04 b +:+ ext -> a = b.
Proof. intros E. by apply str_app_inv_r, fmt04_inj in E. Qed.

(** The renames planned by the numbering loop, when every planned name
    is free: the entries get their numbers in the order of the list. *)
Lemma renumber_fresh (d : path) ext start : forall names idx w,
  dry_run (cfg w) = false -> (forall op, faults w op = false) ->
  NoDup names ->
  (forall m, m ∈ names -> is_Some (lookup (d ++ [m]) (fs w))) ->
  (forall j, (j < length names)%nat ->
     lookup (d ++ [fmt04 (start + idx + Z.of_nat j) +:+ ext]) (fs w) = None) ->
  exists w1,
    for_each (numbered_targets d ext start idx ((fun m => d ++ [m]) <$> names))
      (fun sd => safe_rename sd.1 sd.2 ;; ret tt) w = (Ok tt, w1)
    /\ (forall i m, names !! i = Some m ->
          lookup (d ++ [fmt04 (start + idx + Z.of_nat i) +:+ ext]) (fs w1)
          = lookup (d ++ [m]) (fs w)
          /\ lookup (d ++ [m]) (fs w1) = None)
    /\ (forall x, x ∉ names ->
          (forall j, (j < length names)%nat -> x <> fmt04 (start + idx + Z.of_nat j) +:+ ext) ->
          lookup (d ++ [x]) (fs w1) = lookup (d ++ [x]) (fs w)).
Proof.
  induction names as [|m r IH]; intros idx w Hdry Hf Hnd Hex Hfree.
  { exists w. split; [done|]. split; [by intros ? ? ?|done]. }
  apply NoDup_cons in Hnd as [Hm Hnd].
  set (t0 := fmt04 (start + idx) +:+ ext).
  assert (lookup (d ++ [t0]) (fs w) = None) as Ht0.
  { specialize (Hfree O ltac:(simpl; lia)). by rewrite Z.add_0_r in Hfree. }
  destruct (Hex m ltac:(set_solver)) as [nd Hsrc].
  assert (m <> t0) as Hmt by (intros E; rewrite E in Hsrc; congruence).
  destruct (safe_rename_free (d ++ [m]) (d ++ [t0]) w nd Hdry Hf Hsrc Ht0)
    as (w1 & E1 & C1 & F1 & R).
  { rewrite parent_snoc. by eapply parent_of_existing_is_dir. }
  { intros Hp. apply prefix_length_eq in Hp; [|by rewrite !length_app].
    by apply app_inj_tail in Hp as [_ ?]. }
  assert (forall x, x <> m -> x <> t0 -> lookup (d ++ [x]) (fs w1) = lookup (d ++ [x]) (fs w))
    as Hfr.
  { intros x X1 X2. apply (rename_sibling_frame d m t0 _ _ _ R Ht0 Hmt).
    - rewrite length_app. simpl. lia.
    - by intros [_ ?]%app_inj_tail.
    - by intros [_ ?]%app_inj_tail. }
  apply rename_inv in R as (R1 & R2 & _); [|by intros [_ ?]%app_inj_tail|done].
  assert (forall j, (j < length r)%nat ->
            fmt04 (start + (idx + 1) + Z.of_nat j) +:+ ext
            = fmt04 (start + idx + Z.of_nat (S j)) +:+ ext) as Hidx.
  { intros j _. do 2 f_equal. lia. }
  assert (forall j, (j < length r)%nat ->
            lookup (d ++ [fmt04 (start + (idx + 1) + Z.of_nat j) +:+ ext]) (fs w) = None)
    as Hfree'.
  { intros j Hj. rewrite Hidx by done. apply Hfree. simpl. lia. }
  assert (forall j, (j < length r)%nat ->
            fmt04 (start + (idx + 1) + Z.of_nat j) +:+ ext <> t0) as Hne0.
  { intros j Hj E. apply numbered_name_inj in E. lia. }
  destruct (IH (idx + 1) w1) as (w2 & E2 & Hnum & Hrest).
  { by rewrite C1. }
  { intros; by rewrite F1. }
  { done. }
  { intros m' Hm'. rewrite Hfr; [apply Hex; set_solver|set_solver|].
    intros ->. destruct (Hex t0 ltac:(set_solver)) as [? ?]. congruence. }
  { intros j Hj. rewrite Hfr; [by apply Hfree'| |by apply Hne0].
    intros E. specialize (Hfree' j Hj). rewrite E in Hfree'. congruence. }
  exists w2. split.
  { cbn [fmap list_fmap numbered_targets for_each]. cbn [fst snd].
    rewrite bind_assoc, (bind_Ok _ _ _ _ _ E1), bind_ret_l. exact E2. }
  split.
  - intros [|i] m' Hi; cbn in Hi.
    + injection Hi as <-. rewrite Z.add_0_r. fold t0. split.
      * rewrite Hrest; [by rewrite R1| |].
        -- intros Hin. destruct (Hex t0 ltac:(set_solver)) as [? ?]. congruence.
        -- intros j Hj E. by apply (Hne0 j Hj).
      * rewrite Hrest; [done|done|].
        intros j Hj E. specialize (Hfree' j Hj). rewrite <- E in Hfree'. congruence.
    + destruct (Hnum i m' Hi) as [N1 N2].
      assert (m' ∈ r) as Hin by (by eapply list_elem_of_lookup_2).
      replace (start + idx + Z.of_nat (S i)) with (start + (idx + 1) + Z.of_nat i) by lia.
      split; [|done]. rewrite N1. apply Hfr; [set_solver|].
      intros ->. destruct (Hex t0 ltac:(set_solver)) as [? ?]. congruence.
  - intros x Hx Hxt. rewrite Hrest.
    + apply Hfr; [set_solver|]. intros ->.
      apply (Hxt O ltac:(simpl; lia)). by rewrite Z.add_0_r.
    + set_solver.
    + intros j Hj. rewrite Hidx by done. apply Hxt. simpl. lia.
Qed.

Lemma NoDup_List_filter {A} (P : A -> bool) (l : list A) :
  NoDup l -> NoDup (List.filter P l).
Proof.
  induction 1 as [|x r Hx Hr IH]; simpl; [constructor|].
  destruct (P x); [|done]. constructor; [|done].
  intros [Hin _]%list_elem_of_In%filter_In. by apply Hx, list_elem_of_In.
Qed.

Lemma children_names (d : path) (l : list path) :
  Forall (fun p => exists x, p = d ++ [x]) l -> l = (fun m => d ++ [m]) <$> (name <$> l).
Proof.
  induction 1 as [|p r [x ->] _ IH]; [done|]. cbn [fmap list_fmap].
  rewrite name_snoc. f_equal. exact IH.
Qed.

Lemma iterdir_children d f entries :
  iterdir d f = Ok entries -> Forall (fun p => exists x, p = d ++ [x]) entries.
Proof.
  unfold iterdir. destruct (lookup d f) as [[c|es]|]; try done. intros [= <-].
  apply Forall_fmap, Forall_forall. intros e _. simpl. eauto.
Qed.

(** The numbering loop on a list whose planned names are all free. *)
Lemma number_loop_fresh (d : path) ext files w :
  dry_run (cfg w) = false -> (forall op, faults w op = false) ->
  Forall (fun p => exists x, p = d ++ [x]) files -> NoDup files ->
  Z.of_nat (length files) <= 10000 ->
  (forall p, p ∈ files -> is_Some (lookup p (fs w))) ->
  (forall j, (j < length files)%nat ->
     lookup (d ++ [fmt04 (start_num (cfg w) + Z.of_nat j) +:+ ext]) (fs w) = None) ->
  exists w1,
    number_loop d ext (start_num (cfg w)) 0 ∅ files w = (Ok tt, w1)
    /\ forall i p, files !! i = Some p ->
         lookup (d ++ [fmt04 (start_num (cfg w) + Z.of_nat i) +:+ ext]) (fs w1)
         = lookup p (fs w)
         /\ lookup p (fs w1) = None.
Proof.
  intros Hdry Hf Hch Hnd Hlen Hex Hfree.
  rewrite number_loop_plan by (done || set_solver). unfold run_numbering.
  rewrite Z.sub_0_r, take_ge by (unfold path in *; lia).
  rewrite bool_decide_false by (unfold path in *; lia).
  pose proof (children_names d files Hch) as Hnames.
  set (names := name <$> files) in *.
  destruct (renumber_fresh d ext (start_num (cfg w)) names 0 w Hdry Hf)
    as (w1 & E & Hnum & _).
  { rewrite Hnames in Hnd. by apply NoDup_fmap_1 in Hnd. }
  { intros m Hm. apply Hex. rewrite Hnames. apply list_elem_of_fmap. eauto. }
  { intros j Hj. rewrite Z.add_0_r. apply Hfree. subst names.
    by rewrite length_fmap in Hj. }
  exists w1. split.
  { rewrite Hnames. rewrite (bind_Ok _ _ _ _ _ E). done. }
  intros i p Hi. rewrite Hnames, list_lookup_fmap in Hi.
  destruct (names !! i) as [m|] eqn:Hm; [|done]. injection Hi as <-.
  destruct (Hnum i m Hm) as [N1 N2]. rewrite Z.add_0_r in N1. done.
Qed.

(** X13: steps 2 and 3 number the entries in natural order when the
    numbers are free.  Outside dry-run mode and without failing
    operations, for a directory with at most 10000 [.jpg] files, none of
    the names [<start_num + i>.jpg] (four digits) being taken in it:
    after [process_subdir] of step 2 the file that comes at place [i] in
    natural order is found under [<start_num + i>.jpg], and its old name
    is gone.  The same holds for [process_parent] of step 3 and the
    child directories, which get the names [<start_num + i>] with all
    they hold. *)
Theorem numbering_onto_free_names d entries files w :
  dry_run (cfg w) = false -> (forall op, faults w op = false) ->
  iterdir d (fs w) = Ok entries -> NoDup entries -> Z.of_nat (length files) <= 10000 ->
  (sorted_by (fun p => natural_sort_key (name p))
     (List.filter (fun p => is_file p (fs w) && bool_decide (lsuffix p = ".jpg")) entries)
   = Some files ->
   (forall j, (j < length files)%nat ->
      lookup (d ++ [fmt04 (start_num (cfg w) + Z.of_nat j) +:+ ".jpg"]) (fs w) = None) ->
   (process_subdir d w).1 = Ok tt
   /\ forall i p, files !! i = Some p ->
        lookup (d ++ [fmt04 (start_num (cfg w) + Z.of_nat i) +:+ ".jpg"])
          (fs (run (process_subdir d) w)) = lookup p (fs w)
        /\ lookup p (fs (run (process_subdir d) w)) = None)
  /\ (sorted_by (fun p => natural_sort_key (name p))
        (List.filter (is_work_dir (cfg w) (fs w)) entries) = Some files ->
      (forall j, (j < length files)%nat ->
         lookup (d ++ [fmt04 (start_num (cfg w) + Z.of_nat j) +:+ ""]) (fs w) = None) ->
      (process_parent d w).1 = Ok tt
      /\ forall i p, files !! i = Some p ->
           lookup (d ++ [fmt04 (start_num (cfg w) + Z.of_nat i) +:+ ""])
             (fs (run (process_parent d) w)) = lookup p (fs w)
           /\ lookup p (fs (run (process_parent d) w)) = None).
Proof.
  intros Hdry Hf Hit Hnd Hlen.
  pose proof (iterdir_children _ _ _ Hit) as Hch.
  assert (forall (P : path -> bool),
            sorted_by (fun p => natural_sort_key (name p)) (List.filter P entries)
            = Some files ->
            Forall (fun p => exists x, p = d ++ [x]) files /\ NoDup files
            /\ forall p, p ∈ files -> P p = true) as Hsorted.
  { intros P HS%sorted_by_Permutation. split; [|split].
    - rewrite HS. apply Forall_forall. intros p Hp%list_elem_of_In%filter_In.
      destruct Hp as [Hp _]. rewrite Forall_forall in Hch. apply Hch.
      by apply list_elem_of_In.
    - rewrite HS. by apply NoDup_List_filter.
    - intros p Hp. rewrite HS in Hp.
      by apply list_elem_of_In, filter_In in Hp as [_ ?]. }
  split; intros HS Hfree; destruct (Hsorted _ HS) as (Hc & Hn & HP).
  - destruct (number_loop_fresh d ".jpg" files w Hdry Hf Hc Hn Hlen) as (w1 & E & Hnum);
      [|done|].
    { intros p Hp. apply HP in Hp. apply andb_true_iff in Hp as [Hp _].
      unfold is_file in Hp. destruct (lookup p (fs w)); [eauto|done]. }
    unfold run. assert (process_subdir d w = (Ok tt, w1)) as ->; [|done].
    unfold process_subdir. unfold bind at 1, read_fs. rewrite Hit.
    rewrite bind_ret_l_gets. unfold sorted_paths. rewrite HS.
    by rewrite bind_ret_l, bind_ret_l_gets.
  - destruct (number_loop_fresh d "" files w Hdry Hf Hc Hn Hlen) as (w1 & E & Hnum);
      [|done|].
    { intros p Hp. apply HP in Hp. apply andb_true_iff in Hp as [Hp _].
      unfold is_dir in Hp. destruct (lookup p (fs w)); [eauto|done]. }
    unfold run. assert (process_parent d w = (Ok tt, w1)) as ->; [|done].
    unfold process_parent, work_dirs. rewrite bind_assoc, bind_ret_l_gets.
    rewrite bind_assoc. unfold bind at 1, read_fs. rewrite Hit.
    rewrite bind_assoc, bind_ret_l_gets, bind_ret_l. unfold sorted_paths. rewrite HS.
    by rewrite bind_ret_l, bind_ret_l_gets.
Qed.

Lemma numbering_onto_free_names_witness :
  lookup ["A"; "B"; "0000.jpg"]
    (fs (run (process_subdir ["A"; "B"]) (initial_world two_pages batch_config [] [])))
  = Some (File (Raw "a"))
  /\ lookup ["A"; "B"; "0001.jpg"]
       (fs (run (process_subdir ["A"; "B"]) (initial_world two_pages batch_config [] [])))
     = Some (File (Raw "b")).
Proof.
  destruct (numbering_onto_free_names ["A"; "B"]
              [["A"; "B"; "b.jpg"]; ["A"; "B"; "a.jpg"]]
              [["A"; "B"; "a.jpg"]; ["A"; "B"; "b.jpg"]]
              (initial_world two_pages batch_config [] [])) as [H _].
  - reflexivity.
  - intros op. reflexivity.
  - reflexivity.
  - apply NoDup_cons. split; [|apply NoDup_singleton].
    intros H0%list_elem_of_singleton. discriminate H0.
  - simpl. lia.
  - destruct H as [_ H].
    + vm_compute. reflexivity.
    + intros [|[|j]] Hj; [reflexivity|reflexivity|simpl in Hj; lia].
    + destruct (H 0%nat ["A"; "B"; "a.jpg"] eq_refl) as [H0 _].
      destruct (H 1%nat ["A"; "B"; "b.jpg"] eq_refl) as [H1 _].
      split; [exact H0|exact H1].
Defined.

(** ** The check of the directory structure *)



(** ** Rollback after steps 2 to 4 *)

Lemma same_tree_refl f : same_tree f f.
Proof. done. Qed.

Lemma same_tree_sym f g : same_tree f g -> same_tree g f.
Proof. intros H q. by rewrite H. Qed.

Lemma same_tree_trans f g h : same_tree f g -> same_tree g h -> same_tree f h.
Proof. intros H1 H2 q. by rewrite H1. Qed.

Lemma shape_at_None q f : shape_at q f = SNone <-> lookup q f = None.
Proof. unfold shape_at. by destruct (lookup q f) as [[?|?]|]. Qed.

Lemma shape_at_Dir q f : shape_at q f = SDir <-> is_dir q f = true.
Proof. unfold shape_at, is_dir. by destruct (lookup q f) as [[?|?]|]. Qed.

Lemma same_tree_None f g q : same_tree f g -> lookup q f = None -> lookup q g = None.
Proof. intros H Hq. apply shape_at_None. rewrite <- H. by apply shape_at_None. Qed.

Lemma same_tree_is_dir f g q : same_tree f g -> is_dir q f = is_dir q g.
Proof.
  intros H. specialize (H q). unfold shape_at, is_dir in *.
  by destruct (lookup q f) as [[?|?]|], (lookup q g) as [[?|?]|].
Qed.

Lemma same_tree_exists f g q : same_tree f g -> exists_ q f = exists_ q g.
Proof.
  intros H. specialize (H q). unfold shape_at, exists_ in *.
  destruct (lookup q f) as [[?|?]|], (lookup q g) as [[?|?]|]; try done;
    by rewrite ?bool_decide_true, ?bool_decide_false by (by eauto || by intros [? ?]).
Qed.

Lemma strict_ancestor_is_dir q x r f :
  is_Some (lookup (q ++ x :: r) f) -> is_dir q f = true.
Proof.
  rewrite lookup_app. unfold is_dir.
  destruct (lookup q f) as [[c|es]|]; cbn; [by intros [? ?]|done|by intros [? ?]].
Qed.

(** What a rename onto a free path makes of the shapes. *)
Lemma rename_shape src dst f f' q :
  rename src dst f = Ok f' -> src <> dst -> lookup dst f = None ->
  shape_at q f'
  = if decide (dst `prefix_of` q) then shape_at (src ++ drop (length dst) q) f
    else if decide (src `prefix_of` q) then SNone
    else shape_at q f.
Proof.
  intros R Hne Hdst.
  assert (is_dir (parent dst) f = true /\ (exists n, lookup src f = Some n)
          /\ ~ src `prefix_of` dst /\ dst <> []) as (Hpar & [n Hn] & Hpre & Hd).
  { unfold rename in R. destruct (lookup src f) as [n|]; [|done].
    destruct src; [done|]. rewrite bool_decide_false in R by done.
    destruct (is_dir (parent dst) f); [|done]. cbn [negb orb] in R.
    destruct (bool_decide (dst = [])) eqn:E1; [done|]. apply bool_decide_eq_false in E1.
    destruct (bool_decide (_ `prefix_of` dst)) eqn:E2; [done|].
    apply bool_decide_eq_false in E2. eauto. }
  pose proof (rename_is_dir _ _ _ _ q R) as Hdir.
  apply rename_inv in R as (R1 & R2 & Fr); [|done|done].
  destruct (decide (dst `prefix_of` q)) as [[r ->]|H1].
  { rewrite drop_app_length. unfold shape_at. by rewrite !lookup_app, R1, Hn. }
  destruct (decide (src `prefix_of` q)) as [[r ->]|H2].
  { apply shape_at_None. by rewrite lookup_app, R2. }
  destruct (decide (q `prefix_of` src)) as [H3|H3].
  { assert (is_dir q f = true) as Hq.
    { destruct H3 as [r E]. destruct r as [|x r].
      - exfalso. apply H2. rewrite app_nil_r in E. by rewrite E.
      - apply (strict_ancestor_is_dir q x r). rewrite <- E. eauto. }
    rewrite (proj2 (shape_at_Dir q f) Hq). apply shape_at_Dir. by apply Hdir. }
  destruct (decide (q `prefix_of` dst)) as [H4|H4].
  { assert (is_dir q f = true) as Hq.
    { destruct H4 as [r E]. destruct r as [|x r _] using rev_ind.
      - exfalso. apply H1. rewrite app_nil_r in E. by rewrite E.
      - rewrite app_assoc in E. rewrite E, parent_snoc in Hpar.
        by apply (is_dir_prefix q r). }
    rewrite (proj2 (shape_at_Dir q f) Hq). apply shape_at_Dir. by apply Hdir. }
  unfold shape_at. by rewrite Fr.
Qed.

Lemma rename_same_tree src dst f g f' :
  same_tree f g -> lookup dst f = None -> src <> dst ->
  rename src dst f = Ok f' ->
  exists g', rename src dst g = Ok g' /\ same_tree f' g'.
Proof.
  intros Hfg Hdst Hne R.
  assert (is_dir (parent dst) f = true /\ (exists n, lookup src f = Some n)
          /\ ~ src `prefix_of` dst) as (Hpar & [n Hn] & Hpre).
  { unfold rename in R. destruct (lookup src f) as [n|]; [|done].
    destruct src; [done|]. rewrite bool_decide_false in R by done.
    destruct (is_dir (parent dst) f); [|done]. cbn [negb orb] in R.
    destruct (bool_decide (dst = [])); [done|].
    destruct (bool_decide (_ `prefix_of` dst)) eqn:E2; [done|].
    apply bool_decide_eq_false in E2. eauto. }
  assert (exists n', lookup src g = Some n') as [n' Hn'].
  { pose proof (Hfg src) as Hs. unfold shape_at in Hs. rewrite Hn in Hs.
    destruct (lookup src g) as [n'|]; [eauto|by destruct n]. }
  pose proof (same_tree_None _ _ _ Hfg Hdst) as Hdst'.
  destruct (rename_fresh src dst g n' Hn' Hdst') as (g' & R' & _);
    [by rewrite <- (same_tree_is_dir f g)|done|].
  exists g'. split; [done|]. intros q.
  rewrite (rename_shape _ _ _ _ q R Hne Hdst), (rename_shape _ _ _ _ q R' Hne Hdst').
  by rewrite !Hfg.
Qed.

(** A rename onto a free path and the rename back give the tree of
    before, up to the order of the entries. *)
Lemma rename_undo_same src dst f f' :
  rename src dst f = Ok f' -> lookup dst f = None -> src <> dst ->
  exists g, rename dst src f' = Ok g /\ same_tree g f.
Proof.
  intros R Hdst Hne.
  destruct (rename_there_and_back _ _ _ _ R Hne Hdst) as (g & R' & _).
  assert (lookup src f' = None) as Hsrc'.
  { by apply rename_inv in R as (_ & ? & _). }
  assert (~ dst `prefix_of` src) as Hds.
  { intros [r E]. apply rename_source_exists in R as [n Hn].
    by rewrite E, lookup_app, Hdst in Hn. }
  assert (~ src `prefix_of` dst) as Hsd.
  { intros [r E]. apply rename_source_exists in R' as [n Hn].
    by rewrite E, lookup_app, Hsrc' in Hn. }
  exists g. split; [done|]. intros q.
  rewrite (rename_shape _ _ _ _ q R' (not_eq_sym Hne) Hsrc').
  destruct (decide (src `prefix_of` q)) as [[r ->]|H1].
  - rewrite drop_app_length. rewrite (rename_shape _ _ _ _ (dst ++ r) R Hne Hdst).
    rewrite decide_True by (by apply prefix_app_r). by rewrite drop_app_length.
  - destruct (decide (dst `prefix_of` q)) as [[r ->]|H2].
    + symmetry. apply shape_at_None. by rewrite lookup_app, Hdst.
    + rewrite (rename_shape _ _ _ _ q R Hne Hdst).
      by rewrite decide_False, decide_False.
Qed.

Lemma rollback_effect_same_tree bad op f g :
  op_operation op = OpRename -> same_tree f g ->
  same_tree (rollback_effect bad op f) (rollback_effect bad op g).
Proof.
  intros Hop Hfg. unfold rollback_effect. cbv zeta. rewrite Hop.
  destruct (op_target op) as [tgt|]; [|done].
  rewrite <- !(same_tree_exists f g) by done.
  destruct (exists_ tgt f) eqn:Et; cbn [andb]; [|done].
  destruct (exists_ (op_source op) f) eqn:Es; cbn [andb negb]; [done|].
  destruct (bad _); cbn [negb]; [done|].
  apply not_exists_lookup in Es. apply exists_lookup in Et.
  assert (tgt <> op_source op) as Hne.
  { intros E. rewrite E, Es in Et. by destruct Et. }
  destruct (rename tgt (op_source op) f) as [f'|e] eqn:R.
  - destruct (rename_same_tree _ _ f g f' Hfg Es Hne R) as (g' & -> & Hs). done.
  - destruct (rename tgt (op_source op) g) as [g'|e'] eqn:R'; [|done].
    destruct (rename_same_tree _ _ g f g' (same_tree_sym _ _ Hfg)
                (same_tree_None _ _ _ Hfg Es) Hne R') as (f' & R'' & _).
    congruence.
Qed.

Lemma undo_snoc bad j op f : undo bad (j ++ [op]) f = undo bad j (rollback_effect bad op f).
Proof. unfold undo. by rewrite rev_app_distr. Qed.

Lemma undo_same_tree bad j f g :
  renames_only j -> same_tree f g -> same_tree (undo bad j f) (undo bad j g).
Proof.
  unfold undo, renames_only. intros Hj%Forall_rev. revert f g.
  induction Hj as [|op r Hop _ IH]; intros f g Hfg; [done|]. cbn [foldl].
  by apply IH, rollback_effect_same_tree.
Qed.

(** *** Computations that keep a property of the state *)

Section Invariant.
Context (P : world -> Prop).

Lemma invariant_bind {A B} (m : M A) (k : A -> M B) :
  invariant P m -> (forall a, invariant P (k a)) -> invariant P (bind m k).
Proof.
  intros Hm Hk w Hw. unfold bind. specialize (Hm w Hw).
  destruct (m w) as [[a|e] w1]; cbn [snd] in *; [|done]. by apply Hk.
Qed.

Lemma invariant_try_catch {A} (m : M A) (h : exn -> M A) :
  invariant P m -> (forall e, invariant P (h e)) -> invariant P (try_catch m h).
Proof.
  intros Hm Hh w Hw. unfold try_catch. specialize (Hm w Hw).
  destruct (m w) as [[a|e] w1]; cbn [snd] in *; [done|]. by apply Hh.
Qed.

Lemma invariant_for_each {A} (l : list A) (body : A -> M unit) :
  (forall x, invariant P (body x)) -> invariant P (for_each l body).
Proof.
  intros H. induction l as [|x r IH]; cbn [for_each]; [by intros w Hw|].
  apply invariant_bind; [apply H|]. intros _. apply IH.
Qed.

End Invariant.

Lemma silent_ret {A} (a : A) : silent (ret a).
Proof. done. Qed.

Lemma silent_raise {A} e : silent (@raise A e).
Proof. done. Qed.

Lemma silent_gets {A} (f : world -> A) : silent (gets f).
Proof. done. Qed.

Lemma silent_logw l t a : silent (logw l t a).
Proof. done. Qed.

Lemma silent_read_fs {A} (f : node -> res A) : silent (read_fs f).
Proof. intros w. unfold read_fs. by destruct (f (fs w)). Qed.

Lemma silent_ask_fs {A} (f : node -> A) : silent (ask_fs f).
Proof. done. Qed.

Lemma silent_bind {A B} (m : M A) (k : A -> M B) :
  silent m -> (forall a, silent (k a)) -> silent (bind m k).
Proof.
  intros Hm Hk w. unfold bind. destruct (Hm w) as (H1 & H2 & H3 & H4).
  destruct (m w) as [[a|e] w1]; cbn [snd] in *; [|done].
  destruct (Hk a w1) as (K1 & K2 & K3 & K4). by rewrite K1, K2, K3, K4.
Qed.

Lemma silent_sorted_paths l : silent (sorted_paths l).
Proof. unfold sorted_paths. destruct (sorted_by _ _); [apply silent_ret|apply silent_raise]. Qed.

Lemma silent_work_dirs p : silent (work_dirs p).
Proof.
  unfold work_dirs. apply silent_bind; [apply silent_gets|]. intros c.
  apply silent_bind; [apply silent_read_fs|]. intros ds.
  apply silent_bind; [apply silent_gets|]. intros f. apply silent_ret.
Qed.

Lemma silent_child_dirs parents : silent (child_dirs parents).
Proof.
  induction parents as [|par r IH]; cbn [child_dirs]; [apply silent_ret|].
  apply silent_bind; [apply silent_work_dirs|]. intros subs.
  apply silent_bind; [apply IH|]. intros rest. apply silent_ret.
Qed.

Lemma silent_sorted_jpg_files d : silent (sorted_jpg_files d).
Proof.
  unfold sorted_jpg_files. apply silent_bind; [apply silent_gets|]. intros f.
  apply silent_sorted_paths.
Qed.

Section Undoable.
Context (f0 : node).

Lemma invariant_silent {A} (m : M A) : silent m -> invariant (undoable f0) m.
Proof.
  intros Hm w (H1 & H2 & H3 & H4 & H5). destruct (Hm w) as (E1 & E2 & E3 & E4).
  unfold undoable. rewrite E1, E2, E3, E4. done.
Qed.

Lemma invariant_confirm_operation message : invariant (undoable f0) (confirm_operation message).
Proof.
  intros w (H1 & H2 & H3 & H4 & H5). by rewrite (confirm_operation_auto message w H1 H3).
Qed.

Lemma invariant_safe_rename src dst : invariant (undoable f0) (safe_rename src dst).
Proof.
  intros w (H1 & H2 & H3 & H4 & H5).
  destruct (safe_rename_moves src dst w) as (b & w1 & E & C1 & F1 & _).
  destruct (safe_rename_cases src dst w) as (b' & w1' & E' & _ & Hc).
  rewrite E in E'. injection E' as <- <-. rewrite E. cbn [snd].
  unfold undoable. rewrite C1, F1. split; [done|]. split; [done|]. split; [done|].
  destruct Hc as [[-> ->]|[(-> & Hex & tgt & ->)|(final & Hfree & Hne & R & ->)]].
  - done.
  - split; [apply Forall_app; split; [done|by apply Forall_singleton]|].
    rewrite undo_snoc. unfold rollback_effect at 1. cbn [op_operation op_target op_source].
    by rewrite Hex, andb_false_r.
  - split; [apply Forall_app; split; [done|by apply Forall_singleton]|].
    rewrite undo_snoc. unfold rollback_effect at 1. cbn [op_operation op_target op_source].
    destruct (rename_undo_same _ _ _ _ R Hfree Hne) as (g & R' & Hg).
    assert (exists_ final (fs w1) = true) as ->.
    { apply exists_lookup. apply rename_source_exists in R'. done. }
    assert (exists_ src (fs w1) = false) as ->.
    { apply not_exists_lookup. by apply rename_inv in R as (_ & ? & _). }
    rewrite H2, R'. cbn [andb negb].
    eapply same_tree_trans; [|exact H5]. by apply undo_same_tree.
Qed.

End Undoable.

Section UndoableSteps.
Context (f0 : node).

Lemma invariant_number_loop where_ ext start items : forall idx used,
  invariant (undoable f0) (number_loop where_ ext start idx used items).
Proof.
  induction items as [|item r IH]; intros idx used; cbn [number_loop].
  { by apply invariant_silent. }
  cbv zeta. destruct (_ <=? _); [by apply invariant_silent|].
  apply invariant_bind; [apply invariant_safe_rename|]. intros _. apply IH.
Qed.

Lemma invariant_process_subdir subdir : invariant (undoable f0) (process_subdir subdir).
Proof.
  unfold process_subdir.
  apply invariant_bind; [apply invariant_silent, silent_read_fs|]. intros entries.
  apply invariant_bind; [by apply invariant_silent|]. intros f.
  apply invariant_bind; [apply invariant_silent, silent_sorted_paths|]. intros files.
  apply invariant_bind; [by apply invariant_silent|]. intros c.
  apply invariant_number_loop.
Qed.

Lemma invariant_process_parent par : invariant (undoable f0) (process_parent par).
Proof.
  unfold process_parent.
  apply invariant_bind; [apply invariant_silent, silent_work_dirs|]. intros ds.
  apply invariant_bind; [apply invariant_silent, silent_sorted_paths|]. intros subdirs.
  apply invariant_bind; [by apply invariant_silent|]. intros c.
  apply invariant_number_loop.
Qed.

Lemma invariant_step2 : invariant (undoable f0) step2_rename.
Proof.
  unfold step2_rename.
  apply invariant_bind; [apply invariant_silent, silent_work_dirs|]. intros parents.
  apply invariant_bind; [apply invariant_silent, silent_child_dirs|]. intros subdirs.
  cbv zeta. apply invariant_bind; [by apply invariant_silent|]. intros _.
  destruct (bool_decide _); [by apply invariant_silent|].
  apply invariant_bind; [apply invariant_confirm_operation|]. intros ok.
  destruct ok; cbn [negb]; [|by apply invariant_silent].
  apply invariant_for_each. intros sp. apply invariant_process_subdir.
Qed.

Lemma invariant_step3 : invariant (undoable f0) step3_rename_subdirs.
Proof.
  unfold step3_rename_subdirs.
  apply invariant_bind; [apply invariant_silent, silent_work_dirs|]. intros parents.
  cbv zeta. apply invariant_bind; [by apply invariant_silent|]. intros _.
  destruct (bool_decide _); [by apply invariant_silent|].
  apply invariant_bind; [apply invariant_confirm_operation|]. intros ok.
  destruct ok; cbn [negb]; [|by apply invariant_silent].
  apply invariant_for_each. intros par. apply invariant_process_parent.
Qed.

Lemma invariant_step4 : invariant (undoable f0) step4_add_prefix.
Proof.
  unfold step4_add_prefix.
  apply invariant_bind; [apply invariant_silent, silent_work_dirs|]. intros parents.
  apply invariant_bind; [apply invariant_silent, silent_child_dirs|]. intros subdirs.
  cbv zeta. apply invariant_bind; [by apply invariant_silent|]. intros _.
  destruct (bool_decide _); [by apply invariant_silent|].
  apply invariant_bind; [apply invariant_confirm_operation|]. intros ok.
  destruct ok; cbn [negb]; [|by apply invariant_silent].
  apply invariant_for_each. intros sp.
  apply invariant_bind; [apply invariant_silent, silent_sorted_jpg_files|]. intros files.
  apply invariant_for_each. intros file.
  destruct (contains _ _); [by apply invariant_silent|].
  apply invariant_bind; [apply invariant_safe_rename|]. intros _. by apply invariant_silent.
Qed.

End UndoableSteps.

Lemma rollback_undo w :
  fs (run rollback w) = undo (faults w) (operation_log w) (fs w).
Proof. by destruct (rollback_fs w) as [_ ->]. Qed.

(** X15: [rollback] after steps 2, 3 and 4 gives back the tree.
    Outside dry-run mode, without failing operations and without a
    question at the confirmations, and with an empty journal at the
    start: after step 2, after steps 2 and 3 and after steps 2, 3 and 4
    (whether a step ends normally or with an exception), [rollback]
    leads to a tree with the files and directories of the start at
    their paths, with the same contents; only the order in which a
    directory lists its entries may differ. *)
Theorem rollback_restores_steps_2_to_4 w :
  let w2 := run step2_rename w in
  let w3 := run step3_rename_subdirs w2 in
  let w4 := run step4_add_prefix w3 in
  dry_run (cfg w) = false -> (forall op, faults w op = false) ->
  skip_step_confirmations (cfg w) || negb (interactive_mode (cfg w)) = true ->
  operation_log w = [] ->
  same_tree (fs (run rollback w2)) (fs w)
  /\ same_tree (fs (run rollback w3)) (fs w)
  /\ same_tree (fs (run rollback w4)) (fs w).
Proof.
  intros w2 w3 w4 Hdry Hf Hauto Hlog.
  assert (undoable (fs w) w) as H0.
  { unfold undoable. rewrite Hlog. split; [done|]. split; [done|]. split; [done|].
    split; [constructor|apply same_tree_refl]. }
  assert (undoable (fs w) w2) as H2 by (by apply invariant_step2).
  assert (undoable (fs w) w3) as H3 by (by apply invariant_step3).
  assert (undoable (fs w) w4) as H4 by (by apply invariant_step4).
  rewrite !rollback_undo. split; [apply H2|]. split; [apply H3|apply H4].
Qed.

Lemma rollback_restores_steps_2_to_4_witness :
  shape_at ["A"; "B"; "a.jpg"]
    (fs (run rollback
           (run step4_add_prefix
              (run step3_rename_subdirs
                 (run step2_rename (initial_world two_pages batch_config [] []))))))
  = SFile (Raw "a").
Proof.
  destruct (rollback_restores_steps_2_to_4 (initial_world two_pages batch_config [] []))
    as (_ & _ & H).
  - reflexivity.
  - intros op. reflexivity.
  - reflexivity.
  - reflexivity.
  - rewrite (H ["A"; "B"; "a.jpg"]). reflexivity.
Defined.

(** ** Step 7: the pages of a directory get the numbers from 1 *)

Lemma assoc_renumbered_at nd names : forall idx i n,
  names !! i = Some n ->
  assoc (page_name (idx + Z.of_nat i)) (renumbered nd idx names) = Some (nd n).
Proof.
  induction names as [|m r IH]; intros idx i n Hi; [done|]. cbn [renumbered assoc].
  destruct i as [|i]; cbn in Hi.
  - injection Hi as ->. rewrite Z.add_0_r. by rewrite bool_decide_true.
  - rewrite bool_decide_false by (intros E%page_name_inj; lia).
    replace (idx + Z.of_nat (S i)) with (idx + 1 + Z.of_nat i) by lia. by apply IH.
Qed.

Lemma assoc_renumbered_other nd names : forall idx x,
  (forall i, (i < length names)%nat -> x <> page_name (idx + Z.of_nat i)) ->
  assoc x (renumbered nd idx names) = None.
Proof.
  induction names as [|m r IH]; intros idx x Hx; [done|]. cbn [renumbered assoc].
  rewrite bool_decide_false.
  2:{ intros ->. apply (Hx O); [simpl; lia|]. by rewrite Z.add_0_r. }
  apply IH. intros i Hi. replace (idx + 1 + Z.of_nat i) with (idx + Z.of_nat (S i)) by lia.
  apply Hx. simpl. lia.
Qed.

Lemma NoDup_jpg_file_names es : NoDup es.*1 -> NoDup (jpg_file_names es).
Proof.
  unfold jpg_file_names. induction es as [|[x n] r IH]; csimpl; [constructor|].
  intros [Hx Hr]%NoDup_cons. destruct (_ && _); csimpl; [|by apply IH].
  constructor; [|by apply IH]. intros (e & -> & He)%list_elem_of_fmap.
  apply Hx. apply list_elem_of_fmap. exists e. split; [done|].
  by apply list_elem_of_In, filter_In in He as [?%list_elem_of_In _].
Qed.

Lemma lookup_child (d : path) x f es :
  lookup d f = Some (Dir es) -> lookup (d ++ [x]) f = assoc x es.
Proof. intros Hd. by rewrite lookup_app, Hd, <- lookup_root_entry. Qed.

(** X16: step 7 gives the pages of a directory the numbers from 1 in
    natural order.  Outside dry-run mode and without failing operations,
    when the temporary directory can be made: let [names] be the names
    of the [.jpg] files of the directory in the order step 7 sorts them
    to, and let none of the names [0001.jpg], ..., up to their count, be
    the name of another entry of the directory (a directory or a file
    that the step does not move).  Then after the round of the loop for
    this directory the page at place [i] (from 0) is found under the
    number [i + 1], the old names are gone unless they are such numbers,
    and the other entries are as before. *)
Theorem step7_renumbers_pages par dn ed names w :
  let dir := par ++ [dn] in
  let w' := run (step7_directory dir) w in
  dry_run (cfg w) = false -> (forall op, faults w op = false) ->
  lookup dir (fs w) = Some (Dir ed) -> NoDup ed.*1 ->
  sorted_by (fun p => natural_sort_key (name p)) ((fun n => dir ++ [n]) <$> jpg_file_names ed)
  = Some ((fun n => dir ++ [n]) <$> names) ->
  (forall k, 1 <= k <= Z.of_nat (length names) ->
     page_name k ∈ names \/ assoc (page_name k) ed = None) ->
  is_Some_res (mkdtemp TMP_MAX par w).1 ->
  (step7_directory dir w).1 = Ok tt
  /\ (forall i n, names !! i = Some n ->
        lookup (dir ++ [page_name (1 + Z.of_nat i)]) (fs w') = lookup (dir ++ [n]) (fs w))
  /\ (forall x, (forall i, (i < length names)%nat -> x <> page_name (1 + Z.of_nat i)) ->
        lookup (dir ++ [x]) (fs w')
        = if bool_decide (x ∈ names) then None else lookup (dir ++ [x]) (fs w)).
Proof.
  intros dir w' Hdry Hf Hd Hnd Hsort Hfree Hmk0. subst w'.
  assert (forall n, n ∈ names -> n ∈ jpg_file_names ed) as Hsub.
  { intros n Hn. apply sorted_by_Permutation in Hsort.
    assert (dir ++ [n] ∈ (fun n => dir ++ [n]) <$> names) as Hin
      by (apply list_elem_of_fmap; eauto).
    rewrite Hsort in Hin. apply list_elem_of_fmap in Hin as (m & E & Hm).
    by apply app_inj_tail in E as [_ ->]. }
  assert (NoDup names) as Hndn.
  { apply sorted_by_Permutation in Hsort.
    apply (NoDup_fmap_1 (fun n => dir ++ [n])). rewrite Hsort.
    apply NoDup_fmap_2; [|by apply NoDup_jpg_file_names].
    intros a b E. by apply app_inj_tail in E as [_ ?]. }
  unfold run, step7_directory, with_temporary_directory. subst dir. rewrite parent_snoc.
  set (dir := par ++ [dn]) in *.
  destruct (mkdtemp_spec TMP_MAX par w Hf) as (C1 & F1 & Hres).
  destruct (mkdtemp TMP_MAX par w) as [[tmp|e] w1] eqn:Emk; cbn [fst snd] in *; [|done].
  rewrite (bind_Ok _ _ _ _ _ Emk).
  destruct (mkdtemp_name _ _ _ _ _ Emk) as [tn ->].
  destruct Hres as [Hfresh Hmk]. apply not_exists_lookup in Hfresh.
  assert (dn <> tn) as Hne.
  { intros E. subst dir. rewrite E in Hd. congruence. }
  set (tmp := par ++ [tn]) in *.
  unfold mkdir in Hmk. rewrite (proj2 (not_exists_lookup _ _) Hfresh) in Hmk.
  destruct (put tmp (Dir []) (fs w)) as [fs1|] eqn:Eput; [|done].
  injection Hmk as Hfs1. apply put_lookup in Eput as [Lt1 Fr1].
  rewrite Hfs1 in Lt1, Fr1.
  assert (lookup dir (fs w1) = Some (Dir ed)) as Ld1.
  { rewrite Fr1; [done|apply siblings_incomparable; congruence
                     |apply siblings_incomparable; congruence]. }
  assert (forall op, faults w1 op = false) as Hf1 by (intros; by rewrite F1).
  assert (dry_run (cfg w1) = false) as Hdry1 by (by rewrite C1).
  set (nd := fun n => default (Dir []) (assoc n ed)).
  assert (forall n, n ∈ names -> assoc n ed = Some (nd n)) as Hnames.
  { intros n Hn. destruct (jpg_file_names_assoc ed n Hnd (Hsub n Hn)) as (c & Ha & _).
    unfold nd. by rewrite Ha. }
  destruct (phase1_spec par dn tn Hne nd names [] w1 ed [])
    as (w2 & E2 & C2 & F2 & Ld2 & Lt2 & Fr2); [done..|].
  rewrite app_nil_l in E2, Lt2.
  destruct (phase2_spec par dn tn Hne nd names 1 w2
              (foldl (fun e n => remove_entry n e) ed names)
              ((fun n => (n, nd n)) <$> names))
    as (w3 & E3 & C3 & F3 & Ld3 & Lt3 & Fr3).
  { by rewrite C2. }
  { intros op. by rewrite F2. }
  { done. }
  { done. }
  { done. }
  { intros n Hn. rewrite assoc_named. by rewrite bool_decide_true. }
  { intros k Hk. rewrite assoc_remove_all.
    destruct (decide (page_name k ∈ names)); [by rewrite bool_decide_true|].
    rewrite bool_decide_false by done.
    destruct (Hfree k ltac:(lia)) as [?|?]; done. }
  fold dir tmp in E2, E3, Ld2, Lt2, Ld3, Lt3, Fr2, Fr3.
  assert ((files <- sorted_jpg_files dir ;;
           temp_files <- step7_phase1 tmp files [] ;;
           step7_phase2 dir 1 temp_files) w1 = (Ok tt, w3)) as Hbody.
  { assert (sorted_jpg_files dir w1 = (Ok ((fun n => dir ++ [n]) <$> names), w1)) as Es.
    { unfold sorted_jpg_files. rewrite bind_ret_l_gets.
      rewrite (glob_jpg_files dir (fs w1) ed Ld1 Hnd). unfold sorted_paths.
      by rewrite Hsort. }
    rewrite (bind_Ok _ _ _ _ _ Es). by rewrite (bind_Ok _ _ _ _ _ E2). }
  rewrite (bind_Ok _ _ _ tt w3) by (by apply try_catch_Ok).
  destruct (lookup_snoc_Some _ _ _ _ Lt3) as (ep & Lp3 & _).
  destruct (remove_is_Some par tn (fs w3) ep Lp3) as [fs4 Erm].
  fold tmp in Erm.
  assert (cleanup tmp w3 = (Ok tt, with_trace (trace w3 ++ [EvFs (FRmtree tmp)]) (with_fs fs4 w3)))
    as Hclean.
  { unfold cleanup, bind, ask_fs, gets, when. unfold exists_. rewrite Lt3.
    rewrite bool_decide_true by eauto.
    rewrite rmtree_op_no_fault by (intros; by rewrite F3, F2, Hf1).
    unfold fs_op. rewrite F3, F2, Hf1.
    unfold rmtree. by rewrite Lt3, Erm. }
  rewrite Hclean. cbn [fst snd]. simpl_w.
  apply remove_lookup in Erm as [Gone Fr4].
  assert (lookup dir fs4
          = Some (Dir (foldl (fun e n => remove_entry n e) ed names ++ renumbered nd 1 names)))
    as Ld4.
  { rewrite Fr4; [done|apply siblings_incomparable; congruence
                     |apply siblings_incomparable; congruence]. }
  split; [done|]. split.
  - intros i n Hi. rewrite (lookup_child dir _ _ _ Ld4), (lookup_child dir _ _ _ Hd).
    rewrite assoc_app, assoc_remove_all.
    assert (n ∈ names) as Hn by (by eapply list_elem_of_lookup_2).
    assert (1 <= 1 + Z.of_nat i <= Z.of_nat (length names)) as Hk.
    { apply lookup_lt_Some in Hi. lia. }
    rewrite (assoc_renumbered_at nd names 1 i n Hi), (Hnames n Hn).
    destruct (decide (page_name (1 + Z.of_nat i) ∈ names)); [by rewrite bool_decide_true|].
    rewrite bool_decide_false by done.
    destruct (Hfree _ Hk) as [?|E]; [done|by rewrite E].
  - intros x Hx. rewrite (lookup_child dir _ _ _ Ld4), (lookup_child dir _ _ _ Hd).
    rewrite assoc_app, assoc_remove_all, (assoc_renumbered_other nd names 1 x Hx).
    destruct (bool_decide (x ∈ names)); [done|]. by destruct (assoc x ed).
Qed.

Lemma step7_renumbers_pages_witness :
  lookup ["A"; "0001.jpg"]
    (fs (run (step7_directory ["A"]) (initial_world flat_tree batch_config [] ["aaaa"])))
  = Some (File (Raw "two"))
  /\ lookup ["A"; "0002.jpg"]
       (fs (run (step7_directory ["A"]) (initial_world flat_tree batch_config [] ["aaaa"])))
     = Some (File (Raw "ten")).
Proof.
  destruct (step7_renumbers_pages [] "A"
              [("p10.jpg", File (Raw "ten")); ("p2.jpg", File (Raw "two"))]
              ["p2.jpg"; "p10.jpg"]
              (initial_world flat_tree batch_config [] ["aaaa"])) as (_ & H & _).
  - reflexivity.
  - intros op. reflexivity.
  - reflexivity.
  - apply NoDup_cons. split; [|apply NoDup_singleton].
    intros H0%list_elem_of_singleton. discriminate H0.
  - vm_compute. reflexivity.
  - intros k Hk. right. simpl in Hk.
    assert (k = 1 \/ k = 2) as [-> | ->] by lia; reflexivity.
  - vm_compute. exact I.
  - split; [exact (H 0%nat "p2.jpg" eq_refl)|exact (H 1%nat "p10.jpg" eq_refl)].
Defined.

(** ** Step 8: the directories that are compressed *)

Lemma only_jpg_spec c f items : forall acc l,
  only_jpg c f items acc = Some l <->
  (forall item, item ∈ items -> name item ∉ skip_dirs c ->
     is_file item f = true /\ is_jpeg_suffix (lsuffix item) = true)
  /\ l = acc ++ List.filter (fun item => negb (bool_decide (name item ∈ skip_dirs c))) items.
Proof.
  induction items as [|item r IH]; intros acc l; cbn [only_jpg List.filter].
  { rewrite app_nil_r. split; [intros [= <-]; split; [|done]|by intros [_ ->]].
    intros ? H. by apply elem_of_nil in H. }
  destruct (decide (name item ∈ skip_dirs c)) as [Hs|Hs].
  - rewrite (bool_decide_true _ Hs). cbn [negb]. rewrite IH. split.
    + intros [H ->]. split; [|done]. intros i [->|Hi]%elem_of_cons Hn; [done|by apply H].
    + intros [H ->]. split; [|done]. intros i Hi. apply H. set_solver.
  - rewrite (bool_decide_false _ Hs). cbn [negb].
    destruct (is_file item f) eqn:Hfile.
    2:{ split; [done|]. intros [H _]. destruct (H item ltac:(set_solver) Hs). congruence. }
    destruct (is_jpeg_suffix (lsuffix item)) eqn:Hj.
    2:{ split; [done|]. intros [H _]. destruct (H item ltac:(set_solver) Hs). congruence. }
    rewrite IH, <- app_assoc. cbn [app]. split.
    + intros [H ->]. split; [|done]. intros i [->|Hi]%elem_of_cons Hn; [done|by apply H].
    + intros [H ->]. split; [|done]. intros i Hi. apply H. set_solver.
Qed.

Lemma is_jpeg_suffix_spec sfx : is_jpeg_suffix sfx = true <-> sfx = ".jpg" \/ sfx = ".jpeg".
Proof.
  unfold is_jpeg_suffix. rewrite orb_true_iff, !bool_decide_eq_true. done.
Qed.

(** X17: the directories that step 8 compresses.  A directory below the
    root is in the list of step 8 exactly when its name is not in
    [skip_dirs], every entry of it whose name is not in [skip_dirs] is a
    file whose suffix, put in lower case, is [.jpg] or [.jpeg], and
    there is at least one such entry.  Entries with a name in
    [skip_dirs], files or directories, are not looked at, so a directory
    that holds pages and such a subdirectory is in the list. *)
Theorem step8_leaf_dirs d es w :
  let leaf_dirs := sort_desc (fun p : path => length p)
                     (List.filter (is_leaf_dir (cfg w) (fs w)) (rglob (fs w))) in
  d <> [] -> lookup d (fs w) = Some (Dir es) ->
  d ∈ leaf_dirs <->
  name d ∉ skip_dirs (cfg w)
  /\ (forall x, x ∈ es.*1 -> x ∉ skip_dirs (cfg w) ->
        (exists content, assoc x es = Some (File content))
        /\ (lower (suffix x) = ".jpg" \/ lower (suffix x) = ".jpeg"))
  /\ (exists x, x ∈ es.*1 /\ x ∉ skip_dirs (cfg w)).
Proof.
  intros leaf_dirs Hne Hd. subst leaf_dirs.
  assert (d ∈ rglob (fs w)) as Hin by (by eapply rglob_complete).
  transitivity (is_leaf_dir (cfg w) (fs w) d = true).
  { rewrite sort_desc_Permutation. split.
    - by intros [_ ?]%list_elem_of_In%filter_In.
    - intros H. apply list_elem_of_In, filter_In. split; [by apply list_elem_of_In|done]. }
  assert (forall x, is_file (d ++ [x]) (fs w) = true
                    <-> exists content, assoc x es = Some (File content)) as Hfile.
  { intros x. unfold is_file. rewrite (lookup_child d x _ es Hd).
    destruct (assoc x es) as [[content|?]|]; split; try done; eauto; by intros [? ?]. }
  unfold is_leaf_dir, is_dir, iterdir. rewrite Hd. cbn [negb orb].
  set (items := (fun e : string * node => d ++ [e.1]) <$> es).
  assert (forall item, item ∈ items <-> exists x, x ∈ es.*1 /\ item = d ++ [x]) as Hitems.
  { intros item. unfold items. rewrite list_elem_of_fmap. split.
    - intros (e & -> & He). exists e.1. split; [|done]. apply list_elem_of_fmap. eauto.
    - intros (x & (e & -> & He)%list_elem_of_fmap & ->). eauto. }
  assert ((forall item, item ∈ items -> name item ∉ skip_dirs (cfg w) ->
             is_file item (fs w) = true /\ is_jpeg_suffix (lsuffix item) = true)
          <-> (forall x, x ∈ es.*1 -> x ∉ skip_dirs (cfg w) ->
                 (exists content, assoc x es = Some (File content))
                 /\ (lower (suffix x) = ".jpg" \/ lower (suffix x) = ".jpeg"))) as Hall.
  { split.
    - intros H x Hx Hs. destruct (H (d ++ [x])) as [H1 H2].
      + apply Hitems. eauto.
      + by rewrite name_snoc.
      + split; [by apply Hfile|]. unfold lsuffix in H2. rewrite name_snoc in H2.
        by apply is_jpeg_suffix_spec.
    - intros H item (x & Hx & ->)%Hitems Hs. rewrite name_snoc in Hs.
      destruct (H x Hx Hs) as [H1 H2]. split; [by apply Hfile|].
      unfold lsuffix. rewrite name_snoc. by apply is_jpeg_suffix_spec. }
  split.
  - intros Hleaf. destruct (bool_decide (name d ∈ skip_dirs (cfg w))) eqn:Hs; [done|].
    apply bool_decide_eq_false in Hs. split; [done|].
    destruct (existsb (is_work_dir (cfg w) (fs w)) items); [done|].
    destruct (only_jpg (cfg w) (fs w) items []) as [[|j js]|] eqn:Ho; try done.
    apply only_jpg_spec in Ho as [Ho El]. split; [by apply Hall|].
    assert (j ∈ List.filter (fun item => negb (bool_decide (name item ∈ skip_dirs (cfg w))))
                  items) as Hj.
    { cbn [app] in El. rewrite <- El. set_solver. }
    apply list_elem_of_In, filter_In in Hj as [Hj1 Hj2].
    apply list_elem_of_In, Hitems in Hj1 as (x & Hx & ->). exists x. split; [done|].
    rewrite name_snoc in Hj2. apply negb_true_iff in Hj2. by apply bool_decide_eq_false in Hj2.
  - intros (Hs & Hentries & (x & Hx & Hxs)).
    rewrite bool_decide_false by done.
    assert (existsb (is_work_dir (cfg w) (fs w)) items = false) as ->.
    { destruct (existsb (is_work_dir (cfg w) (fs w)) items) eqn:Hex; [|done]. exfalso.
      apply existsb_exists in Hex as (item & Hi & Hw).
      apply list_elem_of_In, Hitems in Hi as (y & Hy & ->).
      apply andb_true_iff in Hw as [Hw1 Hw2]. rewrite name_snoc in Hw2.
      apply negb_true_iff, bool_decide_eq_false in Hw2.
      destruct (Hentries y Hy Hw2) as [[content Hc] _].
      unfold is_dir in Hw1. by rewrite (lookup_child d y _ es Hd), Hc in Hw1. }
    destruct (only_jpg (cfg w) (fs w) items []) as [l|] eqn:Ho.
    + apply only_jpg_spec in Ho as [_ ->]. cbn [app].
      assert (d ++ [x] ∈ List.filter
                (fun item => negb (bool_decide (name item ∈ skip_dirs (cfg w)))) items) as Hj.
      { apply list_elem_of_In, filter_In. split.
        - apply list_elem_of_In, Hitems. eauto.
        - rewrite name_snoc. by rewrite bool_decide_false. }
      destruct (List.filter
                  (fun item => negb (bool_decide (name item ∈ skip_dirs (cfg w)))) items);
        [by apply elem_of_nil in Hj|done].
    + exfalso. assert (only_jpg (cfg w) (fs w) items [] <> None) as Hn; [|done].
      intros _.
      assert (is_Some (only_jpg (cfg w) (fs w) items [])) as [l Hl]; [|congruence].
      eexists. apply only_jpg_spec. split; [by apply Hall|reflexivity].
Qed.

Lemma step8_leaf_dirs_witness :
  ["A"; "B"] ∈ sort_desc (fun p : path => length p)
                 (List.filter (is_leaf_dir batch_config mixed_leaf) (rglob mixed_leaf))
  /\ ["A"] ∉ sort_desc (fun p : path => length p)
               (List.filter (is_leaf_dir batch_config numbered_tree) (rglob numbered_tree)).
Proof.
  assert (forall x : string,
            x ∈ ["0001.jpg"; "Cover.JPEG"; "0002.jpg"; "notes.txt"] ->
            x ∉ skip_dirs batch_config) as Hskip.
  { intros x Hx Hs. repeat (apply elem_of_cons in Hx as [->|Hx]);
      try (by apply elem_of_nil in Hx);
      vm_compute in Hs; repeat (apply elem_of_cons in Hs as [Hs|Hs]; [discriminate|]);
      by apply elem_of_nil in Hs. }
  split.
  - apply (step8_leaf_dirs ["A"; "B"]
             [("0001.jpg", File (Raw "one")); ("Cover.JPEG", File (Raw "cover"))]
             (initial_world mixed_leaf batch_config [] [])); [done|reflexivity|].
    split.
    { vm_compute. intros H. repeat (apply elem_of_cons in H as [H|H]; [discriminate|]).
      by apply elem_of_nil in H. }
    split.
    + intros x Hx Hs. cbn in Hx.
      apply elem_of_cons in Hx as [->|Hx]; [split; [eauto|left; reflexivity]|].
      apply list_elem_of_singleton in Hx as ->. split; [eauto|right; reflexivity].
    + exists "0001.jpg". split; [cbn; set_solver|]. apply Hskip. set_solver.
  - intros Hin.
    apply (step8_leaf_dirs ["A"] numbered_entries
             (initial_world numbered_tree batch_config [] [])) in Hin as (_ & Hall & _);
      [|done|reflexivity].
    destruct (Hall "notes.txt") as [_ [H|H]]; [cbn; set_solver|apply Hskip; set_solver| |];
      vm_compute in H; discriminate.
Defined.
